(** * ECommApp: a shallow embedding of the marketplace stores and wire protocol

    The repository holds the same marketplace twice:
    - the distributed variant: [src/backend/customer_db_server.py] (accounts,
      sessions, carts) and [src/backend/product_db_server.py] (catalogue and
      search), fronted by stateless gateways;
    - the consolidated variant: [src/server/state.py],
      [src/server/db/inmemory.py] and the handlers under
      [src/server/handlers/].
    Both speak the framed protocol of [src/common/protocol.py].

    Conventions of the embedding.
    - Python [int] is [Z]. A [float] that the code computes with or orders
      by (prices, totals) is an IEEE 754 binary64 number, [PyFloat.t], with
      its NaN, its infinities and its rounding; a clock reading, which is
      only stored, compared and subtracted at the scale of seconds, is the
      rational it denotes, [Q].
    - Python [str] is [string], restricted to ASCII: [len] is [String.length],
      [lower] maps [A-Z] to [a-z]; a property that depends on it says so.
    - A [dict] whose iteration order the code observes is an insertion-ordered
      association list ([PyDict]); a [dict] that is only looked up is a [gmap].
    - A raised [ValueError] is [Err msg]; the lock-protected bodies run without
      interleaving, so every operation is a function from state to result and
      state.
    - Values the code draws from the environment ([time.time()], [uuid4()])
      are arguments of the operation that draws them.
    - [bytes] is a list of bytes, and a stream is the list of bytes it will
      deliver; the values of the [json] module that are modelled are
      [None], booleans, integers, ASCII strings, lists and dictionaries with
      string keys (no floats). *)

From Stdlib Require Import ZArith QArith Qminmax String Ascii List Bool Lia Lqa
  Permutation Sorting.Sorted DecimalString DecimalZ DecimalPos.
From Stdlib Require Strings.Byte.
From Stdlib Require Floats.SpecFloat.
From stdpp Require Import base option list gmap strings.

#[local] Open Scope string_scope.
#[local] Open Scope Z_scope.
#[local] Open Scope list_scope.

(** ** Results: a returned value or a raised error *)

Inductive Result (A : Type) : Type :=
| Ok (a : A)
| Err (msg : string).
Arguments Ok {A} a.
Arguments Err {A} msg.

#[global] Instance Result_ret : MRet Result := fun A a => Ok a.
#[global] Instance Result_bind : MBind Result := fun A B k r =>
  match r with
  | Ok a => k a
  | Err m => Err m
  end.

Definition is_ok {A} (r : Result A) : bool :=
  match r with Ok _ => true | Err _ => false end.

(** ** Python floats

    The IEEE 754 binary64 numbers as [SpecFloat] specifies them: a 53-bit
    mantissa, exponents up to 1024, round to nearest with ties to even.
    Comparisons with a NaN are false; [x == y] holds of the two zeros. *)

Module PyFloat.

Definition t : Type := SpecFloat.spec_float.

Definition prec : Z := 53.
Definition emax : Z := 1024.

Definition zero : t := SpecFloat.S754_zero false.
Definition nan : t := SpecFloat.S754_nan.
Definition inf : t := SpecFloat.S754_infinity false.

Definition is_nan (x : t) : bool :=
  match x with SpecFloat.S754_nan => true | _ => false end.

(** [x < y] and [x == y] *)
Definition ltb (x y : t) : bool := SpecFloat.SFltb x y.
Definition eqb (x y : t) : bool := SpecFloat.SFeqb x y.

(** [x + y] and [x * y] *)
Definition add (x y : t) : t := SpecFloat.SFadd prec emax x y.
Definition mul (x y : t) : t := SpecFloat.SFmul prec emax x y.

(** The double nearest to an integer, an infinity past the largest double. *)
Definition nearest (n : Z) : t := SpecFloat.binary_normalize prec emax n 0 false.

(** [float(n)] for an [int], also the conversion of the [int] operand of
    [x * n]: it raises OverflowError where the nearest double is infinite. *)
Definition of_int (n : Z) : Result t :=
  match nearest n with
  | SpecFloat.S754_infinity _ => Err "int too large to convert to float"
  | x => Ok x
  end.

End PyFloat.

(** ** Operations that may raise after having changed the state

    A handler that raises half-way keeps the mutations it has made: the
    state is threaded through the error as well. *)

Definition M (S A : Type) : Type := S -> Result A * S.

#[global] Instance M_ret {S} : MRet (M S) := fun A a s => (Ok a, s).
#[global] Instance M_bind {S} : MBind (M S) := fun A B k m s =>
  match m s with
  | (Ok a, s') => k a s'
  | (Err e, s') => (Err e, s')
  end.

Definition raise {S A} (msg : string) : M S A := fun s => (Err msg, s).
Definition get_state {S} : M S S := fun s => (Ok s, s).
Definition put_state {S} (s' : S) : M S unit := fun _ => (Ok tt, s').
Definition modify {S} (f : S -> S) : M S unit := fun s => (Ok tt, f s).
(** Run a store-level operation that either raises or replaces the store. *)
Definition lift_result {S A} (f : S -> Result (A * S)) : M S A := fun s =>
  match f s with
  | Ok (a, s') => (Ok a, s')
  | Err e => (Err e, s)
  end.

(** ** Insertion-ordered dictionaries

    Python's [dict] keeps keys in insertion order: assigning to a present key
    replaces the value in place, assigning to a fresh key appends, [pop]
    removes the entry. *)

Module PyDict.
Section dict.
Context {K V : Type} `{EqDecision K}.

Definition t := list (K * V).

Fixpoint get (k : K) (d : list (K * V)) : option V :=
  match d with
  | [] => None
  | (k', v) :: d' => if decide (k = k') then Some v else get k d'
  end.

Definition get_default (k : K) (dflt : V) (d : list (K * V)) : V :=
  match get k d with Some v => v | None => dflt end.

Definition mem (k : K) (d : list (K * V)) : bool :=
  match get k d with Some _ => true | None => false end.

Fixpoint set (k : K) (v : V) (d : list (K * V)) : list (K * V) :=
  match d with
  | [] => [(k, v)]
  | (k', v') :: d' =>
      if decide (k = k') then (k', v) :: d' else (k', v') :: set k v d'
  end.

Fixpoint pop (k : K) (d : list (K * V)) : list (K * V) :=
  match d with
  | [] => []
  | (k', v') :: d' =>
      if decide (k = k') then d' else (k', v') :: pop k d'
  end.

Definition keys (d : list (K * V)) : list K := map fst d.
Definition values (d : list (K * V)) : list V := map snd d.

Lemma get_set_eq k v d : get k (set k v d) = Some v.
Proof.
  induction d as [|[k' v'] d IH]; simpl.
  - destruct (decide (k = k)); congruence.
  - destruct (decide (k = k')) as [->|Hne]; simpl.
    + destruct (decide (k' = k')); congruence.
    + destruct (decide (k = k')); congruence.
Qed.

Lemma get_set_ne k k' v d : k <> k' -> get k' (set k v d) = get k' d.
Proof.
  intros Hne. induction d as [|[k0 v0] d IH]; simpl.
  - destruct (decide (k' = k)); congruence.
  - destruct (decide (k = k0)) as [->|Hk]; simpl.
    + destruct (decide (k' = k0)); congruence.
    + destruct (decide (k' = k0)); congruence.
Qed.

Lemma get_Some_elem k v d : get k d = Some v -> (k, v) ∈ d.
Proof.
  induction d as [|[k' v'] d IH]; simpl; [discriminate|].
  destruct (decide (k = k')) as [->|Hne].
  - intros [= ->]. left.
  - intros H. right. auto.
Qed.

Lemma get_None_keys k d : get k d = None <-> k ∉ keys d.
Proof.
  induction d as [|[k' v'] d IH]; simpl.
  - split; [intros _; apply not_elem_of_nil | reflexivity].
  - rewrite not_elem_of_cons. destruct (decide (k = k')) as [->|Hne].
    + split; [discriminate | tauto].
    + rewrite IH. tauto.
Qed.

Lemma elem_get k v d : NoDup (keys d) -> (k, v) ∈ d -> get k d = Some v.
Proof.
  induction d as [|[k' v'] d IH]; simpl.
  - intros _ H. now apply elem_of_nil in H.
  - rewrite NoDup_cons, elem_of_cons. intros [Hnotin Hnd] [Heq|Hin].
    + inversion Heq; subst. destruct (decide (k' = k')); congruence.
    + destruct (decide (k = k')) as [->|Hne]; [|auto].
      exfalso. apply Hnotin. apply (list_elem_of_fmap_2 fst) in Hin. exact Hin.
Qed.

Lemma keys_set_present k v d : k ∈ keys d -> keys (set k v d) = keys d.
Proof.
  induction d as [|[k' v'] d IH]; simpl.
  - intros H. now apply elem_of_nil in H.
  - rewrite elem_of_cons.
    intros Hin. destruct (decide (k = k')) as [->|Hne]; simpl; [reflexivity|].
    f_equal. apply IH. destruct Hin; [congruence|assumption].
Qed.

Lemma keys_set_fresh k v d : k ∉ keys d -> keys (set k v d) = keys d ++ [k].
Proof.
  induction d as [|[k' v'] d IH]; simpl; [reflexivity|].
  rewrite not_elem_of_cons. intros [Hne Hin].
  destruct (decide (k = k')); [congruence|]. simpl. f_equal. now apply IH.
Qed.

Lemma get_pop_eq k d : NoDup (keys d) -> get k (pop k d) = None.
Proof.
  induction d as [|[k' v'] d IH]; simpl; [reflexivity|].
  rewrite NoDup_cons. intros [Hnotin Hnd].
  destruct (decide (k = k')) as [->|Hne]; simpl.
  - now apply get_None_keys.
  - destruct (decide (k = k')); [congruence|auto].
Qed.

Lemma get_pop_ne k k' d : k <> k' -> get k' (pop k d) = get k' d.
Proof.
  intros Hne. induction d as [|[k0 v0] d IH]; simpl; [reflexivity|].
  destruct (decide (k = k0)) as [->|Hk]; simpl.
  - destruct (decide (k' = k0)); congruence.
  - destruct (decide (k' = k0)); congruence.
Qed.

Lemma elem_set k v d e : e ∈ set k v d -> e = (k, v) \/ e ∈ d.
Proof.
  induction d as [|[k' v'] d IH]; simpl.
  - rewrite elem_of_cons. intros [->|H]; [now left | now right].
  - destruct (decide (k = k')) as [->|Hne]; rewrite !elem_of_cons.
    + intros [->|H]; [now left | right; now right].
    + intros [->|H]; [right; now left|].
      destruct (IH H) as [->|H']; [now left | right; now right].
Qed.

Lemma elem_pop k d e : e ∈ pop k d -> e ∈ d.
Proof.
  induction d as [|[k' v'] d IH]; simpl; [trivial|].
  destruct (decide (k = k')) as [->|Hne]; rewrite ?elem_of_cons.
  - intros H. now right.
  - intros [->|H]; [now left | right; auto].
Qed.

Lemma NoDup_keys_set k v d : NoDup (keys d) -> NoDup (keys (set k v d)).
Proof.
  intros Hnd. destruct (decide (k ∈ keys d)) as [Hin|Hout].
  - now rewrite keys_set_present.
  - rewrite keys_set_fresh by assumption. apply NoDup_app.
    split; [assumption|]. split; [|apply NoDup_singleton].
    intros x Hx Hx'. apply list_elem_of_singleton in Hx'. congruence.
Qed.

Lemma NoDup_keys_pop k d : NoDup (keys d) -> NoDup (keys (pop k d)).
Proof.
  induction d as [|[k' v'] d IH]; simpl; [trivial|].
  rewrite NoDup_cons. intros [Hnotin Hnd].
  destruct (decide (k = k')); simpl; [assumption|].
  rewrite NoDup_cons. split; [|auto].
  intros Hin. apply Hnotin. unfold keys in *.
  apply list_elem_of_fmap in Hin as [e [-> He]].
  apply list_elem_of_fmap. exists e. split; [reflexivity|].
  now apply elem_pop in He.
Qed.

End dict.
End PyDict.

(** ** Python strings (ASCII) *)

Module PyStr.

Definition code (c : ascii) : N := N_of_ascii c.

Definition in_range (lo hi : N) (c : ascii) : bool :=
  ((lo <=? code c) && (code c <=? hi))%N.

Definition is_upper : ascii -> bool := in_range 65 90.
Definition is_lower : ascii -> bool := in_range 97 122.
Definition is_digit : ascii -> bool := in_range 48 57.

(** [str.isspace] on ASCII: TAB..CR, FS..US and the blank. *)
Definition is_space (c : ascii) : bool :=
  in_range 9 13 c || in_range 28 32 c.

Definition lower_char (c : ascii) : ascii :=
  if is_upper c then ascii_of_N (code c + 32) else c.

Fixpoint lower (s : string) : string :=
  match s with
  | EmptyString => EmptyString
  | String c s' => String (lower_char c) (lower s')
  end.

Fixpoint all_chars (p : ascii -> bool) (s : string) : bool :=
  match s with
  | EmptyString => true
  | String c s' => p c && all_chars p s'
  end.

(** [s.isascii()] *)
Definition isascii (s : string) : bool :=
  all_chars (fun c => (code c <? 128)%N) s.

(** [s.strip() == ""] *)
Definition strip_is_empty (s : string) : bool := all_chars is_space s.

(** [s.isdigit()] *)
Definition isdigit (s : string) : bool :=
  match s with
  | EmptyString => false
  | _ => all_chars is_digit s
  end.

Definition len (s : string) : Z := Z.of_nat (String.length s).

Definition is_empty (s : string) : bool :=
  match s with EmptyString => true | _ => false end.

(** [s.split(sep)] for a one-character separator class [p]: the pieces
    between consecutive separators, empty pieces included. *)
Fixpoint split_on (p : ascii -> bool) (s : string) : list string :=
  match s with
  | EmptyString => [EmptyString]
  | String c s' =>
      if p c then EmptyString :: split_on p s'
      else match split_on p s' with
           | [] => [String c EmptyString]
           | w :: ws => String c w :: ws
           end
  end.

(** [str.strip()] *)
Fixpoint lstrip (s : string) : string :=
  match s with
  | String c s' => if is_space c then lstrip s' else s
  | EmptyString => EmptyString
  end.

Fixpoint rstrip (s : string) : string :=
  match s with
  | String c s' =>
      let r := rstrip s' in
      if is_empty r && is_space c then EmptyString
      else String c r
  | EmptyString => EmptyString
  end.

Definition strip (s : string) : string := rstrip (lstrip s).

(** [f"{z}"] and [int(s)] on the decimal form [f"{z}"] produces. *)
Definition of_int (z : Z) : string := NilZero.string_of_int (Z.to_int z).
Definition to_int (s : string) : option Z :=
  option_map Z.of_int (NilZero.int_of_string s).

Definition eqb (a b : string) : bool := bool_decide (a = b).

(** [x in xs] for a collection of strings *)
Definition elem (x : string) (xs : list string) : bool :=
  existsb (eqb x) xs.

End PyStr.

(** ** Comparison of sort keys

    Python compares tuples lexicographically; [sorted] is stable. *)

Class CmpOrder {A : Type} (cmp : A -> A -> comparison) : Prop := {
  cmp_antisym : forall x y, cmp y x = CompOpp (cmp x y);
  cmp_trans : forall c x y z, cmp x y = c -> cmp y z = c -> cmp x z = c;
  cmp_eq_l : forall x y z, cmp x y = Eq -> cmp x z = cmp y z
}.

Definition lex (c1 c2 : comparison) : comparison :=
  match c1 with Eq => c2 | _ => c1 end.

Definition cmp_pair {A B} (ca : A -> A -> comparison) (cb : B -> B -> comparison)
    (x y : A * B) : comparison :=
  lex (ca (fst x) (fst y)) (cb (snd x) (snd y)).

Definition cmp_le {A} (cmp : A -> A -> comparison) (x y : A) : bool :=
  match cmp x y with Gt => false | _ => true end.

Section cmp_facts.
Context {A : Type} (cmp : A -> A -> comparison) `{!CmpOrder cmp}.

Lemma cmp_eq_r x y z : cmp x y = Eq -> cmp z x = cmp z y.
Proof.
  intros H. rewrite (cmp_antisym x z), (cmp_antisym y z).
  f_equal. now apply cmp_eq_l.
Qed.

Lemma cmp_le_total x y : cmp_le cmp x y = true \/ cmp_le cmp y x = true.
Proof.
  unfold cmp_le. rewrite (cmp_antisym x y).
  destruct (cmp x y); simpl; auto.
Qed.

Lemma cmp_le_trans x y z :
  cmp_le cmp x y = true -> cmp_le cmp y z = true -> cmp_le cmp x z = true.
Proof.
  unfold cmp_le. destruct (cmp x y) eqn:Hxy; [| |discriminate]; intros _.
  - now rewrite (cmp_eq_l x y z Hxy).
  - destruct (cmp y z) eqn:Hyz; [| |discriminate]; intros _.
    + rewrite <- (cmp_eq_r y z x Hyz). now rewrite Hxy.
    + now rewrite (cmp_trans Lt x y z Hxy Hyz).
Qed.
End cmp_facts.

#[global] Instance Z_CmpOrder : CmpOrder Z.compare.
Proof.
  split.
  - intros x y. apply Z.compare_antisym.
  - intros c x y z. destruct c; rewrite ?Z.compare_eq_iff, ?Z.compare_lt_iff,
      ?Z.compare_gt_iff; lia.
  - intros x y z ->%Z.compare_eq_iff. reflexivity.
Qed.

#[global] Instance Q_CmpOrder : CmpOrder Qcompare.
Proof.
  split.
  - intros x y. symmetry. apply Qcompare_antisym.
  - intros c x y z. destruct c; rewrite <- ?Qeq_alt, <- ?Qlt_alt, <- ?Qgt_alt.
    + apply Qeq_trans.
    + apply Qlt_trans.
    + intros H1 H2. now apply Qlt_trans with y.
  - intros x y z H. apply Qeq_alt in H. now rewrite H.
Qed.

#[global] Instance pair_CmpOrder {A B} (ca : A -> A -> comparison)
  (cb : B -> B -> comparison) `{!CmpOrder ca, !CmpOrder cb} :
  CmpOrder (cmp_pair ca cb).
Proof.
  split.
  - intros [a b] [a' b']. unfold cmp_pair; simpl.
    rewrite (cmp_antisym (cmp:=ca) a a'), (cmp_antisym (cmp:=cb) b b').
    now destruct (ca a a').
  - intros c [a1 b1] [a2 b2] [a3 b3]. unfold cmp_pair, lex; simpl.
    destruct (ca a1 a2) eqn:H12.
    + rewrite (cmp_eq_l _ _ a3 H12). destruct (ca a2 a3); try congruence.
      apply cmp_trans.
    + destruct (ca a2 a3) eqn:H23; intros Hc1 Hc2; try congruence.
      * now rewrite <- (cmp_eq_r ca _ _ a1 H23), H12.
      * now rewrite (cmp_trans Lt _ _ _ H12 H23).
    + destruct (ca a2 a3) eqn:H23; intros Hc1 Hc2; try congruence.
      * now rewrite <- (cmp_eq_r ca _ _ a1 H23), H12.
      * now rewrite (cmp_trans Gt _ _ _ H12 H23).
  - intros [a1 b1] [a2 b2] [a3 b3]. unfold cmp_pair, lex; simpl.
    destruct (ca a1 a2) eqn:H12; try discriminate. intros Hb.
    rewrite (cmp_eq_l _ _ a3 H12). destruct (ca a2 a3); auto.
    now apply cmp_eq_l.
Qed.

(** Keys that hold a float. Python orders tuples by [==] and [<] of their
    components: the first components that are not [==] decide, by their [<].
    With a NaN among them neither [a < b] nor [b < a] need hold of two
    different keys. *)
Record PyOrd (A : Type) : Type := mk_ord {
  py_eq : A -> A -> bool;
  py_lt : A -> A -> bool
}.
Arguments mk_ord {A} py_eq py_lt.
Arguments py_eq {A} _ _ _.
Arguments py_lt {A} _ _ _.

Definition ord_Z : PyOrd Z := mk_ord Z.eqb Z.ltb.
Definition ord_float : PyOrd PyFloat.t := mk_ord PyFloat.eqb PyFloat.ltb.

Definition ord_pair {A B} (oa : PyOrd A) (ob : PyOrd B) : PyOrd (A * B) :=
  mk_ord
    (fun x y => py_eq oa (fst x) (fst y) && py_eq ob (snd x) (snd y))
    (fun x y =>
       if py_eq oa (fst x) (fst y) then py_lt ob (snd x) (snd y)
       else py_lt oa (fst x) (fst y)).

(** What a sort learns of two keys, which it compares by [<] alone. *)
Definition py_cmp {A} (o : PyOrd A) (x y : A) : comparison :=
  if py_lt o x y then Lt else if py_lt o y x then Gt else Eq.

(** [sorted(l, key=key)]: a stable sort, here by insertion from the right;
    an element goes in front of the first element that is not less than it.
    Every stable sort returns this list when [<] orders the keys; when it
    does not (a NaN among them) the list Python returns depends on the runs
    its merge sort finds, and the properties below leave that case out. *)
Section sorted.
Context {A K : Type} (cmp : K -> K -> comparison) (key : A -> K).

Fixpoint insert_by (x : A) (l : list A) : list A :=
  match l with
  | [] => [x]
  | y :: l' =>
      if cmp_le cmp (key x) (key y) then x :: y :: l'
      else y :: insert_by x l'
  end.

Definition sorted (l : list A) : list A := foldr insert_by [] l.

Definition key_le (a b : A) : Prop := cmp_le cmp (key a) (key b) = true.

Lemma insert_by_Permutation x l : insert_by x l ≡ₚ x :: l.
Proof.
  induction l as [|y l IH]; simpl; [reflexivity|].
  destruct (cmp_le cmp (key x) (key y)); [reflexivity|].
  rewrite IH. apply perm_swap.
Qed.

Lemma sorted_Permutation l : sorted l ≡ₚ l.
Proof.
  induction l as [|x l IH]; simpl; [reflexivity|].
  rewrite insert_by_Permutation. now rewrite IH.
Qed.

Context `{!CmpOrder cmp}.

Lemma insert_by_StronglySorted x l :
  StronglySorted key_le l -> StronglySorted key_le (insert_by x l).
Proof.
  induction 1 as [|y l Hs IH Hall]; simpl.
  - repeat constructor.
  - destruct (cmp_le cmp (key x) (key y)) eqn:Hxy.
    + constructor; [now constructor|]. constructor; [exact Hxy|].
      eapply Forall_impl; [exact Hall|]. intros z Hz.
      unfold key_le in *. eapply cmp_le_trans; eauto.
    + constructor; [assumption|].
      rewrite insert_by_Permutation. constructor; [|assumption].
      unfold key_le. destruct (cmp_le_total cmp (key y) (key x)); congruence.
Qed.

Lemma sorted_StronglySorted l : StronglySorted key_le (sorted l).
Proof.
  induction l as [|x l IH]; simpl; [constructor|].
  now apply insert_by_StronglySorted.
Qed.
End sorted.

(** ** [src/common/models.py] *)

Module ItemId.
Record t : Type := mk { category : Z; number : Z }.

#[global] Instance t_eq_dec : EqDecision t.
Proof. solve_decision. Defined.

(** [key]: the string [f"{category}:{number}"] *)
Definition key (i : t) : string :=
  (PyStr.of_int (category i) +:+ ":" +:+ PyStr.of_int (number i))%string.

(** [from_any] on a string: split at [":"], exactly two parts, each an
    [int]. The other accepted forms (an [ItemId], a dict, a pair) carry
    the two integers already and are the typed [t] itself. *)
Definition from_any (v : string) : Result t :=
  match PyStr.split_on (fun c => bool_decide (c = ":"%char)) v with
  | [p0; p1] =>
      match PyStr.to_int p0, PyStr.to_int p1 with
      | Some c, Some n => Ok (mk c n)
      | _, _ => Err "invalid literal for int()"
      end
  | _ => Err "invalid item_id string; expected 'category:number'"
  end.
End ItemId.

Module Feedback.
Record t : Type := mk { thumbs_up : Z; thumbs_down : Z }.
Definition score (f : t) : Z := thumbs_up f - thumbs_down f.
End Feedback.

Inductive ItemCondition : Type := cond_new | cond_used.

(** [str(condition).strip().lower()] must be ["new"] or ["used"]. *)
Definition parse_condition (raw : string) : option ItemCondition :=
  let cond := PyStr.lower (PyStr.strip raw) in
  if PyStr.eqb cond "new" then Some cond_new
  else if PyStr.eqb cond "used" then Some cond_used
  else None.


Module Item.
Record t : Type := mk {
  item_id : ItemId.t;
  seller_id : Z;
  name : string;
  category : Z;
  keywords : list string;
  condition : ItemCondition;
  sale_price : PyFloat.t;
  quantity : Z;
  feedback : Feedback.t;
  created_at : Q
}.

Definition with_quantity (q : Z) (it : t) : t :=
  mk (item_id it) (seller_id it) (name it) (category it) (keywords it)
     (condition it) (sale_price it) q (feedback it) (created_at it).

Definition with_sale_price (p : PyFloat.t) (it : t) : t :=
  mk (item_id it) (seller_id it) (name it) (category it) (keywords it)
     (condition it) p (quantity it) (feedback it) (created_at it).

Definition with_feedback (f : Feedback.t) (it : t) : t :=
  mk (item_id it) (seller_id it) (name it) (category it) (keywords it)
     (condition it) (sale_price it) (quantity it) f (created_at it).
End Item.

Module Seller.
Record t : Type := mk {
  seller_id : Z;
  name : string;
  feedback : Feedback.t;
  items_sold : Z;
  password_hash : string;
  created_at : Q
}.

Definition with_items_sold (n : Z) (s : t) : t :=
  mk (seller_id s) (name s) (feedback s) n (password_hash s) (created_at s).
End Seller.

Module Buyer.
Record t : Type := mk {
  buyer_id : Z;
  name : string;
  items_purchased : Z;
  password_hash : string;
  created_at : Q
}.

Definition with_items_purchased (n : Z) (b : t) : t :=
  mk (buyer_id b) (name b) n (password_hash b) (created_at b).
End Buyer.

Module TransactionLine.
Record t : Type := mk {
  item_id : ItemId.t;
  seller_id : Z;
  qty : Z;
  price_each : PyFloat.t
}.
End TransactionLine.

Module Transaction.
Record t : Type := mk {
  txn_id : string;
  buyer_id : Z;
  items : list TransactionLine.t;
  total : PyFloat.t;
  created_at : Q
}.
End Transaction.

(** The ranking keys of the two search implementations. *)

Definition ord_ZFZZ : PyOrd (Z * PyFloat.t * Z * Z) :=
  ord_pair (ord_pair (ord_pair ord_Z ord_float) ord_Z) ord_Z.

Definition ord_ZZFZZ : PyOrd (Z * Z * PyFloat.t * Z * Z) :=
  ord_pair (ord_pair (ord_pair (ord_pair ord_Z ord_Z) ord_float) ord_Z) ord_Z.

Definition cmp_ZFZZ : (Z * PyFloat.t * Z * Z) -> (Z * PyFloat.t * Z * Z) -> comparison :=
  py_cmp ord_ZFZZ.

Definition cmp_ZZFZZ
  : (Z * Z * PyFloat.t * Z * Z) -> (Z * Z * PyFloat.t * Z * Z) -> comparison :=
  py_cmp ord_ZZFZZ.

Definition cmp_ZZQ : (Z * Z * Q) -> (Z * Z * Q) -> comparison :=
  cmp_pair (cmp_pair Z.compare Z.compare) Qcompare.

(** ** [src/backend/product_db_server.py] *)

Module ProductDB.

Record t : Type := mk {
  _next_in_category : gmap Z Z;
  items : list (string * Item.t)
}.

Definition init : t := mk ∅ [].

Definition _new_item_id (category : Z) (db : t) : ItemId.t * t :=
  let n := default 1 (_next_in_category db !! category) in
  (ItemId.mk category n,
   mk (<[category := n + 1]> (_next_in_category db)) (items db)).

Fixpoint clean_keywords (kws : list string) : Result (list string) :=
  match kws with
  | [] => Ok []
  | s :: rest =>
      if (PyStr.len s =? 0) || (PyStr.len s >? 8)
      then Err "each keyword must be 1..8 characters"
      else cleaned ← clean_keywords rest; Ok (s :: cleaned)
  end.

(** The attributes of a registration request, already of their Python
    types. *)
Record attrs : Type := mk_attrs {
  item_name : string;
  item_category : Z;
  a_condition : string;
  a_sale_price : PyFloat.t;
  item_quantity : Z;
  a_keywords : list string
}.

(** The price test, [price_f < 0], fails for a NaN as it does for a price
    that is zero or more: a NaN is accepted. *)
Definition _validate_item_fields (a : attrs)
  : Result (string * Z * ItemCondition * PyFloat.t * Z * list string) :=
  let name := item_name a in
  if (PyStr.len name =? 0) || (PyStr.len name >? 32)
  then Err "item_name must be 1..32 characters" else
  match parse_condition (a_condition a) with
  | None => Err "condition must be 'new' or 'used'"
  | Some cond =>
      if PyFloat.ltb (a_sale_price a) PyFloat.zero
      then Err "sale_price must be >= 0" else
      if item_quantity a <? 0 then Err "item_quantity must be >= 0" else
      if Z.of_nat (length (a_keywords a)) >? 5
      then Err "keywords must have at most 5 entries" else
      cleaned ← clean_keywords (a_keywords a);
      Ok (name, item_category a, cond, a_sale_price a, item_quantity a, cleaned)
  end.

Definition _tokenize_name (name : string) : list string :=
  filter (fun t => negb (PyStr.is_empty t))
    (PyStr.split_on
       (fun c => negb (PyStr.is_lower c || PyStr.is_digit c))
       (PyStr.lower name)).

Definition register_item (now : Q) (seller_id : Z) (a : attrs) (db : t)
  : Result (ItemId.t * t) :=
  '(name, category, cond, price_f, qty_i, kws) ← _validate_item_fields a;
  let '(iid, db1) := _new_item_id category db in
  let item :=
    Item.mk iid seller_id name category kws cond price_f qty_i
      (Feedback.mk 0 0) now in
  Ok (iid, mk (_next_in_category db1)
              (PyDict.set (ItemId.key iid) item (items db1))).

Definition change_item_price (seller_id : Z) (iid : ItemId.t)
    (new_price : PyFloat.t) (db : t) : Result t :=
  if PyFloat.ltb new_price PyFloat.zero then Err "new_price must be >= 0" else
  match PyDict.get (ItemId.key iid) (items db) with
  | None => Err "unknown item_id"
  | Some item =>
      if negb (Item.seller_id item =? seller_id)
      then Err "item does not belong to this seller" else
      Ok (mk (_next_in_category db)
             (PyDict.set (ItemId.key iid)
                (Item.with_sale_price new_price item) (items db)))
  end.

Definition update_units_remove (seller_id : Z) (iid : ItemId.t)
    (qty_remove : Z) (db : t) : Result (Z * t) :=
  if qty_remove <=? 0 then Err "quantity to remove must be positive" else
  match PyDict.get (ItemId.key iid) (items db) with
  | None => Err "unknown item_id"
  | Some item =>
      if negb (Item.seller_id item =? seller_id)
      then Err "item does not belong to this seller" else
      if qty_remove >? Item.quantity item
      then Err "cannot remove more than available" else
      let q := Item.quantity item - qty_remove in
      Ok (q, mk (_next_in_category db)
                (PyDict.set (ItemId.key iid)
                   (Item.with_quantity q item) (items db)))
  end.

Inductive vote : Type := vote_up | vote_down.

Definition provide_feedback (iid : ItemId.t) (v : vote) (db : t) : Result t :=
  match PyDict.get (ItemId.key iid) (items db) with
  | None => Err "unknown item_id"
  | Some item =>
      let f := Item.feedback item in
      let f' :=
        match v with
        | vote_up => Feedback.mk (Feedback.thumbs_up f + 1) (Feedback.thumbs_down f)
        | vote_down => Feedback.mk (Feedback.thumbs_up f) (Feedback.thumbs_down f + 1)
        end in
      Ok (mk (_next_in_category db)
             (PyDict.set (ItemId.key iid) (Item.with_feedback f' item)
                (items db)))
  end.

(** [q]: the query keywords, lower-cased, blank ones dropped. *)
Definition normalize_query (keywords : list string) : list string :=
  map PyStr.lower
    (filter (fun k => negb (PyStr.strip_is_empty k)) keywords).

Definition candidates (category : Z) (db : t) : list Item.t :=
  filter (fun it => (Item.category it =? category) && (Item.quantity it >? 0))
    (PyDict.values (items db)).

Definition key (it : Item.t) : Z * PyFloat.t * Z * Z :=
  (- Feedback.score (Item.feedback it), Item.sale_price it,
   ItemId.category (Item.item_id it), ItemId.number (Item.item_id it)).

Definition match_score (q : list string) (it : Item.t) : Z :=
  let kwset := map PyStr.lower (Item.keywords it) in
  let nameset := _tokenize_name (Item.name it) in
  Z.of_nat
    (length (filter (fun k => PyStr.elem k kwset || PyStr.elem k nameset) q)).

Definition sort_key (pair : Z * Item.t) : Z * Z * PyFloat.t * Z * Z :=
  let '(s, it) := pair in
  (- s, - Feedback.score (Item.feedback it), Item.sale_price it,
   ItemId.category (Item.item_id it), ItemId.number (Item.item_id it)).

Definition scored (q : list string) (cands : list Item.t) : list (Z * Item.t) :=
  filter (fun p => fst p >? 0) (map (fun it => (match_score q it, it)) cands).

Definition search (category : Z) (keywords : list string) (db : t)
  : Result (list Item.t) :=
  let q := normalize_query keywords in
  if Z.of_nat (length q) >? 5 then Err "keywords must have at most 5 entries" else
  if existsb (fun k => PyStr.len k >? 8) q
  then Err "each keyword must be <= 8 characters" else
  let cands := candidates category db in
  match q with
  | [] => Ok (sorted cmp_ZFZZ key cands)
  | _ => Ok (map snd (sorted cmp_ZZFZZ sort_key (scored q cands)))
  end.

(** [handle_client]: the mutating requests applied to the store. *)
Inductive request : Type :=
| register_item_req (now : Q) (seller_id : Z) (a : attrs)
| change_item_price_req (seller_id : Z) (item_id : ItemId.t)
    (new_price : PyFloat.t)
| update_units_remove_req (seller_id : Z) (item_id : ItemId.t) (qty : Z)
| provide_feedback_req (item_id : ItemId.t) (v : vote).

Definition step (db : t) (r : request) : t :=
  match r with
  | register_item_req now seller_id a =>
      match register_item now seller_id a db with
      | Ok (_, db') => db'
      | Err _ => db
      end
  | change_item_price_req seller_id item_id new_price =>
      match change_item_price seller_id item_id new_price db with
      | Ok db' => db'
      | Err _ => db
      end
  | update_units_remove_req seller_id item_id qty =>
      match update_units_remove seller_id item_id qty db with
      | Ok (_, db') => db'
      | Err _ => db
      end
  | provide_feedback_req item_id v =>
      match provide_feedback item_id v db with
      | Ok db' => db'
      | Err _ => db
      end
  end.

Definition run (rs : list request) (db : t) : t := fold_left step rs db.

(** The reading requests. *)
Definition list_items_for_seller (seller_id : Z) (db : t) : list Item.t :=
  filter (fun it => Item.seller_id it =? seller_id) (PyDict.values (items db)).

Definition get_item (iid : ItemId.t) (db : t) : Result Item.t :=
  match PyDict.get (ItemId.key iid) (items db) with
  | None => Err "unknown item_id"
  | Some item => Ok item
  end.

End ProductDB.

(** ** [src/server/db/inmemory.py] *)

Module InMemoryDB.

Record t : Type := mk {
  sellers_by_id : gmap Z Seller.t;
  sellers_by_name : gmap string (list Z);
  buyers_by_id : gmap Z Buyer.t;
  buyers_by_name : gmap string (list Z);
  next_seller_id : Z;
  next_buyer_id : Z;
  items_by_key : list (string * Item.t);
  items_by_seller : gmap Z (list string);
  next_item_number_by_category : gmap Z Z;
  transactions_by_id : gmap string Transaction.t;
  transactions_by_buyer : gmap Z (list string);
  saved_carts_by_buyer : gmap Z (list (string * Z))
}.

Definition init : t := mk ∅ ∅ ∅ ∅ 1 1 [] ∅ ∅ ∅ ∅ ∅.

Definition with_sellers (m : gmap Z Seller.t) (db : t) : t :=
  mk m (sellers_by_name db) (buyers_by_id db) (buyers_by_name db)
     (next_seller_id db) (next_buyer_id db) (items_by_key db)
     (items_by_seller db) (next_item_number_by_category db)
     (transactions_by_id db) (transactions_by_buyer db)
     (saved_carts_by_buyer db).

Definition with_buyers (m : gmap Z Buyer.t) (db : t) : t :=
  mk (sellers_by_id db) (sellers_by_name db) m (buyers_by_name db)
     (next_seller_id db) (next_buyer_id db) (items_by_key db)
     (items_by_seller db) (next_item_number_by_category db)
     (transactions_by_id db) (transactions_by_buyer db)
     (saved_carts_by_buyer db).

Definition with_items (l : list (string * Item.t)) (db : t) : t :=
  mk (sellers_by_id db) (sellers_by_name db) (buyers_by_id db)
     (buyers_by_name db) (next_seller_id db) (next_buyer_id db) l
     (items_by_seller db) (next_item_number_by_category db)
     (transactions_by_id db) (transactions_by_buyer db)
     (saved_carts_by_buyer db).

Definition with_saved_carts (m : gmap Z (list (string * Z))) (db : t) : t :=
  mk (sellers_by_id db) (sellers_by_name db) (buyers_by_id db)
     (buyers_by_name db) (next_seller_id db) (next_buyer_id db)
     (items_by_key db) (items_by_seller db)
     (next_item_number_by_category db) (transactions_by_id db)
     (transactions_by_buyer db) m.

Definition add_seller (now : Q) (name password_hash : string) (db : t)
  : Result (Seller.t * t) :=
  if PyStr.len name >? 32 then Err "seller_name must be <= 32 characters" else
  let sid := next_seller_id db in
  let s := Seller.mk sid name (Feedback.mk 0 0) 0 password_hash now in
  Ok (s, mk (<[sid := s]> (sellers_by_id db))
            (<[name := default [] (sellers_by_name db !! name) ++ [sid]]>
               (sellers_by_name db))
            (buyers_by_id db) (buyers_by_name db)
            (sid + 1) (next_buyer_id db) (items_by_key db)
            (items_by_seller db) (next_item_number_by_category db)
            (transactions_by_id db) (transactions_by_buyer db)
            (saved_carts_by_buyer db)).

Definition add_buyer (now : Q) (name password_hash : string) (db : t)
  : Result (Buyer.t * t) :=
  if PyStr.len name >? 32 then Err "buyer_name must be <= 32 characters" else
  let bid := next_buyer_id db in
  let b := Buyer.mk bid name 0 password_hash now in
  Ok (b, mk (sellers_by_id db) (sellers_by_name db)
            (<[bid := b]> (buyers_by_id db))
            (<[name := default [] (buyers_by_name db !! name) ++ [bid]]>
               (buyers_by_name db))
            (next_seller_id db) (bid + 1) (items_by_key db)
            (items_by_seller db) (next_item_number_by_category db)
            (transactions_by_id db) (transactions_by_buyer db)
            (saved_carts_by_buyer db)).

Definition get_seller (seller_id : Z) (db : t) : option Seller.t :=
  sellers_by_id db !! seller_id.

Definition get_buyer (buyer_id : Z) (db : t) : option Buyer.t :=
  buyers_by_id db !! buyer_id.

Definition find_sellers_by_name (name : string) (db : t) : list Seller.t :=
  omap (fun i => sellers_by_id db !! i) (default [] (sellers_by_name db !! name)).

Definition find_buyers_by_name (name : string) (db : t) : list Buyer.t :=
  omap (fun i => buyers_by_id db !! i) (default [] (buyers_by_name db !! name)).

Definition inc_seller_items_sold (seller_id delta : Z) (db : t) : Result t :=
  match sellers_by_id db !! seller_id with
  | None => Err "seller not found"
  | Some s =>
      Ok (with_sellers
            (<[seller_id := Seller.with_items_sold (Seller.items_sold s + delta) s]>
               (sellers_by_id db)) db)
  end.

Definition inc_buyer_items_purchased (buyer_id delta : Z) (db : t) : Result t :=
  match buyers_by_id db !! buyer_id with
  | None => Err "buyer not found"
  | Some b =>
      Ok (with_buyers
            (<[buyer_id := Buyer.with_items_purchased
                             (Buyer.items_purchased b + delta) b]>
               (buyers_by_id db)) db)
  end.

Definition allocate_item_id (category : Z) (db : t) : ItemId.t * t :=
  let n := default 1 (next_item_number_by_category db !! category) in
  (ItemId.mk category n,
   mk (sellers_by_id db) (sellers_by_name db) (buyers_by_id db)
      (buyers_by_name db) (next_seller_id db) (next_buyer_id db)
      (items_by_key db) (items_by_seller db)
      (<[category := n + 1]> (next_item_number_by_category db))
      (transactions_by_id db) (transactions_by_buyer db)
      (saved_carts_by_buyer db)).

Definition add_item (item : Item.t) (db : t) : Result t :=
  let k := ItemId.key (Item.item_id item) in
  if PyDict.mem k (items_by_key db) then Err "item_id already exists" else
  Ok (mk (sellers_by_id db) (sellers_by_name db) (buyers_by_id db)
         (buyers_by_name db) (next_seller_id db) (next_buyer_id db)
         (PyDict.set k item (items_by_key db))
         (<[Item.seller_id item :=
              default [] (items_by_seller db !! Item.seller_id item) ++ [k]]>
            (items_by_seller db))
         (next_item_number_by_category db) (transactions_by_id db)
         (transactions_by_buyer db) (saved_carts_by_buyer db)).

Definition list_items (db : t) : list Item.t := PyDict.values (items_by_key db).

Definition get_item (item_id : ItemId.t) (db : t) : option Item.t :=
  PyDict.get (ItemId.key item_id) (items_by_key db).

Definition update_item_quantity (item_id : ItemId.t) (new_qty : Z) (db : t)
  : Result t :=
  match PyDict.get (ItemId.key item_id) (items_by_key db) with
  | None => Err "item not found"
  | Some it =>
      Ok (with_items
            (PyDict.set (ItemId.key item_id) (Item.with_quantity new_qty it)
               (items_by_key db)) db)
  end.

Definition update_item_price (item_id : ItemId.t) (new_price : PyFloat.t)
    (db : t) : Result t :=
  match PyDict.get (ItemId.key item_id) (items_by_key db) with
  | None => Err "item not found"
  | Some it =>
      Ok (with_items
            (PyDict.set (ItemId.key item_id) (Item.with_sale_price new_price it)
               (items_by_key db)) db)
  end.

Definition add_item_feedback (item_id : ItemId.t) (up down : Z) (db : t)
  : Result t :=
  if (up <? 0) || (down <? 0) then Err "feedback deltas must be >= 0" else
  match PyDict.get (ItemId.key item_id) (items_by_key db) with
  | None => Err "item not found"
  | Some it =>
      let f := Item.feedback it in
      Ok (with_items
            (PyDict.set (ItemId.key item_id)
               (Item.with_feedback
                  (Feedback.mk (Feedback.thumbs_up f + up)
                               (Feedback.thumbs_down f + down)) it)
               (items_by_key db)) db)
  end.

Definition list_items_for_seller (seller_id : Z) (db : t) : list Item.t :=
  omap (fun k => PyDict.get k (items_by_key db))
       (default [] (items_by_seller db !! seller_id)).

Definition remove_units_for_sale (item_id : ItemId.t) (remove_qty : Z) (db : t)
  : Result (Z * t) :=
  let rq := remove_qty in
  if rq <? 0 then Err "remove_qty must be >= 0" else
  match PyDict.get (ItemId.key item_id) (items_by_key db) with
  | None => Err "item not found"
  | Some it =>
      if Item.quantity it <? rq then Err "insufficient units to remove" else
      let q := Item.quantity it - rq in
      Ok (q, with_items
               (PyDict.set (ItemId.key item_id) (Item.with_quantity q it)
                  (items_by_key db)) db)
  end.

(** [save_cart]: entries with a positive quantity, in the cart's order. *)
Fixpoint clean_cart (cart : list (string * Z)) (clean : list (string * Z))
  : list (string * Z) :=
  match cart with
  | [] => clean
  | (k, v) :: rest =>
      if v >? 0 then clean_cart rest (PyDict.set k v clean)
      else clean_cart rest clean
  end.

Definition save_cart (buyer_id : Z) (cart : list (string * Z)) (db : t) : t :=
  with_saved_carts (<[buyer_id := clean_cart cart []]> (saved_carts_by_buyer db)) db.

Definition load_saved_cart (buyer_id : Z) (db : t) : list (string * Z) :=
  default [] (saved_carts_by_buyer db !! buyer_id).

Definition clear_saved_cart (buyer_id : Z) (db : t) : t :=
  with_saved_carts (delete buyer_id (saved_carts_by_buyer db)) db.

Definition add_transaction (txn : Transaction.t) (db : t) : t :=
  mk (sellers_by_id db) (sellers_by_name db) (buyers_by_id db)
     (buyers_by_name db) (next_seller_id db) (next_buyer_id db)
     (items_by_key db) (items_by_seller db)
     (next_item_number_by_category db)
     (<[Transaction.txn_id txn := txn]> (transactions_by_id db))
     (<[Transaction.buyer_id txn :=
          default [] (transactions_by_buyer db !! Transaction.buyer_id txn)
          ++ [Transaction.txn_id txn]]> (transactions_by_buyer db))
     (saved_carts_by_buyer db).

Definition list_transactions_for_buyer (buyer_id : Z) (db : t)
  : list Transaction.t :=
  omap (fun i => transactions_by_id db !! i)
       (default [] (transactions_by_buyer db !! buyer_id)).

End InMemoryDB.

(** ** [src/server/state.py] and [src/server/handlers/]

    [hash_password] is SHA-256 from [hashlib]; the handlers only compare its
    results, so it is a parameter here. Every cart the handlers store is a
    fresh copy ([dict(...)]) or is reached through [state.carts] alone, hence
    carts are plain values. *)

Inductive Role : Type := buyer | seller.

#[global] Instance Role_eq_dec : EqDecision Role.
Proof. solve_decision. Defined.

Module Market.

Module Session.
Record t : Type := mk {
  principal_id : Z;
  role : Role;
  created_at : Q
}.
End Session.

Record MarketState : Type := mk {
  db : InMemoryDB.t;
  sessions : gmap string Session.t;
  carts : gmap Z (list (string * Z))
}.

Definition init : MarketState := mk InMemoryDB.init ∅ ∅.

Definition with_db (d : InMemoryDB.t) (st : MarketState) : MarketState :=
  mk d (sessions st) (carts st).
Definition with_sessions (s : gmap string Session.t) (st : MarketState)
  : MarketState := mk (db st) s (carts st).
Definition with_carts (c : gmap Z (list (string * Z))) (st : MarketState)
  : MarketState := mk (db st) (sessions st) c.

(** [state.carts.get(buyer_id, {})] *)
Definition cart_of (buyer_id : Z) (st : MarketState) : list (string * Z) :=
  default [] (carts st !! buyer_id).

Definition set_cart (buyer_id : Z) (c : list (string * Z)) (st : MarketState)
  : MarketState := with_carts (<[buyer_id := c]> (carts st)) st.

Definition create_session (now : Q) (token : string) (role : Role)
    (principal_id : Z) (st : MarketState) : MarketState :=
  with_sessions (<[token := Session.mk principal_id role now]> (sessions st)) st.

Definition get_session (token : string) (st : MarketState) : option Session.t :=
  if PyStr.is_empty token then None else sessions st !! token.

Definition delete_session (token : string) (st : MarketState) : MarketState :=
  with_sessions (delete token (sessions st)) st.

(** Store operations inside a handler. *)
Definition db_op {A} (f : InMemoryDB.t -> Result (A * InMemoryDB.t))
  : M MarketState A := fun st =>
  match f (db st) with
  | Ok (a, d) => (Ok a, with_db d st)
  | Err e => (Err e, st)
  end.

Definition db_upd (f : InMemoryDB.t -> Result InMemoryDB.t)
  : M MarketState unit :=
  db_op (fun d => match f d with Ok d' => Ok (tt, d') | Err e => Err e end).

Definition _require_session (r : Role) (token : string) (st : MarketState)
  : option (string * Z) :=
  match get_session token st with
  | Some sess =>
      if decide (Session.role sess = r)
      then Some (token, Session.principal_id sess) else None
  | None => None
  end.

Definition _score_item_keywords (item_keywords query_keywords : list string) : Z :=
  match query_keywords with
  | [] => 0
  | _ =>
      let item_set := map PyStr.lower item_keywords in
      Z.of_nat
        (length (filter (fun q => PyStr.elem (PyStr.lower q) item_set)
                   query_keywords))
  end.

(** [_parse_keywords] on a list: empty strings dropped, at most five
    entries of at most eight characters. *)
Definition _parse_keywords (v : list string) : Result (list string) :=
  let kws := filter (fun x => negb (PyStr.is_empty x)) v in
  if Z.of_nat (length kws) >? 5 then Err "keywords must have at most 5 entries" else
  if existsb (fun k => PyStr.len k >? 8) kws
  then Err "each keyword must be <= 8 characters" else Ok kws.

(** The search branch of the buyer handler, after the session check. The
    sort key is [(-match score, -thumbs_up, -created_at)]. *)
Definition search_candidates (category : Z) (items : list Item.t) : list Item.t :=
  filter (fun it => (Item.category it =? category) && (Item.quantity it >? 0))
    items.

Definition search_scored (keywords : list string) (cands : list Item.t)
  : list (Z * Item.t) :=
  filter
    (fun p => negb (negb (bool_decide (keywords = [])) && (fst p =? 0)))
    (map (fun it => (_score_item_keywords (Item.keywords it) keywords, it)) cands).

Definition search_sort_key (x : Z * Item.t) : Z * Z * Q :=
  (- fst x, - Feedback.thumbs_up (Item.feedback (snd x)),
   (- Item.created_at (snd x))%Q).

Definition search_items_for_sale (category : Z) (keywords : list string)
    (st : MarketState) : Result (list (Item.t * Z)) :=
  keywords ← _parse_keywords keywords;
  let cands := search_candidates category (InMemoryDB.list_items (db st)) in
  Ok (map (fun x => (snd x, fst x))
        (sorted cmp_ZZQ search_sort_key (search_scored keywords cands))).

(** *** [_do_purchase] *)

Fixpoint validate_lines (cart : list (string * Z)) (d : InMemoryDB.t)
  : Result unit :=
  match cart with
  | [] => Ok tt
  | (item_key, qty) :: rest =>
      item_id ← ItemId.from_any item_key;
      match InMemoryDB.get_item item_id d with
      | None => Err ("item not found: " +:+ item_key)
      | Some it =>
          if qty <=? 0 then Err "cart contains invalid quantity" else
          if Item.quantity it <? qty
          then Err ("insufficient inventory for " +:+ item_key)
          else validate_lines rest d
      end
  end.

(** The accumulators of the second loop: [total], [lines], [total_units]. *)
Definition acc : Type := PyFloat.t * list TransactionLine.t * Z.

(** [total += float(it.sale_price) * int(qty)]: the product converts the
    quantity to a float, which raises for a quantity past the largest
    double; the product and the sum are rounded. *)
Definition add_to_total (total price : PyFloat.t) (qty : Z) : Result PyFloat.t :=
  q ← PyFloat.of_int qty; Ok (PyFloat.add total (PyFloat.mul price q)).

Fixpoint apply_lines (cart : list (string * Z)) (a : acc)
  : M InMemoryDB.t acc :=
  match cart with
  | [] => mret a
  | (item_key, qty) :: rest =>
      let '(total, lines, total_units) := a in
      item_id ← lift_result (fun d =>
                   r ← ItemId.from_any item_key; Ok (r, d));
      d ← get_state;
      match InMemoryDB.get_item item_id d with
      | None => raise "AssertionError"
      | Some it =>
          total' ← lift_result (fun d =>
                      r ← add_to_total total (Item.sale_price it) qty; Ok (r, d));
          let a' :=
            (total',
             lines ++ [TransactionLine.mk item_id (Item.seller_id it) qty
                         (Item.sale_price it)],
             total_units + qty) in
          _ ← lift_result (fun d =>
                 d' ← InMemoryDB.update_item_quantity item_id
                        (Item.quantity it - qty) d; Ok (tt, d'));
          _ ← lift_result (fun d =>
                 d' ← InMemoryDB.inc_seller_items_sold (Item.seller_id it) qty d;
                 Ok (tt, d'));
          apply_lines rest a'
      end
  end.

Definition on_db {A} (m : M InMemoryDB.t A) : M MarketState A := fun st =>
  let '(r, d) := m (db st) in (r, with_db d st).

Definition _do_purchase (now : Q) (txn_id : string) (buyer_id : Z)
  : M MarketState Transaction.t :=
  st ← get_state;
  match InMemoryDB.get_buyer buyer_id (db st) with
  | None => raise "buyer not found"
  | Some _ =>
      let cart := cart_of buyer_id st in
      _ ← modify (set_cart buyer_id []);
      match cart with
      | [] => raise "cart is empty"
      | _ =>
          _ ← on_db (lift_result (fun d =>
                 _ ← validate_lines cart d; Ok (tt, d)));
          '(total, lines, total_units) ←
            on_db (apply_lines cart (PyFloat.zero, [], 0));
          _ ← on_db (lift_result (fun d =>
                 d' ← InMemoryDB.inc_buyer_items_purchased buyer_id total_units d;
                 Ok (tt, d')));
          let txn := Transaction.mk txn_id buyer_id lines total now in
          _ ← on_db (modify (InMemoryDB.add_transaction txn));
          mret txn
      end
  end.


(** *** [src/server/handlers/buyer.py] and [seller.py]

    A request is the action with its fields already of their Python types;
    [now] and [uuid] are the clock reading and the random hex string the
    handler would draw. A reply [Err msg] is the [err(req_id, msg)] response,
    returned or produced by the handler's [except] clauses. Actions that only
    read (get_item, ratings, purchase history, seller listings) are left
    out. *)

Section handlers.
Variable hash_password : string -> string.

Inductive buyer_action : Type :=
| CreateAccount (name password : string)
| Login (buyer_id : option Z) (name password : string)
| Logout (session_token : string)
| SearchItemsForSale (session_token : string) (category : Z) (keywords : list string)
| AddItemToCart (session_token : string) (item_id : ItemId.t) (qty : Z)
| RemoveItemFromCart (session_token : string) (item_id : ItemId.t) (qty : Z)
| SaveCart (session_token : string)
| ClearCart (session_token : string)
| DisplayCart (session_token : string)
| MakePurchase (session_token : string)
| ProvideFeedback (session_token : string) (item_id : ItemId.t) (up down : Z).

Inductive reply : Type :=
| R_account (id : Z) (name : string)
| R_login (id : Z) (name session_token : string)
| R_logged_out
| R_items (items : list (Item.t * Z))
| R_cart (cart : list (string * Z))
| R_saved (cart : list (string * Z))
| R_cleared
| R_display (cart : list (ItemId.t * Z))
| R_transaction (txn : Transaction.t)
| R_feedback (f : Feedback.t)
| R_item_id (item_id : ItemId.t)
| R_price (item_id : ItemId.t) (sale_price : PyFloat.t)
| R_quantity (item_id : ItemId.t) (quantity : Z).

Definition of_result {S A} (r : Result A) : M S A := fun s => (r, s).

Definition buyer_login_session (now : Q) (token : string) (b : Buyer.t)
  : M MarketState reply :=
  let buyer_id := Buyer.buyer_id b in
  _ ← modify (create_session now token buyer buyer_id);
  st ← get_state;
  let saved := InMemoryDB.load_saved_cart buyer_id (db st) in
  _ ← modify (set_cart buyer_id saved);
  mret (R_login buyer_id (Buyer.name b) token).

Fixpoint display_lines (cart : list (string * Z)) : Result (list (ItemId.t * Z)) :=
  match cart with
  | [] => Ok []
  | (k, v) :: rest =>
      i ← ItemId.from_any k; l ← display_lines rest; Ok ((i, v) :: l)
  end.

Definition handle_buyer (now : Q) (uuid : string) (a : buyer_action)
  : M MarketState reply :=
  match a with
  | CreateAccount name password =>
      if PyStr.is_empty name then raise "buyer_name is required" else
      b ← db_op (InMemoryDB.add_buyer now name (hash_password password));
      mret (R_account (Buyer.buyer_id b) (Buyer.name b))
  | Login (Some buyer_id) _ password =>
      st ← get_state;
      match InMemoryDB.get_buyer buyer_id (db st) with
      | None => raise "invalid credentials"
      | Some b =>
          if negb (PyStr.eqb (Buyer.password_hash b) (hash_password password))
          then raise "invalid credentials"
          else
            _ ← modify (create_session now uuid buyer buyer_id);
            st ← get_state;
            let saved := InMemoryDB.load_saved_cart buyer_id (db st) in
            _ ← modify (set_cart buyer_id saved);
            mret (R_login (Buyer.buyer_id b) (Buyer.name b) uuid)
      end
  | Login None name password =>
      if PyStr.is_empty name then raise "buyer_id or buyer_name is required" else
      st ← get_state;
      match InMemoryDB.find_buyers_by_name name (db st) with
      | [] => raise "invalid credentials"
      | [b] =>
          if negb (PyStr.eqb (Buyer.password_hash b) (hash_password password))
          then raise "invalid credentials"
          else buyer_login_session now uuid b
      | _ => raise "ambiguous buyer_name; use buyer_id to login"
      end
  | Logout token =>
      st ← get_state;
      _ ← match _require_session buyer token st with
          | Some (_, buyer_id) => modify (set_cart buyer_id [])
          | None => mret tt
          end;
      _ ← (if PyStr.is_empty token then mret tt
           else modify (delete_session token));
      mret R_logged_out
  | SearchItemsForSale token category keywords =>
      st ← get_state;
      match _require_session buyer token st with
      | None => raise "not logged in (buyer)"
      | Some _ =>
          items ← of_result (search_items_for_sale category keywords st);
          mret (R_items items)
      end
  | AddItemToCart token item_id qty =>
      st ← get_state;
      match _require_session buyer token st with
      | None => raise "not logged in (buyer)"
      | Some (_, buyer_id) =>
          if qty <=? 0 then raise "quantity must be > 0" else
          match InMemoryDB.get_item item_id (db st) with
          | None => raise "item not found"
          | Some it =>
              if Item.quantity it <=? 0 then raise "item is not available" else
              let cart := cart_of buyer_id st in
              _ ← modify (set_cart buyer_id cart);
              let k := ItemId.key item_id in
              let already := PyDict.get_default k 0 cart in
              if already + qty >? Item.quantity it
              then raise "insufficient inventory" else
              let cart' := PyDict.set k (already + qty) cart in
              _ ← modify (set_cart buyer_id cart');
              mret (R_cart cart')
          end
      end
  | RemoveItemFromCart token item_id qty =>
      st ← get_state;
      match _require_session buyer token st with
      | None => raise "not logged in (buyer)"
      | Some (_, buyer_id) =>
          if qty <=? 0 then raise "quantity must be > 0" else
          let cart := cart_of buyer_id st in
          _ ← modify (set_cart buyer_id cart);
          let k := ItemId.key item_id in
          match PyDict.get k cart with
          | None => raise "item not in cart"
          | Some cur =>
              if qty >? cur
              then raise "cannot remove more than current quantity in cart" else
              let new_qty := cur - qty in
              let cart' :=
                if new_qty =? 0 then PyDict.pop k cart
                else PyDict.set k new_qty cart in
              _ ← modify (set_cart buyer_id cart');
              mret (R_cart cart')
          end
      end
  | SaveCart token =>
      st ← get_state;
      match _require_session buyer token st with
      | None => raise "not logged in (buyer)"
      | Some (_, buyer_id) =>
          let cart := cart_of buyer_id st in
          _ ← modify (fun st => with_db (InMemoryDB.save_cart buyer_id cart (db st)) st);
          mret (R_saved cart)
      end
  | ClearCart token =>
      st ← get_state;
      match _require_session buyer token st with
      | None => raise "not logged in (buyer)"
      | Some (_, buyer_id) =>
          _ ← modify (set_cart buyer_id []);
          mret R_cleared
      end
  | DisplayCart token =>
      st ← get_state;
      match _require_session buyer token st with
      | None => raise "not logged in (buyer)"
      | Some (_, buyer_id) =>
          items ← of_result (display_lines (cart_of buyer_id st));
          mret (R_display items)
      end
  | MakePurchase token =>
      st ← get_state;
      match _require_session buyer token st with
      | None => raise "not logged in (buyer)"
      | Some (_, buyer_id) =>
          txn ← _do_purchase now ("txn_" +:+ uuid) buyer_id;
          mret (R_transaction txn)
      end
  | ProvideFeedback token item_id up down =>
      st ← get_state;
      match _require_session buyer token st with
      | None => raise "not logged in (buyer)"
      | Some _ =>
          if negb (bool_decide ((up, down) = (1, 0)) || bool_decide ((up, down) = (0, 1)))
          then raise "feedback dict must be either {thumbs_up:1,thumbs_down:0} or {thumbs_up:0,thumbs_down:1}"
          else
            _ ← db_upd (InMemoryDB.add_item_feedback item_id up down);
            st ← get_state;
            match InMemoryDB.get_item item_id (db st) with
            | None => raise "AssertionError"
            | Some it => mret (R_feedback (Item.feedback it))
            end
      end
  end.

Inductive seller_action : Type :=
| SCreateAccount (name password : string)
| SLogin (seller_id : option Z) (name password : string)
| SLogout (session_token : string)
| RegisterItemForSale (session_token : string) (item_name : string)
    (item_category : Z) (keywords : list string) (condition : string)
    (sale_price : PyFloat.t) (quantity : Z)
| ChangeItemPrice (session_token : string) (item_id : ItemId.t)
    (new_price : PyFloat.t)
| UpdateUnitsForSale (session_token : string) (item_id : ItemId.t) (remove_qty : Z).

Definition handle_seller (now : Q) (uuid : string) (a : seller_action)
  : M MarketState reply :=
  match a with
  | SCreateAccount name password =>
      if PyStr.is_empty name then raise "seller_name is required" else
      s ← db_op (InMemoryDB.add_seller now name (hash_password password));
      mret (R_account (Seller.seller_id s) (Seller.name s))
  | SLogin (Some seller_id) _ password =>
      st ← get_state;
      match InMemoryDB.get_seller seller_id (db st) with
      | None => raise "invalid credentials"
      | Some s =>
          if negb (PyStr.eqb (Seller.password_hash s) (hash_password password))
          then raise "invalid credentials"
          else
            _ ← modify (create_session now uuid seller seller_id);
            mret (R_login (Seller.seller_id s) (Seller.name s) uuid)
      end
  | SLogin None name password =>
      if PyStr.is_empty name then raise "seller_id or seller_name is required" else
      st ← get_state;
      match InMemoryDB.find_sellers_by_name name (db st) with
      | [] => raise "invalid credentials"
      | [s] =>
          if negb (PyStr.eqb (Seller.password_hash s) (hash_password password))
          then raise "invalid credentials"
          else
            _ ← modify (create_session now uuid seller (Seller.seller_id s));
            mret (R_login (Seller.seller_id s) (Seller.name s) uuid)
      | _ => raise "ambiguous seller_name; use seller_id to login"
      end
  | SLogout token =>
      _ ← (if PyStr.is_empty token then mret tt
           else modify (delete_session token));
      mret R_logged_out
  | RegisterItemForSale token item_name item_category keywords condition
      sale_price quantity =>
      st ← get_state;
      match _require_session seller token st with
      | None => raise "not logged in (seller)"
      | Some (_, seller_id) =>
          match InMemoryDB.get_seller seller_id (db st) with
          | None => raise "seller not found"
          | Some _ =>
              if PyStr.is_empty item_name then raise "item_name is required" else
              if PyStr.len item_name >? 32
              then raise "item_name must be <= 32 characters" else
              match parse_condition condition with
              | None => raise "condition must be 'New' or 'Used'"
              | Some cond =>
                  if Z.of_nat (length keywords) >? 5
                  then raise "keywords must have at most 5 entries" else
                  if existsb (fun kw => PyStr.len kw >? 8) keywords
                  then raise "each keyword must be <= 8 characters" else
                  if quantity <? 0 then raise "quantity must be >= 0" else
                  if PyFloat.ltb sale_price PyFloat.zero
                  then raise "sale_price must be >= 0" else
                  item_id ← db_op (fun d => Ok (InMemoryDB.allocate_item_id item_category d));
                  let item :=
                    Item.mk item_id seller_id item_name item_category keywords
                      cond sale_price quantity (Feedback.mk 0 0) now in
                  _ ← db_upd (InMemoryDB.add_item item);
                  mret (R_item_id item_id)
              end
          end
      end
  | ChangeItemPrice token item_id new_price =>
      st ← get_state;
      match _require_session seller token st with
      | None => raise "not logged in (seller)"
      | Some (_, seller_id) =>
          match InMemoryDB.get_item item_id (db st) with
          | None => raise "item not found"
          | Some it =>
              if negb (Item.seller_id it =? seller_id)
              then raise "cannot modify item: not owned by seller" else
              if PyFloat.ltb new_price PyFloat.zero
              then raise "sale_price must be >= 0" else
              _ ← db_upd (InMemoryDB.update_item_price item_id new_price);
              mret (R_price item_id new_price)
          end
      end
  | UpdateUnitsForSale token item_id remove_qty =>
      st ← get_state;
      match _require_session seller token st with
      | None => raise "not logged in (seller)"
      | Some (_, seller_id) =>
          match InMemoryDB.get_item item_id (db st) with
          | None => raise "item not found"
          | Some it =>
              if negb (Item.seller_id it =? seller_id)
              then raise "cannot modify item: not owned by seller" else
              new_qty ← db_op (InMemoryDB.remove_units_for_sale item_id remove_qty);
              mret (R_quantity item_id new_qty)
          end
      end
  end.

(** The server applied to a stream of requests. *)
Inductive request : Type :=
| BuyerReq (now : Q) (uuid : string) (a : buyer_action)
| SellerReq (now : Q) (uuid : string) (a : seller_action).

Definition handle (r : request) : M MarketState reply :=
  match r with
  | BuyerReq now uuid a => handle_buyer now uuid a
  | SellerReq now uuid a => handle_seller now uuid a
  end.

Definition step (st : MarketState) (r : request) : MarketState :=
  snd (handle r st).

Definition run (rs : list request) (st : MarketState) : MarketState :=
  fold_left step rs st.

End handlers.

End Market.

(** *** The reading actions of the handlers

    Each is the branch of [handle] for the action of its name, the session
    check included; none of them changes the state. *)

Module MarketQueries.
Import Market.

(** buyer: GetItem *)
Definition get_item (token : string) (item_id : ItemId.t) (st : MarketState)
  : Result Item.t :=
  match _require_session buyer token st with
  | None => Err "not logged in (buyer)"
  | Some _ =>
      match InMemoryDB.get_item item_id (db st) with
      | None => Err "item not found"
      | Some it => Ok it
      end
  end.

(** buyer: GetSellerRating, of any seller *)
Definition get_seller_rating (token : string) (seller_id : Z) (st : MarketState)
  : Result (Z * Feedback.t) :=
  match _require_session buyer token st with
  | None => Err "not logged in (buyer)"
  | Some _ =>
      match InMemoryDB.get_seller seller_id (db st) with
      | None => Err "seller not found"
      | Some s => Ok (Seller.seller_id s, Seller.feedback s)
      end
  end.

(** The lines of the transactions, each with the id of its transaction. *)
Definition history (txns : list Transaction.t) : list (ItemId.t * Z * string) :=
  flat_map
    (fun t =>
       map (fun line =>
              (TransactionLine.item_id line, TransactionLine.qty line,
               Transaction.txn_id t))
           (Transaction.items t))
    txns.

(** buyer: GetBuyerPurchases *)
Definition get_buyer_purchases (token : string) (st : MarketState)
  : Result (Z * list (ItemId.t * Z * string) * list Transaction.t) :=
  match _require_session buyer token st with
  | None => Err "not logged in (buyer)"
  | Some (_, buyer_id) =>
      let txns := InMemoryDB.list_transactions_for_buyer buyer_id (db st) in
      Ok (buyer_id, history txns, txns)
  end.

(** seller: GetSellerRating, the seller's own *)
Definition seller_rating (token : string) (st : MarketState)
  : Result (Z * Feedback.t) :=
  match _require_session seller token st with
  | None => Err "not logged in (seller)"
  | Some (_, seller_id) =>
      match InMemoryDB.get_seller seller_id (db st) with
      | None => Err "seller not found"
      | Some s => Ok (Seller.seller_id s, Seller.feedback s)
      end
  end.

(** seller: DisplayItemsForSale *)
Definition display_items_for_sale (token : string) (st : MarketState)
  : Result (list Item.t) :=
  match _require_session seller token st with
  | None => Err "not logged in (seller)"
  | Some (_, seller_id) =>
      Ok (InMemoryDB.list_items_for_seller seller_id (db st))
  end.

End MarketQueries.

(** ** [src/backend/customer_db_server.py]

    Carts are mutable [dict] objects that the tables refer to: [cart_add] and
    [cart_remove] update the object in place, while [login], [cart_clear] and
    [cart_save] store a new object. The store therefore keeps a heap of cart
    objects and the tables hold addresses, so that sharing between two table
    slots would be visible. [_hash_pw] is the identity ([str(pw)]). *)

Inductive Username : Type :=
| U_int (n : Z)
| U_str (s : string).

Module CustomerDB.

Record _Session : Type := mk_Session {
  role : Role;
  user_id : Z;
  created_at : Q;
  last_activity : Q
}.

Definition loc : Type := positive.

Record t : Type := mk {
  timeout_seconds : Z;
  _next_seller_id : Z;
  _next_buyer_id : Z;
  sellers : gmap Z Seller.t;
  buyers : gmap Z Buyer.t;
  seller_name_index : gmap string (list Z);
  buyer_name_index : gmap string (list Z);
  sessions : gmap string _Session;
  session_carts : gmap string loc;
  saved_carts : gmap Z loc;
  buyer_purchases : gmap Z (list string);
  heap : gmap loc (list (string * Z));
  next_loc : loc
}.

(** [CustomerDB(timeout_seconds)] *)
Definition init (timeout : Z) : t :=
  mk (Z.max 1 timeout) 1 1 ∅ ∅ ∅ ∅ ∅ ∅ ∅ ∅ ∅ 1%positive.

Definition with_sessions (s : gmap string _Session) (db : t) : t :=
  mk (timeout_seconds db) (_next_seller_id db) (_next_buyer_id db) (sellers db)
     (buyers db) (seller_name_index db) (buyer_name_index db) s
     (session_carts db) (saved_carts db) (buyer_purchases db) (heap db)
     (next_loc db).

Definition with_session_carts (c : gmap string loc) (db : t) : t :=
  mk (timeout_seconds db) (_next_seller_id db) (_next_buyer_id db) (sellers db)
     (buyers db) (seller_name_index db) (buyer_name_index db) (sessions db)
     c (saved_carts db) (buyer_purchases db) (heap db) (next_loc db).

Definition with_saved_carts (c : gmap Z loc) (db : t) : t :=
  mk (timeout_seconds db) (_next_seller_id db) (_next_buyer_id db) (sellers db)
     (buyers db) (seller_name_index db) (buyer_name_index db) (sessions db)
     (session_carts db) c (buyer_purchases db) (heap db) (next_loc db).

Definition with_heap (h : gmap loc (list (string * Z))) (n : loc) (db : t) : t :=
  mk (timeout_seconds db) (_next_seller_id db) (_next_buyer_id db) (sellers db)
     (buyers db) (seller_name_index db) (buyer_name_index db) (sessions db)
     (session_carts db) (saved_carts db) (buyer_purchases db) h n.

(** A new [dict] object with the given contents. *)
Definition alloc (d : list (string * Z)) (db : t) : loc * t :=
  (next_loc db, with_heap (<[next_loc db := d]> (heap db)) (Pos.succ (next_loc db)) db).

Definition deref (l : loc) (db : t) : list (string * Z) :=
  default [] (heap db !! l).

(** In-place update of the object at [l]. *)
Definition store (l : loc) (d : list (string * Z)) (db : t) : t :=
  with_heap (<[l := d]> (heap db)) (next_loc db) db.

Definition _hash_pw (pw : string) : string := pw.

Definition expired (now : Q) (s : _Session) (db : t) : bool :=
  Qle_bool (inject_Z (timeout_seconds db)) (now - last_activity s).

Definition touch (now : Q) (s : _Session) : _Session :=
  mk_Session (role s) (user_id s) (created_at s) now.

Definition _touch_or_expire (now : Q) (token : string) (db : t)
  : option _Session * t :=
  match sessions db !! token with
  | None => (None, db)
  | Some s =>
      if expired now s db then
        (None,
         with_session_carts (delete token (session_carts db))
           (with_sessions (delete token (sessions db)) db))
      else
        let s' := touch now s in
        (Some s', with_sessions (<[token := s']> (sessions db)) db)
  end.

(** [role.lower().strip()] compared with ["buyer"] and ["seller"] *)
Definition parse_role (r : string) : option Role :=
  let r := PyStr.strip (PyStr.lower r) in
  if PyStr.eqb r "buyer" then Some buyer
  else if PyStr.eqb r "seller" then Some seller
  else None.

Definition create_account (now : Q) (role name password : string) (db : t)
  : Result (Z * t) :=
  match parse_role role with
  | None => Err "invalid role"
  | Some r =>
      if (PyStr.len name =? 0) || (PyStr.len name >? 32)
      then Err "name must be 1..32 characters" else
      let pw := _hash_pw password in
      match r with
      | seller =>
          let sid := _next_seller_id db in
          let s := Seller.mk sid name (Feedback.mk 0 0) 0 pw now in
          Ok (sid,
              mk (timeout_seconds db) (sid + 1) (_next_buyer_id db)
                 (<[sid := s]> (sellers db)) (buyers db)
                 (<[name := default [] (seller_name_index db !! name) ++ [sid]]>
                    (seller_name_index db))
                 (buyer_name_index db) (sessions db) (session_carts db)
                 (saved_carts db) (buyer_purchases db) (heap db) (next_loc db))
      | buyer =>
          let bid := _next_buyer_id db in
          let b := Buyer.mk bid name 0 pw now in
          Ok (bid,
              mk (timeout_seconds db) (_next_seller_id db) (bid + 1)
                 (sellers db) (<[bid := b]> (buyers db))
                 (seller_name_index db)
                 (<[name := default [] (buyer_name_index db !! name) ++ [bid]]>
                    (buyer_name_index db))
                 (sessions db) (session_carts db) (saved_carts db)
                 (<[bid := default [] (buyer_purchases db !! bid)]>
                    (buyer_purchases db))
                 (heap db) (next_loc db))
      end
  end.

(** The stored credential of an account of the given role. *)
Definition password_of (r : Role) (uid : Z) (db : t) : option string :=
  match r with
  | seller => Seller.password_hash <$> sellers db !! uid
  | buyer => Buyer.password_hash <$> buyers db !! uid
  end.

Definition name_index (r : Role) (db : t) : gmap string (list Z) :=
  match r with
  | seller => seller_name_index db
  | buyer => buyer_name_index db
  end.

Definition credential_matches (r : Role) (pw : string) (db : t) (uid : Z) : bool :=
  match password_of r uid db with
  | Some h => PyStr.eqb h pw
  | None => false
  end.

(** Login by the candidates of a name: the ones whose credential matches. *)
Definition matches (r : Role) (name pw : string) (db : t) : list Z :=
  filter (fun uid => credential_matches r pw db uid = true)
    (default [] (name_index r db !! name)).

Definition resolve_id (r : Role) (uid : Z) (pw : string) (db : t) : option Z :=
  if credential_matches r pw db uid then Some uid else None.

Definition resolve_name (r : Role) (name pw : string) (db : t)
  : Result (option Z) :=
  match matches r name pw db with
  | [uid] => Ok (Some uid)
  | [] => Ok None
  | _ =>
      Err (match r with
           | seller => "ambiguous username; please login using seller_id"
           | buyer => "ambiguous username; please login using buyer_id"
           end)
  end.

Definition _resolve_user_id (r : Role) (username : Username) (pw : string)
    (db : t) : Result (option Z) :=
  match username with
  | U_int uid => Ok (resolve_id r uid pw db)
  | U_str s =>
      if PyStr.isdigit s then
        match PyStr.to_int s with
        | Some uid => Ok (resolve_id r uid pw db)
        | None => Err "invalid literal for int()"
        end
      else resolve_name r s pw db
  end.

Definition login (now : Q) (token : string) (role : string)
    (username : Username) (password : string) (db : t) : Result (Z * t) :=
  let pw := _hash_pw password in
  match parse_role role with
  | None => Err "invalid role"
  | Some r =>
      o ← _resolve_user_id r username pw db;
      match o with
      | None => Err "invalid credentials"
      | Some uid =>
          let db1 :=
            with_sessions (<[token := mk_Session r uid now now]> (sessions db)) db in
          let contents :=
            match r with
            | seller => []
            | buyer =>
                match saved_carts db1 !! uid with
                | Some l => deref l db1
                | None => []
                end
            end in
          let '(l, db2) := alloc contents db1 in
          Ok (uid, with_session_carts (<[token := l]> (session_carts db2)) db2)
      end
  end.

Definition logout (token : string) (db : t) : t :=
  with_session_carts (delete token (session_carts db))
    (with_sessions (delete token (sessions db)) db).

Definition touch_m (now : Q) (token : string) : M t (option _Session) :=
  fun db => let '(o, db') := _touch_or_expire now token db in (Ok o, db').

Definition validate_session (now : Q) (role token : string) : M t Z :=
  o ← touch_m now token;
  match o with
  | None => raise "invalid or expired session"
  | Some s =>
      if bool_decide (parse_role role = Some (CustomerDB.role s))
      then mret (user_id s) else raise "session role mismatch"
  end.

Definition require_buyer (now : Q) (token : string) : M t _Session :=
  o ← touch_m now token;
  match o with
  | Some s =>
      if decide (role s = buyer) then mret s else raise "invalid buyer session"
  | None => raise "invalid buyer session"
  end.

(** [self.session_carts.get(token, {})], read only *)
Definition session_cart (token : string) (db : t) : list (string * Z) :=
  match session_carts db !! token with
  | Some l => deref l db
  | None => []
  end.

(** [self.session_carts.setdefault(token, {})]: the address of the cart
    object, a new empty one being stored when the token has none. *)
Definition setdefault_cart (token : string) : M t loc := fun db =>
  match session_carts db !! token with
  | Some l => (Ok l, db)
  | None =>
      let '(l, db1) := alloc [] db in
      (Ok l, with_session_carts (<[token := l]> (session_carts db1)) db1)
  end.

Definition cart_get (now : Q) (token : string) : M t (list (string * Z)) :=
  _ ← require_buyer now token;
  db ← get_state;
  mret (session_cart token db).

Definition cart_add (now : Q) (token item_key : string) (qty : Z)
  : M t (list (string * Z)) :=
  if qty <=? 0 then raise "quantity must be positive" else
  _ ← require_buyer now token;
  l ← setdefault_cart token;
  db ← get_state;
  let cart := deref l db in
  let cart' := PyDict.set item_key (PyDict.get_default item_key 0 cart + qty) cart in
  _ ← modify (store l cart');
  mret cart'.

Definition cart_remove (now : Q) (token item_key : string) (qty : Z)
  : M t (list (string * Z)) :=
  if qty <=? 0 then raise "quantity must be positive" else
  _ ← require_buyer now token;
  l ← setdefault_cart token;
  db ← get_state;
  let cart := deref l db in
  let cur := PyDict.get_default item_key 0 cart in
  if cur <=? 0 then raise "item not in cart" else
  if qty >? cur then raise "cannot remove more than in cart" else
  let nxt := cur - qty in
  let cart' :=
    if nxt =? 0 then PyDict.pop item_key cart
    else PyDict.set item_key nxt cart in
  _ ← modify (store l cart');
  mret cart'.

Definition cart_clear (now : Q) (token : string) : M t unit :=
  _ ← require_buyer now token;
  modify (fun db =>
    let '(l, db1) := alloc [] db in
    with_session_carts (<[token := l]> (session_carts db1)) db1).

Definition cart_save (now : Q) (token : string) : M t (list (string * Z)) :=
  s ← require_buyer now token;
  db ← get_state;
  let cart := session_cart token db in
  _ ← modify (fun db =>
    let '(l, db1) := alloc cart db in
    with_saved_carts (<[user_id s := l]> (saved_carts db1)) db1);
  mret cart.

(** [handle_client]: one request applied to the store; an operation that
    raises leaves the store as it was when it raised. *)
Inductive request : Type :=
| create_account_req (now : Q) (role name password : string)
| login_req (now : Q) (token role : string) (username : Username) (password : string)
| logout_req (token : string)
| validate_session_req (now : Q) (role token : string)
| cart_get_req (now : Q) (token : string)
| cart_add_req (now : Q) (token item_key : string) (qty : Z)
| cart_remove_req (now : Q) (token item_key : string) (qty : Z)
| cart_clear_req (now : Q) (token : string)
| cart_save_req (now : Q) (token : string).

Definition step (db : t) (r : request) : t :=
  match r with
  | create_account_req now role name password =>
      match create_account now role name password db with
      | Ok (_, db') => db'
      | Err _ => db
      end
  | login_req now token role username password =>
      match login now token role username password db with
      | Ok (_, db') => db'
      | Err _ => db
      end
  | logout_req token => logout token db
  | validate_session_req now role token => snd (validate_session now role token db)
  | cart_get_req now token => snd (cart_get now token db)
  | cart_add_req now token item_key qty => snd (cart_add now token item_key qty db)
  | cart_remove_req now token item_key qty => snd (cart_remove now token item_key qty db)
  | cart_clear_req now token => snd (cart_clear now token db)
  | cart_save_req now token => snd (cart_save now token db)
  end.

Definition run (rs : list request) (db : t) : t := fold_left step rs db.

(** Ratings and purchase history: the answers are
    [(seller_id, seller_feedback, items_sold)] and [(buyer_id, purchases)]. *)
Definition get_seller_rating_by_id (seller_id : Z) (db : t)
  : Result (Z * Feedback.t * Z) :=
  match sellers db !! seller_id with
  | None => Err "unknown seller_id"
  | Some s => Ok (seller_id, Seller.feedback s, Seller.items_sold s)
  end.

Definition get_seller_rating_by_session (now : Q) (token : string)
  : M t (Z * Feedback.t * Z) :=
  o ← touch_m now token;
  match o with
  | None => raise "invalid or expired session"
  | Some s =>
      if decide (role s = seller) then
        db ← get_state;
        match sellers db !! user_id s with
        | None => raise "unknown seller"
        | Some sl => mret (user_id s, Seller.feedback sl, Seller.items_sold sl)
        end
      else raise "not a seller session"
  end.

Definition get_buyer_purchases (now : Q) (token : string)
  : M t (Z * list string) :=
  o ← touch_m now token;
  match o with
  | None => raise "invalid or expired session"
  | Some s =>
      if decide (role s = buyer) then
        db ← get_state;
        mret (user_id s, default [] (buyer_purchases db !! user_id s))
      else raise "not a buyer session"
  end.

End CustomerDB.

(** ** [src/frontend/buyer_frontend_server.py] and [seller_frontend_server.py]

    A gateway keeps no state of its own: every action is a sequence of calls
    to the two stores. A call is the store's operation of that name, the
    request and the reply crossing the wire as the typed values they carry
    and an error reply carrying the store's message; the clock readings are
    those of the store at the successive calls, and no other client is served
    between the calls of one action. An error message that quotes numbers is
    kept without them. *)

Module Backends.

Record t : Type := mk {
  customer_db : CustomerDB.t;
  product_db : ProductDB.t
}.

(** [await self.customer_db.call(...)] *)
Definition call_customer {A} (m : M CustomerDB.t A) : M t A := fun s =>
  let '(r, c) := m (customer_db s) in (r, mk c (product_db s)).

(** [await self.product_db.call(...)], for a request that writes and for one
    that reads. *)
Definition call_product {A} (f : ProductDB.t -> Result (A * ProductDB.t))
  : M t A := fun s =>
  match f (product_db s) with
  | Ok (a, p) => (Ok a, mk (customer_db s) p)
  | Err e => (Err e, s)
  end.

Definition read_product {A} (f : ProductDB.t -> Result A) : M t A := fun s =>
  (f (product_db s), s).

End Backends.

Module BuyerFrontend.
Import Backends.

Definition _validate (now : Q) (session_token : string) : M Backends.t Z :=
  call_customer (CustomerDB.validate_session now "buyer" session_token).

(** [handle], action [add_item_to_cart] *)
Definition add_item_to_cart (t1 t2 t3 : Q) (session_token : string)
    (item_id : ItemId.t) (qty : Z) : M Backends.t (list (string * Z)) :=
  _ ← _validate t1 session_token;
  if qty <=? 0 then raise "quantity must be positive" else
  item ← read_product (ProductDB.get_item item_id);
  let available := Item.quantity item in
  cart ← call_customer (CustomerDB.cart_get t2 session_token);
  let key := ItemId.key item_id in
  let cur := PyDict.get_default key 0 cart in
  if cur + qty >? available then raise "insufficient inventory" else
  call_customer (CustomerDB.cart_add t3 session_token key qty).

(** [handle], action [remove_item_from_cart] *)
Definition remove_item_from_cart (t1 t2 : Q) (session_token : string)
    (item_id : ItemId.t) (qty : Z) : M Backends.t (list (string * Z)) :=
  _ ← _validate t1 session_token;
  if qty <=? 0 then raise "quantity must be positive" else
  call_customer
    (CustomerDB.cart_remove t2 session_token (ItemId.key item_id) qty).

End BuyerFrontend.

Module SellerFrontend.
Import Backends.

Definition _validate (now : Q) (session_token : string) : M Backends.t Z :=
  call_customer (CustomerDB.validate_session now "seller" session_token).

(** [handle], action [register_item_for_sale]; [now_p] is the reading of the
    product store's clock. *)
Definition register_item_for_sale (now now_p : Q) (session_token : string)
    (a : ProductDB.attrs) : M Backends.t ItemId.t :=
  seller_id ← _validate now session_token;
  call_product (ProductDB.register_item now_p seller_id a).

(** [handle], action [change_item_price] *)
Definition change_item_price (now : Q) (session_token : string)
    (item_id : ItemId.t) (new_price : PyFloat.t) : M Backends.t unit :=
  seller_id ← _validate now session_token;
  call_product (fun p =>
    p' ← ProductDB.change_item_price seller_id item_id new_price p; Ok (tt, p')).

(** [handle], action [update_units_for_sale] *)
Definition update_units_for_sale (now : Q) (session_token : string)
    (item_id : ItemId.t) (quantity : Z) : M Backends.t Z :=
  seller_id ← _validate now session_token;
  call_product (ProductDB.update_units_remove seller_id item_id quantity).

(** [handle], action [display_items_for_sale] *)
Definition display_items_for_sale (now : Q) (session_token : string)
  : M Backends.t (list Item.t) :=
  seller_id ← _validate now session_token;
  read_product (fun p => Ok (ProductDB.list_items_for_seller seller_id p)).

End SellerFrontend.

(** ** [src/common/protocol.py]

    A frame is a four-byte big-endian length followed by that many bytes of
    JSON text.  [json.dumps], [json.loads] and [isinstance(_, dict)] are
    arguments of the framing functions; the stream a reader consumes is the
    list of bytes it will deliver, and reading returns what is left of it.
    An error message that quotes a number ("invalid payload length: 7") is
    kept without the number. *)

Module Protocol.

Definition byte_of_Z (z : Z) : Byte.byte :=
  default Byte.x00 (Byte.of_N (Z.to_N (z mod 256))).

Definition Z_of_byte (b : Byte.byte) : Z := Z.of_N (Byte.to_N b).

(** [struct.Struct(">I").pack]: four bytes, most significant first. *)
Definition pack_u32 (n : Z) : Result (list Byte.byte) :=
  if (n <? 0) || (2 ^ 32 <=? n) then Err "struct.error: argument out of range"
  else Ok [ byte_of_Z (n / 2 ^ 24); byte_of_Z (n / 2 ^ 16);
            byte_of_Z (n / 2 ^ 8); byte_of_Z n ].

(** [struct.Struct(">I").unpack] *)
Definition unpack_u32 (header : list Byte.byte) : Z :=
  fold_left (fun acc b => acc * 256 + Z_of_byte b) header 0.

(** [reader.readexactly(n)]: the first [n] bytes and the rest, or an error
    when the stream ends before. *)
Definition read_exactly (n : Z) (stream : list Byte.byte)
  : Result (list Byte.byte * list Byte.byte) :=
  if Z.of_nat (length stream) <? n then Err "connection closed while reading"
  else Ok (take (Z.to_nat n) stream, drop (Z.to_nat n) stream).

Definition default_max_bytes : Z := 4 * 1024 * 1024.

Section framing.
Context {JSON : Type}.
(** [json.dumps(obj, separators=(",", ":"), ensure_ascii=False).encode("utf-8")] *)
Variable json_dumps : JSON -> list Byte.byte.
(** [json.loads(payload.decode("utf-8"))], [None] when it raises *)
Variable json_loads : list Byte.byte -> option JSON.
(** [isinstance(obj, dict)] *)
Variable is_dict : JSON -> bool.

Definition encode_message (obj : JSON) : Result (list Byte.byte) :=
  let payload := json_dumps obj in
  header ← pack_u32 (Z.of_nat (length payload));
  Ok (header ++ payload).

Definition read_message (max_bytes : Z) (stream : list Byte.byte)
  : Result (JSON * list Byte.byte) :=
  '(header, stream) ← read_exactly 4 stream;
  let n := unpack_u32 header in
  if (n <=? 0) || (n >? max_bytes) then Err "invalid payload length" else
  '(payload, stream) ← read_exactly n stream;
  match json_loads payload with
  | None => Err "invalid json payload"
  | Some obj =>
      if is_dict obj then Ok (obj, stream)
      else Err "payload must be a JSON object"
  end.

End framing.

End Protocol.

(** ** The [json] module, on ASCII text and integers

    The values of a request or a response that carries no float: [None],
    booleans, integers, strings, lists and dictionaries with string keys.
    [dumps] is the compact form ([separators=(",", ":")]); in ASCII,
    encoding to UTF-8 keeps every character as one byte. [loads] is the
    reader of that compact form. Floats, text outside ASCII, tuples and
    keys that are not strings are outside this model, and [plain] delimits
    the values it speaks for. *)

#[local] Set Warnings "-register-all".

Module Json.

Inductive t : Type :=
| Null
| Bool (b : bool)
| Int (z : Z)
| Str (s : string)
| List (l : list t)
| Dict (d : list (string * t)).

Definition is_dict (v : t) : bool :=
  match v with Dict _ => true | _ => false end.

(** [sys.int_info.default_max_str_digits]: a longer integer is refused by
    the conversions between [int] and [str]. *)
Definition max_str_digits : Z := 4300.

(** A Python object of the model: text in ASCII, integers of at most 4300
    digits, the keys of a dictionary distinct. *)
Fixpoint plain (v : t) : bool :=
  match v with
  | Null => true
  | Bool _ => true
  | Int z => Z.abs z <? 10 ^ max_str_digits
  | Str s => PyStr.isascii s
  | List l => forallb plain l
  | Dict d =>
      forallb (fun '(k, x) => PyStr.isascii k && plain x) d &&
      bool_decide (NoDup (map fst d))
  end.

Definition hex_digit (n : N) : ascii :=
  if (n <? 10)%N then ascii_of_N (48 + n) else ascii_of_N (87 + n).

(** [json.dumps] escapes the quote, the backslash and the control
    characters. *)
Definition escape_char (c : ascii) : string :=
  if Ascii.eqb c "034" then String "\" (String "034" "")
  else if Ascii.eqb c "\" then "\\"
  else if Ascii.eqb c "010" then "\n"
  else if Ascii.eqb c "013" then "\r"
  else if Ascii.eqb c "009" then "\t"
  else if Ascii.eqb c "008" then "\b"
  else if Ascii.eqb c "012" then "\f"
  else if (N_of_ascii c <? 32)%N then
    "\u00" +:+ String (hex_digit (N_of_ascii c / 16))
                (String (hex_digit (N_of_ascii c mod 16)) "")
  else String c "".

Fixpoint escape (s : string) : string :=
  match s with
  | EmptyString => EmptyString
  | String c s' => escape_char c +:+ escape s'
  end.

(** The text between double quotes (character 34). *)
Definition quote (s : string) : string :=
  String "034" (escape s +:+ String "034" "").

(** [json.dumps(v, separators=(",", ":"))] *)
Fixpoint dumps (v : t) : string :=
  match v with
  | Null => "null"
  | Bool true => "true"
  | Bool false => "false"
  | Int z => PyStr.of_int z
  | Str s => quote s
  | List l =>
      "[" +:+
      (fix elems (l : list t) : string :=
         match l with
         | [] => ""
         | [x] => dumps x
         | x :: l' => dumps x +:+ "," +:+ elems l'
         end) l +:+ "]"
  | Dict d =>
      "{" +:+
      (fix members (d : list (string * t)) : string :=
         match d with
         | [] => ""
         | [(k, x)] => quote k +:+ ":" +:+ dumps x
         | (k, x) :: d' => quote k +:+ ":" +:+ dumps x +:+ "," +:+ members d'
         end) d +:+ "}"
  end.

Definition hex_value (c : ascii) : option N :=
  let n := N_of_ascii c in
  if PyStr.is_digit c then Some (n - 48)%N
  else if PyStr.in_range 97 102 c then Some (n - 87)%N
  else if PyStr.in_range 65 70 c then Some (n - 55)%N
  else None.

Definition cons_char (c : ascii) (r : option (string * string))
  : option (string * string) :=
  match r with
  | Some (s, rest) => Some (String c s, rest)
  | None => None
  end.

(** The text of a string after its opening quote, up to the closing one. *)
Fixpoint parse_string (s : string) : option (string * string) :=
  match s with
  | EmptyString => None
  | String c s' =>
      if Ascii.eqb c "034" then Some (EmptyString, s')
      else if Ascii.eqb c "\" then
        match s' with
        | String e s'' =>
            if Ascii.eqb e "u" then
              match s'' with
              | String h1 (String h2 (String h3 (String h4 s3))) =>
                  match hex_value h1, hex_value h2, hex_value h3, hex_value h4 with
                  | Some 0%N, Some 0%N, Some a, Some b =>
                      cons_char (ascii_of_N (16 * a + b)) (parse_string s3)
                  | _, _, _, _ => None
                  end
              | _ => None
              end
            else if Ascii.eqb e "034" then cons_char "034" (parse_string s'')
            else if Ascii.eqb e "\" then cons_char "\" (parse_string s'')
            else if Ascii.eqb e "/" then cons_char "/" (parse_string s'')
            else if Ascii.eqb e "n" then cons_char "010" (parse_string s'')
            else if Ascii.eqb e "r" then cons_char "013" (parse_string s'')
            else if Ascii.eqb e "t" then cons_char "009" (parse_string s'')
            else if Ascii.eqb e "b" then cons_char "008" (parse_string s'')
            else if Ascii.eqb e "f" then cons_char "012" (parse_string s'')
            else None
        | EmptyString => None
        end
      else if (N_of_ascii c <? 32)%N then None
      else cons_char c (parse_string s')
  end.

Definition is_num_char (c : ascii) : bool :=
  PyStr.is_digit c || Ascii.eqb c "-".

(** The longest prefix of sign and digit characters. *)
Fixpoint span_number (s : string) : string * string :=
  match s with
  | String c s' =>
      if is_num_char c then
        let '(n, rest) := span_number s' in (String c n, rest)
      else (EmptyString, s)
  | EmptyString => (EmptyString, EmptyString)
  end.

Fixpoint strip_prefix (word s : string) : option string :=
  match word with
  | EmptyString => Some s
  | String a word' =>
      match s with
      | String b s' => if Ascii.eqb a b then strip_prefix word' s' else None
      | EmptyString => None
      end
  end.

Definition literal (word : string) (v : t) (s : string) : option (t * string) :=
  match strip_prefix word s with
  | Some rest => Some (v, rest)
  | None => None
  end.

Fixpoint parse_value (fuel : nat) (s : string) : option (t * string) :=
  match fuel with
  | O => None
  | S fuel =>
      match s with
      | EmptyString => None
      | String c s' =>
          if Ascii.eqb c "n" then literal "null" Null s
          else if Ascii.eqb c "t" then literal "true" (Bool true) s
          else if Ascii.eqb c "f" then literal "false" (Bool false) s
          else if Ascii.eqb c "034" then
            match parse_string s' with
            | Some (r, rest) => Some (Str r, rest)
            | None => None
            end
          else if Ascii.eqb c "[" then
            match strip_prefix "]" s' with
            | Some rest => Some (List [], rest)
            | None =>
                match parse_elements fuel s' with
                | Some (l, rest) => Some (List l, rest)
                | None => None
                end
            end
          else if Ascii.eqb c "{" then
            match strip_prefix "}" s' with
            | Some rest => Some (Dict [], rest)
            | None =>
                match parse_members fuel s' with
                | Some (d, rest) => Some (Dict d, rest)
                | None => None
                end
            end
          else
            let '(n, rest) := span_number s in
            match PyStr.to_int n with
            | Some z => Some (Int z, rest)
            | None => None
            end
      end
  end
with parse_elements (fuel : nat) (s : string) : option (list t * string) :=
  match fuel with
  | O => None
  | S fuel =>
      match parse_value fuel s with
      | Some (x, rest) =>
          match strip_prefix "," rest with
          | Some rest =>
              match parse_elements fuel rest with
              | Some (l, rest) => Some (x :: l, rest)
              | None => None
              end
          | None =>
              match strip_prefix "]" rest with
              | Some rest => Some ([x], rest)
              | None => None
              end
          end
      | None => None
      end
  end
with parse_members (fuel : nat) (s : string)
  : option (list (string * t) * string) :=
  match fuel with
  | O => None
  | S fuel =>
      match strip_prefix (String "034" "") s with
      | Some s =>
          match parse_string s with
          | Some (k, s) =>
              match strip_prefix ":" s with
              | Some s =>
                  match parse_value fuel s with
                  | Some (x, rest) =>
                      match strip_prefix "," rest with
                      | Some rest =>
                          match parse_members fuel rest with
                          | Some (d, rest) => Some ((k, x) :: d, rest)
                          | None => None
                          end
                      | None =>
                          match strip_prefix "}" rest with
                          | Some rest => Some ([(k, x)], rest)
                          | None => None
                          end
                      end
                  | None => None
                  end
              | None => None
              end
          | None => None
          end
      | None => None
      end
  end.

(** [json.loads]: one value and nothing after it. *)
Definition loads (s : string) : option t :=
  match parse_value (S (String.length s)) s with
  | Some (v, EmptyString) => Some v
  | _ => None
  end.

(** With text in ASCII, UTF-8 encoding is the identity on character codes. *)
Definition dumps_bytes (v : t) : list Byte.byte := list_byte_of_string (dumps v).
Definition loads_bytes (b : list Byte.byte) : option t := loads (string_of_list_byte b).

End Json.

(** * Properties *)

Ltac msimpl :=
  repeat (progress (unfold mbind, M_bind, mret, M_ret, Result_bind, Result_ret,
                      get_state, put_state, modify, raise, lift_result,
                      Market.of_result, Market.db_op, Market.db_upd,
                      Market.on_db in *; simpl in * )).

(** ** Invariants along a computation *)

Definition preserves {S A} (P : S -> Prop) (m : M S A) : Prop :=
  forall s, P s -> P (snd (m s)).

Lemma preserves_ret {S A} (P : S -> Prop) (a : A) : preserves P (mret a).
Proof. intros s H. exact H. Qed.

Lemma preserves_raise {S A} (P : S -> Prop) msg : preserves P (@raise S A msg).
Proof. intros s H. exact H. Qed.

Lemma preserves_get {S} (P : S -> Prop) : preserves P get_state.
Proof. intros s H. exact H. Qed.

Lemma preserves_modify {S} (P : S -> Prop) (f : S -> S) :
  (forall s, P s -> P (f s)) -> preserves P (modify f).
Proof. intros Hf s H. now apply Hf. Qed.

Lemma preserves_bind {S A B} (P : S -> Prop) (m : M S A) (k : A -> M S B) :
  preserves P m -> (forall a, preserves P (k a)) -> preserves P (m ≫= k).
Proof.
  intros Hm Hk s H. unfold mbind, M_bind.
  specialize (Hm s H). destruct (m s) as [[a|e] s']; simpl in *.
  - now apply Hk.
  - exact Hm.
Qed.

(** An invariant that may use what the computation has just read. *)
Lemma preserves_bind_get {S B} (P : S -> Prop) (k : S -> M S B) :
  (forall s, P s -> P (snd (k s s))) -> preserves P (get_state ≫= k).
Proof. intros Hk s H. unfold mbind, M_bind, get_state. simpl. now apply Hk. Qed.

Lemma preserves_bind_read {S B} (P : S -> Prop) (k : S -> M S B) :
  (forall s0, P s0 -> preserves P (k s0)) -> preserves P (get_state ≫= k).
Proof. intros Hk s H. unfold mbind, M_bind, get_state. simpl. now apply Hk. Qed.

Lemma preserves_of_result {S A} (P : S -> Prop) (r : Result A) :
  preserves P (Market.of_result r).
Proof. intros s H. exact H. Qed.

(** ** Ranking orders, in the words of the specification *)

Definition feedback_score (it : Item.t) : Z := Feedback.score (Item.feedback it).

Definition item_id_le (a b : Item.t) : Prop :=
  ItemId.category (Item.item_id a) < ItemId.category (Item.item_id b) \/
  (ItemId.category (Item.item_id a) = ItemId.category (Item.item_id b) /\
   ItemId.number (Item.item_id a) <= ItemId.number (Item.item_id b)).

(** [a.sale_price < b.sale_price] and [a.sale_price == b.sale_price] *)
Definition price_lt (a b : Item.t) : Prop :=
  PyFloat.ltb (Item.sale_price a) (Item.sale_price b) = true.

Definition price_eq (a b : Item.t) : Prop :=
  PyFloat.eqb (Item.sale_price a) (Item.sale_price b) = true.

Definition price_then_id (a b : Item.t) : Prop :=
  price_lt a b \/ (price_eq a b /\ item_id_le a b).

(** feedback score descending, then price ascending, then ItemId ascending *)
Definition ranks_before (a b : Item.t) : Prop :=
  feedback_score a > feedback_score b \/
  (feedback_score a = feedback_score b /\ price_then_id a b).

(** match score descending, then the order above *)
Definition ranks_before_matching (score : Item.t -> Z) (a b : Item.t) : Prop :=
  score a > score b \/ (score a = score b /\ ranks_before a b).

(** The price of the item is a number. *)
Definition priced (it : Item.t) : Prop :=
  PyFloat.is_nan (Item.sale_price it) = false.

#[global] Instance priced_dec it : Decision (priced it).
Proof. unfold priced. apply _. Defined.

(** ** Floats that are not NaN are totally ordered *)

Module FloatOrder.

Definition cmp_ZZZ : Z * Z * Z -> Z * Z * Z -> comparison :=
  cmp_pair (cmp_pair Z.compare Z.compare) Z.compare.

(** The place of a float on the line: the infinities at the ends, the two
    zeros together, a larger exponent further from zero. A NaN, which has no
    place, is put last. *)
Definition rank (x : PyFloat.t) : Z * Z * Z :=
  match x with
  | SpecFloat.S754_nan => (3, 0, 0)
  | SpecFloat.S754_infinity false => (2, 0, 0)
  | SpecFloat.S754_infinity true => (-2, 0, 0)
  | SpecFloat.S754_zero _ => (0, 0, 0)
  | SpecFloat.S754_finite false m e => (1, e, Zpos m)
  | SpecFloat.S754_finite true m e => (-1, - e, Zneg m)
  end.

Definition compare (x y : PyFloat.t) : comparison := cmp_ZZZ (rank x) (rank y).

Lemma cmp_on {A B} (cmp : B -> B -> comparison) (f : A -> B) :
  CmpOrder cmp -> CmpOrder (fun x y => cmp (f x) (f y)).
Proof.
  intros H. split.
  - intros x y. apply cmp_antisym.
  - intros c x y z. apply cmp_trans.
  - intros x y z. apply cmp_eq_l.
Qed.

#[global] Instance compare_CmpOrder : CmpOrder compare.
Proof. unfold compare. apply cmp_on. apply _. Qed.

Lemma SFcompare_compare x y :
  PyFloat.is_nan x = false -> PyFloat.is_nan y = false ->
  SpecFloat.SFcompare x y = Some (compare x y).
Proof.
  destruct x as [sx|sx| |sx mx ex], y as [sy|sy| |sy my ey];
    try discriminate; intros _ _;
    try (destruct sx, sy; reflexivity); try (destruct sx; reflexivity);
    try (destruct sy; reflexivity).
  unfold compare, cmp_ZZZ, cmp_pair, lex. simpl.
  destruct sx, sy; simpl; try reflexivity.
  - rewrite Z.compare_opp, (Z.compare_antisym ex ey).
    destruct (ex ?= ey); reflexivity.
  - destruct (ex ?= ey); reflexivity.
Qed.

Lemma ltb_compare x y :
  PyFloat.is_nan x = false -> PyFloat.is_nan y = false ->
  PyFloat.ltb x y = match compare x y with Lt => true | _ => false end.
Proof.
  intros Hx Hy. unfold PyFloat.ltb, SpecFloat.SFltb.
  now rewrite (SFcompare_compare x y Hx Hy).
Qed.

Lemma eqb_compare x y :
  PyFloat.is_nan x = false -> PyFloat.is_nan y = false ->
  PyFloat.eqb x y = match compare x y with Eq => true | _ => false end.
Proof.
  intros Hx Hy. unfold PyFloat.eqb, SpecFloat.SFeqb.
  now rewrite (SFcompare_compare x y Hx Hy).
Qed.

(** Python's [==] and [<] of two keys say what the three-way comparison
    [cmp] says. *)
Record agree {A} (o : PyOrd A) (cmp : A -> A -> comparison) (x y : A) : Prop := {
  agree_eq : py_eq o x y = match cmp x y with Eq => true | _ => false end;
  agree_eq_sym : py_eq o y x = match cmp x y with Eq => true | _ => false end;
  agree_lt : py_lt o x y = match cmp x y with Lt => true | _ => false end;
  agree_gt : py_lt o y x = match cmp x y with Gt => true | _ => false end
}.

Lemma agree_Z x y : agree ord_Z Z.compare x y.
Proof.
  split; simpl.
  - destruct (Z.compare_spec x y); [now apply Z.eqb_eq | |]; apply Z.eqb_neq; lia.
  - destruct (Z.compare_spec x y); [now apply Z.eqb_eq | |]; apply Z.eqb_neq; lia.
  - destruct (Z.compare_spec x y); [apply Z.ltb_ge | apply Z.ltb_lt | apply Z.ltb_ge]; lia.
  - destruct (Z.compare_spec x y); [apply Z.ltb_ge | apply Z.ltb_ge | apply Z.ltb_lt]; lia.
Qed.

Lemma agree_float x y :
  PyFloat.is_nan x = false -> PyFloat.is_nan y = false ->
  agree ord_float compare x y.
Proof.
  intros Hx Hy. split; simpl.
  - now apply eqb_compare.
  - rewrite (eqb_compare y x Hy Hx), (cmp_antisym (cmp:=compare) x y).
    now destruct (compare x y).
  - now apply ltb_compare.
  - rewrite (ltb_compare y x Hy Hx), (cmp_antisym (cmp:=compare) x y).
    now destruct (compare x y).
Qed.

Lemma agree_pair {A B} (oa : PyOrd A) (ob : PyOrd B) ca cb (x y : A * B) :
  agree oa ca (fst x) (fst y) -> agree ob cb (snd x) (snd y) ->
  agree (ord_pair oa ob) (cmp_pair ca cb) x y.
Proof.
  intros [Ha1 Ha2 Ha3 Ha4] [Hb1 Hb2 Hb3 Hb4]. unfold cmp_pair, lex.
  split; simpl; rewrite ?Ha1, ?Ha2, ?Ha3, ?Ha4, ?Hb1, ?Hb2, ?Hb3, ?Hb4;
    now destruct (ca (fst x) (fst y)).
Qed.

Lemma agree_py_cmp {A} (o : PyOrd A) cmp (x y : A) :
  agree o cmp x y -> py_cmp o x y = cmp x y.
Proof.
  intros [_ _ H3 H4]. unfold py_cmp. rewrite H3, H4. now destruct (cmp x y).
Qed.

(** The keys of [ProductDB.search] under the total order. *)
Definition tcmp_ZFZZ
  : (Z * PyFloat.t * Z * Z) -> (Z * PyFloat.t * Z * Z) -> comparison :=
  cmp_pair (cmp_pair (cmp_pair Z.compare compare) Z.compare) Z.compare.

Definition tcmp_ZZFZZ
  : (Z * Z * PyFloat.t * Z * Z) -> (Z * Z * PyFloat.t * Z * Z) -> comparison :=
  cmp_pair
    (cmp_pair (cmp_pair (cmp_pair Z.compare Z.compare) compare) Z.compare)
    Z.compare.

Lemma key_cmp a b :
  priced a -> priced b ->
  cmp_ZFZZ (ProductDB.key a) (ProductDB.key b) =
  tcmp_ZFZZ (ProductDB.key a) (ProductDB.key b).
Proof.
  intros Ha Hb. apply agree_py_cmp.
  repeat apply agree_pair; simpl;
    first [apply agree_Z | now apply agree_float].
Qed.

Lemma sort_key_cmp (p q : Z * Item.t) :
  priced (snd p) -> priced (snd q) ->
  cmp_ZZFZZ (ProductDB.sort_key p) (ProductDB.sort_key q) =
  tcmp_ZZFZZ (ProductDB.sort_key p) (ProductDB.sort_key q).
Proof.
  destruct p as [s a], q as [s' b]. simpl. intros Ha Hb. apply agree_py_cmp.
  repeat apply agree_pair; simpl;
    first [apply agree_Z | now apply agree_float].
Qed.

(** Two comparisons that agree on the keys of a list sort it alike. *)
Lemma insert_by_ext {A K} (c1 c2 : K -> K -> comparison) (key : A -> K) x l :
  Forall (fun y => c1 (key x) (key y) = c2 (key x) (key y)) l ->
  insert_by c1 key x l = insert_by c2 key x l.
Proof.
  induction 1 as [|y l Hy _ IH]; simpl; [reflexivity|].
  unfold cmp_le. rewrite Hy, IH. reflexivity.
Qed.

Lemma sorted_ext {A K} (c1 c2 : K -> K -> comparison) (key : A -> K)
    (P : A -> Prop) l :
  (forall x y, P x -> P y -> c1 (key x) (key y) = c2 (key x) (key y)) ->
  Forall P l -> sorted c1 key l = sorted c2 key l.
Proof.
  intros Hc. induction 1 as [|x l Hx Hl IH]; simpl; [reflexivity|].
  rewrite IH. apply insert_by_ext.
  apply Forall_forall. intros y Hy. apply Hc; [exact Hx|].
  rewrite sorted_Permutation in Hy. rewrite Forall_forall in Hl. auto.
Qed.

Lemma float_cases x y :
  PyFloat.is_nan x = false -> PyFloat.is_nan y = false ->
  match compare x y with
  | Lt => PyFloat.ltb x y = true /\ PyFloat.eqb x y = false /\ PyFloat.ltb y x = false
  | Eq => PyFloat.ltb x y = false /\ PyFloat.eqb x y = true /\ PyFloat.ltb y x = false
  | Gt => PyFloat.ltb x y = false /\ PyFloat.eqb x y = false /\ PyFloat.ltb y x = true
  end.
Proof.
  intros Hx Hy. destruct (agree_float x y Hx Hy) as [H1 _ H3 H4]. simpl in *.
  rewrite H1, H3, H4. now destruct (compare x y).
Qed.

End FloatOrder.

Lemma key_le_ranks_before a b :
  priced a -> priced b ->
  key_le FloatOrder.tcmp_ZFZZ ProductDB.key a b <-> ranks_before a b.
Proof.
  intros Ha Hb.
  pose proof (FloatOrder.float_cases _ _ Ha Hb) as Hf.
  unfold key_le, cmp_le, FloatOrder.tcmp_ZFZZ, cmp_pair, lex, ProductDB.key,
    ranks_before, price_then_id, price_lt, price_eq, item_id_le, feedback_score;
    simpl.
  destruct (Z.compare_spec (- Feedback.score (Item.feedback a))
              (- Feedback.score (Item.feedback b))) as [H1|H1|H1];
  destruct (FloatOrder.compare (Item.sale_price a) (Item.sale_price b));
  destruct Hf as (Hf1 & Hf2 & Hf3); rewrite Hf1, Hf2;
  destruct (Z.compare_spec (ItemId.category (Item.item_id a))
              (ItemId.category (Item.item_id b))) as [H3|H3|H3];
  destruct (Z.compare_spec (ItemId.number (Item.item_id a))
              (ItemId.number (Item.item_id b))) as [H4|H4|H4];
  (split; [intros H; try discriminate H; try lia; try (right; split; [lia|]);
           try (now left); try (right; split; [reflexivity|lia])
          | intros [H|[H [H'|[H' H'']]]]; try reflexivity; try lia;
            try discriminate ]).
Qed.

Lemma lex_assoc a b c : lex (lex a b) c = lex a (lex b c).
Proof. now destruct a. Qed.

Lemma sort_key_le_ranks_before_matching s1 a s2 b :
  priced a -> priced b ->
  key_le FloatOrder.tcmp_ZZFZZ ProductDB.sort_key (s1, a) (s2, b) <->
  s1 > s2 \/ (s1 = s2 /\ ranks_before a b).
Proof.
  intros Ha Hb. rewrite <- (key_le_ranks_before a b Ha Hb).
  unfold key_le, cmp_le, FloatOrder.tcmp_ZZFZZ, FloatOrder.tcmp_ZFZZ, cmp_pair,
    ProductDB.sort_key, ProductDB.key; simpl.
  rewrite !lex_assoc.
  destruct (Z.compare_spec (- s1) (- s2)) as [H|H|H]; simpl.
  - split; [intros H'; right; split; [lia | exact H'] | intros [H'|[_ H']]; [lia | exact H']].
  - split; [intros _; left; lia | reflexivity].
  - split; [discriminate | intros [H'|[H' _]]; lia].
Qed.

Lemma StronglySorted_impl {A} (R R' : A -> A -> Prop) l :
  (forall a b, R a b -> R' a b) -> StronglySorted R l -> StronglySorted R' l.
Proof.
  intros HR. induction 1 as [|x l Hs IH Hall]; constructor; [assumption|].
  eapply Forall_impl; [exact Hall | auto].
Qed.

Lemma StronglySorted_impl_in {A} (R R' : A -> A -> Prop) l :
  (forall a b, a ∈ l -> b ∈ l -> R a b -> R' a b) ->
  StronglySorted R l -> StronglySorted R' l.
Proof.
  intros HR Hs. induction Hs as [|x l Hs IH Hall]; constructor.
  - apply IH. intros a b Ha Hb. apply HR; now right.
  - apply Forall_forall. intros y Hy. apply HR; [left | now right |].
    rewrite Forall_forall in Hall. now apply Hall.
Qed.

Lemma StronglySorted_map_snd {A B} (R : A * B -> A * B -> Prop)
    (R' : B -> B -> Prop) l :
  (forall p q, p ∈ l -> q ∈ l -> R p q -> R' (snd p) (snd q)) ->
  StronglySorted R l -> StronglySorted R' (map snd l).
Proof.
  intros HR Hs. induction Hs as [|x l Hs IH Hall]; simpl; constructor.
  - apply IH. intros p q Hp Hq. apply HR; now right.
  - apply Forall_forall. intros y Hy.
    apply list_elem_of_In, in_map_iff in Hy as [q [<- Hq]].
    apply list_elem_of_In in Hq.
    apply HR; [left | now right |].
    rewrite Forall_forall in Hall. now apply Hall.
Qed.

(** A sorted arrangement of three items that are strictly ordered is unique. *)
Lemma Permutation_three {A} (a b c : A) l :
  l ≡ₚ [a; b; c] ->
  l = [a; b; c] \/ l = [a; c; b] \/ l = [b; a; c] \/
  l = [b; c; a] \/ l = [c; a; b] \/ l = [c; b; a].
Proof.
  intros H.
  apply Permutation_cons_inv_r in H as (k1 & k2 & -> & H).
  apply Permutation_length_2_inv in H.
  destruct k1 as [|x [|y [|z k1]]]; simpl in *;
    destruct H as [H|H]; inversion H; subst; auto 10.
  all: try (destruct k1; discriminate).
Qed.

Module ProductSearch.

Lemma search_without_keywords category keywords db :
  ProductDB.normalize_query keywords = [] ->
  ProductDB.search category keywords db =
    Ok (sorted cmp_ZFZZ ProductDB.key (ProductDB.candidates category db)).
Proof.
  intros Hq. unfold ProductDB.search. rewrite Hq. reflexivity.
Qed.

(** Without a NaN among the prices the sort is by the total order. *)
Lemma sorted_priced l :
  Forall priced l ->
  sorted cmp_ZFZZ ProductDB.key l = sorted FloatOrder.tcmp_ZFZZ ProductDB.key l.
Proof. apply FloatOrder.sorted_ext. exact FloatOrder.key_cmp. Qed.

Lemma sorted_scored_priced (l : list (Z * Item.t)) :
  Forall (fun p => priced (snd p)) l ->
  sorted cmp_ZZFZZ ProductDB.sort_key l =
  sorted FloatOrder.tcmp_ZZFZZ ProductDB.sort_key l.
Proof.
  apply (FloatOrder.sorted_ext _ _ _ (fun p => priced (snd p))).
  exact FloatOrder.sort_key_cmp.
Qed.

Lemma sorted_ranks_before l :
  Forall priced l ->
  StronglySorted ranks_before (sorted cmp_ZFZZ ProductDB.key l).
Proof.
  intros Hl. rewrite (sorted_priced l Hl).
  eapply StronglySorted_impl_in; [|apply sorted_StronglySorted; apply _].
  intros a b Ha Hb. rewrite sorted_Permutation in Ha, Hb.
  rewrite Forall_forall in Hl. apply key_le_ranks_before; auto.
Qed.

Lemma search_with_keywords category keywords db :
  let q := ProductDB.normalize_query keywords in
  q <> [] -> (length q <= 5)%nat -> Forall (fun k => PyStr.len k <= 8) q ->
  ProductDB.search category keywords db =
    Ok (map snd (sorted cmp_ZZFZZ ProductDB.sort_key
                   (ProductDB.scored q (ProductDB.candidates category db)))).
Proof.
  intros q Hne Hlen Hall. unfold ProductDB.search. fold q.
  destruct (Z.gtb_spec (Z.of_nat (length q)) 5) as [H|_]; [lia|].
  assert (existsb (fun k => PyStr.len k >? 8) q = false) as ->.
  { apply not_true_iff_false. rewrite existsb_exists. intros (k & Hk & Hgt).
    rewrite Forall_forall in Hall. apply list_elem_of_In, Hall in Hk. lia. }
  destruct q; [congruence | reflexivity].
Qed.

Lemma sorted_three (X Y Z : Item.t) l :
  l ≡ₚ [X; Y; Z] ->
  ranks_before Y X -> ~ ranks_before X Y ->
  ranks_before X Z -> ~ ranks_before Z X ->
  ranks_before Y Z -> ~ ranks_before Z Y ->
  priced X -> priced Y -> priced Z ->
  sorted cmp_ZFZZ ProductDB.key l = [Y; X; Z].
Proof.
  intros Hl HYX HXY HXZ HZX HYZ HZY HpX HpY HpZ.
  assert (Hpl : Forall priced l).
  { rewrite Hl. repeat constructor; assumption. }
  assert (Hs := sorted_ranks_before l Hpl).
  assert (Hp : sorted cmp_ZFZZ ProductDB.key l ≡ₚ [X; Y; Z])
    by (now rewrite sorted_Permutation).
  apply Permutation_three in Hp.
  destruct Hp as [Hp|[Hp|[Hp|[Hp|[Hp|Hp]]]]]; rewrite Hp in Hs |- *;
    try reflexivity; exfalso;
    repeat match goal with
    | H : StronglySorted _ (_ :: _) |- _ =>
        apply StronglySorted_inv in H; destruct H
    | H : Forall _ (_ :: _) |- _ =>
        apply Forall_cons in H; destruct H
    end; tauto.
Qed.

End ProductSearch.

Lemma map_snd_filter_scored {A} (g : A -> Z) (P : Z * A -> bool) (l : list A) :
  map snd (filter (fun p => P p) (map (fun a => (g a, a)) l)) =
  filter (fun a => P (g a, a)) l.
Proof.
  induction l as [|a l IH]; [reflexivity|]. simpl.
  rewrite !filter_cons. destruct (P (g a, a)); simpl; now rewrite IH.
Qed.

Lemma scored_fst {A} (g : A -> Z) (P : Z * A -> bool) (l : list A) p :
  p ∈ filter (fun p => P p) (map (fun a => (g a, a)) l) -> fst p = g (snd p).
Proof.
  intros [Hp Hin]%list_elem_of_filter.
  apply list_elem_of_In, in_map_iff in Hin as [a [<- _]]. reflexivity.
Qed.

Module HandlerSearch.
Import Market.

(** The consolidated handler's order: match score descending, then thumbs-up
    count descending, then creation time descending (newest first). *)
Definition handler_ranks_before (score : Item.t -> Z) (a b : Item.t) : Prop :=
  score a > score b \/
  (score a = score b /\
   (Feedback.thumbs_up (Item.feedback a) > Feedback.thumbs_up (Item.feedback b) \/
    (Feedback.thumbs_up (Item.feedback a) = Feedback.thumbs_up (Item.feedback b) /\
     (Item.created_at b <= Item.created_at a)%Q))).

Lemma search_sort_key_le s1 a s2 b :
  key_le cmp_ZZQ search_sort_key (s1, a) (s2, b) <->
  s1 > s2 \/
  (s1 = s2 /\
   (Feedback.thumbs_up (Item.feedback a) > Feedback.thumbs_up (Item.feedback b) \/
    (Feedback.thumbs_up (Item.feedback a) = Feedback.thumbs_up (Item.feedback b) /\
     (Item.created_at b <= Item.created_at a)%Q))).
Proof.
  unfold key_le, cmp_le, cmp_ZZQ, cmp_pair, lex, search_sort_key; simpl.
  destruct (Z.compare_spec (- s1) (- s2)) as [H1|H1|H1];
  destruct (Z.compare_spec (- Feedback.thumbs_up (Item.feedback a))
              (- Feedback.thumbs_up (Item.feedback b))) as [H2|H2|H2];
  destruct (Qcompare_spec (- Item.created_at a) (- Item.created_at b)) as [H3|H3|H3];
  (split;
   [ intros H;
     first [ discriminate H | left; lia
           | right; split; [lia|];
             first [ left; lia | right; split; [lia | lra] ] ]
   | intros [H|[H [H'|[H' H'']]]]; first [ reflexivity | lia | lra ] ]).
Qed.

Definition score_of (keywords : list string) (it : Item.t) : Z :=
  _score_item_keywords (Item.keywords it) keywords.

Definition kept (keywords : list string) (it : Item.t) : bool :=
  negb (negb (bool_decide (keywords = [])) && (score_of keywords it =? 0)).

Lemma filter_kept_nil (l : list Item.t) : filter (fun it => kept [] it) l = l.
Proof.
  induction l as [|a l IH]; [reflexivity|].
  rewrite filter_cons_True; [now rewrite IH | exact I].
Qed.

Lemma handler_search_result category keywords kws st :
  _parse_keywords keywords = Ok kws ->
  exists out,
    search_items_for_sale category keywords st = Ok out /\
    map fst out ≡ₚ
      filter (fun it => kept kws it)
        (search_candidates category (InMemoryDB.list_items (db st))) /\
    StronglySorted (handler_ranks_before (score_of kws)) (map fst out) /\
    Forall (fun p => snd p = score_of kws (fst p)) out.
Proof.
  intros Hk. unfold search_items_for_sale. rewrite Hk. simpl.
  set (cands := search_candidates category (InMemoryDB.list_items (db st))).
  set (srt := sorted cmp_ZZQ search_sort_key (search_scored kws cands)).
  assert (Hfst : forall p, p ∈ srt -> fst p = score_of kws (snd p)).
  { intros p Hp. unfold srt in Hp. rewrite sorted_Permutation in Hp.
    unfold search_scored in Hp.
    exact (scored_fst (score_of kws)
             (fun p => negb (negb (bool_decide (kws = [])) && (fst p =? 0))) cands p Hp). }
  exists (map (fun x => (snd x, fst x)) srt). split; [reflexivity|].
  rewrite map_map. simpl. fold (@snd Z Item.t). split; [|split].
  - change (map (fun x : Z * Item.t => snd x) srt) with (map snd srt).
    unfold srt. rewrite sorted_Permutation. unfold search_scored.
    now rewrite (map_snd_filter_scored (score_of kws)
                   (fun p => negb (negb (bool_decide (kws = [])) && (fst p =? 0)))).
  - change (map (fun x : Z * Item.t => snd x) srt) with (map snd srt).
    eapply StronglySorted_map_snd; [|apply sorted_StronglySorted; apply _].
    intros [s1 a] [s2 b] Hp Hq Hle. apply search_sort_key_le in Hle.
    apply Hfst in Hp, Hq. simpl in *. subst. exact Hle.
  - apply Forall_forall. intros p Hp.
    apply list_elem_of_In, in_map_iff in Hp as [x [<- Hx]]. simpl.
    apply Hfst. now apply list_elem_of_In.
Qed.

End HandlerSearch.

(** ** C1: search without keywords *)

Module RankingScenario.

(** Category 1 holds Y (price 10), X (price 50) and Z (price 5), registered in
    this order; X and Y get three thumbs up, Z gets one. *)
Definition attrs_of (name : string) (price : Z) : ProductDB.attrs :=
  ProductDB.mk_attrs name 1 "new" (PyFloat.nearest price) 1 [].

Definition product_requests : list ProductDB.request :=
  [ ProductDB.register_item_req 3 1 (attrs_of "Y" 10);
    ProductDB.register_item_req 4 1 (attrs_of "X" 50);
    ProductDB.register_item_req 5 1 (attrs_of "Z" 5);
    ProductDB.provide_feedback_req (ItemId.mk 1 1) ProductDB.vote_up;
    ProductDB.provide_feedback_req (ItemId.mk 1 1) ProductDB.vote_up;
    ProductDB.provide_feedback_req (ItemId.mk 1 1) ProductDB.vote_up;
    ProductDB.provide_feedback_req (ItemId.mk 1 2) ProductDB.vote_up;
    ProductDB.provide_feedback_req (ItemId.mk 1 2) ProductDB.vote_up;
    ProductDB.provide_feedback_req (ItemId.mk 1 2) ProductDB.vote_up;
    ProductDB.provide_feedback_req (ItemId.mk 1 3) ProductDB.vote_up ].

Definition product_db : ProductDB.t := ProductDB.run product_requests ProductDB.init.

Definition item (number : Z) (name : string) (price : Z) (up : Z) (at_ : Q)
  : Item.t :=
  Item.mk (ItemId.mk 1 number) 1 name 1 [] cond_new (PyFloat.nearest price) 1
    (Feedback.mk up 0) at_.

Definition Y : Item.t := item 1 "Y" 10 3 3.
Definition X : Item.t := item 2 "X" 50 3 4.
Definition Z : Item.t := item 3 "Z" 5 1 5.

(** The same catalogue in the consolidated server; the passwords are compared
    through an arbitrary hash, here the identity. *)
Definition market_requests : list Market.request :=
  [ Market.SellerReq 1 "s1" (Market.SCreateAccount "sam" "pw");
    Market.SellerReq 2 "s1" (Market.SLogin (Some 1) "" "pw");
    Market.SellerReq 3 ""
      (Market.RegisterItemForSale "s1" "Y" 1 [] "new" (PyFloat.nearest 10) 1);
    Market.SellerReq 4 ""
      (Market.RegisterItemForSale "s1" "X" 1 [] "new" (PyFloat.nearest 50) 1);
    Market.SellerReq 5 ""
      (Market.RegisterItemForSale "s1" "Z" 1 [] "new" (PyFloat.nearest 5) 1);
    Market.BuyerReq 6 "" (Market.CreateAccount "bob" "pw");
    Market.BuyerReq 7 "b1" (Market.Login (Some 1) "" "pw");
    Market.BuyerReq 8 "" (Market.ProvideFeedback "b1" (ItemId.mk 1 1) 1 0);
    Market.BuyerReq 8 "" (Market.ProvideFeedback "b1" (ItemId.mk 1 1) 1 0);
    Market.BuyerReq 8 "" (Market.ProvideFeedback "b1" (ItemId.mk 1 1) 1 0);
    Market.BuyerReq 8 "" (Market.ProvideFeedback "b1" (ItemId.mk 1 2) 1 0);
    Market.BuyerReq 8 "" (Market.ProvideFeedback "b1" (ItemId.mk 1 2) 1 0);
    Market.BuyerReq 8 "" (Market.ProvideFeedback "b1" (ItemId.mk 1 2) 1 0);
    Market.BuyerReq 8 "" (Market.ProvideFeedback "b1" (ItemId.mk 1 3) 1 0) ].

Definition market_state : Market.MarketState :=
  Market.run (fun pw => pw) market_requests Market.init.

End RankingScenario.

(** C1 (as amended). [ProductDB.search] with a category and no (non-blank)
    keyword returns exactly the items of the category with quantity > 0; when
    none of them has a NaN for its price, they are sorted by feedback score
    descending, then price ascending, then ItemId ascending. (A NaN passes
    the price checks of the store, and Python's sort does not order keys that
    hold one.) For a category holding X (50, +3), Y (10, +3), Z (5, +1) the
    search returns Y, X, Z. The consolidated handler's search returns the same
    items ordered by thumbs-up count descending, then creation time
    descending. *)
Theorem search_no_keywords_ranking :
  (forall db category keywords,
     ProductDB.normalize_query keywords = [] ->
     exists out,
       ProductDB.search category keywords db = Ok out /\
       out ≡ₚ filter (fun it => (Item.category it =? category) &&
                                (Item.quantity it >? 0))
                (PyDict.values (ProductDB.items db)) /\
       (Forall priced out -> StronglySorted ranks_before out)) /\
  (forall db category keywords X Y Z,
     ProductDB.normalize_query keywords = [] ->
     ProductDB.candidates category db ≡ₚ [X; Y; Z] ->
     Item.sale_price X = PyFloat.nearest 50 -> feedback_score X = 3 ->
     Item.sale_price Y = PyFloat.nearest 10 -> feedback_score Y = 3 ->
     Item.sale_price Z = PyFloat.nearest 5 -> feedback_score Z = 1 ->
     ProductDB.search category keywords db = Ok [Y; X; Z]) /\
  (forall st category,
     exists out,
       Market.search_items_for_sale category [] st = Ok out /\
       map fst out ≡ₚ
         filter (fun it => (Item.category it =? category) &&
                           (Item.quantity it >? 0))
           (InMemoryDB.list_items (Market.db st)) /\
       StronglySorted (HandlerSearch.handler_ranks_before (fun _ => 0))
         (map fst out)).
Proof.
  split; [|split].
  - intros db category keywords Hq.
    rewrite (ProductSearch.search_without_keywords _ _ _ Hq).
    eexists. split; [reflexivity|]. split.
    + apply sorted_Permutation.
    + intros Hp. apply ProductSearch.sorted_ranks_before.
      now rewrite sorted_Permutation in Hp.
  - intros db category keywords X Y Z Hq Hperm HpX HsX HpY HsY HpZ HsZ.
    rewrite (ProductSearch.search_without_keywords _ _ _ Hq). f_equal.
    apply ProductSearch.sorted_three; [exact Hperm|..];
      unfold ranks_before, price_then_id, price_lt, price_eq, priced;
      rewrite ?HpX, ?HsX, ?HpY, ?HsY, ?HpZ, ?HsZ.
    + right. split; [reflexivity|]. left. reflexivity.
    + intros [H|[_ [H|[H _]]]]; [lia | discriminate H | discriminate H].
    + left. lia.
    + intros [H|[H _]]; lia.
    + left. lia.
    + intros [H|[H _]]; lia.
    + reflexivity.
    + reflexivity.
    + reflexivity.
  - intros st category.
    destruct (HandlerSearch.handler_search_result category [] [] st eq_refl)
      as (out & Hout & Hperm & Hsorted & _).
    exists out. split; [exact Hout|]. split.
    + rewrite Hperm. now rewrite HandlerSearch.filter_kept_nil.
    + eapply StronglySorted_impl; [|exact Hsorted]. intros a b H. exact H.
Qed.

Lemma search_no_keywords_ranking_witness :
  ProductDB.search 1 [" "] RankingScenario.product_db =
    Ok [RankingScenario.Y; RankingScenario.X; RankingScenario.Z].
Proof.
  apply (proj1 (proj2 search_no_keywords_ranking)).
  - reflexivity.
  - vm_compute. apply perm_swap.
  - reflexivity.
  - reflexivity.
  - reflexivity.
  - reflexivity.
  - reflexivity.
  - reflexivity.
Defined.

(** C1, counterexample: on the scenario of the claim, with X registered after
    Y, the consolidated handler answers X, Y, Z, which is not in the claimed
    order (Y is cheaper than X at equal feedback score). *)
Lemma handler_search_newest_first :
  fst (Market.handle_buyer (fun pw => pw) 9 ""
         (Market.SearchItemsForSale "b1" 1 []) RankingScenario.market_state) =
    Ok (Market.R_items
          [(RankingScenario.X, 0); (RankingScenario.Y, 0); (RankingScenario.Z, 0)]) /\
  Item.sale_price RankingScenario.X = PyFloat.nearest 50 /\
  feedback_score RankingScenario.X = 3 /\
  Item.sale_price RankingScenario.Y = PyFloat.nearest 10 /\
  feedback_score RankingScenario.Y = 3 /\
  Item.sale_price RankingScenario.Z = PyFloat.nearest 5 /\
  feedback_score RankingScenario.Z = 1 /\
  ~ ranks_before RankingScenario.X RankingScenario.Y.
Proof.
  repeat split; try (vm_compute; reflexivity).
  intros [H|[_ [H|[H _]]]]; [vm_compute in H; discriminate H | discriminate H | discriminate H].
Qed.

Module NanScenario.

(** Category 1 holds, in the order of their registration, X (price 50),
    N (price NaN) and Y (price 10), none of them with feedback. *)
Definition item (number : Z) (name : string) (price : PyFloat.t) (at_ : Q)
  : Item.t :=
  Item.mk (ItemId.mk 1 number) 1 name 1 [] cond_new price 1 (Feedback.mk 0 0) at_.

Definition X : Item.t := item 1 "X" (PyFloat.nearest 50) 3.
Definition N : Item.t := item 2 "N" PyFloat.nan 4.
Definition Y : Item.t := item 3 "Y" (PyFloat.nearest 10) 5.

Definition product_db : ProductDB.t :=
  ProductDB.run
    [ ProductDB.register_item_req 3 1
        (ProductDB.mk_attrs "X" 1 "new" (PyFloat.nearest 50) 1 []);
      ProductDB.register_item_req 4 1
        (ProductDB.mk_attrs "N" 1 "new" PyFloat.nan 1 []);
      ProductDB.register_item_req 5 1
        (ProductDB.mk_attrs "Y" 1 "new" (PyFloat.nearest 10) 1 []) ]
    ProductDB.init.

End NanScenario.

(** Why C1 and C2 set the NaN apart. The store accepts a NaN as a price, and
    with one among the candidates the answer need not be in the order of the
    prices: neither [key N < key X] nor [key Y < key N] holds, so the sort
    finds the three keys in order as they are and X (50) stays before
    Y (10), at equal feedback score. *)
Lemma nan_price_leaves_unsorted :
  ProductDB.candidates 1 NanScenario.product_db =
    [NanScenario.X; NanScenario.N; NanScenario.Y] /\
  py_lt ord_ZFZZ (ProductDB.key NanScenario.N) (ProductDB.key NanScenario.X)
    = false /\
  py_lt ord_ZFZZ (ProductDB.key NanScenario.Y) (ProductDB.key NanScenario.N)
    = false /\
  ProductDB.search 1 [] NanScenario.product_db =
    Ok [NanScenario.X; NanScenario.N; NanScenario.Y] /\
  feedback_score NanScenario.X = feedback_score NanScenario.Y /\
  price_lt NanScenario.Y NanScenario.X.
Proof.
  repeat split; vm_compute; reflexivity.
Qed.

(** ** C2: search with keywords *)

Lemma PyStr_elem_spec x xs : PyStr.elem x xs = true <-> x ∈ xs.
Proof.
  unfold PyStr.elem, PyStr.eqb. rewrite existsb_exists. split.
  - intros (y & Hy & Heq). apply bool_decide_eq_true in Heq. subst.
    now apply list_elem_of_In.
  - intros H. exists x. split; [now apply list_elem_of_In|].
    now apply bool_decide_eq_true.
Qed.

(** A query keyword matches an item when it equals, case-insensitively, a
    stored keyword of the item or a token of the item's name. *)
Definition keyword_matches (k : string) (it : Item.t) : Prop :=
  Exists (fun w => PyStr.lower w = PyStr.lower k) (Item.keywords it) \/
  PyStr.lower k ∈ ProductDB._tokenize_name (Item.name it).

#[global] Instance keyword_matches_dec k it : Decision (keyword_matches k it).
Proof. unfold keyword_matches. apply _. Defined.

Definition non_blank (k : string) : Prop := PyStr.strip_is_empty k = false.

#[global] Instance non_blank_dec k : Decision (non_blank k).
Proof. unfold non_blank. apply _. Defined.

Lemma length_filter_map {A B} (f : A -> B) (P : B -> bool) (l : list A) :
  length (filter (fun b => P b) (map f l)) = length (filter (fun a => P (f a)) l).
Proof.
  induction l as [|a l IH]; [reflexivity|]. simpl.
  rewrite !filter_cons. destruct (P (f a)); simpl; now rewrite IH.
Qed.

Module KeywordSearch.

Lemma match_score_counts keywords it :
  ProductDB.match_score (ProductDB.normalize_query keywords) it =
  Z.of_nat (length (filter (fun k => keyword_matches k it)
                      (filter non_blank keywords))).
Proof.
  unfold ProductDB.match_score, ProductDB.normalize_query. f_equal.
  rewrite (length_filter_map PyStr.lower
             (fun k => PyStr.elem k (map PyStr.lower (Item.keywords it))
                       || PyStr.elem k (ProductDB._tokenize_name (Item.name it)))).
  f_equal.
  assert (Hnb : filter (fun k => negb (PyStr.strip_is_empty k)) keywords =
                filter non_blank keywords).
  { apply list_filter_iff. intros k. unfold non_blank.
    destruct (PyStr.strip_is_empty k); simpl; split; intros H;
      try reflexivity; try exact I; try discriminate H; try contradiction. }
  rewrite Hnb. apply list_filter_iff. intros k. unfold keyword_matches.
  rewrite Is_true_true, orb_true_iff, !PyStr_elem_spec, Exists_exists.
  apply or_iff_compat_r. split.
  - intros H. apply list_elem_of_In, in_map_iff in H as (w & Hw & Hin).
    exists w. split; [now apply list_elem_of_In | exact Hw].
  - intros (w & Hin & Hw). apply list_elem_of_In, in_map_iff.
    exists w. split; [exact Hw | now apply list_elem_of_In].
Qed.

Lemma scored_items q cands :
  map snd (ProductDB.scored q cands) =
  filter (fun it => ProductDB.match_score q it >? 0) cands.
Proof.
  unfold ProductDB.scored.
  exact (map_snd_filter_scored (ProductDB.match_score q) (fun p => fst p >? 0) cands).
Qed.

Lemma search_keywords_result category keywords db :
  let q := ProductDB.normalize_query keywords in
  q <> [] -> (length q <= 5)%nat -> Forall (fun k => PyStr.len k <= 8) q ->
  exists out,
    ProductDB.search category keywords db = Ok out /\
    out ≡ₚ filter (fun it => ProductDB.match_score q it >? 0)
             (ProductDB.candidates category db) /\
    (Forall priced out ->
     StronglySorted (ranks_before_matching (ProductDB.match_score q)) out).
Proof.
  intros q Hne Hlen Hall.
  rewrite (ProductSearch.search_with_keywords _ _ _ Hne Hlen Hall). fold q.
  eexists. split; [reflexivity|]. split.
  - rewrite <- scored_items. apply Permutation_map. apply sorted_Permutation.
  - intros Hpr.
    set (l := ProductDB.scored q (ProductDB.candidates category db)) in *.
    assert (Hl : Forall (fun p => priced (snd p)) l).
    { rewrite sorted_Permutation in Hpr. rewrite Forall_forall in Hpr.
      apply Forall_forall. intros p Hp. apply Hpr.
      apply list_elem_of_In, in_map, list_elem_of_In. exact Hp. }
    rewrite (ProductSearch.sorted_scored_priced l Hl).
    eapply StronglySorted_map_snd; [|apply sorted_StronglySorted; apply _].
    intros [s1 a] [s2 b] Hp Hq Hle.
    rewrite sorted_Permutation in Hp, Hq.
    rewrite Forall_forall in Hl.
    apply sort_key_le_ranks_before_matching in Hle;
      [|exact (Hl _ Hp) | exact (Hl _ Hq)].
    apply (scored_fst (ProductDB.match_score q) (fun p => fst p >? 0)) in Hp, Hq.
    simpl in *. subst. exact Hle.
Qed.

End KeywordSearch.

Module KeywordScenario.

(** One lamp in category 1: the word "lamp" is in its name, not among its
    stored keywords. *)
Definition lamp : Item.t :=
  Item.mk (ItemId.mk 1 1) 1 "Red Lamp" 1 ["decor"] cond_new
    (PyFloat.nearest 20) 1 (Feedback.mk 0 0) 3.

Definition product_db : ProductDB.t :=
  ProductDB.run
    [ ProductDB.register_item_req 3 1
        (ProductDB.mk_attrs "Red Lamp" 1 "new" (PyFloat.nearest 20) 1
           ["decor"]) ]
    ProductDB.init.

Definition market_state : Market.MarketState :=
  Market.run (fun pw => pw)
    [ Market.SellerReq 1 "s1" (Market.SCreateAccount "sam" "pw");
      Market.SellerReq 2 "s1" (Market.SLogin (Some 1) "" "pw");
      Market.SellerReq 3 ""
        (Market.RegisterItemForSale "s1" "Red Lamp" 1 ["decor"] "new"
           (PyFloat.nearest 20) 1);
      Market.BuyerReq 6 "" (Market.CreateAccount "bob" "pw");
      Market.BuyerReq 7 "b1" (Market.Login (Some 1) "" "pw") ]
    Market.init.

End KeywordScenario.

Lemma handler_score_counts kws it :
  HandlerSearch.score_of kws it =
  Z.of_nat (length (filter
    (fun k => Exists (fun w => PyStr.lower w = PyStr.lower k) (Item.keywords it))
    kws)).
Proof.
  unfold HandlerSearch.score_of, Market._score_item_keywords.
  destruct kws as [|k0 kws]; [reflexivity|]. f_equal. f_equal.
  apply list_filter_iff. intros k.
  rewrite Is_true_true, PyStr_elem_spec, Exists_exists. split.
  - intros H. apply list_elem_of_In, in_map_iff in H as (w & Hw & Hin).
    exists w. split; [now apply list_elem_of_In | exact Hw].
  - intros (w & Hin & Hw). apply list_elem_of_In, in_map_iff.
    exists w. split; [exact Hw | now apply list_elem_of_In].
Qed.




(** ** The session table of the consolidated server *)

Module MarketSessions.
Import Market.

(** The requests that write the session table under [tok]: a login that
    draws this token, and a logout of it. *)
Definition writes_session (tok : string) (r : request) : bool :=
  match r with
  | BuyerReq _ uuid (Login _ _ _) => bool_decide (uuid = tok)
  | BuyerReq _ _ (Logout t) => bool_decide (t = tok)
  | SellerReq _ uuid (SLogin _ _ _) => bool_decide (uuid = tok)
  | SellerReq _ _ (SLogout t) => bool_decide (t = tok)
  | _ => false
  end.

Section frame.
Variables (tok : string) (x : option Session.t).

Definition kept (st : MarketState) : Prop := sessions st !! tok = x.

Lemma db_op_kept {A} (f : InMemoryDB.t -> Result (A * InMemoryDB.t)) :
  preserves kept (db_op f).
Proof. intros st H. unfold db_op. now destruct (f (db st)) as [[a d]|e]. Qed.

Lemma db_upd_kept (f : InMemoryDB.t -> Result InMemoryDB.t) :
  preserves kept (db_upd f).
Proof. apply db_op_kept. Qed.

Lemma on_db_kept {A} (m : M InMemoryDB.t A) : preserves kept (on_db m).
Proof. intros st H. unfold on_db. now destruct (m (db st)). Qed.

Ltac spres :=
  repeat match goal with
    | |- preserves _ (mret _) => apply preserves_ret
    | |- preserves _ (raise _) => apply preserves_raise
    | |- preserves _ (of_result _) => apply preserves_of_result
    | |- preserves _ (modify _) => apply preserves_modify; intros ? ?
    | |- preserves _ (db_op _) => apply db_op_kept
    | |- preserves _ (db_upd _) => apply db_upd_kept
    | |- preserves _ (on_db _) => apply on_db_kept
    | |- preserves _ (get_state ≫= _) => apply preserves_bind_read; intros ? ?
    | |- preserves _ (_ ≫= _) => apply preserves_bind; [|intros ?]
    | |- preserves _ (match ?x with _ => _ end) =>
        first [ is_var x; destruct x
              | let v := fresh "v" in remember x as v eqn:?; destruct v ];
        cbv beta iota
    | |- preserves _ (if ?c then _ else _) =>
        let v := fresh "v" in remember c as v eqn:?; destruct v
    end.

Ltac kept_solve :=
  try assumption;
  unfold kept, create_session, delete_session in *; simpl;
  rewrite ?lookup_insert_ne, ?lookup_delete_ne by congruence; assumption.

Lemma do_purchase_kept now txn_id b : preserves kept (_do_purchase now txn_id b).
Proof. unfold _do_purchase. spres; kept_solve. Qed.

Lemma handle_buyer_kept hash now uuid a :
  writes_session tok (BuyerReq now uuid a) = false ->
  preserves kept (handle_buyer hash now uuid a).
Proof.
  intros Hw.
  destruct a as [name password | [buyer_id|] name password | t | | | | | | | | ];
    simpl in Hw; try apply bool_decide_eq_false in Hw;
    unfold handle_buyer, buyer_login_session; spres;
    try apply do_purchase_kept; kept_solve.
Qed.

Lemma handle_seller_kept hash now uuid a :
  writes_session tok (SellerReq now uuid a) = false ->
  preserves kept (handle_seller hash now uuid a).
Proof.
  intros Hw.
  destruct a as [name password | [seller_id|] name password | t | | | ];
    simpl in Hw; try apply bool_decide_eq_false in Hw;
    unfold handle_seller; spres; kept_solve.
Qed.

End frame.

Lemma step_kept hash tok st r :
  writes_session tok r = false ->
  sessions (step hash st r) !! tok = sessions st !! tok.
Proof.
  intros Hw. unfold step, handle. destruct r as [now uuid a|now uuid a].
  - now apply (handle_buyer_kept tok (sessions st !! tok) hash now uuid a Hw st).
  - now apply (handle_seller_kept tok (sessions st !! tok) hash now uuid a Hw st).
Qed.

Lemma run_kept hash tok rs st :
  Forall (fun r => writes_session tok r = false) rs ->
  sessions (run hash rs st) !! tok = sessions st !! tok.
Proof.
  revert st. induction rs as [|r rs IH]; intros st Hall; [reflexivity|].
  apply Forall_cons in Hall as [Hr Hall]. simpl.
  rewrite IH by exact Hall. now apply step_kept.
Qed.

End MarketSessions.

(** ** C3: lazy session expiry *)

Module SessionExpiry.
Import CustomerDB.

Lemma expired_false_iff now s db :
  expired now s db = false <->
  (now - last_activity s < inject_Z (timeout_seconds db))%Q.
Proof.
  unfold expired. rewrite <- not_true_iff_false, Qle_bool_iff.
  split; [apply Qnot_le_lt | apply Qlt_not_le].
Qed.

Lemma expired_true_iff now s db :
  expired now s db = true <->
  ~ (now - last_activity s < inject_Z (timeout_seconds db))%Q.
Proof.
  rewrite <- expired_false_iff. destruct (expired now s db); split; congruence.
Qed.

Lemma touch_absent now token db :
  sessions db !! token = None -> _touch_or_expire now token db = (None, db).
Proof. intros H. unfold _touch_or_expire. now rewrite H. Qed.

Lemma touch_live now token db s :
  sessions db !! token = Some s ->
  (now - last_activity s < inject_Z (timeout_seconds db))%Q ->
  _touch_or_expire now token db =
    (Some (touch now s), with_sessions (<[token := touch now s]> (sessions db)) db).
Proof.
  intros H Hlt. unfold _touch_or_expire. rewrite H.
  apply expired_false_iff in Hlt. now rewrite Hlt.
Qed.

Lemma touch_expired now token db s :
  sessions db !! token = Some s ->
  ~ (now - last_activity s < inject_Z (timeout_seconds db))%Q ->
  _touch_or_expire now token db =
    (None, with_session_carts (delete token (session_carts db))
             (with_sessions (delete token (sessions db)) db)).
Proof.
  intros H Hge. unfold _touch_or_expire. rewrite H.
  apply expired_true_iff in Hge. now rewrite Hge.
Qed.

End SessionExpiry.

(** C3 (as amended). In the customer store, for a stored session token,
    [_touch_or_expire] at time [now] returns the session with [last_activity]
    set to [now] (and stores it so) when [now - last_activity] is strictly
    below the timeout; otherwise it removes the session and its active cart
    from the tables and returns none, other tokens being untouched in both
    cases. An absent token yields none and leaves the store unchanged, and
    so does every later access to a token that has expired: the two cannot
    be told apart. The consolidated server has no such expiry: a [Session]
    there records no last activity and the state no timeout, [get_session]
    is a lookup that no clock reading enters, and a request, whatever its
    time, leaves what the table holds under a token as it was unless it is a
    login that draws this token or a logout of it. *)
Theorem touch_or_expire_spec :
  (forall (db : CustomerDB.t) (token : string) (now : Q),
    match CustomerDB.sessions db !! token with
    | None => CustomerDB._touch_or_expire now token db = (None, db)
    | Some s =>
        let '(r, db') := CustomerDB._touch_or_expire now token db in
        (forall other, other <> token ->
           CustomerDB.sessions db' !! other = CustomerDB.sessions db !! other /\
           CustomerDB.session_carts db' !! other =
             CustomerDB.session_carts db !! other) /\
        CustomerDB.saved_carts db' = CustomerDB.saved_carts db /\
        CustomerDB.heap db' = CustomerDB.heap db /\
        (((now - CustomerDB.last_activity s <
            inject_Z (CustomerDB.timeout_seconds db))%Q /\
          (exists s',
             r = Some s' /\
             CustomerDB.last_activity s' = now /\
             CustomerDB.role s' = CustomerDB.role s /\
             CustomerDB.user_id s' = CustomerDB.user_id s /\
             CustomerDB.created_at s' = CustomerDB.created_at s /\
             CustomerDB.sessions db' !! token = Some s') /\
          CustomerDB.session_carts db' = CustomerDB.session_carts db)
         \/
         (~ (now - CustomerDB.last_activity s <
              inject_Z (CustomerDB.timeout_seconds db))%Q /\
          r = None /\
          CustomerDB.sessions db' !! token = None /\
          CustomerDB.session_carts db' !! token = None /\
          (forall later,
             CustomerDB._touch_or_expire later token db' = (None, db'))))
    end) /\
  (forall (token : string) (st : Market.MarketState),
     Market.get_session token st =
     if PyStr.is_empty token then None else Market.sessions st !! token) /\
  (forall (hash : string -> string) (st : Market.MarketState)
          (r : Market.request) (token : string),
     MarketSessions.writes_session token r = false ->
     Market.sessions (Market.step hash st r) !! token =
     Market.sessions st !! token).
Proof.
  split; [|split; [reflexivity|]]; cycle 1.
  { intros hash st r token Hw. now apply MarketSessions.step_kept. }
  intros db token now.
  destruct (CustomerDB.sessions db !! token) as [s|] eqn:Hs;
    [|now apply SessionExpiry.touch_absent].
  destruct (Qlt_le_dec (now - CustomerDB.last_activity s)
              (inject_Z (CustomerDB.timeout_seconds db))) as [Hlt|Hge].
  - rewrite (SessionExpiry.touch_live _ _ _ _ Hs Hlt). simpl.
    split; [|split; [reflexivity|split; [reflexivity|]]].
    + intros other Hne. split; [|reflexivity]. now apply lookup_insert_ne.
    + left. split; [exact Hlt|]. split; [|reflexivity].
      exists (CustomerDB.touch now s). repeat split. apply lookup_insert_eq.
  - apply Qle_not_lt in Hge.
    rewrite (SessionExpiry.touch_expired _ _ _ _ Hs Hge). simpl.
    split; [|split; [reflexivity|split; [reflexivity|]]].
    + intros other Hne. split; now apply lookup_delete_ne.
    + right. split; [exact Hge|]. split; [reflexivity|].
      split; [apply lookup_delete_eq|]. split; [apply lookup_delete_eq|].
      intros later. apply SessionExpiry.touch_absent. simpl.
      apply lookup_delete_eq.
Qed.

Module SessionScenario.

(** The buyer of [KeywordScenario] in the customer store: an account, and a
    login at time 7 under the timeout of 300 seconds. *)
Definition customer_db : CustomerDB.t :=
  CustomerDB.run
    [ CustomerDB.create_account_req 6 "buyer" "bob" "pw";
      CustomerDB.login_req 7 "b1" "buyer" (U_str "bob") "pw" ]
    (CustomerDB.init 300).

End SessionScenario.

Lemma touch_or_expire_spec_witness :
  Market.sessions
    (Market.step (fun pw => pw) KeywordScenario.market_state
       (Market.BuyerReq 1000000000 "" (Market.DisplayCart "b1"))) !! "b1" =
  Market.sessions KeywordScenario.market_state !! "b1".
Proof.
  apply (proj2 (proj2 touch_or_expire_spec) (fun pw => pw)
           KeywordScenario.market_state
           (Market.BuyerReq 1000000000 "" (Market.DisplayCart "b1")) "b1").
  reflexivity.
Defined.

(** C3, counterexample: the session validation of the consolidated server,
    [MarketState.get_session], is not a touch-or-expire. The buyer session
    opened at time 7 is found by a request made at time 1000000000, which is
    served; afterwards the session is still in the table, and it is the
    record that was stored at the login: no time of it has been updated. In
    the customer store the same session, last active at time 7, is removed
    by an access at that time under the timeout of 300 seconds. *)
Lemma market_session_outlives_timeout :
  Market.get_session "b1" KeywordScenario.market_state =
    Some (Market.Session.mk 1 buyer 7) /\
  fst (Market.handle_buyer (fun pw => pw) 1000000000 ""
         (Market.DisplayCart "b1") KeywordScenario.market_state) =
    Ok (Market.R_display []) /\
  Market.get_session "b1"
    (Market.step (fun pw => pw) KeywordScenario.market_state
       (Market.BuyerReq 1000000000 "" (Market.DisplayCart "b1"))) =
    Some (Market.Session.mk 1 buyer 7) /\
  CustomerDB.last_activity <$>
    CustomerDB.sessions SessionScenario.customer_db !! "b1" = Some 7%Q /\
  fst (CustomerDB._touch_or_expire 1000000000 "b1" SessionScenario.customer_db)
    = None.
Proof.
  repeat split; vm_compute; reflexivity.
Qed.

(** ** C8: login resolution *)

Module LoginResolution.
Import CustomerDB.

Lemma credential_matches_iff r pw db uid :
  credential_matches r pw db uid = true <-> password_of r uid db = Some pw.
Proof.
  unfold credential_matches, PyStr.eqb.
  destruct (password_of r uid db) as [h|]; [|split; discriminate].
  rewrite bool_decide_eq_true. split; congruence.
Qed.

Lemma matches_iff r name pw db uid :
  uid ∈ matches r name pw db <->
  uid ∈ default [] (name_index r db !! name) /\ password_of r uid db = Some pw.
Proof.
  unfold matches. rewrite list_elem_of_filter, credential_matches_iff. tauto.
Qed.

Lemma digit_char_parses c d :
  PyStr.is_digit c = true -> exists d', uint_of_char c (Some d) = Some d'.
Proof.
  destruct c as [[|] [|] [|] [|] [|] [|] [|] [|]]; intros H;
    try discriminate H; simpl; eauto.
Qed.

Lemma digits_parse s :
  PyStr.all_chars PyStr.is_digit s = true ->
  exists d, NilEmpty.uint_of_string s = Some d.
Proof.
  induction s as [|c s IH]; simpl; [eauto|].
  intros [Hc Hs]%andb_true_iff. destruct (IH Hs) as [d ->].
  now apply digit_char_parses.
Qed.

Lemma not_minus_digit c : PyStr.is_digit c = true -> Ascii.eqb c "-" = false.
Proof.
  destruct c as [[|] [|] [|] [|] [|] [|] [|] [|]]; intros H;
    try discriminate H; reflexivity.
Qed.

Lemma isdigit_to_int s :
  PyStr.isdigit s = true -> exists n, PyStr.to_int s = Some n /\ 0 <= n.
Proof.
  destruct s as [|c s]; [discriminate|]. unfold PyStr.isdigit. intros H.
  destruct (digits_parse _ H) as [d Hd].
  simpl in H. apply andb_true_iff in H as [Hc _].
  unfold PyStr.to_int, NilZero.int_of_string.
  rewrite (not_minus_digit _ Hc). unfold NilZero.uint_of_string. rewrite Hd.
  simpl. eexists. split; [reflexivity|]. apply N2Z.is_nonneg.
Qed.

Lemma login_outcome now token role r username password db :
  parse_role role = Some r ->
  match _resolve_user_id r username password db with
  | Ok (Some uid) =>
      exists db', login now token role username password db = Ok (uid, db') /\
                  sessions db' !! token = Some (mk_Session r uid now now)
  | Ok None => login now token role username password db = Err "invalid credentials"
  | Err m => login now token role username password db = Err m
  end.
Proof.
  intros Hr. unfold login, _hash_pw. rewrite Hr.
  destruct (_resolve_user_id r username password db) as [[uid|]|m]; simpl;
    try reflexivity.
  eexists. split; [reflexivity|]. simpl. apply lookup_insert_eq.
Qed.

End LoginResolution.

Module LoginScenario.

(** Two buyers share the name "ann" and differ in their passwords. *)
Definition market_state : Market.MarketState :=
  Market.run (fun pw => pw)
    [ Market.BuyerReq 1 "" (Market.CreateAccount "ann" "p1");
      Market.BuyerReq 2 "" (Market.CreateAccount "ann" "p2") ]
    Market.init.

Definition customer_db : CustomerDB.t :=
  CustomerDB.run
    [ CustomerDB.create_account_req 1 "buyer" "ann" "p1";
      CustomerDB.create_account_req 2 "buyer" "ann" "p2" ]
    (CustomerDB.init 300).

End LoginScenario.




(** ** C6: carts and sessions *)

Module CartSharing.
Import CustomerDB.

(** No cart object is reachable from two slots of the tables, and every
    stored address has been allocated. *)
Record no_sharing (db : t) : Prop := {
  session_loc_bound : forall tok l,
    session_carts db !! tok = Some l -> (l < next_loc db)%positive;
  saved_loc_bound : forall b l,
    saved_carts db !! b = Some l -> (l < next_loc db)%positive;
  session_loc_inj : forall t1 t2 l,
    session_carts db !! t1 = Some l -> session_carts db !! t2 = Some l -> t1 = t2;
  saved_loc_inj : forall b1 b2 l,
    saved_carts db !! b1 = Some l -> saved_carts db !! b2 = Some l -> b1 = b2;
  session_saved_disjoint : forall tok b l,
    session_carts db !! tok = Some l -> saved_carts db !! b = Some l -> False
}.

(** The saved cart of a buyer, as [login] reads it. *)
Definition saved_cart (b : Z) (db : t) : list (string * Z) :=
  match saved_carts db !! b with
  | Some l => deref l db
  | None => []
  end.

Lemma no_sharing_init timeout : no_sharing (init timeout).
Proof. split; simpl; intros *; rewrite ?lookup_empty; discriminate. Qed.

Lemma no_sharing_same_tables db db' :
  session_carts db' = session_carts db -> saved_carts db' = saved_carts db ->
  next_loc db' = next_loc db -> no_sharing db -> no_sharing db'.
Proof.
  intros H1 H2 H3 [A B C D E]. split; rewrite ?H1, ?H2, ?H3; assumption.
Qed.

Lemma no_sharing_delete_session tok db :
  no_sharing db ->
  no_sharing (with_session_carts (delete tok (session_carts db)) db).
Proof.
  intros [A B C D E]. split; simpl.
  - intros t0 l H. apply lookup_delete_Some in H as [_ H]. eauto.
  - eauto.
  - intros t1 t2 l H1 H2.
    apply lookup_delete_Some in H1 as [_ H1].
    apply lookup_delete_Some in H2 as [_ H2]. eauto.
  - eauto.
  - intros t0 b l H. apply lookup_delete_Some in H as [_ H]. eauto.
Qed.

(** Storing a newly allocated object in a session slot. *)
Lemma no_sharing_fresh_session tok d db :
  no_sharing db ->
  no_sharing
    (with_session_carts (<[tok := next_loc db]> (session_carts db))
       (with_heap (<[next_loc db := d]> (heap db)) (Pos.succ (next_loc db)) db)).
Proof.
  intros [A B C D E]. split; simpl.
  - intros t0 l H. apply lookup_insert_Some in H as [[_ <-]|[_ H]]; [lia|].
    apply A in H. lia.
  - intros b l H. apply B in H. lia.
  - intros t1 t2 l H1 H2.
    apply lookup_insert_Some in H1 as [[<- <-]|[Hn1 H1]];
      apply lookup_insert_Some in H2 as [[<- Heq]|[Hn2 H2]]; try reflexivity.
    + apply A in H2. lia.
    + subst l. apply A in H1. lia.
    + eauto.
  - eauto.
  - intros t0 b l H1 H2.
    apply lookup_insert_Some in H1 as [[_ <-]|[_ H1]]; [|eauto].
    apply B in H2. lia.
Qed.

Lemma no_sharing_fresh_saved b d db :
  no_sharing db ->
  no_sharing
    (with_saved_carts (<[b := next_loc db]> (saved_carts db))
       (with_heap (<[next_loc db := d]> (heap db)) (Pos.succ (next_loc db)) db)).
Proof.
  intros [A B C D E]. split; simpl.
  - intros t0 l H. apply A in H. lia.
  - intros b0 l H. apply lookup_insert_Some in H as [[_ <-]|[_ H]]; [lia|].
    apply B in H. lia.
  - eauto.
  - intros b1 b2 l H1 H2.
    apply lookup_insert_Some in H1 as [[<- <-]|[Hn1 H1]];
      apply lookup_insert_Some in H2 as [[<- Heq]|[Hn2 H2]]; try reflexivity.
    + apply B in H2. lia.
    + subst l. apply B in H1. lia.
    + eauto.
  - intros t0 b0 l H1 H2.
    apply lookup_insert_Some in H2 as [[_ <-]|[_ H2]]; [|eauto].
    apply A in H1. lia.
Qed.

Lemma touch_no_sharing now tok db :
  no_sharing db -> no_sharing (snd (_touch_or_expire now tok db)).
Proof.
  intros H. unfold _touch_or_expire.
  destruct (sessions db !! tok) as [s|]; [|exact H].
  destruct (expired now s db); simpl.
  - apply (no_sharing_delete_session tok (with_sessions _ db)).
    now apply (no_sharing_same_tables db).
  - now apply (no_sharing_same_tables db).
Qed.

Lemma touch_m_preserves now tok : preserves no_sharing (touch_m now tok).
Proof.
  intros db H. unfold touch_m.
  pose proof (touch_no_sharing now tok db H) as H'.
  destruct (_touch_or_expire now tok db). exact H'.
Qed.

Lemma require_buyer_preserves now tok : preserves no_sharing (require_buyer now tok).
Proof.
  apply preserves_bind; [apply touch_m_preserves|].
  intros [s|]; [|apply preserves_raise].
  destruct (decide (role s = buyer)); [apply preserves_ret | apply preserves_raise].
Qed.

Lemma setdefault_preserves tok : preserves no_sharing (setdefault_cart tok).
Proof.
  intros db H. unfold setdefault_cart.
  destruct (session_carts db !! tok); [exact H|]. simpl.
  now apply no_sharing_fresh_session.
Qed.

Lemma store_no_sharing l d db : no_sharing db -> no_sharing (store l d db).
Proof. now apply no_sharing_same_tables. Qed.

Lemma cart_get_preserves now tok : preserves no_sharing (cart_get now tok).
Proof.
  apply preserves_bind; [apply require_buyer_preserves | intros _].
  apply preserves_bind; [apply preserves_get | intros; apply preserves_ret].
Qed.

Lemma cart_add_preserves now tok k q : preserves no_sharing (cart_add now tok k q).
Proof.
  unfold cart_add. destruct (q <=? 0); [apply preserves_raise|].
  apply preserves_bind; [apply require_buyer_preserves | intros _].
  apply preserves_bind; [apply setdefault_preserves | intros l].
  apply preserves_bind; [apply preserves_get | intros db].
  apply preserves_bind; [|intros; apply preserves_ret].
  apply preserves_modify. intros. now apply store_no_sharing.
Qed.

Lemma cart_remove_preserves now tok k q :
  preserves no_sharing (cart_remove now tok k q).
Proof.
  unfold cart_remove. destruct (q <=? 0); [apply preserves_raise|].
  apply preserves_bind; [apply require_buyer_preserves | intros _].
  apply preserves_bind; [apply setdefault_preserves | intros l].
  apply preserves_bind; [apply preserves_get | intros db].
  destruct (_ <=? 0); [apply preserves_raise|].
  destruct (_ >? _); [apply preserves_raise|].
  apply preserves_bind; [|intros; apply preserves_ret].
  apply preserves_modify. intros. now apply store_no_sharing.
Qed.

Lemma cart_clear_preserves now tok : preserves no_sharing (cart_clear now tok).
Proof.
  apply preserves_bind; [apply require_buyer_preserves | intros _].
  apply preserves_modify. intros db H. simpl.
  now apply no_sharing_fresh_session.
Qed.

Lemma cart_save_preserves now tok : preserves no_sharing (cart_save now tok).
Proof.
  apply preserves_bind; [apply require_buyer_preserves | intros s].
  apply preserves_bind; [apply preserves_get | intros db0].
  apply preserves_bind; [|intros; apply preserves_ret].
  apply preserves_modify. intros db H. simpl.
  now apply no_sharing_fresh_saved.
Qed.

Lemma validate_session_preserves now role tok :
  preserves no_sharing (validate_session now role tok).
Proof.
  apply preserves_bind; [apply touch_m_preserves|].
  intros [s|]; [|apply preserves_raise].
  destruct (bool_decide _); [apply preserves_ret | apply preserves_raise].
Qed.

Lemma login_no_sharing now tok role username password db uid db' :
  login now tok role username password db = Ok (uid, db') ->
  no_sharing db -> no_sharing db'.
Proof.
  unfold login. destruct (parse_role role) as [r|]; [|discriminate].
  destruct (_resolve_user_id r username (_hash_pw password) db) as [[u|]|];
    simpl; try discriminate.
  intros [= <- <-] H.
  apply (no_sharing_fresh_session tok _ (with_sessions _ db)).
  now apply (no_sharing_same_tables db).
Qed.

Lemma create_account_no_sharing now role name password db id db' :
  create_account now role name password db = Ok (id, db') ->
  no_sharing db -> no_sharing db'.
Proof.
  unfold create_account. destruct (parse_role role) as [r|]; [|discriminate].
  destruct (_ || _); [discriminate|].
  destruct r; intros [= <- <-] H; now apply (no_sharing_same_tables db).
Qed.

Lemma step_no_sharing db r : no_sharing db -> no_sharing (step db r).
Proof.
  intros H. destruct r; simpl.
  - destruct (create_account _ _ _ _ _) as [[id db']|] eqn:E; [|exact H].
    eapply create_account_no_sharing; eauto.
  - destruct (login _ _ _ _ _ _) as [[id db']|] eqn:E; [|exact H].
    eapply login_no_sharing; eauto.
  - apply (no_sharing_delete_session token (with_sessions _ db)).
    now apply (no_sharing_same_tables db).
  - now apply validate_session_preserves.
  - now apply cart_get_preserves.
  - now apply cart_add_preserves.
  - now apply cart_remove_preserves.
  - now apply cart_clear_preserves.
  - now apply cart_save_preserves.
Qed.

Lemma run_no_sharing rs db : no_sharing db -> no_sharing (run rs db).
Proof.
  revert db. induction rs as [|r rs IH]; intros db H; simpl; [exact H|].
  apply IH. now apply step_no_sharing.
Qed.

End CartSharing.

Module CartFrame.
Import CustomerDB CartSharing.

(** What an operation on the token [t1] leaves alone: the cart and the
    session of every other token, and every saved cart. *)
Definition frame_of (t1 : string) (db db' : t) : Prop :=
  (forall t2, t2 <> t1 ->
     session_cart t2 db' = session_cart t2 db /\
     sessions db' !! t2 = sessions db !! t2) /\
  (forall b, saved_cart b db' = saved_cart b db) /\
  timeout_seconds db' = timeout_seconds db.

Ltac frame_unfold :=
  unfold frame_of, cart_add, cart_remove, cart_clear, require_buyer, touch_m,
    _touch_or_expire, setdefault_cart, session_cart, saved_cart, deref, alloc,
    store;
  msimpl;
  repeat (case_match; simpl in *; simplify_eq; msimpl).

Ltac frame_lookup A B C E :=
  repeat match goal with
  | |- context [<[?a := _]> _ !! ?l] =>
      rewrite (lookup_insert_ne _ a l)
        by (intros Heq; try subst;
            match goal with
            | H : session_carts _ !! _ = Some _ |- _ =>
                first [ apply A in H; lia
                      | eapply E; eassumption
                      | match goal with
                        | H' : session_carts _ !! _ = Some _ |- _ =>
                            pose proof (C _ _ _ H H'); congruence
                        | H' : session_carts _ !! _ = Some _ |- _ =>
                            rewrite <- Heq in H'; pose proof (C _ _ _ H H');
                            congruence
                        | H' : session_carts _ !! _ = Some _ |- _ =>
                            rewrite Heq in H'; pose proof (C _ _ _ H H');
                            congruence
                        end ]
            | H : saved_carts _ !! _ = Some _ |- _ =>
                first [ apply B in H; lia | eapply E; eassumption ]
            end)
  end.

Ltac frame_solve :=
  let A := fresh "A" in let B := fresh "B" in let C := fresh "C" in
  let D := fresh "D" in let E := fresh "E" in
  intros [A B C D E];
  frame_unfold;
  (split; [intros t2 Hne; split | split; [intros b|]]);
  simplify_map_eq; repeat case_match; try reflexivity; frame_lookup A B C E;
  try reflexivity.

Lemma cart_add_frame now t1 k q db :
  no_sharing db -> frame_of t1 db (snd (cart_add now t1 k q db)).
Proof. frame_solve. Qed.

Lemma cart_remove_frame now t1 k q db :
  no_sharing db -> frame_of t1 db (snd (cart_remove now t1 k q db)).
Proof. frame_solve. Qed.

Lemma cart_clear_frame now t1 db :
  no_sharing db -> frame_of t1 db (snd (cart_clear now t1 db)).
Proof. frame_solve. Qed.

(** What [cart_get] answers through a token depends on that token's session
    and cart only. *)
Lemma cart_get_observes now t2 db db' :
  session_cart t2 db' = session_cart t2 db ->
  sessions db' !! t2 = sessions db !! t2 ->
  timeout_seconds db' = timeout_seconds db ->
  fst (cart_get now t2 db') = fst (cart_get now t2 db).
Proof.
  intros Hc Hs Ht. revert Hc.
  unfold cart_get, require_buyer, touch_m, _touch_or_expire, expired, session_cart,
    deref.
  msimpl. rewrite Hs, Ht.
  destruct (sessions db !! t2) as [s|]; simpl; [|reflexivity].
  destruct (Qle_bool _ _); simpl; [reflexivity|].
  destruct (decide (role s = buyer)); simpl; [|reflexivity].
  intros ->. reflexivity.
Qed.

(** A successful login stores a new cart object holding the contents of the
    buyer's saved cart, or nothing when there is none. *)
Lemma login_copies_saved now tok role username password db uid db' :
  no_sharing db ->
  login now tok role username password db = Ok (uid, db') ->
  session_carts db' !! tok = Some (next_loc db) /\
  (forall t2 l, session_carts db !! t2 = Some l -> l <> next_loc db) /\
  (forall b l, saved_carts db !! b = Some l -> l <> next_loc db) /\
  (parse_role role = Some buyer -> session_cart tok db' = saved_cart uid db) /\
  (parse_role role = Some seller -> session_cart tok db' = []) /\
  (forall b, saved_cart b db' = saved_cart b db) /\
  (forall t2, t2 <> tok -> session_cart t2 db' = session_cart t2 db).
Proof.
  intros [A B C D E]. unfold login.
  destruct (parse_role role) as [r|]; [|discriminate].
  destruct (_resolve_user_id r username (_hash_pw password) db) as [[u|]|];
    simpl; try discriminate.
  intros [= <- <-]. simpl.
  split; [apply lookup_insert_eq|].
  split; [intros t2 l H ->; apply A in H; lia|].
  split; [intros b l H ->; apply B in H; lia|].
  unfold session_cart, saved_cart, deref; simpl.
  split; [|split; [|split]].
  - intros [= ->]. rewrite lookup_insert_eq. now rewrite lookup_insert_eq.
  - intros [= ->]. rewrite lookup_insert_eq. now rewrite lookup_insert_eq.
  - intros b. destruct (saved_carts db !! b) as [l|] eqn:Hb; [|reflexivity].
    rewrite lookup_insert_ne; [reflexivity|]. intros <-. apply B in Hb. lia.
  - intros t2 Hne. rewrite lookup_insert_ne by congruence.
    destruct (session_carts db !! t2) as [l|] eqn:Ht; [|reflexivity].
    rewrite lookup_insert_ne; [reflexivity|]. intros <-. apply A in Ht. lia.
Qed.

End CartFrame.

Module SharingScenario.

(** One buyer, logged in twice; one item with five units on sale. *)
Definition customer_db : CustomerDB.t :=
  CustomerDB.run
    [ CustomerDB.create_account_req 1 "buyer" "ann" "pw";
      CustomerDB.login_req 2 "t1" "buyer" (U_int 1) "pw";
      CustomerDB.login_req 3 "t2" "buyer" (U_int 1) "pw" ]
    (CustomerDB.init 300).

Definition market_state : Market.MarketState :=
  Market.run (fun pw => pw)
    [ Market.SellerReq 1 "s1" (Market.SCreateAccount "sam" "pw");
      Market.SellerReq 2 "s1" (Market.SLogin (Some 1) "" "pw");
      Market.SellerReq 3 ""
        (Market.RegisterItemForSale "s1" "Lamp" 1 [] "new" (PyFloat.nearest 20) 5);
      Market.BuyerReq 4 "" (Market.CreateAccount "ann" "pw");
      Market.BuyerReq 5 "t1" (Market.Login (Some 1) "" "pw");
      Market.BuyerReq 6 "t2" (Market.Login (Some 1) "" "pw") ]
    Market.init.

End SharingScenario.

(** C6 (as amended). In [CustomerDB] active carts are isolated per session:
    no cart object is ever reachable from two table slots; a cart mutation
    (add, remove, clear) made with one token leaves the cart observed through
    any other token, and every saved cart, unchanged; a successful login
    stores a newly allocated cart holding a copy of the buyer's saved cart, or
    an empty one. In the consolidated server the active cart is keyed by the
    buyer id: an addition made through one session of a buyer is the cart
    every session of that buyer then observes. *)
Theorem carts_isolated_per_session :
  (forall timeout rs,
     CartSharing.no_sharing (CustomerDB.run rs (CustomerDB.init timeout))) /\
  (forall db now t1 t2 item_key qty db',
     CartSharing.no_sharing db -> t2 <> t1 ->
     db' = snd (CustomerDB.cart_add now t1 item_key qty db) \/
     db' = snd (CustomerDB.cart_remove now t1 item_key qty db) \/
     db' = snd (CustomerDB.cart_clear now t1 db) ->
     CustomerDB.session_cart t2 db' = CustomerDB.session_cart t2 db /\
     (forall later,
        fst (CustomerDB.cart_get later t2 db') =
        fst (CustomerDB.cart_get later t2 db)) /\
     (forall b, CartSharing.saved_cart b db' = CartSharing.saved_cart b db)) /\
  (forall db now token role username password uid db',
     CartSharing.no_sharing db ->
     CustomerDB.login now token role username password db = Ok (uid, db') ->
     CustomerDB.session_carts db' !! token = Some (CustomerDB.next_loc db) /\
     (forall t2 l, CustomerDB.session_carts db !! t2 = Some l ->
                   l <> CustomerDB.next_loc db) /\
     (forall b l, CustomerDB.saved_carts db !! b = Some l ->
                  l <> CustomerDB.next_loc db) /\
     (CustomerDB.parse_role role = Some buyer ->
      CustomerDB.session_cart token db' = CartSharing.saved_cart uid db) /\
     (forall t2, t2 <> token ->
        CustomerDB.session_cart t2 db' = CustomerDB.session_cart t2 db)) /\
  (forall hash now uuid t1 t2 b item_id qty st cart st',
     Market._require_session buyer t1 st = Some (t1, b) ->
     Market._require_session buyer t2 st = Some (t2, b) ->
     Market.handle_buyer hash now uuid (Market.AddItemToCart t1 item_id qty) st =
       (Ok (Market.R_cart cart), st') ->
     Market._require_session buyer t2 st' = Some (t2, b) /\
     Market.cart_of b st' = cart /\
     PyDict.get (ItemId.key item_id) cart =
       Some (PyDict.get_default (ItemId.key item_id) 0 (Market.cart_of b st) + qty)).
Proof.
  split; [|split; [|split]].
  - intros timeout rs. apply CartSharing.run_no_sharing.
    apply CartSharing.no_sharing_init.
  - intros db now t1 t2 item_key qty db' Hwf Hne Hop.
    assert (Hf : CartFrame.frame_of t1 db db').
    { destruct Hop as [->|[->| ->]];
        [ now apply CartFrame.cart_add_frame
        | now apply CartFrame.cart_remove_frame
        | now apply CartFrame.cart_clear_frame ]. }
    destruct Hf as (Hs & Hsaved & Ht). destruct (Hs t2 Hne) as [Hc Hsess].
    split; [exact Hc|]. split; [|exact Hsaved].
    intros later. now apply CartFrame.cart_get_observes.
  - intros db now token role username password uid db' Hwf Hl.
    destruct (CartFrame.login_copies_saved _ _ _ _ _ _ _ _ Hwf Hl)
      as (H1 & H2 & H3 & H4 & _ & _ & H7).
    repeat split; assumption.
  - intros hash now uuid t1 t2 b item_id qty st cart st' H1 H2.
    unfold Market.handle_buyer. msimpl. rewrite H1.
    destruct (qty <=? 0); [discriminate|].
    destruct (InMemoryDB.get_item item_id (Market.db st)) as [it|]; [|discriminate].
    destruct (Item.quantity it <=? 0); [discriminate|]. msimpl.
    destruct (_ >? _); [discriminate|]. msimpl.
    intros [= <- <-]. split; [exact H2|].
    unfold Market.cart_of. simpl. rewrite lookup_insert_eq. simpl.
    split; [reflexivity|]. apply PyDict.get_set_eq.
Qed.

Lemma carts_isolated_per_session_witness :
  CustomerDB.session_cart "t2"
    (snd (CustomerDB.cart_add 4 "t1" "1:1" 2 SharingScenario.customer_db)) =
  CustomerDB.session_cart "t2" SharingScenario.customer_db.
Proof.
  refine (proj1 (proj1 (proj2 carts_isolated_per_session)
                   SharingScenario.customer_db 4%Q "t1" "t2" "1:1" 2 _ _ _ _)).
  - apply (proj1 carts_isolated_per_session 300 _).
  - discriminate.
  - left. reflexivity.
Defined.

(** C6, counterexample: a buyer holds the sessions "t1" and "t2" in the
    consolidated server. Before the addition "t2" displays an empty cart;
    after one unit of item 1:1 was added through "t1", "t2" displays it. *)
Lemma market_cart_shared_between_sessions :
  fst (Market.handle_buyer (fun pw => pw) 7 "" (Market.DisplayCart "t2")
         SharingScenario.market_state) = Ok (Market.R_display []) /\
  fst (Market.handle_buyer (fun pw => pw) 9 "" (Market.DisplayCart "t2")
         (Market.step (fun pw => pw) SharingScenario.market_state
            (Market.BuyerReq 8 "" (Market.AddItemToCart "t1" (ItemId.mk 1 1) 1)))) =
    Ok (Market.R_display [(ItemId.mk 1 1, 1)]).
Proof.
  split; vm_compute; reflexivity.
Qed.

(** ** Item keys: [from_any (key i) = i] *)

Module ItemKey.

Definition is_colon (c : ascii) : bool := bool_decide (c = ":"%char).

Lemma split_on_no_sep p s :
  PyStr.all_chars (fun c => negb (p c)) s = true -> PyStr.split_on p s = [s].
Proof.
  induction s as [|c s IH]; simpl; [reflexivity|].
  intros [Hc Hs]%andb_true_iff. apply negb_true_iff in Hc. rewrite Hc.
  now rewrite (IH Hs).
Qed.

Lemma split_on_app p s1 c s2 :
  PyStr.all_chars (fun c => negb (p c)) s1 = true -> p c = true ->
  PyStr.split_on p (s1 +:+ String c s2) = s1 :: PyStr.split_on p s2.
Proof.
  intros H1 Hc. induction s1 as [|a s1 IH]; simpl.
  - now rewrite Hc.
  - simpl in H1. apply andb_true_iff in H1 as [Ha H1].
    apply negb_true_iff in Ha. rewrite Ha. now rewrite (IH H1).
Qed.

Lemma uint_no_colon d :
  PyStr.all_chars (fun c => negb (is_colon c)) (NilEmpty.string_of_uint d) = true.
Proof. induction d; simpl; auto. Qed.

Lemma of_int_no_colon z :
  PyStr.all_chars (fun c => negb (is_colon c)) (PyStr.of_int z) = true.
Proof.
  unfold PyStr.of_int, NilZero.string_of_int, NilZero.string_of_uint.
  destruct (Z.to_int z) as [d|d]; destruct d; simpl; try reflexivity;
    apply uint_no_colon.
Qed.

Lemma to_int_nonnil z :
  Z.to_int z <> Decimal.Pos Decimal.Nil /\ Z.to_int z <> Decimal.Neg Decimal.Nil.
Proof.
  destruct z as [|p|p]; simpl; split; try discriminate; intros [= H];
    now apply DecimalPos.Unsigned.to_uint_nonnil in H.
Qed.

Lemma to_int_of_int z : PyStr.to_int (PyStr.of_int z) = Some z.
Proof.
  unfold PyStr.to_int, PyStr.of_int.
  destruct (to_int_nonnil z) as [H1 H2].
  rewrite NilZero.isi by assumption. simpl. f_equal. apply DecimalZ.of_to.
Qed.

Lemma from_any_key i : ItemId.from_any (ItemId.key i) = Ok i.
Proof.
  unfold ItemId.from_any, ItemId.key.
  change (fun c : ascii => bool_decide (c = ":"%char)) with is_colon.
  change (":" +:+ PyStr.of_int (ItemId.number i))
    with (String ":" (PyStr.of_int (ItemId.number i))).
  rewrite split_on_app by (apply of_int_no_colon || reflexivity).
  rewrite split_on_no_sep by apply of_int_no_colon.
  rewrite !to_int_of_int. now destruct i.
Qed.

Lemma key_inj i j : ItemId.key i = ItemId.key j -> i = j.
Proof.
  intros H. apply (f_equal ItemId.from_any) in H.
  rewrite !from_any_key in H. congruence.
Qed.

End ItemKey.

(** ** Well-formed states of the consolidated server *)

Module MarketInvariant.
Import Market.

(** A cart: one entry per key, every key the key of an ItemId, every
    quantity at least one. *)
Definition cart_ok (c : list (string * Z)) : Prop :=
  NoDup (PyDict.keys c) /\
  forall k v, (k, v) ∈ c -> 1 <= v /\ exists i, k = ItemId.key i.

Record db_ok (d : InMemoryDB.t) : Prop := {
  items_nonneg : forall k it,
    (k, it) ∈ InMemoryDB.items_by_key d -> 0 <= Item.quantity it;
  items_sellers : forall k it,
    (k, it) ∈ InMemoryDB.items_by_key d ->
    is_Some (InMemoryDB.sellers_by_id d !! Item.seller_id it);
  saved_ok : forall b c,
    InMemoryDB.saved_carts_by_buyer d !! b = Some c -> cart_ok c
}.

Record wf (st : MarketState) : Prop := {
  wf_db : db_ok (db st);
  wf_carts : forall b c, carts st !! b = Some c -> cart_ok c
}.

Lemma cart_ok_nil : cart_ok [].
Proof.
  split; [constructor|]. intros k v H. now apply elem_of_nil in H.
Qed.

Lemma cart_ok_set i v c :
  cart_ok c -> 1 <= v -> cart_ok (PyDict.set (ItemId.key i) v c).
Proof.
  intros [Hnd Hall] Hv. split; [now apply PyDict.NoDup_keys_set|].
  intros k v' H. apply PyDict.elem_set in H as [[= -> ->]|H]; eauto.
Qed.

Lemma cart_ok_pop k c : cart_ok c -> cart_ok (PyDict.pop k c).
Proof.
  intros [Hnd Hall]. split; [now apply PyDict.NoDup_keys_pop|].
  intros k' v' H. apply PyDict.elem_pop in H. eauto.
Qed.

Lemma cart_ok_clean c acc :
  (forall k v, (k, v) ∈ c -> exists i, k = ItemId.key i) ->
  cart_ok acc -> cart_ok (InMemoryDB.clean_cart c acc).
Proof.
  revert acc. induction c as [|[k v] c IH]; intros acc Hc Hacc; simpl;
    [exact Hacc|].
  assert (Hc' : forall k v, (k, v) ∈ c -> exists i, k = ItemId.key i)
    by (intros k' v' H; apply (Hc k' v'); now right).
  destruct (Z.gtb_spec v 0) as [Hv|Hv]; [|now apply IH].
  apply IH; [exact Hc'|].
  destruct (Hc k v) as [i ->]; [left|]. apply cart_ok_set; [exact Hacc|lia].
Qed.

Lemma cart_ok_get c k v : cart_ok c -> PyDict.get k c = Some v -> 1 <= v.
Proof.
  intros [_ Hall] H. apply PyDict.get_Some_elem in H. now apply Hall in H.
Qed.

Lemma cart_ok_get_default c k : cart_ok c -> 0 <= PyDict.get_default k 0 c.
Proof.
  intros H. unfold PyDict.get_default.
  destruct (PyDict.get k c) as [v|] eqn:E; [|lia].
  apply (cart_ok_get _ _ _ H) in E. lia.
Qed.

Lemma cart_of_ok b st : wf st -> cart_ok (cart_of b st).
Proof.
  intros [_ H]. unfold cart_of.
  destruct (carts st !! b) as [c|] eqn:E; simpl; [eauto | apply cart_ok_nil].
Qed.

Lemma load_saved_ok b d : db_ok d -> cart_ok (InMemoryDB.load_saved_cart b d).
Proof.
  intros [_ _ H]. unfold InMemoryDB.load_saved_cart.
  destruct (InMemoryDB.saved_carts_by_buyer d !! b) as [c|] eqn:E; simpl;
    [eauto | apply cart_ok_nil].
Qed.

Lemma wf_init : wf init.
Proof.
  split; [split|]; simpl; intros *; rewrite ?lookup_empty;
    try discriminate; intros H; now apply elem_of_nil in H.
Qed.

Lemma wf_set_cart b c st : wf st -> cart_ok c -> wf (set_cart b c st).
Proof.
  intros [Hd Hc] Hok. split; [exact Hd|]. simpl. intros b' c' H.
  apply lookup_insert_Some in H as [[_ <-]|[_ H]]; eauto.
Qed.

Lemma wf_with_sessions s st : wf st -> wf (with_sessions s st).
Proof. intros [Hd Hc]. now split. Qed.

Lemma wf_with_db d st : wf st -> db_ok d -> wf (with_db d st).
Proof. intros [_ Hc] Hd. now split. Qed.

(** Store operations that keep the store well formed. *)
Definition db_keeps {A} (f : InMemoryDB.t -> Result (A * InMemoryDB.t)) : Prop :=
  forall d a d', db_ok d -> f d = Ok (a, d') -> db_ok d'.

Lemma db_op_preserves {A} (f : InMemoryDB.t -> Result (A * InMemoryDB.t)) :
  db_keeps f -> preserves wf (db_op f).
Proof.
  intros Hf st H. unfold db_op.
  destruct (f (db st)) as [[a d]|e] eqn:E; simpl; [|exact H].
  apply wf_with_db; [exact H|]. eapply Hf; [apply H | exact E].
Qed.

Lemma db_upd_preserves (f : InMemoryDB.t -> Result InMemoryDB.t) :
  (forall d d', db_ok d -> f d = Ok d' -> db_ok d') -> preserves wf (db_upd f).
Proof.
  intros Hf. apply db_op_preserves. intros d [] d' Hd.
  destruct (f d) as [d1|] eqn:E; [|discriminate]. intros [= <-]. eauto.
Qed.

(** Replacing the value under a key of the item table. *)
Lemma items_set_ok (P : Item.t -> Prop) k it (items : list (string * Item.t)) :
  (forall k' it', (k', it') ∈ items -> P it') -> P it ->
  forall k' it', (k', it') ∈ PyDict.set k it items -> P it'.
Proof.
  intros Hall Hit k' it' H. apply PyDict.elem_set in H as [[= -> ->]|H]; eauto.
Qed.

Lemma db_ok_set_item d k it0 it :
  db_ok d -> PyDict.get k (InMemoryDB.items_by_key d) = Some it0 ->
  0 <= Item.quantity it -> Item.seller_id it = Item.seller_id it0 ->
  db_ok (InMemoryDB.with_items (PyDict.set k it (InMemoryDB.items_by_key d)) d).
Proof.
  intros [A B C] Hget Hq Hs. apply PyDict.get_Some_elem in Hget.
  split; simpl.
  - apply items_set_ok; assumption.
  - apply (items_set_ok (fun it => is_Some (InMemoryDB.sellers_by_id d !! Item.seller_id it)));
      [exact B|]. rewrite Hs. eauto.
  - exact C.
Qed.

Lemma db_ok_same d d' :
  InMemoryDB.items_by_key d' = InMemoryDB.items_by_key d ->
  InMemoryDB.saved_carts_by_buyer d' = InMemoryDB.saved_carts_by_buyer d ->
  (forall x, is_Some (InMemoryDB.sellers_by_id d !! x) ->
             is_Some (InMemoryDB.sellers_by_id d' !! x)) ->
  db_ok d -> db_ok d'.
Proof.
  intros Hi Hs Hsel [A B C]. split; rewrite ?Hi, ?Hs; eauto.
Qed.

Lemma add_buyer_keeps now name pw : db_keeps (InMemoryDB.add_buyer now name pw).
Proof.
  intros d a d' Hd. unfold InMemoryDB.add_buyer.
  destruct (_ >? _); [discriminate|]. intros [= _ <-].
  now apply (db_ok_same d).
Qed.

Lemma add_seller_keeps now name pw : db_keeps (InMemoryDB.add_seller now name pw).
Proof.
  intros d a d' Hd. unfold InMemoryDB.add_seller.
  destruct (_ >? _); [discriminate|]. intros [= _ <-].
  apply (db_ok_same d); simpl; try reflexivity; [|exact Hd].
  intros x Hx. rewrite lookup_insert_is_Some. destruct (decide (InMemoryDB.next_seller_id d = x)); auto.
Qed.

Lemma allocate_keeps category :
  db_keeps (fun d => Ok (InMemoryDB.allocate_item_id category d)).
Proof.
  intros d a d' Hd [= _ <-]. now apply (db_ok_same d).
Qed.

Lemma add_item_keeps item d d' :
  0 <= Item.quantity item ->
  is_Some (InMemoryDB.sellers_by_id d !! Item.seller_id item) ->
  db_ok d -> InMemoryDB.add_item item d = Ok d' -> db_ok d'.
Proof.
  intros Hq Hs [A B C]. unfold InMemoryDB.add_item.
  destruct (PyDict.mem _ _); [discriminate|]. intros [= <-]. split; simpl.
  - apply items_set_ok; assumption.
  - apply (items_set_ok
             (fun it => is_Some (InMemoryDB.sellers_by_id d !! Item.seller_id it)));
      assumption.
  - exact C.
Qed.

Lemma update_item_price_keeps item_id price d d' :
  db_ok d -> InMemoryDB.update_item_price item_id price d = Ok d' -> db_ok d'.
Proof.
  intros Hd. unfold InMemoryDB.update_item_price.
  destruct (PyDict.get _ _) as [it|] eqn:E; [|discriminate]. intros [= <-].
  eapply db_ok_set_item; eauto. simpl.
  apply PyDict.get_Some_elem in E. now apply (items_nonneg d Hd) in E.
Qed.

Lemma add_item_feedback_keeps item_id up down d d' :
  db_ok d -> InMemoryDB.add_item_feedback item_id up down d = Ok d' -> db_ok d'.
Proof.
  intros Hd. unfold InMemoryDB.add_item_feedback.
  destruct (_ || _); [discriminate|].
  destruct (PyDict.get _ _) as [it|] eqn:E; [|discriminate]. intros [= <-].
  eapply db_ok_set_item; eauto. simpl.
  apply PyDict.get_Some_elem in E. now apply (items_nonneg d Hd) in E.
Qed.

Lemma update_item_quantity_keeps item_id q d d' :
  0 <= q ->
  db_ok d -> InMemoryDB.update_item_quantity item_id q d = Ok d' -> db_ok d'.
Proof.
  intros Hq Hd. unfold InMemoryDB.update_item_quantity.
  destruct (PyDict.get _ _) as [it|] eqn:E; [|discriminate]. intros [= <-].
  eapply db_ok_set_item; eauto.
Qed.

Lemma remove_units_keeps item_id rq : db_keeps (InMemoryDB.remove_units_for_sale item_id rq).
Proof.
  intros d a d' Hd. unfold InMemoryDB.remove_units_for_sale.
  destruct (Z.ltb_spec rq 0); [discriminate|].
  destruct (PyDict.get _ _) as [it|] eqn:E; [|discriminate].
  destruct (Z.ltb_spec (Item.quantity it) rq); [discriminate|]. intros [= _ <-].
  eapply db_ok_set_item; eauto. simpl. lia.
Qed.

Lemma inc_seller_keeps seller_id delta d d' :
  db_ok d -> InMemoryDB.inc_seller_items_sold seller_id delta d = Ok d' -> db_ok d'.
Proof.
  intros Hd. unfold InMemoryDB.inc_seller_items_sold.
  destruct (InMemoryDB.sellers_by_id d !! seller_id) as [s|] eqn:E; [|discriminate].
  intros [= <-]. apply (db_ok_same d); simpl; try reflexivity; [|exact Hd].
  intros x Hx. rewrite lookup_insert_is_Some. destruct (decide (seller_id = x)); auto.
Qed.

Lemma inc_buyer_keeps buyer_id delta d d' :
  db_ok d -> InMemoryDB.inc_buyer_items_purchased buyer_id delta d = Ok d' -> db_ok d'.
Proof.
  intros Hd. unfold InMemoryDB.inc_buyer_items_purchased.
  destruct (InMemoryDB.buyers_by_id d !! buyer_id) as [b|] eqn:E; [|discriminate].
  intros [= <-]. now apply (db_ok_same d).
Qed.

Lemma add_transaction_keeps txn d : db_ok d -> db_ok (InMemoryDB.add_transaction txn d).
Proof. now apply db_ok_same. Qed.

Lemma save_cart_keeps b c d :
  cart_ok c -> db_ok d -> db_ok (InMemoryDB.save_cart b c d).
Proof.
  intros Hc [A B C]. split; simpl; [exact A | exact B |].
  intros b' c' H. apply lookup_insert_Some in H as [[_ <-]|[_ H]]; [|eauto].
  apply cart_ok_clean; [|apply cart_ok_nil].
  intros k v Hkv. apply (proj2 Hc) in Hkv. tauto.
Qed.

End MarketInvariant.

(** ** Checkout *)

Module Checkout.
Import Market MarketInvariant.

(** A cart line that passes the first loop of [_do_purchase]. *)
Definition line_valid (d : InMemoryDB.t) (line : string * Z) : Prop :=
  exists id it,
    ItemId.from_any (fst line) = Ok id /\
    InMemoryDB.get_item id d = Some it /\
    0 < snd line /\ snd line <= Item.quantity it.

Lemma validate_lines_iff cart d :
  validate_lines cart d = Ok tt <-> Forall (line_valid d) cart.
Proof.
  induction cart as [|[k qty] cart IH]; simpl.
  - split; [constructor | reflexivity].
  - rewrite Forall_cons. unfold line_valid at 1. simpl. msimpl.
    destruct (ItemId.from_any k) as [id|e] eqn:Hid; simpl.
    + destruct (InMemoryDB.get_item id d) as [it|] eqn:Hit.
      * destruct (Z.leb_spec qty 0).
        { split; [discriminate|]. intros [(? & ? & _ & _ & ? & _) _]. lia. }
        destruct (Z.ltb_spec (Item.quantity it) qty).
        { split; [discriminate|].
          intros [(id' & it' & [= <-] & Hit' & _ & Hle) _].
          rewrite Hit in Hit'. injection Hit' as <-. lia. }
        rewrite IH. split; [|tauto]. intros Hrest. split; [|exact Hrest].
        exists id, it. repeat split; [assumption|lia|lia].
      * split; [discriminate|].
        intros [(id' & it' & [= <-] & Hit' & _) _]. congruence.
    + split; [discriminate|]. intros [(id' & it' & Hid' & _) _]. discriminate.
Qed.

Lemma validate_lines_unit cart d r : validate_lines cart d = Ok r -> r = tt.
Proof. now destruct r. Qed.

(** What the second loop leaves alone. *)
Definition same_but_items_and_sold (d d' : InMemoryDB.t) : Prop :=
  InMemoryDB.saved_carts_by_buyer d' = InMemoryDB.saved_carts_by_buyer d /\
  InMemoryDB.buyers_by_id d' = InMemoryDB.buyers_by_id d /\
  InMemoryDB.transactions_by_id d' = InMemoryDB.transactions_by_id d /\
  InMemoryDB.transactions_by_buyer d' = InMemoryDB.transactions_by_buyer d /\
  PyDict.keys (InMemoryDB.items_by_key d') = PyDict.keys (InMemoryDB.items_by_key d).

Lemma line_valid_other d d' k line :
  (forall k', k' <> k ->
     PyDict.get k' (InMemoryDB.items_by_key d') =
     PyDict.get k' (InMemoryDB.items_by_key d)) ->
  (exists i, fst line = ItemId.key i) -> fst line <> k ->
  line_valid d line -> line_valid d' line.
Proof.
  intros Hget [i Hi] Hne (id & it & Hid & Hit & Hq).
  exists id, it. split; [exact Hid|]. split; [|exact Hq].
  rewrite Hi, ItemKey.from_any_key in Hid. injection Hid as <-.
  unfold InMemoryDB.get_item in *. rewrite Hget; [exact Hit | congruence].
Qed.

(** The quantity of the line converts to a float. *)
Definition converts (line : string * Z) : Prop :=
  is_ok (PyFloat.of_int (snd line)) = true.

#[global] Instance converts_dec line : Decision (converts line).
Proof. unfold converts. apply _. Defined.

Definition overflow : string := "int too large to convert to float".

Lemma of_int_Ok n x : PyFloat.of_int n = Ok x -> x = PyFloat.nearest n.
Proof.
  unfold PyFloat.of_int. destruct (PyFloat.nearest n); congruence.
Qed.

Lemma of_int_Err n e : PyFloat.of_int n = Err e -> e = overflow.
Proof.
  unfold PyFloat.of_int, overflow. destruct (PyFloat.nearest n); congruence.
Qed.

Lemma of_int_converts n : is_ok (PyFloat.of_int n) = true ->
  PyFloat.of_int n = Ok (PyFloat.nearest n).
Proof.
  destruct (PyFloat.of_int n) as [x|e] eqn:E; [|discriminate].
  intros _. now rewrite (of_int_Ok n x E).
Qed.

(** The second loop on validated lines: it stops at the first quantity that
    does not convert, with the lines before it applied, and fails in no other
    way. *)
Lemma apply_lines_outcome cart :
  forall a d,
    db_ok d -> cart_ok cart -> Forall (line_valid d) cart ->
    let '(r, d') := apply_lines cart a d in
    db_ok d' /\ same_but_items_and_sold d d' /\
    match r with
    | Ok _ => Forall converts cart
    | Err e => e = overflow /\ ~ Forall converts cart
    end.
Proof.
  induction cart as [|[k qty] cart IH]; intros a d Hd Hc Hv.
  - simpl. split; [exact Hd|]. split; [repeat split | constructor].
  - destruct Hc as [Hnd Hall]. simpl in Hnd. apply NoDup_cons in Hnd as [Hk Hnd].
    apply Forall_cons in Hv as [Hline Hv].
    destruct (Hall k qty) as [Hq [i ->]]; [left|].
    destruct Hline as (id & it & Hid & Hit & Hpos & Hle). simpl in *.
    rewrite ItemKey.from_any_key in Hid. injection Hid as <-.
    destruct a as [[total lines] units]. msimpl.
    rewrite ItemKey.from_any_key. simpl. rewrite Hit.
    unfold add_to_total. msimpl.
    destruct (PyFloat.of_int qty) as [q|e] eqn:Hconv; simpl.
    2:{ split; [exact Hd|]. split; [repeat split|].
        split; [exact (of_int_Err _ _ Hconv)|].
        intros Hf. apply Forall_cons in Hf as [Hf _].
        unfold converts in Hf. simpl in Hf. now rewrite Hconv in Hf. }
    unfold InMemoryDB.update_item_quantity. unfold InMemoryDB.get_item in Hit.
    rewrite Hit. simpl.
    set (d1 := InMemoryDB.with_items _ d).
    assert (Hd1 : db_ok d1).
    { eapply db_ok_set_item; eauto. simpl. lia. }
    assert (Hsel : is_Some (InMemoryDB.sellers_by_id d1 !! Item.seller_id it)).
    { apply (items_sellers d Hd (ItemId.key i)). now apply PyDict.get_Some_elem. }
    unfold InMemoryDB.inc_seller_items_sold. destruct Hsel as [s Hs]. rewrite Hs.
    simpl.
    set (d2 := InMemoryDB.with_sellers _ d1).
    assert (Hd2 : db_ok d2).
    { apply (db_ok_same d1); simpl; try reflexivity; [|exact Hd1].
      intros x Hx. rewrite lookup_insert_is_Some.
      destruct (decide (Item.seller_id it = x)); auto. }
    assert (Hc' : cart_ok cart).
    { split; [exact Hnd|]. intros k' v' H. apply Hall. now right. }
    assert (Hv' : Forall (line_valid d2) cart).
    { apply Forall_forall. intros [k' q'] Hin.
      rewrite Forall_forall in Hv. specialize (Hv _ Hin).
      apply (line_valid_other d d2 (ItemId.key i)); simpl; try assumption.
      - intros k0 Hk0. now apply PyDict.get_set_ne.
      - destruct (Hall k' q') as [_ He]; [now right | exact He].
      - intros ->. apply Hk. apply list_elem_of_In, in_map_iff.
        exists (ItemId.key i, q'). split; [reflexivity | now apply list_elem_of_In]. }
    match goal with
    | |- context [apply_lines cart ?a0 d2] =>
        pose proof (IH a0 d2 Hd2 Hc' Hv') as Hrec;
        destruct (apply_lines cart a0 d2) as [r d']
    end.
    destruct Hrec as (Hd' & (Hs1 & Hs2 & Hs3 & Hs4 & Hs5) & Hr).
    split; [exact Hd'|]. split.
    + unfold same_but_items_and_sold. rewrite Hs1, Hs2, Hs3, Hs4, Hs5. simpl.
      repeat split. apply PyDict.keys_set_present.
      apply list_elem_of_In, in_map_iff. exists (ItemId.key i, it).
      split; [reflexivity|]. apply list_elem_of_In. now apply PyDict.get_Some_elem.
    + destruct r as [a'|e].
      * constructor; [|exact Hr]. unfold converts. simpl. now rewrite Hconv.
      * destruct Hr as [He Hn]. split; [exact He|].
        intros Hf. apply Forall_cons in Hf as [_ Hf]. exact (Hn Hf).
Qed.

(** [_do_purchase] step by step, the state written out. *)
Definition purchase_steps (now : Q) (txn_id : string) (b : Z) (st : MarketState)
  : Result Transaction.t * MarketState :=
  match InMemoryDB.get_buyer b (db st) with
  | None => (Err "buyer not found", st)
  | Some _ =>
      let cart := cart_of b st in
      let st1 := set_cart b [] st in
      if bool_decide (cart = []) then (Err "cart is empty", st1) else
      match validate_lines cart (db st) with
      | Err e => (Err e, st1)
      | Ok _ =>
          match apply_lines cart (PyFloat.zero, [], 0) (db st) with
          | (Err e, d') => (Err e, with_db d' st1)
          | (Ok (total, lines, units), d') =>
              match InMemoryDB.inc_buyer_items_purchased b units d' with
              | Err e => (Err e, with_db d' st1)
              | Ok d'' =>
                  let txn := Transaction.mk txn_id b lines total now in
                  (Ok txn, with_db (InMemoryDB.add_transaction txn d'') st1)
              end
          end
      end
  end.

Lemma match_nil_bool_decide {A X} (c : list A) (x y : X) :
  match c with [] => x | _ :: _ => y end = if bool_decide (c = []) then x else y.
Proof. now destruct c. Qed.

Lemma do_purchase_steps now txn_id b st :
  _do_purchase now txn_id b st = purchase_steps now txn_id b st.
Proof.
  unfold _do_purchase, purchase_steps.
  unfold mbind, M_bind, get_state, modify, raise, mret, M_ret, on_db, lift_result.
  cbn -[validate_lines apply_lines cart_of bool_decide
        InMemoryDB.inc_buyer_items_purchased InMemoryDB.add_transaction].
  destruct (InMemoryDB.get_buyer b (db st)); [|reflexivity].
  rewrite match_nil_bool_decide.
  destruct (bool_decide (cart_of b st = [])); [reflexivity|].
  unfold mbind, Result_bind.
  change (db (set_cart b [] st)) with (db st).
  destruct (validate_lines (cart_of b st) (db st)) as [u|e]; [|reflexivity].
  cbn -[validate_lines apply_lines cart_of bool_decide
        InMemoryDB.inc_buyer_items_purchased InMemoryDB.add_transaction].
  destruct (apply_lines (cart_of b st) (PyFloat.zero, [], 0) (db st))
    as [[[[total lines] units]|e] d']; [|reflexivity].
  cbn -[validate_lines apply_lines cart_of bool_decide
        InMemoryDB.inc_buyer_items_purchased InMemoryDB.add_transaction].
  destruct (InMemoryDB.inc_buyer_items_purchased b units d'); reflexivity.
Qed.

(** A message of the first loop is not the one of the overflow. *)
Lemma validate_lines_message cart d e :
  validate_lines cart d = Err e -> e <> overflow.
Proof.
  induction cart as [|[k qty] cart IH]; simpl; [discriminate|]. msimpl.
  unfold ItemId.from_any.
  destruct (PyStr.split_on _ k) as [|p0 [|p1 [|p2 ps]]]; simpl;
    try (intros [= <-]; discriminate).
  destruct (PyStr.to_int p0), (PyStr.to_int p1); simpl;
    try (intros [= <-]; discriminate).
  destruct (InMemoryDB.get_item _ d); [|intros [= <-]; discriminate].
  destruct (qty <=? 0); [intros [= <-]; discriminate|].
  destruct (_ <? qty); [intros [= <-]; discriminate | exact IH].
Qed.

(** The outcome of [_do_purchase] on a well-formed state. A failure leaves
    the store as it was, but for the overflow of a quantity in the second
    loop, which keeps what the lines before it have changed. *)
Lemma do_purchase_outcome now txn_id b st :
  wf st ->
  let cart := cart_of b st in
  let '(r, st') := _do_purchase now txn_id b st in
  sessions st' = sessions st /\ wf st' /\
  match r with
  | Err e =>
      InMemoryDB.get_buyer b (db st) = None /\ st' = st /\
      e = "buyer not found" \/
      is_Some (InMemoryDB.get_buyer b (db st)) /\
      carts st' = <[b := []]> (carts st) /\
      (db st' = db st /\ e <> overflow /\
       (cart = [] \/ ~ Forall (line_valid (db st)) cart) \/
       e = overflow /\ cart <> [] /\ Forall (line_valid (db st)) cart /\
       ~ Forall converts cart /\ same_but_items_and_sold (db st) (db st'))
  | Ok txn =>
      is_Some (InMemoryDB.get_buyer b (db st)) /\
      cart <> [] /\ Forall (line_valid (db st)) cart /\
      Forall converts cart /\
      carts st' = <[b := []]> (carts st) /\
      Transaction.txn_id txn = txn_id /\
      Transaction.buyer_id txn = b /\
      InMemoryDB.transactions_by_id (db st') =
        <[txn_id := txn]> (InMemoryDB.transactions_by_id (db st)) /\
      InMemoryDB.saved_carts_by_buyer (db st') =
        InMemoryDB.saved_carts_by_buyer (db st)
  end.
Proof.
  intros Hwf cart. rewrite do_purchase_steps. unfold purchase_steps.
  destruct (InMemoryDB.get_buyer b (db st)) as [bu|] eqn:Hb; simpl;
    [|split; [reflexivity|]; split; [exact Hwf|]; left; now repeat split].
  fold cart. pose proof (cart_of_ok b st Hwf) as Hc. fold cart in Hc.
  assert (Hwf1 : wf (set_cart b [] st))
    by (apply wf_set_cart; [exact Hwf | apply cart_ok_nil]).
  destruct (bool_decide_reflect (cart = [])) as [Hnil|Hne]; simpl.
  { split; [reflexivity|]. split; [exact Hwf1|]. right.
    split; [eauto|]. split; [reflexivity|]. left.
    split; [reflexivity|]. split; [discriminate | now left]. }
  destruct (validate_lines cart (db st)) as [[]|e] eqn:Hval; simpl.
  - apply validate_lines_iff in Hval.
    pose proof (apply_lines_outcome cart (PyFloat.zero, [], 0) (db st)
                  (wf_db st Hwf) Hc Hval) as Ho.
    destruct (apply_lines cart (PyFloat.zero, [], 0) (db st))
      as [[[[total lines] units]|e] d'];
      destruct Ho as (Hd' & (Hs1 & Hs2 & Hs3 & Hs4 & Hs5) & Hr); simpl.
    + unfold InMemoryDB.inc_buyer_items_purchased. rewrite Hs2.
      unfold InMemoryDB.get_buyer in Hb. rewrite Hb. simpl.
      split; [reflexivity|]. split.
      { split; simpl.
        * apply add_transaction_keeps. apply (db_ok_same d'); try reflexivity.
          -- intros x Hx. exact Hx.
          -- exact Hd'.
        * exact (wf_carts _ Hwf1). }
      split; [eauto|]. split; [exact Hne|]. split; [exact Hval|].
      split; [exact Hr|]. split; [reflexivity|].
      split; [reflexivity|]. split; [reflexivity|]. split; [now rewrite Hs3|].
      exact Hs1.
    + destruct Hr as [-> Hn].
      split; [reflexivity|]. split.
      { split; [exact Hd' | exact (wf_carts _ Hwf1)]. }
      right. split; [eauto|]. split; [reflexivity|]. right.
      split; [reflexivity|]. split; [exact Hne|]. split; [exact Hval|].
      split; [exact Hn|]. repeat split; assumption.
  - split; [reflexivity|]. split; [exact Hwf1|]. right.
    split; [eauto|]. split; [reflexivity|]. left.
    split; [reflexivity|]. split; [exact (validate_lines_message _ _ _ Hval)|].
    right. intros Hv. apply validate_lines_iff in Hv. congruence.
Qed.

End Checkout.

(** ** Every request keeps the consolidated state well formed *)

Ltac bool_to_prop :=
  repeat match goal with
  | H : false = _ |- _ => symmetry in H
  | H : true = _ |- _ => symmetry in H
  | H : (_ <=? _) = false |- _ => apply Z.leb_gt in H
  | H : (_ <=? _) = true |- _ => apply Z.leb_le in H
  | H : (_ <? _) = false |- _ => apply Z.ltb_ge in H
  | H : (_ <? _) = true |- _ => apply Z.ltb_lt in H
  | H : (_ >? _) = false |- _ => rewrite Z.gtb_ltb in H
  | H : (_ >? _) = true |- _ => rewrite Z.gtb_ltb in H
  | H : (_ =? _) = false |- _ => apply Z.eqb_neq in H
  | H : (_ =? _) = true |- _ => apply Z.eqb_eq in H
  end.

Module MarketSteps.
Import Market MarketInvariant Checkout.

Lemma do_purchase_preserves now txn_id b : preserves wf (_do_purchase now txn_id b).
Proof.
  intros st H. pose proof (do_purchase_outcome now txn_id b st H) as Ho.
  simpl in Ho. destruct (_do_purchase now txn_id b st) as [r st']; simpl.
  tauto.
Qed.

Ltac pres_case x :=
  first [ is_var x; destruct x
        | let v := fresh "v" in remember x as v eqn:?; destruct v ];
  cbv beta iota.

Ltac pres :=
  repeat match goal with
    | |- preserves _ (mret _) => apply preserves_ret
    | |- preserves _ (raise _) => apply preserves_raise
    | |- preserves _ (of_result _) => apply preserves_of_result
    | |- preserves _ (modify _) => apply preserves_modify; intros ? ?
    | |- preserves _ (db_op _) => apply db_op_preserves
    | |- preserves _ (db_upd _) => apply db_upd_preserves; intros ? ? ? ?
    | |- preserves _ (_do_purchase _ _ _) => apply do_purchase_preserves
    | |- preserves _ (get_state ≫= _) => apply preserves_bind_read; intros ? ?
    | |- preserves _ (_ ≫= _) => apply preserves_bind; [|intros ?]
    | |- preserves _ (match ?x with _ => _ end) => pres_case x
    | |- preserves _ (if ?c then _ else _) => pres_case c
    end.

Ltac wf_auto :=
  unfold create_session, delete_session;
  eauto 6 using wf_set_cart, wf_with_sessions, wf_with_db, cart_ok_nil,
    cart_of_ok, load_saved_ok, wf_db, cart_ok_pop, save_cart_keeps,
    add_buyer_keeps, add_seller_keeps, add_item_feedback_keeps,
    update_item_price_keeps, remove_units_keeps, allocate_keeps.

Lemma handle_buyer_preserves hash now uuid a :
  preserves wf (handle_buyer hash now uuid a).
Proof.
  destruct a; unfold handle_buyer, buyer_login_session; pres; try solve [wf_auto].
  - apply wf_set_cart; [assumption|]. apply cart_ok_set; [wf_auto|].
    match goal with
    | Hw : wf ?s |- context [cart_of ?z ?s] =>
        pose proof (cart_ok_get_default (cart_of z s) (ItemId.key item_id)
                      (cart_of_ok z s Hw))
    end.
    bool_to_prop. lia.
  - apply wf_set_cart; [assumption|].
    match goal with
    | Hw : wf ?s, Hg : Some ?v = PyDict.get _ (cart_of ?z ?s) |- _ =>
        pose proof (cart_ok_get _ _ _ (cart_of_ok z s Hw) (eq_sym Hg))
    end.
    destruct (_ =? 0) eqn:E; [wf_auto|].
    apply cart_ok_set; [wf_auto|]. bool_to_prop. lia.
Qed.

Lemma register_item_preserves hash now uuid token item_name item_category
    keywords condition sale_price quantity :
  preserves wf
    (handle_seller hash now uuid
       (RegisterItemForSale token item_name item_category keywords condition
          sale_price quantity)).
Proof.
  intros st Hwf. unfold handle_seller. msimpl.
  destruct (_require_session seller token st) as [[tok z]|]; [|exact Hwf].
  destruct (InMemoryDB.get_seller z (db st)) as [s|] eqn:Hs; [|exact Hwf].
  destruct (PyStr.is_empty item_name); [exact Hwf|].
  destruct (_ >? 32); [exact Hwf|].
  destruct (parse_condition condition) as [cond|]; [|exact Hwf].
  destruct (_ >? 5); [exact Hwf|].
  destruct (existsb _ _); [exact Hwf|].
  destruct (Z.ltb_spec quantity 0) as [|Hq]; [exact Hwf|].
  destruct (PyFloat.ltb sale_price PyFloat.zero); [exact Hwf|]. simpl.
  match goal with
  | |- context [InMemoryDB.add_item ?it ?d] =>
      destruct (InMemoryDB.add_item it d) as [d'|e] eqn:E
  end; simpl.
  - apply wf_with_db; [now apply wf_with_db, (allocate_keeps item_category (db st) _ _ (wf_db st Hwf) eq_refl)|].
    eapply add_item_keeps; [| |
      exact (allocate_keeps item_category (db st) _ _ (wf_db st Hwf) eq_refl) | exact E].
    + exact Hq.
    + simpl. unfold InMemoryDB.get_seller in Hs. rewrite Hs. eauto.
  - apply wf_with_db; [exact Hwf|].
    exact (allocate_keeps item_category (db st) _ _ (wf_db st Hwf) eq_refl).
Qed.

Lemma handle_seller_preserves hash now uuid a :
  preserves wf (handle_seller hash now uuid a).
Proof.
  destruct a; try apply register_item_preserves;
    unfold handle_seller; pres; solve [wf_auto].
Qed.

Lemma step_wf hash st r : wf st -> wf (step hash st r).
Proof.
  intros H. unfold step, handle. destruct r.
  - now apply handle_buyer_preserves.
  - now apply handle_seller_preserves.
Qed.

Lemma run_wf hash rs st : wf st -> wf (run hash rs st).
Proof.
  revert st. induction rs as [|r rs IH]; intros st H; simpl; [exact H|].
  apply IH. now apply step_wf.
Qed.

End MarketSteps.

(** ** Carts of the customer store hold positive quantities *)

Module CustomerCarts.
Import CustomerDB.

Definition cart_ok (c : list (string * Z)) : Prop :=
  NoDup (PyDict.keys c) /\ forall k v, (k, v) ∈ c -> 1 <= v.

Definition heap_ok (db : t) : Prop :=
  forall l c, heap db !! l = Some c -> cart_ok c.

Lemma cart_ok_empty : cart_ok [].
Proof. split; [constructor|]. intros k v H. now apply elem_of_nil in H. Qed.

Lemma cart_ok_insert k v c : cart_ok c -> 1 <= v -> cart_ok (PyDict.set k v c).
Proof.
  intros [Hnd Hall] Hv. split; [now apply PyDict.NoDup_keys_set|].
  intros k' v' H. apply PyDict.elem_set in H as [[= -> ->]|H]; eauto.
Qed.

Lemma cart_ok_remove k c : cart_ok c -> cart_ok (PyDict.pop k c).
Proof.
  intros [Hnd Hall]. split; [now apply PyDict.NoDup_keys_pop|].
  intros k' v' H. apply PyDict.elem_pop in H. eauto.
Qed.

Lemma deref_ok l db : heap_ok db -> cart_ok (deref l db).
Proof.
  intros H. unfold deref. destruct (heap db !! l) as [c|] eqn:E; simpl;
    [eauto | apply cart_ok_empty].
Qed.

Lemma session_cart_ok tok db : heap_ok db -> cart_ok (session_cart tok db).
Proof.
  intros H. unfold session_cart.
  destruct (session_carts db !! tok); [now apply deref_ok | apply cart_ok_empty].
Qed.

Lemma get_default_nonneg k c : cart_ok c -> 0 <= PyDict.get_default k 0 c.
Proof.
  intros [_ H]. unfold PyDict.get_default.
  destruct (PyDict.get k c) as [v|] eqn:E; [|lia].
  apply PyDict.get_Some_elem, H in E. lia.
Qed.

Lemma heap_ok_same db db' : heap db' = heap db -> heap_ok db -> heap_ok db'.
Proof. intros E H. unfold heap_ok. now rewrite E. Qed.

Lemma heap_ok_insert l c n db :
  heap_ok db -> cart_ok c -> heap_ok (with_heap (<[l := c]> (heap db)) n db).
Proof.
  intros H Hc l' c' E. simpl in E.
  apply lookup_insert_Some in E as [[_ <-]|[_ E]]; eauto.
Qed.

Lemma touch_heap now tok db : heap (snd (_touch_or_expire now tok db)) = heap db.
Proof.
  unfold _touch_or_expire. destruct (sessions db !! tok) as [s|]; [|reflexivity].
  now destruct (expired now s db).
Qed.

Ltac cpres :=
  repeat match goal with
    | |- preserves _ (mret _) => apply preserves_ret
    | |- preserves _ (raise _) => apply preserves_raise
    | |- preserves _ (modify _) => apply preserves_modify; intros ? ?
    | |- preserves _ (get_state ≫= _) => apply preserves_bind_read; intros ? ?
    | |- preserves _ (_ ≫= _) => apply preserves_bind; [|intros ?]
    | |- preserves _ (match ?x with _ => _ end) =>
        first [ is_var x; destruct x
              | let v := fresh "v" in remember x as v eqn:?; destruct v ];
        cbv beta iota
    | |- preserves _ (if ?c then _ else _) =>
        let v := fresh "v" in remember c as v eqn:?; destruct v
    end.

Lemma touch_m_heap_ok now tok : preserves heap_ok (touch_m now tok).
Proof.
  intros db H. unfold touch_m.
  pose proof (touch_heap now tok db) as E.
  destruct (_touch_or_expire now tok db). simpl in *.
  now apply (heap_ok_same db).
Qed.

Lemma require_buyer_heap_ok now tok : preserves heap_ok (require_buyer now tok).
Proof. unfold require_buyer. cpres. apply touch_m_heap_ok. Qed.

Lemma setdefault_heap_ok tok : preserves heap_ok (setdefault_cart tok).
Proof.
  intros db H. unfold setdefault_cart.
  destruct (session_carts db !! tok); [exact H|]. simpl.
  apply (heap_ok_insert _ _ _ db H cart_ok_empty).
Qed.

Lemma step_heap_ok db r : heap_ok db -> heap_ok (step db r).
Proof.
  intros H.
  destruct r as [now rl name password | now token rl username password
                | token | now rl token | now token | now token item_key qty
                | now token item_key qty | now token | now token]; simpl.
  - unfold create_account. destruct (parse_role rl) as [[]|]; [| |exact H];
      destruct (_ || _); exact H.
  - unfold login. destruct (parse_role rl) as [r|]; [|exact H].
    destruct (_resolve_user_id _ _ _ _) as [[uid|]|]; simpl; try exact H.
    apply (heap_ok_insert _ _ _ (with_sessions _ db)); [exact H|].
    destruct r; [|apply cart_ok_empty].
    destruct (saved_carts _ !! uid); [|apply cart_ok_empty].
    now apply (deref_ok _ (with_sessions _ db)).
  - exact H.
  - revert db H. change (preserves heap_ok (validate_session now rl token)).
    unfold validate_session. cpres. apply touch_m_heap_ok.
  - revert db H. change (preserves heap_ok (cart_get now token)).
    unfold cart_get. cpres. apply require_buyer_heap_ok.
  - revert db H. change (preserves heap_ok (cart_add now token item_key qty)).
    unfold cart_add. cpres;
      [apply require_buyer_heap_ok | apply setdefault_heap_ok |].
    apply heap_ok_insert; [assumption|].
    match goal with
    | Hw : heap_ok ?s |- context [deref ?l ?s] =>
        pose proof (deref_ok l s Hw) as Hd;
        pose proof (get_default_nonneg item_key _ Hd)
    end.
    apply cart_ok_insert; [assumption|]. bool_to_prop. lia.
  - revert db H. change (preserves heap_ok (cart_remove now token item_key qty)).
    unfold cart_remove. cpres;
      [apply require_buyer_heap_ok | apply setdefault_heap_ok |].
    apply heap_ok_insert; [assumption|].
    match goal with
    | Hw : heap_ok ?s |- context [deref ?l ?s] =>
        pose proof (deref_ok l s Hw) as Hd
    end.
    destruct (_ =? 0) eqn:E; [now apply cart_ok_remove|].
    apply cart_ok_insert; [assumption|]. bool_to_prop. lia.
  - revert db H. change (preserves heap_ok (cart_clear now token)).
    unfold cart_clear. cpres; [apply require_buyer_heap_ok|].
    simpl. now apply heap_ok_insert, cart_ok_empty.
  - revert db H. change (preserves heap_ok (cart_save now token)).
    unfold cart_save. cpres; [apply require_buyer_heap_ok|].
    simpl. apply heap_ok_insert; [assumption|]. now apply session_cart_ok.
Qed.

Lemma run_heap_ok rs db : heap_ok db -> heap_ok (run rs db).
Proof.
  revert db. induction rs as [|r rs IH]; intros db H; simpl; [exact H|].
  apply IH. now apply step_heap_ok.
Qed.

Lemma init_heap_ok timeout : heap_ok (init timeout).
Proof. intros l c H. simpl in H. now rewrite lookup_empty in H. Qed.

End CustomerCarts.

(** ** C10: cart quantities are at least one *)

Lemma clean_cart_positive c :
  forall acc,
    (forall k v, (k, v) ∈ acc -> 1 <= v) ->
    forall k v, (k, v) ∈ InMemoryDB.clean_cart c acc -> 1 <= v.
Proof.
  induction c as [|[k0 v0] c IH]; intros acc Hacc k v; simpl; [apply Hacc|].
  destruct (Z.gtb_spec v0 0) as [Hv|Hv]; [|now apply IH].
  apply IH. intros k' v' H.
  apply PyDict.elem_set in H as [[= -> ->]|H]; [lia | eauto].
Qed.

Lemma cart_remove_result now token item_key qty db cart' :
  CustomerCarts.heap_ok db ->
  fst (CustomerDB.cart_remove now token item_key qty db) = Ok cart' ->
  let cur := PyDict.get_default item_key 0 (CustomerDB.session_cart token db) in
  0 < qty /\ qty <= cur /\
  (qty = cur -> PyDict.get item_key cart' = None) /\
  (qty < cur -> PyDict.get item_key cart' = Some (cur - qty)).
Proof.
  intros Hok. unfold CustomerDB.cart_remove.
  destruct (Z.leb_spec qty 0) as [|Hq]; [discriminate|].
  unfold CustomerDB.require_buyer, CustomerDB.touch_m, CustomerDB._touch_or_expire,
    CustomerDB.setdefault_cart, CustomerDB.session_cart. msimpl.
  destruct (CustomerDB.sessions db !! token) as [s|]; [|discriminate].
  destruct (CustomerDB.expired now s db); [discriminate|]. simpl.
  destruct (decide (CustomerDB.role s = buyer)); simpl; [|discriminate].
  destruct (CustomerDB.session_carts db !! token) as [l|] eqn:El; simpl.
  - change (CustomerDB.deref l (CustomerDB.with_sessions _ db))
      with (CustomerDB.deref l db).
    pose proof (CustomerCarts.deref_ok l db Hok) as [Hnd _].
    set (cart := CustomerDB.deref l db) in *.
    destruct (Z.leb_spec (PyDict.get_default item_key 0 cart) 0); [discriminate|].
    destruct (Z.gtb_spec qty (PyDict.get_default item_key 0 cart)); [discriminate|].
    simpl. intros [= <-]. split; [lia|]. split; [lia|]. split; intros Hc.
    + rewrite Hc, Z.sub_diag. simpl. now apply PyDict.get_pop_eq.
    + destruct (Z.eqb_spec (PyDict.get_default item_key 0 cart - qty) 0); [lia|].
      apply PyDict.get_set_eq.
  - unfold CustomerDB.deref. simpl. rewrite lookup_insert_eq. simpl. discriminate.
Qed.


Module CartScenario.

(** A buyer logs in and puts two units of item 1:1 in the cart. *)
Definition customer_db : CustomerDB.t :=
  CustomerDB.run
    [ CustomerDB.create_account_req 1 "buyer" "ann" "pw";
      CustomerDB.login_req 2 "t1" "buyer" (U_str "ann") "pw";
      CustomerDB.cart_add_req 3 "t1" "1:1" 2 ]
    (CustomerDB.init 300).

Definition market_state : Market.MarketState :=
  Market.run (fun pw => pw)
    [ Market.SellerReq 1 "s1" (Market.SCreateAccount "sam" "pw");
      Market.SellerReq 2 "s1" (Market.SLogin (Some 1) "" "pw");
      Market.SellerReq 3 ""
        (Market.RegisterItemForSale "s1" "Lamp" 1 [] "new" (PyFloat.nearest 20) 5);
      Market.BuyerReq 4 "" (Market.CreateAccount "ann" "pw");
      Market.BuyerReq 5 "t1" (Market.Login (Some 1) "" "pw");
      Market.BuyerReq 6 "" (Market.AddItemToCart "t1" (ItemId.mk 1 1) 2) ]
    Market.init.

End CartScenario.


(** ** C9: a saved cart survives logout *)

Module SavedCart.
Import CustomerDB.

Lemma save_logout_login now1 now2 token token' role username password db s
    cart uid db3 :
  sessions db !! token = Some s ->
  CustomerDB.role s = buyer ->
  expired now1 s db = false ->
  session_cart token db = cart ->
  parse_role role = Some buyer ->
  login now2 token' role username password
    (logout token (snd (cart_save now1 token db))) = Ok (uid, db3) ->
  uid = user_id s ->
  fst (cart_save now1 token db) = Ok cart /\
  session_cart token (logout token (snd (cart_save now1 token db))) = [] /\
  session_cart token' db3 = cart.
Proof.
  intros Hs Hr Hlive Hcart Hrole.
  unfold cart_save, require_buyer, touch_m, _touch_or_expire. msimpl.
  rewrite Hs, Hlive. simpl.
  destruct (decide (CustomerDB.role s = buyer)) as [_|]; [|contradiction]. simpl.
  change (session_cart token (with_sessions _ db)) with (session_cart token db).
  rewrite Hcart. unfold login, logout. rewrite Hrole. simpl.
  destruct (_resolve_user_id _ _ _ _) as [[u|]|]; simpl; try discriminate.
  intros [= <- <-] ->. split; [reflexivity|].
  unfold session_cart, deref. simpl.
  rewrite lookup_delete_eq. split; [reflexivity|].
  repeat (rewrite lookup_insert_eq; simpl). reflexivity.
Qed.

End SavedCart.

Module SavedCartMarket.
Import Market.

Lemma require_session_nonempty r token st x :
  _require_session r token st = Some x -> PyStr.is_empty token = false.
Proof.
  unfold _require_session, get_session. now destruct (PyStr.is_empty token).
Qed.

Lemma market_save_logout hash now1 now2 u1 u2 token b k st :
  _require_session buyer token st = Some (token, b) ->
  cart_of b st = [(k, 2)] ->
  let st2 := step hash (step hash st (BuyerReq now1 u1 (SaveCart token)))
               (BuyerReq now2 u2 (Logout token)) in
  cart_of b st2 = [] /\
  _require_session buyer token st2 = None /\
  InMemoryDB.load_saved_cart b (db st2) = [(k, 2)] /\
  InMemoryDB.buyers_by_id (db st2) = InMemoryDB.buyers_by_id (db st) /\
  InMemoryDB.buyers_by_name (db st2) = InMemoryDB.buyers_by_name (db st).
Proof.
  intros Hs Hc. pose proof (require_session_nonempty _ _ _ _ Hs) as Hne.
  unfold step, handle, handle_buyer. msimpl. rewrite Hs. simpl.
  rewrite Hc. 
  change (_require_session buyer token (with_db _ st))
    with (_require_session buyer token st).
  rewrite Hs, Hne. simpl.
  unfold cart_of, _require_session, get_session, InMemoryDB.load_saved_cart.
  simpl. rewrite Hne, !lookup_insert_eq, lookup_delete_eq. simpl.
  repeat split.
Qed.

Lemma market_login_loads hash now uuid oid name password st r st3 :
  handle_buyer hash now uuid (Login oid name password) st = (Ok r, st3) ->
  exists b nm,
    r = R_login b nm uuid /\
    (forall b', oid = Some b' ->
       cart_of b' st3 = InMemoryDB.load_saved_cart b' (db st)) /\
    (oid = None -> cart_of b st3 = InMemoryDB.load_saved_cart b (db st)) /\
    sessions st3 !! uuid = Some (Session.mk (default b oid) buyer now).
Proof.
  unfold handle_buyer, buyer_login_session. destruct oid as [b'|]; msimpl.
  - destruct (InMemoryDB.get_buyer b' (db st)) as [bu|]; [|discriminate].
    destruct (negb _); [discriminate|]. simpl. intros [= <- <-].
    eexists _, _. split; [reflexivity|]. unfold cart_of. simpl.
    split; [intros ? [= <-]; now rewrite lookup_insert_eq|].
    split; [discriminate|]. apply lookup_insert_eq.
  - destruct (PyStr.is_empty name); [discriminate|]. simpl.
    destruct (InMemoryDB.find_buyers_by_name name (db st)) as [|bu [|? ?]];
      try discriminate.
    destruct (negb _); [discriminate|]. simpl. intros [= <- <-].
    eexists _, _. split; [reflexivity|]. unfold cart_of. simpl.
    split; [discriminate|]. split; [intros _; now rewrite lookup_insert_eq|].
    apply lookup_insert_eq.
Qed.

End SavedCartMarket.

(** C9. A buyer whose active cart is {A:2} saves it, logs out and logs in
    again successfully: the save answers with {A:2}, the logout discards the
    active cart, and the active cart of the new session equals {A:2} exactly.
    This holds in the customer store and in the consolidated server. *)
Theorem saved_cart_survives_logout :
  (forall now1 now2 token token' role username password db s A uid db3,
     CustomerDB.sessions db !! token = Some s ->
     CustomerDB.role s = buyer ->
     CustomerDB.expired now1 s db = false ->
     CustomerDB.session_cart token db = [(A, 2)] ->
     CustomerDB.parse_role role = Some buyer ->
     CustomerDB.login now2 token' role username password
       (CustomerDB.logout token (snd (CustomerDB.cart_save now1 token db))) =
       Ok (uid, db3) ->
     uid = CustomerDB.user_id s ->
     fst (CustomerDB.cart_save now1 token db) = Ok [(A, 2)] /\
     CustomerDB.session_cart token
       (CustomerDB.logout token (snd (CustomerDB.cart_save now1 token db))) = [] /\
     CustomerDB.session_cart token' db3 = [(A, 2)]) /\
  (forall hash now1 now2 now3 u1 u2 uuid token b A oid name password st r st3,
     Market._require_session buyer token st = Some (token, b) ->
     Market.cart_of b st = [(A, 2)] ->
     let st2 :=
       Market.step hash
         (Market.step hash st (Market.BuyerReq now1 u1 (Market.SaveCart token)))
         (Market.BuyerReq now2 u2 (Market.Logout token)) in
     Market.handle_buyer hash now3 uuid (Market.Login oid name password) st2 =
       (Ok r, st3) ->
     (oid = Some b \/ oid = None /\ exists nm, r = Market.R_login b nm uuid) ->
     Market.cart_of b st2 = [] /\
     Market.cart_of b st3 = [(A, 2)] /\
     Market.sessions st3 !! uuid = Some (Market.Session.mk b buyer now3)).
Proof.
  split.
  - intros now1 now2 token token' role username password db s A uid db3
      Hs Hr Hlive Hcart Hrole Hlogin Huid.
    exact (SavedCart.save_logout_login now1 now2 token token' role username
             password db s [(A, 2)] uid db3 Hs Hr Hlive Hcart Hrole Hlogin Huid).
  - intros hash now1 now2 now3 u1 u2 uuid token b A oid name password st r st3
      Hs Hc st2 Hlogin Hwho.
    destruct (SavedCartMarket.market_save_logout hash now1 now2 u1 u2 token b A
                st Hs Hc) as (H1 & _ & H3 & _).
    fold st2 in H1, H3. split; [exact H1|].
    destruct (SavedCartMarket.market_login_loads _ _ _ _ _ _ _ _ _ Hlogin)
      as (b0 & nm & -> & Hid & Hname & Hsess).
    destruct Hwho as [->|[-> [nm' [= <- _]]]].
    + rewrite (Hid b eq_refl), H3. split; [reflexivity | exact Hsess].
    + rewrite (Hname eq_refl), H3. split; [reflexivity | exact Hsess].
Qed.

Lemma saved_cart_survives_logout_witness :
  exists db3,
    CustomerDB.login 6 "t2" "buyer" (U_str "ann") "pw"
      (CustomerDB.logout "t1"
         (snd (CustomerDB.cart_save 4 "t1" CartScenario.customer_db))) =
      Ok (1, db3) /\
    CustomerDB.session_cart "t2" db3 = [("1:1", 2)].
Proof.
  eexists. split; [vm_compute; reflexivity|].
  refine (proj2 (proj2 (proj1 saved_cart_survives_logout 4%Q 6%Q "t1" "t2"
                          "buyer" (U_str "ann") "pw" CartScenario.customer_db
                          (CustomerDB.mk_Session buyer 1 2 3) "1:1" 1 _
                          _ _ _ _ _ _ _))).
  - vm_compute. reflexivity.
  - reflexivity.
  - vm_compute. reflexivity.
  - vm_compute. reflexivity.
  - reflexivity.
  - vm_compute. reflexivity.
  - reflexivity.
Defined.

(** ** C4: quantities never go below zero *)

Module ProductInventory.
Import ProductDB.

Definition items_nonneg (db : t) : Prop :=
  forall k it, (k, it) ∈ items db -> 0 <= Item.quantity it.

Lemma items_nonneg_set db k it :
  items_nonneg db -> 0 <= Item.quantity it ->
  forall k' it', (k', it') ∈ PyDict.set k it (items db) -> 0 <= Item.quantity it'.
Proof.
  intros Hall Hit k' it' H. apply PyDict.elem_set in H as [[= -> ->]|H]; eauto.
Qed.

Lemma validated_quantity a name category cond price qty kws :
  _validate_item_fields a = Ok (name, category, cond, price, qty, kws) ->
  0 <= qty /\ qty = item_quantity a.
Proof.
  unfold _validate_item_fields. destruct (_ || _); [discriminate|].
  destruct (parse_condition _); [|discriminate].
  destruct (PyFloat.ltb _ _); [discriminate|].
  destruct (Z.ltb_spec (item_quantity a) 0); [discriminate|].
  destruct (_ >? 5); [discriminate|]. msimpl.
  destruct (clean_keywords _); [|discriminate]. intros [= _ _ _ _ <- _].
  split; [assumption | reflexivity].
Qed.

Lemma step_items_nonneg db r : items_nonneg db -> items_nonneg (step db r).
Proof.
  intros H. destruct r as [now sid a | sid iid price | sid iid qty | iid v]; simpl.
  - unfold register_item. msimpl.
    destruct (_validate_item_fields a) as [[[[[[name cat] cond] price] qty] kws]|]
      eqn:E; [|exact H]. simpl.
    apply validated_quantity in E as [Hq _].
    intros k' it'. simpl. apply items_nonneg_set; assumption.
  - unfold change_item_price. destruct (PyFloat.ltb _ _); [exact H|].
    destruct (PyDict.get _ _) as [item|] eqn:E; [|exact H].
    destruct (negb _); [exact H|]. simpl.
    intros k' it'. simpl. apply items_nonneg_set; [exact H|]. simpl.
    apply PyDict.get_Some_elem in E. eauto.
  - unfold update_units_remove. destruct (qty <=? 0); [exact H|].
    destruct (PyDict.get _ _) as [item|] eqn:E; [|exact H].
    destruct (negb _); [exact H|].
    destruct (Z.gtb_spec qty (Item.quantity item)); [exact H|]. simpl.
    intros k' it'. simpl. apply items_nonneg_set; [exact H|]. simpl. lia.
  - unfold provide_feedback.
    destruct (PyDict.get _ _) as [item|] eqn:E; [|exact H]. simpl.
    intros k' it'. simpl. apply items_nonneg_set; [exact H|]. simpl.
    apply PyDict.get_Some_elem in E. eauto.
Qed.

Lemma run_items_nonneg rs db : items_nonneg db -> items_nonneg (run rs db).
Proof.
  revert db. induction rs as [|r rs IH]; intros db H; simpl; [exact H|].
  apply IH. now apply step_items_nonneg.
Qed.

End ProductInventory.

(** C4. After any sequence of requests, every item of the product store and
    of the consolidated server has a quantity of at least zero. Registration
    refuses a negative quantity, the removal of units refuses more than is
    on sale, and a checkout that succeeds has found, for every cart line, an
    item whose quantity covers the line before any quantity was changed. *)
Theorem item_quantity_nonnegative :
  (forall rs k it,
     (k, it) ∈ ProductDB.items (ProductDB.run rs ProductDB.init) ->
     0 <= Item.quantity it) /\
  (forall hash rs k it,
     (k, it) ∈ InMemoryDB.items_by_key
                (Market.db (Market.run hash rs Market.init)) ->
     0 <= Item.quantity it) /\
  (forall now seller_id a db,
     ProductDB.item_quantity a < 0 ->
     is_ok (ProductDB.register_item now seller_id a db) = false) /\
  (forall hash now uuid token item_name item_category keywords condition
          sale_price quantity st,
     quantity < 0 ->
     exists e,
       Market.handle_seller hash now uuid
         (Market.RegisterItemForSale token item_name item_category keywords
            condition sale_price quantity) st = (Err e, st)) /\
  (forall seller_id item_id qty db item,
     PyDict.get (ItemId.key item_id) (ProductDB.items db) = Some item ->
     Item.quantity item < qty ->
     is_ok (ProductDB.update_units_remove seller_id item_id qty db) = false) /\
  (forall item_id remove_qty d it,
     InMemoryDB.get_item item_id d = Some it ->
     Item.quantity it < remove_qty ->
     is_ok (InMemoryDB.remove_units_for_sale item_id remove_qty d) = false) /\
  (forall hash rs now txn_id b txn st',
     let st := Market.run hash rs Market.init in
     Market._do_purchase now txn_id b st = (Ok txn, st') ->
     Forall (Checkout.line_valid (Market.db st)) (Market.cart_of b st)).
Proof.
  split; [|split; [|split; [|split; [|split; [|split]]]]].
  - intros rs. apply ProductInventory.run_items_nonneg.
    intros k it H. now apply elem_of_nil in H.
  - intros hash rs.
    apply MarketInvariant.items_nonneg, MarketInvariant.wf_db,
      MarketSteps.run_wf, MarketInvariant.wf_init.
  - intros now seller_id a db Hq. unfold ProductDB.register_item. msimpl.
    destruct (ProductDB._validate_item_fields a)
      as [[[[[[name cat] cond] price] qty] kws]|] eqn:E; [|reflexivity].
    apply ProductInventory.validated_quantity in E. lia.
  - intros hash now uuid token item_name item_category keywords condition
      sale_price quantity st Hq.
    unfold Market.handle_seller. msimpl.
    destruct (Market._require_session seller token st) as [[tok z]|]; [|eauto].
    destruct (InMemoryDB.get_seller z (Market.db st)); [|eauto].
    destruct (PyStr.is_empty item_name); [eauto|].
    destruct (_ >? 32); [eauto|].
    destruct (parse_condition condition); [|eauto].
    destruct (_ >? 5); [eauto|].
    destruct (existsb _ _); [eauto|].
    destruct (Z.ltb_spec quantity 0); [eauto|lia].
  - intros seller_id item_id qty db item Hget Hq.
    unfold ProductDB.update_units_remove. destruct (qty <=? 0); [reflexivity|].
    rewrite Hget. destruct (negb _); [reflexivity|].
    destruct (Z.gtb_spec qty (Item.quantity item)); [reflexivity|lia].
  - intros item_id remove_qty d it Hget Hq.
    unfold InMemoryDB.remove_units_for_sale. unfold InMemoryDB.get_item in Hget.
    destruct (remove_qty <? 0); [reflexivity|]. rewrite Hget.
    destruct (Z.ltb_spec (Item.quantity it) remove_qty); [reflexivity|lia].
  - intros hash rs now txn_id b txn st' st Hp.
    pose proof (Checkout.do_purchase_outcome now txn_id b st
                  (MarketSteps.run_wf hash rs _ MarketInvariant.wf_init)) as Ho.
    simpl in Ho. rewrite Hp in Ho. tauto.
Qed.

Lemma item_quantity_nonnegative_witness :
  (exists it,
     ("1:1", it) ∈ InMemoryDB.items_by_key (Market.db CartScenario.market_state)) /\
  forall it,
    ("1:1", it) ∈ InMemoryDB.items_by_key (Market.db CartScenario.market_state) ->
    0 <= Item.quantity it.
Proof.
  split.
  - eexists. vm_compute. apply list_elem_of_here.
  - intros it.
    exact (proj1 (proj2 item_quantity_nonnegative) (fun pw => pw) _ "1:1" it).
Defined.

(** ** C5: what a failed checkout leaves behind *)

Module CheckoutScenario.

(** The buyer holds two units of item 1:1 in the cart; the seller then takes
    four of the five units off sale. *)
Definition market_state : Market.MarketState :=
  Market.step (fun pw => pw) CartScenario.market_state
    (Market.SellerReq 7 "" (Market.UpdateUnitsForSale "s1" (ItemId.mk 1 1) 4)).

End CheckoutScenario.


Module OverflowScenario.

(** One seller offers a lamp (five units) and sand (10^400 grains); the
    buyer puts one lamp and all the sand in the cart. *)
Definition market_state : Market.MarketState :=
  Market.run (fun pw => pw)
    [ Market.SellerReq 1 "s1" (Market.SCreateAccount "sam" "pw");
      Market.SellerReq 2 "s1" (Market.SLogin (Some 1) "" "pw");
      Market.SellerReq 3 ""
        (Market.RegisterItemForSale "s1" "Lamp" 1 [] "new" (PyFloat.nearest 20) 5);
      Market.SellerReq 4 ""
        (Market.RegisterItemForSale "s1" "Sand" 1 [] "new" (PyFloat.nearest 1)
           (10 ^ 400));
      Market.BuyerReq 5 "" (Market.CreateAccount "bob" "pw");
      Market.BuyerReq 6 "t1" (Market.Login (Some 1) "" "pw");
      Market.BuyerReq 7 "" (Market.AddItemToCart "t1" (ItemId.mk 1 1) 1);
      Market.BuyerReq 8 "" (Market.AddItemToCart "t1" (ItemId.mk 1 2) (10 ^ 400)) ]
    Market.init.

Definition after_purchase : Market.MarketState :=
  Market.step (fun pw => pw) market_state
    (Market.BuyerReq 9 "u" (Market.MakePurchase "t1")).

End OverflowScenario.

(** A checkout that fails half-way: every line of the cart is covered by the
    inventory, the quantity of the second line does not convert to a float.
    The checkout fails; the lamp of the first line has left the inventory
    and is counted as sold, and no transaction is recorded. *)
Lemma checkout_overflow_keeps_first_line :
  Market.cart_of 1 OverflowScenario.market_state =
    [("1:1", 1); ("1:2", 10 ^ 400)] /\
  fst (Market.handle_buyer (fun pw => pw) 9 "u" (Market.MakePurchase "t1")
         OverflowScenario.market_state) = Err Checkout.overflow /\
  Item.quantity <$>
    InMemoryDB.get_item (ItemId.mk 1 1) (Market.db OverflowScenario.market_state)
    = Some 5 /\
  Item.quantity <$>
    InMemoryDB.get_item (ItemId.mk 1 1) (Market.db OverflowScenario.after_purchase)
    = Some 4 /\
  Seller.items_sold <$>
    InMemoryDB.get_seller 1 (Market.db OverflowScenario.after_purchase) = Some 1 /\
  InMemoryDB.transactions_by_id (Market.db OverflowScenario.after_purchase) = ∅ /\
  Market.cart_of 1 OverflowScenario.after_purchase = [].
Proof.
  repeat split; vm_compute; reflexivity.
Qed.


(** ** C7: frames *)

Module Framing.
Import Protocol.

Lemma Z_of_byte_of_Z z : Z_of_byte (byte_of_Z z) = z mod 256.
Proof.
  unfold Z_of_byte, byte_of_Z.
  assert (Hb : 0 <= z mod 256 < 256) by (apply Z.mod_pos_bound; lia).
  destruct (Byte.of_N (Z.to_N (z mod 256))) as [b|] eqn:E.
  - apply Byte.to_of_N in E. simpl. rewrite E. lia.
  - apply Byte.of_N_None_iff in E. lia.
Qed.

Lemma unpack_pack n h : pack_u32 n = Ok h -> unpack_u32 h = n.
Proof.
  unfold pack_u32.
  destruct (Z.ltb_spec n 0); [discriminate|].
  destruct (Z.leb_spec (2 ^ 32) n); [discriminate|]. intros [= <-].
  unfold unpack_u32. simpl fold_left. rewrite !Z_of_byte_of_Z.
  change (2 ^ 24) with 16777216. change (2 ^ 16) with 65536.
  change (2 ^ 8) with 256. change (2 ^ 32) with 4294967296 in *.
  Z.div_mod_to_equations. lia.
Qed.

Lemma read_exactly_app (a rest : list Byte.byte) :
  read_exactly (Z.of_nat (length a)) (a ++ rest) = Ok (a, rest).
Proof.
  unfold read_exactly. rewrite length_app.
  destruct (Z.ltb_spec (Z.of_nat (length a + length rest)) (Z.of_nat (length a)));
    [lia|].
  rewrite Nat2Z.id. now rewrite take_app_length, drop_app_length.
Qed.

Lemma pack_u32_length n h : pack_u32 n = Ok h -> length h = 4%nat.
Proof.
  unfold pack_u32. destruct (_ || _); [discriminate|]. now intros [= <-].
Qed.

Lemma pack_u32_succeeds n :
  0 <= n < 2 ^ 32 -> exists header, pack_u32 n = Ok header.
Proof.
  intros Hn. unfold pack_u32.
  destruct (Z.ltb_spec n 0); [lia|].
  destruct (Z.leb_spec (2 ^ 32) n); [lia|]. simpl. eauto.
Qed.

Section framing.
Context {JSON : Type}.
Variable json_dumps : JSON -> list Byte.byte.
Variable json_loads : list Byte.byte -> option JSON.
Variable is_dict : JSON -> bool.

Lemma read_header obj frame rest :
  encode_message json_dumps obj = Ok frame ->
  read_exactly 4 (frame ++ rest) =
    Ok (take 4 frame, json_dumps obj ++ rest) /\
  unpack_u32 (take 4 frame) = Z.of_nat (length (json_dumps obj)).
Proof.
  unfold encode_message. msimpl.
  destruct (pack_u32 (Z.of_nat (length (json_dumps obj)))) as [h|] eqn:E;
    [|discriminate].
  simpl. intros [= <-]. pose proof (pack_u32_length _ _ E) as Hl.
  rewrite <- app_assoc.
  change 4 with (Z.of_nat 4). rewrite <- Hl at 1. rewrite read_exactly_app.
  change 4%nat with (Z.to_nat (Z.of_nat 4)) at 1.
  rewrite <- Hl, Nat2Z.id, !take_app_length.
  split; [reflexivity|]. now apply unpack_pack.
Qed.

Lemma encode_message_frame obj :
  Z.of_nat (length (json_dumps obj)) < 2 ^ 32 ->
  exists header,
    pack_u32 (Z.of_nat (length (json_dumps obj))) = Ok header /\
    encode_message json_dumps obj = Ok (header ++ json_dumps obj).
Proof.
  intros Hlen.
  destruct (pack_u32_succeeds (Z.of_nat (length (json_dumps obj))))
    as [header Hp]; [lia|].
  exists header. split; [exact Hp|].
  unfold encode_message. msimpl. now rewrite Hp.
Qed.

Lemma framing_round_trip obj frame rest max_bytes :
  encode_message json_dumps obj = Ok frame ->
  json_loads (json_dumps obj) = Some obj -> is_dict obj = true ->
  0 < Z.of_nat (length (json_dumps obj)) <= max_bytes ->
  read_message json_loads is_dict max_bytes (frame ++ rest) = Ok (obj, rest).
Proof.
  intros He Hl Hd Hlen.
  destruct (read_header obj frame rest He) as [Hh Hn].
  unfold read_message. msimpl. rewrite Hh. simpl. rewrite Hn.
  destruct (Z.leb_spec (Z.of_nat (length (json_dumps obj))) 0); [lia|].
  destruct (Z.gtb_spec (Z.of_nat (length (json_dumps obj))) max_bytes); [lia|].
  simpl. rewrite read_exactly_app. simpl. now rewrite Hl, Hd.
Qed.

Lemma oversized_rejected obj frame rest max_bytes :
  encode_message json_dumps obj = Ok frame ->
  max_bytes < Z.of_nat (length (json_dumps obj)) ->
  read_message json_loads is_dict max_bytes (frame ++ rest)
  = Err "invalid payload length".
Proof.
  intros He Hlen. destruct (read_header obj frame rest He) as [Hh Hn].
  unfold read_message. msimpl. rewrite Hh. simpl. rewrite Hn.
  destruct (Z.gtb_spec (Z.of_nat (length (json_dumps obj))) max_bytes); [|lia].
  now rewrite orb_true_r.
Qed.

End framing.

End Framing.

(** ** [json.loads] reads back what [json.dumps] wrote *)

Module JsonRoundTrip.
Import Json.

#[local] Arguments String.append : simpl nomatch.

Section induction.
Variable P : t -> Prop.
Hypothesis HNull : P Null.
Hypothesis HBool : forall b, P (Bool b).
Hypothesis HInt : forall z, P (Int z).
Hypothesis HStr : forall s, P (Str s).
Hypothesis HList : forall l, Forall P l -> P (List l).
Hypothesis HDict : forall d, Forall (fun kv => P (snd kv)) d -> P (Dict d).

Fixpoint t_nested_ind (v : t) : P v :=
  match v with
  | Null => HNull
  | Bool b => HBool b
  | Int z => HInt z
  | Str s => HStr s
  | List l =>
      HList l ((fix go (l : list t) : Forall P l :=
                  match l with
                  | [] => @List.Forall_nil _ P
                  | x :: l' => @List.Forall_cons _ P x l' (t_nested_ind x) (go l')
                  end) l)
  | Dict d =>
      HDict d ((fix go (d : list (string * t))
                  : Forall (fun kv => P (snd kv)) d :=
                  match d with
                  | [] => @List.Forall_nil _ _
                  | (k, x) :: d' =>
                      @List.Forall_cons _ (fun kv => P (snd kv)) (k, x) d'
                        (t_nested_ind x) (go d')
                  end) d)
  end.
End induction.

Lemma append_assoc (a b c : string) : (a +:+ b) +:+ c = a +:+ (b +:+ c).
Proof. induction a as [|x a IH]; simpl; [reflexivity | now f_equal]. Qed.

Lemma length_append (a b : string) :
  String.length (a +:+ b) = (String.length a + String.length b)%nat.
Proof. induction a as [|x a IH]; simpl; [reflexivity | now f_equal]. Qed.

Lemma append_cons c (a b : string) : String c a +:+ b = String c (a +:+ b).
Proof. reflexivity. Qed.

Ltac push_append :=
  repeat first [rewrite append_cons | rewrite append_assoc].

Lemma parse_string_escape_char c s :
  parse_string (escape_char c +:+ s) = cons_char c (parse_string s).
Proof. destruct c as [[] [] [] [] [] [] [] []]; reflexivity. Qed.

Lemma parse_string_escape s rest :
  parse_string (escape s +:+ String "034" rest) = Some (s, rest).
Proof.
  induction s as [|c s IH]; [reflexivity|].
  simpl escape. rewrite append_assoc, parse_string_escape_char, IH.
  reflexivity.
Qed.

(** What may follow a number: nothing, or a character that is not part of
    one. *)
Definition stop (rest : string) : Prop :=
  match rest with
  | String c _ => is_num_char c = false
  | EmptyString => True
  end.

Lemma span_number_app n rest :
  PyStr.all_chars is_num_char n = true -> stop rest ->
  span_number (n +:+ rest) = (n, rest).
Proof.
  intros Hn Hrest. induction n as [|c n IH]; simpl.
  - destruct rest as [|c r]; [reflexivity|]. simpl in *. now rewrite Hrest.
  - simpl in Hn. apply andb_true_iff in Hn as [Hc Hn].
    now rewrite Hc, (IH Hn).
Qed.

Lemma uint_num_chars d :
  PyStr.all_chars is_num_char (NilEmpty.string_of_uint d) = true.
Proof. induction d; simpl; auto. Qed.

Lemma of_int_num_chars z :
  PyStr.all_chars is_num_char (PyStr.of_int z) = true.
Proof.
  unfold PyStr.of_int, NilZero.string_of_int, NilZero.string_of_uint.
  destruct (Z.to_int z) as [d|d]; destruct d; simpl; try reflexivity;
    apply uint_num_chars.
Qed.

Lemma of_int_head z :
  exists c s, PyStr.of_int z = String c s /\ is_num_char c = true.
Proof.
  pose proof (of_int_num_chars z) as H.
  assert (Hne : PyStr.of_int z <> "").
  { unfold PyStr.of_int, NilZero.string_of_int, NilZero.string_of_uint.
    destruct (Z.to_int z) as [d|d]; destruct d; simpl; discriminate. }
  destruct (PyStr.of_int z) as [|c s]; [congruence|].
  simpl in H. apply andb_true_iff in H as [Hc _]. eauto.
Qed.

Lemma strip_prefix_app w s : strip_prefix w (w +:+ s) = Some s.
Proof.
  induction w as [|a w IH]; simpl; [reflexivity|].
  now rewrite Ascii.eqb_refl.
Qed.

(** A number's first character selects the number branch of the parser. *)
Lemma num_char_dispatch c :
  is_num_char c = true ->
  Ascii.eqb c "n" = false /\ Ascii.eqb c "t" = false /\
  Ascii.eqb c "f" = false /\ Ascii.eqb c "034" = false /\
  Ascii.eqb c "[" = false /\ Ascii.eqb c "{" = false /\
  Ascii.eqb "]" c = false.
Proof.
  destruct c as [[] [] [] [] [] [] [] []]; intros H;
    first [discriminate H | repeat split].
Qed.

(** No value starts with a closing bracket. *)
Lemma dumps_head v :
  exists c s, dumps v = String c s /\ Ascii.eqb "]" c = false.
Proof.
  destruct v as [|[]|z|s|l|d]; simpl; eauto.
  destruct (of_int_head z) as (c & s & -> & Hc).
  apply num_char_dispatch in Hc. exists c, s. split; [reflexivity|]. tauto.
Qed.

Definition elems : list t -> string :=
  fix elems (l : list t) : string :=
    match l with
    | [] => ""
    | [x] => dumps x
    | x :: l' => dumps x +:+ "," +:+ elems l'
    end.

Definition members : list (string * t) -> string :=
  fix members (d : list (string * t)) : string :=
    match d with
    | [] => ""
    | [(k, x)] => quote k +:+ ":" +:+ dumps x
    | (k, x) :: d' => quote k +:+ ":" +:+ dumps x +:+ "," +:+ members d'
    end.

Lemma dumps_List l : dumps (List l) = "[" +:+ elems l +:+ "]".
Proof. reflexivity. Qed.

Lemma dumps_Dict d : dumps (Dict d) = "{" +:+ members d +:+ "}".
Proof. reflexivity. Qed.

Lemma elems_cons x y l :
  elems (x :: y :: l) = dumps x +:+ String "," (elems (y :: l)).
Proof. reflexivity. Qed.

Lemma members_cons k x kv d :
  members ((k, x) :: kv :: d)
  = String "034" (escape k +:+ String "034" (String ":" (dumps x +:+
      String "," (members (kv :: d))))).
Proof.
  destruct kv. cbn [members]. unfold quote. simpl. now rewrite !append_assoc.
Qed.

Lemma members_one k x :
  members [(k, x)] = String "034" (escape k +:+ String "034" (String ":" (dumps x))).
Proof. cbn [members]. unfold quote. simpl. now rewrite !append_assoc. Qed.

Lemma parse_elements_S fuel s :
  parse_elements (S fuel) s =
  match parse_value fuel s with
  | Some (x, rest) =>
      match strip_prefix "," rest with
      | Some rest =>
          match parse_elements fuel rest with
          | Some (l, rest) => Some (x :: l, rest)
          | None => None
          end
      | None =>
          match strip_prefix "]" rest with
          | Some rest => Some ([x], rest)
          | None => None
          end
      end
  | None => None
  end.
Proof. reflexivity. Qed.

Lemma parse_members_S fuel s rest k :
  parse_string s = Some (k, String ":" rest) ->
  parse_members (S fuel) (String "034" s) =
  match parse_value fuel rest with
  | Some (x, rest) =>
      match strip_prefix "," rest with
      | Some rest =>
          match parse_members fuel rest with
          | Some (d, rest) => Some ((k, x) :: d, rest)
          | None => None
          end
      | None =>
          match strip_prefix "}" rest with
          | Some rest => Some ([(k, x)], rest)
          | None => None
          end
      end
  | None => None
  end.
Proof.
  intros H. cbn [parse_members strip_prefix]. simpl Ascii.eqb. cbv iota.
  rewrite H. reflexivity.
Qed.

#[local] Arguments elems : simpl never.
#[local] Arguments members : simpl never.
#[local] Arguments dumps : simpl never.

Definition parses (v : t) : Prop :=
  forall fuel rest,
    (String.length (dumps v) <= fuel)%nat -> stop rest ->
    parse_value fuel (dumps v +:+ rest) = Some (v, rest).

Lemma parse_elements_elems x l fuel rest :
  Forall parses (x :: l) ->
  (String.length (elems (x :: l)) < fuel)%nat ->
  parse_elements fuel (elems (x :: l) +:+ String "]" rest) = Some (x :: l, rest).
Proof.
  revert x fuel. induction l as [|y l IH]; intros x fuel Hall Hfuel.
  - apply Forall_cons_1 in Hall as [Hx _].
    destruct fuel as [|fuel]; [lia|]. change (elems [x]) with (dumps x) in *.
    rewrite parse_elements_S, Hx by (simpl; try lia; reflexivity).
    reflexivity.
  - apply Forall_cons_1 in Hall as [Hx Hall].
    destruct fuel as [|fuel]; [lia|].
    rewrite elems_cons in *. rewrite length_append in Hfuel.
    simpl String.length in Hfuel.
    rewrite parse_elements_S, append_assoc, Hx by (simpl; try lia; reflexivity).
    simpl. rewrite IH by (auto; lia). reflexivity.
Qed.

Lemma parse_members_members k x d fuel rest :
  Forall (fun kv => parses (snd kv)) ((k, x) :: d) ->
  (String.length (members ((k, x) :: d)) < fuel)%nat ->
  parse_members fuel (members ((k, x) :: d) +:+ String "}" rest)
  = Some ((k, x) :: d, rest).
Proof.
  revert k x fuel. induction d as [|[k' y] d IH]; intros k x fuel Hall Hfuel.
  - apply Forall_cons_1 in Hall as [Hx _]. simpl in Hx.
    destruct fuel as [|fuel]; [lia|].
    rewrite members_one in *. simpl in Hfuel.
    rewrite !length_append in Hfuel. simpl in Hfuel.
    push_append.
    erewrite parse_members_S by apply parse_string_escape.
    rewrite Hx by (simpl; try lia; reflexivity). reflexivity.
  - apply Forall_cons_1 in Hall as [Hx Hall]. simpl in Hx.
    destruct fuel as [|fuel]; [lia|].
    rewrite members_cons in *.
    repeat first [rewrite length_append in Hfuel | progress simpl in Hfuel].
    push_append.
    erewrite parse_members_S by apply parse_string_escape.
    rewrite Hx by (simpl; try lia; reflexivity).
    simpl. rewrite IH by (auto; lia). reflexivity.
Qed.

Lemma strip_prefix_char a c s :
  strip_prefix (String a "") (String c s) = if Ascii.eqb a c then Some s else None.
Proof. reflexivity. Qed.

Lemma parse_value_S fuel c s :
  parse_value (S fuel) (String c s) =
  if Ascii.eqb c "n" then literal "null" Null (String c s)
  else if Ascii.eqb c "t" then literal "true" (Bool true) (String c s)
  else if Ascii.eqb c "f" then literal "false" (Bool false) (String c s)
  else if Ascii.eqb c "034" then
    match parse_string s with
    | Some (r, rest) => Some (Str r, rest)
    | None => None
    end
  else if Ascii.eqb c "[" then
    match strip_prefix "]" s with
    | Some rest => Some (List [], rest)
    | None =>
        match parse_elements fuel s with
        | Some (l, rest) => Some (List l, rest)
        | None => None
        end
    end
  else if Ascii.eqb c "{" then
    match strip_prefix "}" s with
    | Some rest => Some (Dict [], rest)
    | None =>
        match parse_members fuel s with
        | Some (d, rest) => Some (Dict d, rest)
        | None => None
        end
    end
  else
    let '(n, rest) := span_number (String c s) in
    match PyStr.to_int n with
    | Some z => Some (Int z, rest)
    | None => None
    end.
Proof. reflexivity. Qed.

Lemma elems_head x l :
  exists c s, elems (x :: l) = String c s /\ Ascii.eqb "]" c = false.
Proof.
  destruct (dumps_head x) as (c & s & E & Hc).
  destruct l as [|y l].
  - change (elems [x]) with (dumps x). eauto.
  - rewrite elems_cons, E. simpl. eauto.
Qed.

Lemma parse_dumps v : parses v.
Proof.
  induction v as [| b | z | s | l IH | d IH] using t_nested_ind;
    intros fuel rest Hfuel Hrest;
    (destruct fuel as [|fuel];
     [exfalso; revert Hfuel;
      try (destruct (dumps_head (Int z)) as (c0 & s0 & -> & _));
      try destruct b; simpl; lia|]).
  - reflexivity.
  - destruct b; reflexivity.
  - change (dumps (Int z)) with (PyStr.of_int z) in *.
    destruct (of_int_head z) as (c & s & E & Hc).
    pose proof (span_number_app _ _ (of_int_num_chars z) Hrest) as Hspan.
    rewrite E in *. simpl String.append in *.
    rewrite parse_value_S.
    destruct (num_char_dispatch c Hc) as (-> & -> & -> & -> & -> & -> & _).
    rewrite Hspan, <- E, ItemKey.to_int_of_int. reflexivity.
  - change (dumps (Str s)) with (String "034" (escape s +:+ String "034" "")).
    simpl String.append. rewrite parse_value_S. simpl Ascii.eqb. cbv iota.
    rewrite append_assoc. simpl String.append.
    now rewrite parse_string_escape.
  - rewrite dumps_List in *. simpl String.append.
    rewrite parse_value_S. simpl Ascii.eqb. cbv iota.
    rewrite append_assoc.
    destruct l as [|x l]; [reflexivity|].
    destruct (elems_head x l) as (c & s & E & Hc).
    rewrite E, append_cons, strip_prefix_char, Hc, <- append_cons, <- E.
    simpl in Hfuel. rewrite length_append in Hfuel. simpl in Hfuel.
    change ("]" +:+ rest) with (String "]" rest).
    rewrite parse_elements_elems by (auto; lia). reflexivity.
  - rewrite dumps_Dict in *. simpl String.append.
    rewrite parse_value_S. simpl Ascii.eqb. cbv iota.
    rewrite append_assoc.
    destruct d as [|[k x] d]; [reflexivity|].
    simpl in Hfuel. rewrite length_append in Hfuel. simpl in Hfuel.
    assert (E : exists s, members ((k, x) :: d) = String "034" s).
    { destruct d; [rewrite members_one | rewrite members_cons]; eauto. }
    destruct E as [s E].
    rewrite E, append_cons, strip_prefix_char. simpl Ascii.eqb. cbv iota.
    rewrite <- append_cons, <- E.
    change ("}" +:+ rest) with (String "}" rest).
    rewrite parse_members_members by (auto; lia). reflexivity.
Qed.

Theorem loads_dumps v : loads (dumps v) = Some v.
Proof.
  unfold loads.
  pose proof (parse_dumps v (S (String.length (dumps v))) "") as H.
  assert (E : dumps v +:+ "" = dumps v).
  { generalize (dumps v). induction s; simpl; congruence. }
  rewrite E in H. rewrite H by (simpl; auto). reflexivity.
Qed.

Lemma length_list_byte_of_string s :
  length (list_byte_of_string s) = String.length s.
Proof.
  unfold list_byte_of_string. rewrite length_map.
  induction s as [|c s IH]; simpl; congruence.
Qed.

Theorem loads_dumps_bytes v : loads_bytes (dumps_bytes v) = Some v.
Proof.
  unfold loads_bytes, dumps_bytes.
  now rewrite string_of_list_byte_of_string, loads_dumps.
Qed.

End JsonRoundTrip.

(** ** C7: a frame read back *)

Module WireScenario.

(** The message of [tests/test_protocol.py]. *)
Definition ping : Json.t :=
  Json.Dict [("req_id", Json.Str "1"); ("role", Json.Str "buyer");
             ("action", Json.Str "ping"); ("data", Json.Dict [])].

(** [s * 2 ** k] *)
Fixpoint doubled (k : nat) (s : string) : string :=
  match k with
  | O => s
  | S k' => doubled k' (s +:+ s)
  end.

(** A response whose one field is a text of 4 MiB. *)
Definition blob : string := doubled 22 "a".
Definition big : Json.t := Json.Dict [("blob", Json.Str blob)].

Lemma length_doubled k s :
  Z.of_nat (String.length (doubled k s)) = 2 ^ Z.of_nat k * Z.of_nat (String.length s).
Proof.
  revert s. induction k as [|k IH]; intros s.
  - simpl doubled. change (Z.of_nat 0) with 0. lia.
  - simpl doubled. rewrite IH, JsonRoundTrip.length_append, Nat2Z.inj_succ,
      Z.pow_succ_r by lia. lia.
Qed.

Lemma escape_append a b :
  Json.escape (a +:+ b) = Json.escape a +:+ Json.escape b.
Proof.
  induction a as [|c a IH]; [reflexivity|].
  rewrite JsonRoundTrip.append_cons. simpl Json.escape.
  now rewrite IH, JsonRoundTrip.append_assoc.
Qed.

Lemma escape_doubled k s :
  Json.escape (doubled k s) = doubled k (Json.escape s).
Proof.
  revert s. induction k as [|k IH]; intros s; [reflexivity|].
  simpl doubled. now rewrite IH, escape_append.
Qed.

Lemma length_dumps_text s :
  String.length (Json.dumps (Json.Dict [("blob", Json.Str s)]))
  = (11 + String.length (Json.escape s))%nat.
Proof.
  change (Json.dumps (Json.Dict [("blob", Json.Str s)]))
    with (String "{" (String "034" (String "b" (String "l" (String "o"
           (String "b" (String "034" (String ":" (String "034"
             ((Json.escape s +:+ String "034" "") +:+ String "}" "")))))))))).
  simpl String.length. rewrite !JsonRoundTrip.length_append.
  simpl String.length. lia.
Qed.

Lemma length_big :
  Z.of_nat (length (Json.dumps_bytes big)) = 4194315.
Proof.
  unfold Json.dumps_bytes, big.
  rewrite JsonRoundTrip.length_list_byte_of_string, length_dumps_text.
  unfold blob. rewrite escape_doubled, Nat2Z.inj_add, length_doubled.
  reflexivity.
Qed.

Lemma is_ascii_append a b :
  PyStr.isascii (a +:+ b) = PyStr.isascii a && PyStr.isascii b.
Proof.
  unfold PyStr.isascii. induction a as [|c a IH]; [reflexivity|].
  rewrite JsonRoundTrip.append_cons. simpl. now rewrite IH, andb_assoc.
Qed.

Lemma is_ascii_doubled k s : PyStr.isascii s = true -> PyStr.isascii (doubled k s) = true.
Proof.
  revert s. induction k as [|k IH]; intros s H; [exact H|].
  simpl doubled. apply IH. now rewrite is_ascii_append, H.
Qed.

Lemma plain_big : Json.plain big = true.
Proof.
  unfold big.
  change (Json.plain (Json.Dict [("blob", Json.Str blob)]))
    with (PyStr.isascii "blob" && PyStr.isascii blob && true &&
          bool_decide (NoDup ["blob"])).
  unfold blob. rewrite (is_ascii_doubled 22 "a" eq_refl). reflexivity.
Qed.

End WireScenario.

Lemma length_dumps_dict x :
  Json.is_dict x = true -> 0 < Z.of_nat (length (Json.dumps_bytes x)).
Proof.
  destruct x as [| | | | |d]; try discriminate. intros _.
  unfold Json.dumps_bytes.
  rewrite JsonRoundTrip.length_list_byte_of_string, JsonRoundTrip.dumps_Dict.
  rewrite JsonRoundTrip.append_cons. simpl String.length. lia.
Qed.




(** * Further properties of the code *)

(** ** Frames on a stream *)

Module FrameReading.
Import Protocol.

Lemma read_exactly_short n (stream : list Byte.byte) :
  Z.of_nat (length stream) < n ->
  read_exactly n stream = Err "connection closed while reading".
Proof.
  intros H. unfold read_exactly.
  destruct (Z.ltb_spec (Z.of_nat (length stream)) n); [reflexivity | lia].
Qed.

Lemma read_framed {JSON} (json_loads : list Byte.byte -> option JSON) is_dict
    header payload rest max_bytes :
  pack_u32 (Z.of_nat (length payload)) = Ok header ->
  read_message json_loads is_dict max_bytes (header ++ payload ++ rest) =
    if (Z.of_nat (length payload) <=? 0) || (Z.of_nat (length payload) >? max_bytes)
    then Err "invalid payload length"
    else match json_loads payload with
         | None => Err "invalid json payload"
         | Some obj =>
             if is_dict obj then Ok (obj, rest)
             else Err "payload must be a JSON object"
         end.
Proof.
  intros Hp. pose proof (Framing.pack_u32_length _ _ Hp) as Hl.
  pose proof (Framing.unpack_pack _ _ Hp) as Hu.
  unfold read_message. msimpl.
  change 4 with (Z.of_nat 4). rewrite <- Hl, Framing.read_exactly_app. simpl.
  rewrite Hu. destruct (_ || _); [reflexivity|].
  rewrite Framing.read_exactly_app. reflexivity.
Qed.

End FrameReading.

(** X1. Whatever the codec, a stream that ends inside a frame is refused: if
    [encode_message] frames an object whose payload the reader's limit
    admits, [read_message] on any proper prefix of the frame fails with
    "connection closed while reading". *)
Theorem truncated_frame_refused {JSON : Type}
    (json_dumps : JSON -> list Byte.byte)
    (json_loads : list Byte.byte -> option JSON) (is_dict : JSON -> bool)
    (obj : JSON) (frame : list Byte.byte) (max_bytes : Z) (k : nat) :
  Protocol.encode_message json_dumps obj = Ok frame ->
  0 < Z.of_nat (length (json_dumps obj)) <= max_bytes ->
  (k < length frame)%nat ->
  Protocol.read_message json_loads is_dict max_bytes (take k frame)
  = Err "connection closed while reading".
Proof.
  intros He Hlen Hk.
  unfold Protocol.encode_message in He. msimpl.
  destruct (Protocol.pack_u32 (Z.of_nat (length (json_dumps obj))))
    as [header|] eqn:Hp; [|discriminate].
  simpl in He. injection He as <-.
  pose proof (Framing.pack_u32_length _ _ Hp) as Hl.
  pose proof (Framing.unpack_pack _ _ Hp) as Hu.
  rewrite length_app in Hk.
  destruct (le_lt_dec 4 k) as [Hge|Hlt].
  - rewrite take_app, Hl, take_ge by lia.
    unfold Protocol.read_message. msimpl.
    change 4 with (Z.of_nat 4). rewrite <- Hl at 1.
    rewrite Framing.read_exactly_app. simpl. rewrite Hu.
    destruct (Z.leb_spec (Z.of_nat (length (json_dumps obj))) 0); [lia|].
    destruct (Z.gtb_spec (Z.of_nat (length (json_dumps obj))) max_bytes); [lia|].
    simpl. rewrite FrameReading.read_exactly_short; [reflexivity|].
    rewrite length_take. lia.
  - unfold Protocol.read_message. msimpl.
    rewrite FrameReading.read_exactly_short; [reflexivity|].
    rewrite length_take, length_app. lia.
Qed.

Lemma truncated_frame_refused_witness :
  Protocol.read_message Json.loads_bytes Json.is_dict Protocol.default_max_bytes
    (take 20 (Protocol.byte_of_Z 0 :: Protocol.byte_of_Z 0 ::
              Protocol.byte_of_Z 0 :: Protocol.byte_of_Z 55 ::
              Json.dumps_bytes WireScenario.ping))
  = Err "connection closed while reading".
Proof.
  refine (truncated_frame_refused Json.dumps_bytes Json.loads_bytes Json.is_dict
            WireScenario.ping _ Protocol.default_max_bytes 20 _ _ _).
  - vm_compute. reflexivity.
  - vm_compute. split; [reflexivity | discriminate].
  - vm_compute. lia.
Defined.

(** X2. On a stream that starts with the four-byte header of a length [n]
    followed by [n] bytes, [read_message] reads exactly that frame: it
    refuses [n = 0] and [n > max_bytes] as an invalid payload length, refuses
    a payload that [json.loads] rejects, refuses a JSON value that is not an
    object, and otherwise returns the object, leaving the stream after the
    frame. *)
Theorem read_message_framed {JSON : Type}
    (json_loads : list Byte.byte -> option JSON) (is_dict : JSON -> bool)
    (header payload rest : list Byte.byte) (max_bytes : Z) :
  Protocol.pack_u32 (Z.of_nat (length payload)) = Ok header ->
  Protocol.read_message json_loads is_dict max_bytes (header ++ payload ++ rest) =
    if (length payload =? 0)%nat || (Z.of_nat (length payload) >? max_bytes)
    then Err "invalid payload length"
    else match json_loads payload with
         | None => Err "invalid json payload"
         | Some obj =>
             if is_dict obj then Ok (obj, rest)
             else Err "payload must be a JSON object"
         end.
Proof.
  intros Hp. rewrite (FrameReading.read_framed _ _ _ _ _ _ Hp).
  replace (Z.of_nat (length payload) <=? 0) with (length payload =? 0)%nat;
    [reflexivity|].
  destruct (Nat.eqb_spec (length payload) 0), (Z.leb_spec (Z.of_nat (length payload)) 0);
    try reflexivity; lia.
Qed.

Lemma read_message_framed_witness :
  Protocol.read_message Json.loads_bytes Json.is_dict Protocol.default_max_bytes
    ([Protocol.byte_of_Z 0; Protocol.byte_of_Z 0; Protocol.byte_of_Z 0;
      Protocol.byte_of_Z 2]
     ++ Json.dumps_bytes (Json.List []) ++ Json.dumps_bytes WireScenario.ping)
  = Err "payload must be a JSON object".
Proof.
  refine (read_message_framed Json.loads_bytes Json.is_dict _
            (Json.dumps_bytes (Json.List [])) _ Protocol.default_max_bytes _).
  vm_compute. reflexivity.
Defined.

(** ** Item keys *)

Module ItemKeyParts.

(** The number of colons of a string. *)
Fixpoint colons (s : string) : nat :=
  match s with
  | EmptyString => 0
  | String c s' => (if ItemKey.is_colon c then 1 else 0) + colons s'
  end.

Lemma length_split_on p s :
  length (PyStr.split_on p s)
  = S ((fix count (s : string) : nat :=
          match s with
          | EmptyString => 0
          | String c s' => (if p c then 1 else 0) + count s'
          end) s)%nat.
Proof.
  induction s as [|c s IH]; [reflexivity|]. simpl.
  destruct (p c); simpl; [now rewrite IH|].
  destruct (PyStr.split_on p s) as [|w ws]; simpl in *; [discriminate|].
  exact IH.
Qed.

Lemma length_split_colons s :
  length (PyStr.split_on ItemKey.is_colon s) = S (colons s).
Proof. apply length_split_on. Qed.

End ItemKeyParts.

(** X3. The key of an item id reads back as the id, distinct ids have
    distinct keys, and a string is refused as "invalid item_id string"
    exactly when it does not hold one colon. *)
Theorem item_key_reads_back :
  (forall i, ItemId.from_any (ItemId.key i) = Ok i) /\
  (forall i j, ItemId.key i = ItemId.key j <-> i = j) /\
  (forall s,
     ItemId.from_any s = Err "invalid item_id string; expected 'category:number'"
     <-> ItemKeyParts.colons s <> 1%nat).
Proof.
  split; [exact ItemKey.from_any_key|].
  split.
  - intros i j. split; [apply ItemKey.key_inj | now intros ->].
  - intros s. pose proof (ItemKeyParts.length_split_colons s) as Hl.
    unfold ItemId.from_any.
    change (fun c : ascii => bool_decide (c = ":"%char)) with ItemKey.is_colon.
    destruct (PyStr.split_on ItemKey.is_colon s) as [|p0 [|p1 [|p2 ps]]];
      simpl in Hl.
    + discriminate.
    + split; [intros _; lia | reflexivity].
    + split; [|intros H; lia].
      destruct (PyStr.to_int p0), (PyStr.to_int p1); discriminate.
    + split; [intros _; lia | reflexivity].
Qed.

(** ** More on insertion-ordered dictionaries *)

Module PyDictFacts.
Section facts.
Context {K V : Type} `{EqDecision K}.
Implicit Types (k : K) (v : V) (d : list (K * V)).

Lemma set_fresh k v d : k ∉ PyDict.keys d -> PyDict.set k v d = d ++ [(k, v)].
Proof.
  induction d as [|[k' v'] d IH]; simpl; [reflexivity|].
  rewrite not_elem_of_cons. intros [Hne Hin].
  destruct (decide (k = k')); [congruence|]. now rewrite IH.
Qed.

Lemma set_same k v d : PyDict.get k d = Some v -> PyDict.set k v d = d.
Proof.
  induction d as [|[k' v'] d IH]; simpl; [discriminate|].
  destruct (decide (k = k')) as [->|Hne]; [now intros [= ->]|].
  intros H. now rewrite IH.
Qed.

Lemma set_set k v w d : PyDict.set k v (PyDict.set k w d) = PyDict.set k v d.
Proof.
  induction d as [|[k' v'] d IH]; simpl.
  - destruct (decide (k = k)); congruence.
  - destruct (decide (k = k')) as [->|Hne]; simpl.
    + destruct (decide (k' = k')); congruence.
    + destruct (decide (k = k')); [congruence|]. now rewrite IH.
Qed.

Lemma pop_set_fresh k v d :
  k ∉ PyDict.keys d -> PyDict.pop k (PyDict.set k v d) = d.
Proof.
  induction d as [|[k' v'] d IH]; simpl.
  - intros _. destruct (decide (k = k)); congruence.
  - rewrite not_elem_of_cons. intros [Hne Hin].
    destruct (decide (k = k')); [congruence|]. simpl.
    destruct (decide (k = k')); [congruence|]. now rewrite IH.
Qed.

Lemma get_is_Some_keys k d : is_Some (PyDict.get k d) <-> k ∈ PyDict.keys d.
Proof.
  destruct (PyDict.get k d) as [v|] eqn:E.
  - split; [intros _|eauto]. apply PyDict.get_Some_elem in E.
    apply (list_elem_of_fmap_2 fst) in E. exact E.
  - apply PyDict.get_None_keys in E. split; [intros [? ?]; discriminate | tauto].
Qed.

Lemma elem_keys k v d : (k, v) ∈ d -> k ∈ PyDict.keys d.
Proof. intros H. apply (list_elem_of_fmap_2 fst) in H. exact H. Qed.

Lemma elem_values k v d : (k, v) ∈ d -> v ∈ PyDict.values d.
Proof. intros H. apply (list_elem_of_fmap_2 snd) in H. exact H. Qed.

Lemma values_elem v d : v ∈ PyDict.values d -> exists k, (k, v) ∈ d.
Proof.
  intros H. apply list_elem_of_fmap in H as [[k v'] [-> H]]. eauto.
Qed.

(** The entries of [set k v d] when the keys of [d] are distinct. *)
Lemma elem_set_iff k v d k' v' :
  NoDup (PyDict.keys d) ->
  (k', v') ∈ PyDict.set k v d <->
  (k' = k /\ v' = v) \/ (k' <> k /\ (k', v') ∈ d).
Proof.
  intros Hnd. split.
  - intros H. destruct (decide (k' = k)) as [->|Hne].
    + left. split; [reflexivity|].
      apply (PyDict.elem_get _ _ _ (PyDict.NoDup_keys_set k v d Hnd)) in H.
      rewrite PyDict.get_set_eq in H. congruence.
    + right. split; [exact Hne|].
      apply PyDict.elem_set in H as [[= -> ->]|H]; [congruence | exact H].
  - intros [[-> ->]|[Hne H]].
    + apply PyDict.get_Some_elem, PyDict.get_set_eq.
    + apply PyDict.get_Some_elem. rewrite PyDict.get_set_ne by congruence.
      now apply PyDict.elem_get.
Qed.

End facts.
End PyDictFacts.

(** ** The product store: identifiers and stored fields *)

Module ProductStore.
Import ProductDB.

(** The number the next item of a category will get. *)
Definition next_number (c : Z) (db : t) : Z :=
  default 1 (_next_in_category db !! c).

Record item_ok (it : Item.t) : Prop := {
  name_bounds : 1 <= PyStr.len (Item.name it) <= 32;
  keywords_count : (length (Item.keywords it) <= 5)%nat;
  keywords_bounds :
    Forall (fun k => 1 <= PyStr.len k <= 8) (Item.keywords it);
  price_not_negative : PyFloat.ltb (Item.sale_price it) PyFloat.zero = false;
  quantity_nonneg : 0 <= Item.quantity it;
  thumbs_nonneg :
    0 <= Feedback.thumbs_up (Item.feedback it) /\
    0 <= Feedback.thumbs_down (Item.feedback it);
  category_of_id : Item.category it = ItemId.category (Item.item_id it)
}.

Record store_ok (db : t) : Prop := {
  keys_nodup : NoDup (PyDict.keys (items db));
  stored : forall k it,
    (k, it) ∈ items db ->
    k = ItemId.key (Item.item_id it) /\
    1 <= ItemId.number (Item.item_id it)
      < next_number (ItemId.category (Item.item_id it)) db /\
    item_ok it;
  complete : forall c n,
    1 <= n < next_number c db ->
    is_Some (PyDict.get (ItemId.key (ItemId.mk c n)) (items db));
  next_positive : forall c, 1 <= next_number c db
}.

Lemma store_ok_init : store_ok init.
Proof.
  split; simpl.
  - constructor.
  - intros k it H. now apply elem_of_nil in H.
  - intros c n. unfold next_number. simpl. rewrite lookup_empty. simpl. lia.
  - intros c. unfold next_number. simpl. rewrite lookup_empty. simpl. lia.
Qed.

Lemma clean_keywords_ok kws cleaned :
  clean_keywords kws = Ok cleaned ->
  cleaned = kws /\ Forall (fun k => 1 <= PyStr.len k <= 8) kws.
Proof.
  revert cleaned. induction kws as [|s kws IH]; simpl; intros cleaned.
  - intros [= <-]. split; [reflexivity | constructor].
  - destruct (Z.eqb_spec (PyStr.len s) 0); [discriminate|].
    destruct (Z.gtb_spec (PyStr.len s) 8); [discriminate|]. simpl.
    destruct (clean_keywords kws) as [c|] eqn:E; [|discriminate].
    simpl. intros [= <-]. destruct (IH c eq_refl) as [-> HF].
    split; [reflexivity|]. constructor; [|exact HF].
    unfold PyStr.len in *. lia.
Qed.

Lemma validate_ok a name c cond p q kws :
  _validate_item_fields a = Ok (name, c, cond, p, q, kws) ->
  name = item_name a /\ c = item_category a /\ p = a_sale_price a /\
  q = item_quantity a /\ kws = a_keywords a /\
  parse_condition (a_condition a) = Some cond /\
  1 <= PyStr.len name <= 32 /\ PyFloat.ltb p PyFloat.zero = false /\ 0 <= q /\
  (length kws <= 5)%nat /\ Forall (fun k => 1 <= PyStr.len k <= 8) kws.
Proof.
  unfold _validate_item_fields.
  destruct (Z.eqb_spec (PyStr.len (item_name a)) 0); [discriminate|].
  destruct (Z.gtb_spec (PyStr.len (item_name a)) 32); [discriminate|]. simpl.
  destruct (parse_condition (a_condition a)) as [cond'|]; [|discriminate].
  destruct (PyFloat.ltb (a_sale_price a) PyFloat.zero) eqn:Hp; [discriminate|].
  destruct (Z.ltb_spec (item_quantity a) 0); [discriminate|].
  destruct (Z.gtb_spec (Z.of_nat (length (a_keywords a))) 5); [discriminate|].
  destruct (clean_keywords (a_keywords a)) as [cl|] eqn:E; [|discriminate].
  simpl. intros [= <- <- <- <- <- <-].
  destruct (clean_keywords_ok _ _ E) as [-> HF].
  repeat split; try assumption; try lia.
  unfold PyStr.len in *. lia.
Qed.

(** The key of a new item is not in the store. *)
Lemma next_key_fresh c db :
  store_ok db ->
  ItemId.key (ItemId.mk c (next_number c db)) ∉ PyDict.keys (items db).
Proof.
  intros Hok Hin. apply PyDictFacts.get_is_Some_keys in Hin as [it Hit].
  apply PyDict.get_Some_elem in Hit.
  destruct (stored db Hok _ _ Hit) as (Hk & Hn & _).
  apply ItemKey.key_inj in Hk. rewrite <- Hk in Hn. simpl in Hn. lia.
Qed.

Lemma next_number_insert c n c' db its :
  next_number c' (mk (<[c := n]> (_next_in_category db)) its)
  = if decide (c' = c) then n else next_number c' db.
Proof.
  unfold next_number. simpl. destruct (decide (c' = c)) as [->|Hne].
  - now rewrite lookup_insert_eq.
  - now rewrite lookup_insert_ne by congruence.
Qed.

Lemma register_item_shape now seller_id a db iid db' :
  register_item now seller_id a db = Ok (iid, db') ->
  exists cond,
    parse_condition (a_condition a) = Some cond /\
    iid = ItemId.mk (item_category a) (next_number (item_category a) db) /\
    db' = mk (<[item_category a := next_number (item_category a) db + 1]>
                (_next_in_category db))
             (PyDict.set (ItemId.key iid)
                (Item.mk iid seller_id (item_name a) (item_category a)
                   (a_keywords a) cond (a_sale_price a) (item_quantity a)
                   (Feedback.mk 0 0) now)
                (items db)) /\
    1 <= PyStr.len (item_name a) <= 32 /\ PyFloat.ltb (a_sale_price a) PyFloat.zero = false /\
    0 <= item_quantity a /\ (length (a_keywords a) <= 5)%nat /\
    Forall (fun k => 1 <= PyStr.len k <= 8) (a_keywords a).
Proof.
  unfold register_item.
  destruct (_validate_item_fields a) as [[[[[[name c] cond] p] q] kws]|] eqn:E;
    [|discriminate].
  apply validate_ok in E
    as (-> & -> & -> & -> & -> & Hc & Hn & Hp & Hq & Hl & HF).
  simpl. intros [= <- <-]. exists cond.
  repeat split; try reflexivity; assumption || lia.
Qed.

Lemma register_item_ok now seller_id a db iid db' :
  store_ok db -> register_item now seller_id a db = Ok (iid, db') -> store_ok db'.
Proof.
  intros Hok H.
  destruct (register_item_shape _ _ _ _ _ _ H)
    as (cond & _ & -> & -> & Hn & Hp & Hq & Hl & HF).
  pose proof (next_key_fresh (item_category a) db Hok) as Hfresh.
  pose proof (next_positive db Hok (item_category a)) as Hpos.
  set (c := item_category a) in *. set (n := next_number c db) in *.
  split; simpl.
  - apply PyDict.NoDup_keys_set, (keys_nodup db Hok).
  - intros k it Hin.
    apply (PyDictFacts.elem_set_iff _ _ _ _ _ (keys_nodup db Hok)) in Hin
      as [[-> ->]|[Hne Hin]]; simpl.
    + split; [reflexivity|]. rewrite next_number_insert.
      destruct (decide (c = c)); [|congruence].
      split; [lia|]. split; simpl; auto; lia.
    + destruct (stored db Hok _ _ Hin) as (Hk & Hrange & Hit).
      split; [exact Hk|]. split; [|exact Hit].
      rewrite next_number_insert.
      destruct (decide (ItemId.category (Item.item_id it) = c)) as [E|];
        [rewrite E in Hrange; fold n in Hrange|]; lia.
  - intros c' n'. rewrite next_number_insert. intros Hr.
    destruct (decide (ItemId.mk c' n' = ItemId.mk c n)) as [[= -> ->]|Hne].
    + rewrite PyDict.get_set_eq. eauto.
    + rewrite PyDict.get_set_ne
        by (intros Hk; apply ItemKey.key_inj in Hk; congruence).
      apply (complete db Hok). destruct (decide (c' = c)) as [E|]; [|exact Hr].
      assert (n' <> n) by congruence. rewrite E. fold n. lia.
  - intros c'. rewrite next_number_insert. destruct (decide (c' = c)); [lia|].
    apply (next_positive db Hok).
Qed.

(** Replacing a stored item by one with the same identifier. *)
Lemma replace_item_ok db iid item item' :
  store_ok db ->
  PyDict.get (ItemId.key iid) (items db) = Some item ->
  Item.item_id item' = Item.item_id item -> item_ok item' ->
  store_ok (mk (_next_in_category db)
               (PyDict.set (ItemId.key iid) item' (items db))).
Proof.
  intros Hok Hget Hid Hit.
  pose proof (PyDict.get_Some_elem _ _ _ Hget) as Hin0.
  destruct (stored db Hok _ _ Hin0) as (Hk & Hrange & _).
  split; simpl.
  - apply PyDict.NoDup_keys_set, (keys_nodup db Hok).
  - intros k it Hin.
    apply (PyDictFacts.elem_set_iff _ _ _ _ _ (keys_nodup db Hok)) in Hin
      as [[-> ->]|[Hne Hin]].
    + rewrite Hid. unfold next_number in *. simpl. auto.
    + exact (stored db Hok _ _ Hin).
  - intros c n Hr. unfold next_number in Hr. simpl in Hr.
    destruct (decide (ItemId.key (ItemId.mk c n) = ItemId.key iid)) as [->|Hne].
    + rewrite PyDict.get_set_eq. eauto.
    + rewrite PyDict.get_set_ne by congruence. now apply (complete db Hok).
  - exact (next_positive db Hok).
Qed.

Lemma step_store_ok db r : store_ok db -> store_ok (step db r).
Proof.
  intros Hok. destruct r as [now s a|s iid p|s iid q|iid v]; simpl.
  - destruct (register_item now s a db) as [[iid db']|] eqn:E; [|exact Hok].
    exact (register_item_ok _ _ _ _ _ _ Hok E).
  - unfold change_item_price.
    destruct (PyFloat.ltb p PyFloat.zero) eqn:Hp; [exact Hok|].
    destruct (PyDict.get (ItemId.key iid) (items db)) as [item|] eqn:Hg;
      [|exact Hok].
    destruct (negb _); [exact Hok|].
    apply (replace_item_ok db iid item); auto.
    destruct (stored db Hok _ _ (PyDict.get_Some_elem _ _ _ Hg))
      as (_ & _ & [? ? ? ? ? ? ?]).
    split; simpl; auto.
  - unfold update_units_remove.
    destruct (Z.leb_spec q 0); [exact Hok|].
    destruct (PyDict.get (ItemId.key iid) (items db)) as [item|] eqn:Hg;
      [|exact Hok].
    destruct (negb _); [exact Hok|].
    destruct (Z.gtb_spec q (Item.quantity item)); [exact Hok|].
    apply (replace_item_ok db iid item); auto.
    destruct (stored db Hok _ _ (PyDict.get_Some_elem _ _ _ Hg))
      as (_ & _ & [? ? ? ? ? ? ?]).
    split; simpl; auto. lia.
  - unfold provide_feedback.
    destruct (PyDict.get (ItemId.key iid) (items db)) as [item|] eqn:Hg;
      [|exact Hok].
    apply (replace_item_ok db iid item); auto.
    destruct (stored db Hok _ _ (PyDict.get_Some_elem _ _ _ Hg))
      as (_ & _ & [? ? ? ? ? [? ?] ?]).
    split; simpl; auto. destruct v; simpl; lia.
Qed.

Lemma run_store_ok rs db : store_ok db -> store_ok (run rs db).
Proof.
  revert db. induction rs as [|r rs IH]; intros db H; simpl; [exact H|].
  apply IH. now apply step_store_ok.
Qed.

End ProductStore.

(** X4. In the product store reached by any requests, the items of a
    category carry the numbers 1, 2, ... without a gap, below the category's
    counter; a registration that succeeds gets the number of the counter,
    which names no stored item, and advances that counter alone by one. *)
Theorem product_ids_sequential (rs : list ProductDB.request) :
  let db := ProductDB.run rs ProductDB.init in
  (forall c n,
     1 <= n < ProductStore.next_number c db <->
     exists it,
       ProductDB.get_item (ItemId.mk c n) db = Ok it /\
       Item.item_id it = ItemId.mk c n) /\
  (forall now seller_id a iid db',
     ProductDB.register_item now seller_id a db = Ok (iid, db') ->
     iid = ItemId.mk (ProductDB.item_category a)
             (ProductStore.next_number (ProductDB.item_category a) db) /\
     ProductDB.get_item iid db = Err "unknown item_id" /\
     forall c,
       ProductStore.next_number c db' =
       if decide (c = ProductDB.item_category a)
       then ProductStore.next_number c db + 1
       else ProductStore.next_number c db).
Proof.
  intros db.
  assert (Hok : ProductStore.store_ok db)
    by apply ProductStore.run_store_ok, ProductStore.store_ok_init.
  split.
  - intros c n. unfold ProductDB.get_item. split.
    + intros Hr. destruct (ProductStore.complete db Hok c n Hr) as [it Hit].
      exists it. rewrite Hit. split; [reflexivity|].
      apply PyDict.get_Some_elem in Hit.
      destruct (ProductStore.stored db Hok _ _ Hit) as (Hk & _).
      now apply ItemKey.key_inj in Hk.
    + intros (it & Hget & Hid).
      destruct (PyDict.get _ _) as [it0|] eqn:E; [|discriminate].
      injection Hget as ->. apply PyDict.get_Some_elem in E.
      destruct (ProductStore.stored db Hok _ _ E) as (_ & Hr & _).
      now rewrite Hid in Hr.
  - intros now seller_id a iid db' H.
    destruct (ProductStore.register_item_shape _ _ _ _ _ _ H)
      as (cond & _ & -> & -> & _).
    split; [reflexivity|]. split.
    + unfold ProductDB.get_item.
      pose proof (ProductStore.next_key_fresh (ProductDB.item_category a) db Hok)
        as Hf.
      apply PyDict.get_None_keys in Hf. now rewrite Hf.
    + intros c. rewrite ProductStore.next_number_insert.
      destruct (decide (c = ProductDB.item_category a)) as [->|]; reflexivity.
Qed.

Lemma product_ids_sequential_witness :
  exists it,
    ProductDB.get_item (ItemId.mk 1 2) RankingScenario.product_db = Ok it /\
    Item.item_id it = ItemId.mk 1 2.
Proof.
  apply (proj1 (product_ids_sequential RankingScenario.product_requests) 1 2).
  vm_compute. split; [discriminate | reflexivity].
Defined.

(** X5. Every item of the product store reached by any requests is stored
    once, under the key of its own id, in the category of that id; its name
    has 1 to 32 characters, it has at most five keywords of 1 to 8
    characters each, its price is not below zero (the test [price < 0] of
    the store fails for it, as it does for a NaN) and neither count of its
    feedback is negative. *)
Theorem product_items_well_formed (rs : list ProductDB.request) k it :
  (k, it) ∈ ProductDB.items (ProductDB.run rs ProductDB.init) ->
  PyDict.get k (ProductDB.items (ProductDB.run rs ProductDB.init)) = Some it /\
  k = ItemId.key (Item.item_id it) /\
  Item.category it = ItemId.category (Item.item_id it) /\
  1 <= PyStr.len (Item.name it) <= 32 /\
  (length (Item.keywords it) <= 5)%nat /\
  Forall (fun kw => 1 <= PyStr.len kw <= 8) (Item.keywords it) /\
  PyFloat.ltb (Item.sale_price it) PyFloat.zero = false /\
  0 <= Feedback.thumbs_up (Item.feedback it) /\
  0 <= Feedback.thumbs_down (Item.feedback it).
Proof.
  intros Hin.
  assert (Hok : ProductStore.store_ok (ProductDB.run rs ProductDB.init))
    by apply ProductStore.run_store_ok, ProductStore.store_ok_init.
  destruct (ProductStore.stored _ Hok _ _ Hin) as (Hk & _ & [? ? ? ? ? [? ?] ?]).
  split; [apply PyDict.elem_get; [apply (ProductStore.keys_nodup _ Hok) | exact Hin]|].
  repeat split; assumption || lia.
Qed.

Lemma product_items_well_formed_witness :
  PyDict.get "1:1" (ProductDB.items RankingScenario.product_db)
    = Some RankingScenario.Y /\
  "1:1" = ItemId.key (Item.item_id RankingScenario.Y) /\
  Item.category RankingScenario.Y
    = ItemId.category (Item.item_id RankingScenario.Y) /\
  1 <= PyStr.len (Item.name RankingScenario.Y) <= 32 /\
  (length (Item.keywords RankingScenario.Y) <= 5)%nat /\
  Forall (fun kw => 1 <= PyStr.len kw <= 8) (Item.keywords RankingScenario.Y) /\
  PyFloat.ltb (Item.sale_price RankingScenario.Y) PyFloat.zero = false /\
  0 <= Feedback.thumbs_up (Item.feedback RankingScenario.Y) /\
  0 <= Feedback.thumbs_down (Item.feedback RankingScenario.Y).
Proof.
  apply (product_items_well_formed RankingScenario.product_requests "1:1"
           RankingScenario.Y).
  vm_compute. apply list_elem_of_here.
Defined.

(** X6. Only the seller who registered an item can change it. A change of
    price or a removal of units asked by another seller is refused; one that
    succeeds was asked by the owner, and replaces the price (a float that is
    not below zero), or takes the units (between one and what is on sale)
    off the quantity, of that item alone: every other entry, the order of
    the store and the counters are as before. The owner's change of the
    price to a NaN, which is not below zero, succeeds. *)
Theorem product_owner_only :
  (forall seller_id iid db item,
     PyDict.get (ItemId.key iid) (ProductDB.items db) = Some item ->
     Item.seller_id item <> seller_id ->
     (forall new_price,
        ProductDB.change_item_price seller_id iid new_price db =
        Err (if PyFloat.ltb new_price PyFloat.zero
             then "new_price must be >= 0"
             else "item does not belong to this seller")) /\
     (forall qty,
        ProductDB.update_units_remove seller_id iid qty db =
        Err (if qty <=? 0 then "quantity to remove must be positive"
             else "item does not belong to this seller"))) /\
  (forall seller_id iid new_price db db',
     ProductDB.change_item_price seller_id iid new_price db = Ok db' ->
     exists item,
       PyDict.get (ItemId.key iid) (ProductDB.items db) = Some item /\
       Item.seller_id item = seller_id /\
       PyFloat.ltb new_price PyFloat.zero = false /\
       PyDict.get (ItemId.key iid) (ProductDB.items db')
         = Some (Item.with_sale_price new_price item) /\
       (forall k, k <> ItemId.key iid ->
          PyDict.get k (ProductDB.items db') = PyDict.get k (ProductDB.items db)) /\
       PyDict.keys (ProductDB.items db') = PyDict.keys (ProductDB.items db) /\
       ProductDB._next_in_category db' = ProductDB._next_in_category db) /\
  (forall seller_id iid qty db left db',
     ProductDB.update_units_remove seller_id iid qty db = Ok (left, db') ->
     exists item,
       PyDict.get (ItemId.key iid) (ProductDB.items db) = Some item /\
       Item.seller_id item = seller_id /\
       0 < qty <= Item.quantity item /\ left = Item.quantity item - qty /\
       PyDict.get (ItemId.key iid) (ProductDB.items db')
         = Some (Item.with_quantity left item) /\
       (forall k, k <> ItemId.key iid ->
          PyDict.get k (ProductDB.items db') = PyDict.get k (ProductDB.items db)) /\
       PyDict.keys (ProductDB.items db') = PyDict.keys (ProductDB.items db) /\
       ProductDB._next_in_category db' = ProductDB._next_in_category db) /\
  (forall iid db item,
     PyDict.get (ItemId.key iid) (ProductDB.items db) = Some item ->
     exists db',
       ProductDB.change_item_price (Item.seller_id item) iid PyFloat.nan db
         = Ok db' /\
       PyDict.get (ItemId.key iid) (ProductDB.items db')
         = Some (Item.with_sale_price PyFloat.nan item)).
Proof.
  split; [|split; [|split]]; cycle 3.
  { intros iid db item Hget. unfold ProductDB.change_item_price.
    change (PyFloat.ltb PyFloat.nan PyFloat.zero) with false. cbv iota.
    rewrite Hget, Z.eqb_refl. simpl. eexists. split; [reflexivity|].
    simpl. apply PyDict.get_set_eq. }
  - intros seller_id iid db item Hget Hne. split.
    + intros p. unfold ProductDB.change_item_price. rewrite Hget.
      destruct (PyFloat.ltb p PyFloat.zero); [reflexivity|].
      destruct (Z.eqb_spec (Item.seller_id item) seller_id); [congruence|].
      reflexivity.
    + intros q. unfold ProductDB.update_units_remove. rewrite Hget.
      destruct (q <=? 0); [reflexivity|].
      destruct (Z.eqb_spec (Item.seller_id item) seller_id); [congruence|].
      reflexivity.
  - intros seller_id iid p db db'. unfold ProductDB.change_item_price.
    destruct (PyFloat.ltb p PyFloat.zero) eqn:Hp; [discriminate|].
    destruct (PyDict.get _ _) as [item|] eqn:Hget; [|discriminate].
    destruct (Z.eqb_spec (Item.seller_id item) seller_id) as [Hs|];
      [|discriminate].
    simpl. intros [= <-]. exists item. simpl.
    split; [reflexivity|]. split; [exact Hs|]. split; [reflexivity|].
    split; [apply PyDict.get_set_eq|].
    split; [intros k Hk; apply PyDict.get_set_ne; congruence|].
    split; [|reflexivity].
    apply PyDict.keys_set_present, PyDictFacts.get_is_Some_keys. eauto.
  - intros seller_id iid q db left db'. unfold ProductDB.update_units_remove.
    destruct (Z.leb_spec q 0); [discriminate|].
    destruct (PyDict.get _ _) as [item|] eqn:Hget; [|discriminate].
    destruct (Z.eqb_spec (Item.seller_id item) seller_id) as [Hs|];
      [|discriminate].
    destruct (Z.gtb_spec q (Item.quantity item)); [discriminate|].
    simpl. intros [= <- <-]. exists item. simpl.
    split; [reflexivity|]. split; [exact Hs|]. split; [lia|].
    split; [reflexivity|].
    split; [apply PyDict.get_set_eq|].
    split; [intros k Hk; apply PyDict.get_set_ne; congruence|].
    split; [|reflexivity].
    apply PyDict.keys_set_present, PyDictFacts.get_is_Some_keys. eauto.
Qed.

Lemma product_owner_only_witness :
  ProductDB.change_item_price 2 (ItemId.mk 1 1) (PyFloat.nearest 7)
    RankingScenario.product_db
  = Err "item does not belong to this seller".
Proof.
  refine (proj1 (proj1 product_owner_only 2 (ItemId.mk 1 1)
                   RankingScenario.product_db RankingScenario.Y _ _)
            (PyFloat.nearest 7)).
  - vm_compute. reflexivity.
  - vm_compute. discriminate.
Defined.

(** ** What later requests can do to a stored item *)

Module ProductHistory.
Import ProductDB ProductStore.

(** The item [it'] is a later state of [it]: the same identity and
    description, no fewer votes, no more units. *)
Record later (it it' : Item.t) : Prop := {
  same_id : Item.item_id it' = Item.item_id it;
  same_seller : Item.seller_id it' = Item.seller_id it;
  same_name : Item.name it' = Item.name it;
  same_category : Item.category it' = Item.category it;
  same_keywords : Item.keywords it' = Item.keywords it;
  same_condition : Item.condition it' = Item.condition it;
  same_created_at : Item.created_at it' = Item.created_at it;
  more_up :
    Feedback.thumbs_up (Item.feedback it)
    <= Feedback.thumbs_up (Item.feedback it');
  more_down :
    Feedback.thumbs_down (Item.feedback it)
    <= Feedback.thumbs_down (Item.feedback it');
  fewer_units : Item.quantity it' <= Item.quantity it
}.

Lemma later_refl it : later it it.
Proof. split; reflexivity || lia. Qed.

Lemma later_trans a b c : later a b -> later b c -> later a c.
Proof.
  intros [] []. split; try congruence; lia.
Qed.

Lemma replace_later k iid item item' its it :
  PyDict.get (ItemId.key iid) its = Some item -> later item item' ->
  PyDict.get k its = Some it ->
  exists it', PyDict.get k (PyDict.set (ItemId.key iid) item' its) = Some it' /\
              later it it'.
Proof.
  intros Hi Hl Hk. destruct (decide (k = ItemId.key iid)) as [->|Hne].
  - rewrite PyDict.get_set_eq. exists item'. split; [reflexivity|]. congruence.
  - rewrite PyDict.get_set_ne by congruence. exists it.
    split; [exact Hk | apply later_refl].
Qed.

Lemma step_later db r k it :
  store_ok db -> PyDict.get k (items db) = Some it ->
  exists it', PyDict.get k (items (step db r)) = Some it' /\ later it it'.
Proof.
  intros Hok Hk.
  assert (Hsame : exists it', PyDict.get k (items db) = Some it' /\ later it it')
    by (exists it; split; [exact Hk | apply later_refl]).
  destruct r as [now s a|s iid p|s iid q|iid v]; simpl.
  - destruct (register_item now s a db) as [[iid db']|] eqn:E; [|exact Hsame].
    destruct (register_item_shape _ _ _ _ _ _ E) as (cond & _ & -> & -> & _).
    simpl. exists it. split; [|apply later_refl].
    rewrite PyDict.get_set_ne; [exact Hk|]. intros Heq.
    apply (next_key_fresh (item_category a) db Hok). rewrite Heq.
    apply PyDictFacts.get_is_Some_keys. eauto.
  - unfold change_item_price. destruct (PyFloat.ltb p PyFloat.zero); [exact Hsame|].
    destruct (PyDict.get (ItemId.key iid) (items db)) as [item|] eqn:Hg;
      [|exact Hsame].
    destruct (negb _); [exact Hsame|]. simpl.
    apply (replace_later k iid item); auto. split; simpl; reflexivity || lia.
  - unfold update_units_remove. destruct (Z.leb_spec q 0); [exact Hsame|].
    destruct (PyDict.get (ItemId.key iid) (items db)) as [item|] eqn:Hg;
      [|exact Hsame].
    destruct (negb _); [exact Hsame|].
    destruct (Z.gtb_spec q (Item.quantity item)); [exact Hsame|]. simpl.
    apply (replace_later k iid item); auto. split; simpl; reflexivity || lia.
  - unfold provide_feedback.
    destruct (PyDict.get (ItemId.key iid) (items db)) as [item|] eqn:Hg;
      [|exact Hsame].
    simpl. apply (replace_later k iid item); auto.
    split; simpl; try reflexivity; destruct v; simpl; lia.
Qed.

Lemma step_keys_prefix db r :
  store_ok db -> PyDict.keys (items db) `prefix_of` PyDict.keys (items (step db r)).
Proof.
  intros Hok.
  assert (Hkeep : forall iid item item',
            PyDict.get (ItemId.key iid) (items db) = Some item ->
            PyDict.keys (items db) `prefix_of`
              PyDict.keys (PyDict.set (ItemId.key iid) item' (items db))).
  { intros iid item item' Hg. rewrite PyDict.keys_set_present; [reflexivity|].
    apply PyDictFacts.get_is_Some_keys. eauto. }
  destruct r as [now s a|s iid p|s iid q|iid v]; simpl.
  - destruct (register_item now s a db) as [[iid db']|] eqn:E; [|reflexivity].
    destruct (register_item_shape _ _ _ _ _ _ E) as (cond & _ & -> & -> & _).
    simpl. rewrite PyDict.keys_set_fresh by now apply next_key_fresh.
    now apply prefix_app_r.
  - unfold change_item_price. destruct (PyFloat.ltb p PyFloat.zero); [reflexivity|].
    destruct (PyDict.get (ItemId.key iid) (items db)) as [item|] eqn:Hg;
      [|reflexivity].
    destruct (negb _); [reflexivity|]. simpl. eauto.
  - unfold update_units_remove. destruct (Z.leb_spec q 0); [reflexivity|].
    destruct (PyDict.get (ItemId.key iid) (items db)) as [item|] eqn:Hg;
      [|reflexivity].
    destruct (negb _); [reflexivity|].
    destruct (Z.gtb_spec q (Item.quantity item)); [reflexivity|]. simpl. eauto.
  - unfold provide_feedback.
    destruct (PyDict.get (ItemId.key iid) (items db)) as [item|] eqn:Hg;
      [|reflexivity].
    simpl. eauto.
Qed.

Lemma run_later rs db k it :
  store_ok db -> PyDict.get k (items db) = Some it ->
  exists it', PyDict.get k (items (run rs db)) = Some it' /\ later it it'.
Proof.
  revert db it. induction rs as [|r rs IH]; intros db it Hok Hk; simpl.
  - exists it. split; [exact Hk | apply later_refl].
  - destruct (step_later db r k it Hok Hk) as (it1 & H1 & L1).
    destruct (IH (step db r) it1 (step_store_ok db r Hok) H1) as (it2 & H2 & L2).
    exists it2. split; [exact H2 | exact (later_trans _ _ _ L1 L2)].
Qed.

Lemma run_keys_prefix rs db :
  store_ok db -> PyDict.keys (items db) `prefix_of` PyDict.keys (items (run rs db)).
Proof.
  revert db. induction rs as [|r rs IH]; intros db Hok; simpl; [reflexivity|].
  etransitivity; [apply (step_keys_prefix db r Hok)|].
  apply IH, step_store_ok, Hok.
Qed.

End ProductHistory.

(** X7. The product store never forgets or renames an item: whatever
    requests follow, an item that is stored stays stored under its key, at
    its place in the order of the store, with the same id, seller, name,
    category, keywords, condition and creation time; its two feedback counts
    never decrease and its quantity never increases. *)
Theorem product_items_persist (rs rs' : list ProductDB.request) k it :
  let db := ProductDB.run rs ProductDB.init in
  let db' := ProductDB.run rs' db in
  PyDict.get k (ProductDB.items db) = Some it ->
  PyDict.keys (ProductDB.items db) `prefix_of` PyDict.keys (ProductDB.items db') /\
  exists it',
    PyDict.get k (ProductDB.items db') = Some it' /\
    Item.item_id it' = Item.item_id it /\
    Item.seller_id it' = Item.seller_id it /\
    Item.name it' = Item.name it /\
    Item.category it' = Item.category it /\
    Item.keywords it' = Item.keywords it /\
    Item.condition it' = Item.condition it /\
    Item.created_at it' = Item.created_at it /\
    Feedback.thumbs_up (Item.feedback it)
      <= Feedback.thumbs_up (Item.feedback it') /\
    Feedback.thumbs_down (Item.feedback it)
      <= Feedback.thumbs_down (Item.feedback it') /\
    Item.quantity it' <= Item.quantity it.
Proof.
  intros db db' Hk.
  assert (Hok : ProductStore.store_ok db)
    by apply ProductStore.run_store_ok, ProductStore.store_ok_init.
  split; [apply ProductHistory.run_keys_prefix, Hok|].
  destruct (ProductHistory.run_later rs' db k it Hok Hk) as (it' & H' & []).
  exists it'. repeat split; assumption.
Qed.

Lemma product_items_persist_witness :
  exists it',
    PyDict.get "1:1"
      (ProductDB.items
         (ProductDB.run
            [ProductDB.update_units_remove_req 1 (ItemId.mk 1 1) 1]
            RankingScenario.product_db)) = Some it' /\
    Item.name it' = "Y" /\ Item.quantity it' <= 1.
Proof.
  destruct (product_items_persist RankingScenario.product_requests
              [ProductDB.update_units_remove_req 1 (ItemId.mk 1 1) 1]
              "1:1" RankingScenario.Y) as (_ & it' & H & _ & _ & Hn & _ & _ & _ & _ & _ & _ & Hq).
  - vm_compute. reflexivity.
  - exists it'. split; [exact H|]. split; [exact Hn | exact Hq].
Defined.

(** X8. Keywords only narrow a search: whatever a search with keywords
    returns, the search of the same category without keywords returns as
    well, each item at least as often. This holds for the product store and
    for the search of the buyer handler. *)
Theorem search_keywords_narrow :
  (forall category keywords db out,
     ProductDB.search category keywords db = Ok out ->
     exists all,
       ProductDB.search category [] db = Ok all /\ out ⊆+ all) /\
  (forall category keywords st out,
     Market.search_items_for_sale category keywords st = Ok out ->
     exists all,
       Market.search_items_for_sale category [] st = Ok all /\
       map fst out ⊆+ map fst all).
Proof.
  split.
  - intros c kws db out H.
    exists (sorted cmp_ZFZZ ProductDB.key (ProductDB.candidates c db)).
    split; [reflexivity|].
    unfold ProductDB.search in H.
    destruct (_ >? 5); [discriminate|]. destruct (existsb _ _); [discriminate|].
    destruct (ProductDB.normalize_query kws) as [|k q]; injection H as <-;
      [reflexivity|].
    transitivity (map snd (ProductDB.scored (k :: q) (ProductDB.candidates c db))).
    { apply Permutation_submseteq, Permutation_map, sorted_Permutation. }
    rewrite KeywordSearch.scored_items.
    transitivity (ProductDB.candidates c db).
    { apply sublist_submseteq, sublist_filter. }
    apply Permutation_submseteq. symmetry. apply sorted_Permutation.
  - intros c kws st out H.
    destruct (Market._parse_keywords kws) as [kw|e] eqn:Hk.
    + destruct (HandlerSearch.handler_search_result c kws kw st Hk)
        as (out' & Ho & Hp & _).
      rewrite H in Ho. injection Ho as <-.
      destruct (HandlerSearch.handler_search_result c [] [] st eq_refl)
        as (all & Ha & Hpa & _).
      exists all. split; [exact Ha|].
      rewrite Hp, Hpa, HandlerSearch.filter_kept_nil.
      apply sublist_submseteq, sublist_filter.
    + unfold Market.search_items_for_sale in H. rewrite Hk in H. discriminate.
Qed.

Lemma search_keywords_narrow_witness :
  exists all,
    ProductDB.search 1 [] KeywordScenario.product_db = Ok all /\
    [KeywordScenario.lamp] ⊆+ all.
Proof.
  apply (proj1 search_keywords_narrow 1 ["lamp"] KeywordScenario.product_db).
  vm_compute. reflexivity.
Defined.

(** ** The query of a search *)

Module QueryNormalisation.

Lemma lower_char_idem c : PyStr.lower_char (PyStr.lower_char c) = PyStr.lower_char c.
Proof. destruct c as [[] [] [] [] [] [] [] []]; reflexivity. Qed.

Lemma lower_char_space c : PyStr.is_space (PyStr.lower_char c) = PyStr.is_space c.
Proof. destruct c as [[] [] [] [] [] [] [] []]; reflexivity. Qed.

Lemma lower_idem s : PyStr.lower (PyStr.lower s) = PyStr.lower s.
Proof.
  induction s as [|c s IH]; simpl; [reflexivity|].
  now rewrite lower_char_idem, IH.
Qed.

Lemma blank_lower s : PyStr.strip_is_empty (PyStr.lower s) = PyStr.strip_is_empty s.
Proof.
  unfold PyStr.strip_is_empty. induction s as [|c s IH]; simpl; [reflexivity|].
  now rewrite lower_char_space, IH.
Qed.

Lemma len_lower s : PyStr.len (PyStr.lower s) = PyStr.len s.
Proof.
  unfold PyStr.len. f_equal. induction s as [|c s IH]; simpl; congruence.
Qed.

Lemma normalize_lower kws :
  ProductDB.normalize_query (map PyStr.lower kws) = ProductDB.normalize_query kws.
Proof.
  unfold ProductDB.normalize_query. induction kws as [|k kws IH]; [reflexivity|].
  simpl. rewrite !filter_cons, blank_lower.
  destruct (PyStr.strip_is_empty k); simpl; [exact IH|].
  now rewrite lower_idem, IH.
Qed.

Lemma normalize_non_blank kws :
  ProductDB.normalize_query
    (filter (fun k => negb (PyStr.strip_is_empty k)) kws)
  = ProductDB.normalize_query kws.
Proof.
  unfold ProductDB.normalize_query. f_equal.
  apply list_filter_filter_l. auto.
Qed.

Lemma length_normalize kws :
  length (ProductDB.normalize_query kws) = length (filter non_blank kws).
Proof.
  unfold ProductDB.normalize_query. rewrite length_map. f_equal.
  apply list_filter_iff. intros k. unfold non_blank.
  destruct (PyStr.strip_is_empty k); simpl; split; intros H;
    try reflexivity; try exact I; try discriminate H; try contradiction.
Qed.

Lemma long_keyword kws :
  existsb (fun k => PyStr.len k >? 8) (ProductDB.normalize_query kws) = false
  <-> Forall (fun k => non_blank k -> PyStr.len (PyStr.lower k) <= 8) kws.
Proof.
  unfold ProductDB.normalize_query, non_blank.
  induction kws as [|k kws IH]; simpl.
  - split; [constructor | reflexivity].
  - rewrite filter_cons, Forall_cons.
    destruct (PyStr.strip_is_empty k) eqn:E; simpl.
    + rewrite IH. split; [|tauto]. intros H. split; [discriminate | exact H].
    + rewrite orb_false_iff, IH.
      destruct (Z.gtb_spec (PyStr.len (PyStr.lower k)) 8); split; intros [H1 H2];
        try discriminate; try (specialize (H1 eq_refl)); try lia;
        split; auto; intros _; lia.
Qed.

End QueryNormalisation.

(** X9. The query of a search in the product store is read without its
    blank keywords and without regard to case. For keywords in ASCII:
    dropping the blank keywords, or lower-casing all of them, changes
    nothing of the answer; the search is refused exactly when more than five
    keywords are not blank or one that is not blank has, once lower-cased,
    more than eight characters. *)
Theorem search_query_normalised :
  forall category keywords db,
    Forall (fun k => PyStr.isascii k = true) keywords ->
    ProductDB.search category
      (filter (fun k => negb (PyStr.strip_is_empty k)) keywords) db
    = ProductDB.search category keywords db /\
    ProductDB.search category (map PyStr.lower keywords) db
    = ProductDB.search category keywords db /\
    (is_ok (ProductDB.search category keywords db) = true <->
     (length (filter non_blank keywords) <= 5)%nat /\
     Forall (fun k => non_blank k -> PyStr.len (PyStr.lower k) <= 8) keywords).
Proof.
  intros c kws db _. split; [|split].
  - unfold ProductDB.search.
    now rewrite QueryNormalisation.normalize_non_blank.
  - unfold ProductDB.search.
    now rewrite QueryNormalisation.normalize_lower.
  - unfold ProductDB.search.
    rewrite <- QueryNormalisation.length_normalize,
      <- QueryNormalisation.long_keyword.
    destruct (Z.gtb_spec (Z.of_nat (length (ProductDB.normalize_query kws))) 5).
    { simpl. split; [discriminate | intros [Hlen _]; lia]. }
    destruct (existsb _ _); simpl.
    { split; [discriminate | intros [_ Hex]; discriminate]. }
    destruct (ProductDB.normalize_query kws); simpl;
      (split; [intros _; split; [simpl in *; lia | reflexivity] | reflexivity]).
Qed.

Lemma search_query_normalised_witness :
  ProductDB.search 1 (map PyStr.lower ["LAMP"; " "]) KeywordScenario.product_db
  = ProductDB.search 1 ["LAMP"; " "] KeywordScenario.product_db.
Proof.
  refine (proj1 (proj2 (search_query_normalised 1 ["LAMP"; " "]
                          KeywordScenario.product_db _))).
  repeat constructor.
Defined.

(** X10. An item registered in the product store is read back as it was
    given: in the store reached by any requests, after a registration that
    succeeds [get_item] of the new id returns the item with the seller, the
    name, the category, the keywords, the condition, the price and the
    quantity of the request and no feedback; the new item is the last of its
    seller's listing, and every other id and every other seller's listing
    read as before. *)
Theorem register_then_get (rs : list ProductDB.request) now seller_id a iid db' :
  let db := ProductDB.run rs ProductDB.init in
  ProductDB.register_item now seller_id a db = Ok (iid, db') ->
  exists cond,
    parse_condition (ProductDB.a_condition a) = Some cond /\
    let item :=
      Item.mk iid seller_id (ProductDB.item_name a) (ProductDB.item_category a)
        (ProductDB.a_keywords a) cond (ProductDB.a_sale_price a)
        (ProductDB.item_quantity a) (Feedback.mk 0 0) now in
    ProductDB.get_item iid db' = Ok item /\
    (forall j, j <> iid -> ProductDB.get_item j db' = ProductDB.get_item j db) /\
    ProductDB.list_items_for_seller seller_id db'
      = ProductDB.list_items_for_seller seller_id db ++ [item] /\
    (forall s, s <> seller_id ->
       ProductDB.list_items_for_seller s db'
       = ProductDB.list_items_for_seller s db).
Proof.
  intros db H.
  assert (Hok : ProductStore.store_ok db)
    by apply ProductStore.run_store_ok, ProductStore.store_ok_init.
  destruct (ProductStore.register_item_shape _ _ _ _ _ _ H)
    as (cond & Hc & -> & -> & _).
  exists cond. split; [exact Hc|]. cbv zeta.
  pose proof (ProductStore.next_key_fresh (ProductDB.item_category a) db Hok) as Hf.
  split; [|split; [|split]].
  - unfold ProductDB.get_item. simpl. now rewrite PyDict.get_set_eq.
  - intros j Hj. unfold ProductDB.get_item. simpl.
    rewrite PyDict.get_set_ne; [reflexivity|].
    intros Hk. apply ItemKey.key_inj in Hk. congruence.
  - unfold ProductDB.list_items_for_seller. simpl.
    rewrite (PyDictFacts.set_fresh _ _ _ Hf). unfold PyDict.values.
    rewrite map_app, filter_app. f_equal. simpl.
    rewrite filter_cons_True; [reflexivity|]. simpl. now rewrite Z.eqb_refl.
  - intros s Hs. unfold ProductDB.list_items_for_seller. simpl.
    rewrite (PyDictFacts.set_fresh _ _ _ Hf). unfold PyDict.values.
    rewrite map_app, filter_app. simpl.
    rewrite filter_cons_False, filter_nil, app_nil_r; [reflexivity|]. simpl.
    destruct (Z.eqb_spec seller_id s); [congruence | auto].
Qed.

Lemma register_then_get_witness :
  exists cond,
    parse_condition "Used" = Some cond /\
    ProductDB.get_item (ItemId.mk 1 4)
      (ProductDB.run
         [ProductDB.register_item_req 9 2
            (ProductDB.mk_attrs "W" 1 "Used" (PyFloat.nearest 3) 2 ["w"])]
         RankingScenario.product_db)
    = Ok (Item.mk (ItemId.mk 1 4) 2 "W" 1 ["w"] cond (PyFloat.nearest 3) 2
            (Feedback.mk 0 0) 9).
Proof.
  destruct (register_then_get RankingScenario.product_requests 9 2
              (ProductDB.mk_attrs "W" 1 "Used" (PyFloat.nearest 3) 2 ["w"]) (ItemId.mk 1 4)
              (ProductDB.run
                 [ProductDB.register_item_req 9 2
                    (ProductDB.mk_attrs "W" 1 "Used" (PyFloat.nearest 3) 2 ["w"])]
                 RankingScenario.product_db))
    as (cond & Hc & Hg & _).
  - vm_compute. reflexivity.
  - exists cond. split; [exact Hc | exact Hg].
Defined.

(** ** The customer store: accounts *)

Module CustomerAccounts.
Import CustomerDB.

(** The part of the store that only [create_account] writes. *)
Definition accounts (db : t) :=
  (sellers db, buyers db, _next_seller_id db, _next_buyer_id db,
   seller_name_index db, buyer_name_index db, buyer_purchases db,
   timeout_seconds db).

Lemma touch_accounts now tok db :
  accounts (snd (_touch_or_expire now tok db)) = accounts db.
Proof.
  unfold _touch_or_expire. destruct (sessions db !! tok) as [s|]; [|reflexivity].
  now destruct (expired now s db).
Qed.

Section frame.
Variable a : (gmap Z Seller.t * gmap Z Buyer.t * Z * Z * gmap string (list Z)
              * gmap string (list Z) * gmap Z (list string) * Z)%type.

Definition same (db : t) : Prop := accounts db = a.

Lemma touch_m_same now tok : preserves same (touch_m now tok).
Proof.
  intros db H. unfold touch_m, same in *.
  pose proof (touch_accounts now tok db) as E.
  destruct (_touch_or_expire now tok db). simpl in *. congruence.
Qed.

Lemma require_buyer_same now tok : preserves same (require_buyer now tok).
Proof. unfold require_buyer. CustomerCarts.cpres. apply touch_m_same. Qed.

Lemma setdefault_same tok : preserves same (setdefault_cart tok).
Proof.
  intros db H. unfold setdefault_cart.
  destruct (session_carts db !! tok); exact H.
Qed.

Lemma validate_session_same now role tok :
  preserves same (validate_session now role tok).
Proof. unfold validate_session. CustomerCarts.cpres. apply touch_m_same. Qed.

Lemma cart_get_same now tok : preserves same (cart_get now tok).
Proof. unfold cart_get. CustomerCarts.cpres. apply require_buyer_same. Qed.

Lemma cart_add_same now tok k q : preserves same (cart_add now tok k q).
Proof.
  unfold cart_add. CustomerCarts.cpres;
    [apply require_buyer_same | apply setdefault_same | assumption].
Qed.

Lemma cart_remove_same now tok k q : preserves same (cart_remove now tok k q).
Proof.
  unfold cart_remove. CustomerCarts.cpres;
    [apply require_buyer_same | apply setdefault_same | assumption].
Qed.

Lemma cart_clear_same now tok : preserves same (cart_clear now tok).
Proof.
  unfold cart_clear. CustomerCarts.cpres; [apply require_buyer_same | assumption].
Qed.

Lemma cart_save_same now tok : preserves same (cart_save now tok).
Proof.
  unfold cart_save. CustomerCarts.cpres; [apply require_buyer_same | assumption].
Qed.

Lemma rating_by_session_same now tok :
  preserves same (get_seller_rating_by_session now tok).
Proof.
  unfold get_seller_rating_by_session. CustomerCarts.cpres. apply touch_m_same.
Qed.

Lemma purchases_same now tok : preserves same (get_buyer_purchases now tok).
Proof.
  unfold get_buyer_purchases. CustomerCarts.cpres. apply touch_m_same.
Qed.

End frame.

Definition creates (r : request) : bool :=
  match r with create_account_req _ _ _ _ => true | _ => false end.

Lemma login_accounts now tok role username password db uid db' :
  login now tok role username password db = Ok (uid, db') ->
  accounts db' = accounts db.
Proof.
  unfold login. destruct (parse_role role) as [r|]; [|discriminate].
  destruct (_resolve_user_id _ _ _ _) as [[u|]|]; simpl; try discriminate.
  now intros [= <- <-].
Qed.

Lemma step_accounts db r : creates r = false -> accounts (step db r) = accounts db.
Proof.
  destruct r as [now rl name password | now token rl username password
                | token | now rl token | now token | now token item_key qty
                | now token item_key qty | now token | now token]; simpl;
    intros Hc; try discriminate.
  - destruct (login now token rl username password db) as [[uid db']|] eqn:E;
      [|reflexivity].
    exact (login_accounts _ _ _ _ _ _ _ _ E).
  - reflexivity.
  - now apply (validate_session_same (accounts db)).
  - now apply (cart_get_same (accounts db)).
  - now apply (cart_add_same (accounts db)).
  - now apply (cart_remove_same (accounts db)).
  - now apply (cart_clear_same (accounts db)).
  - now apply (cart_save_same (accounts db)).
Qed.

(** Accounts as [create_account] leaves them. *)
Record accounts_ok (db : t) : Prop := {
  next_buyer_pos : 1 <= _next_buyer_id db;
  next_seller_pos : 1 <= _next_seller_id db;
  buyers_range : forall i, is_Some (buyers db !! i) <-> 1 <= i < _next_buyer_id db;
  sellers_range : forall i, is_Some (sellers db !! i) <-> 1 <= i < _next_seller_id db;
  buyer_stored : forall i b,
    buyers db !! i = Some b ->
    Buyer.buyer_id b = i /\ 1 <= PyStr.len (Buyer.name b) <= 32 /\
    Buyer.items_purchased b = 0;
  seller_stored : forall i s,
    sellers db !! i = Some s ->
    Seller.seller_id s = i /\ 1 <= PyStr.len (Seller.name s) <= 32 /\
    Seller.feedback s = Feedback.mk 0 0 /\ Seller.items_sold s = 0;
  buyer_index : forall name i,
    i ∈ default [] (buyer_name_index db !! name) <->
    exists b, buyers db !! i = Some b /\ Buyer.name b = name;
  seller_index : forall name i,
    i ∈ default [] (seller_name_index db !! name) <->
    exists s, sellers db !! i = Some s /\ Seller.name s = name;
  buyer_index_nodup : forall name, NoDup (default [] (buyer_name_index db !! name));
  seller_index_nodup : forall name, NoDup (default [] (seller_name_index db !! name));
  no_purchases : forall i l, buyer_purchases db !! i = Some l -> l = []
}.

Lemma accounts_ok_same db db' :
  accounts db' = accounts db -> accounts_ok db -> accounts_ok db'.
Proof.
  unfold accounts. intros [= E1 E2 E3 E4 E5 E6 E7 E8] [].
  split; rewrite ?E1, ?E2, ?E3, ?E4, ?E5, ?E6, ?E7; assumption.
Qed.

Lemma accounts_ok_init timeout : accounts_ok (init timeout).
Proof.
  split; simpl; try lia; intros *; rewrite ?lookup_empty; simpl;
    try (split; [intros [? ?]; discriminate | lia]);
    try discriminate; try apply NoDup_nil_2;
    (split; [intros H; now apply elem_of_nil in H | intros (? & ? & _); discriminate]).
Qed.

Lemma index_insert (idx : gmap string (list Z)) name name' i :
  default [] (<[name := default [] (idx !! name) ++ [i]]> idx !! name')
  = if decide (name' = name) then default [] (idx !! name) ++ [i]
    else default [] (idx !! name').
Proof.
  destruct (decide (name' = name)) as [->|Hne].
  - now rewrite lookup_insert_eq.
  - now rewrite lookup_insert_ne by congruence.
Qed.

Lemma create_account_shape now role name password db id db' :
  create_account now role name password db = Ok (id, db') ->
  exists r,
    parse_role role = Some r /\ 1 <= PyStr.len name <= 32 /\
    match r with
    | buyer =>
        id = _next_buyer_id db /\
        db' = mk (timeout_seconds db) (_next_seller_id db) (id + 1)
                 (sellers db) (<[id := Buyer.mk id name 0 password now]> (buyers db))
                 (seller_name_index db)
                 (<[name := default [] (buyer_name_index db !! name) ++ [id]]>
                    (buyer_name_index db))
                 (sessions db) (session_carts db) (saved_carts db)
                 (<[id := default [] (buyer_purchases db !! id)]>
                    (buyer_purchases db))
                 (heap db) (next_loc db)
    | seller =>
        id = _next_seller_id db /\
        db' = mk (timeout_seconds db) (id + 1) (_next_buyer_id db)
                 (<[id := Seller.mk id name (Feedback.mk 0 0) 0 password now]>
                    (sellers db))
                 (buyers db)
                 (<[name := default [] (seller_name_index db !! name) ++ [id]]>
                    (seller_name_index db))
                 (buyer_name_index db) (sessions db) (session_carts db)
                 (saved_carts db) (buyer_purchases db) (heap db) (next_loc db)
    end.
Proof.
  unfold create_account, _hash_pw.
  destruct (parse_role role) as [r|]; [|discriminate].
  destruct (Z.eqb_spec (PyStr.len name) 0); [discriminate|].
  destruct (Z.gtb_spec (PyStr.len name) 32); [discriminate|]. simpl.
  assert (0 <= PyStr.len name) by (unfold PyStr.len; lia).
  destruct r; intros [= <- <-]; eexists; (split; [reflexivity|]);
    (split; [lia|]); split; reflexivity.
Qed.

Lemma create_account_ok now role name password db id db' :
  accounts_ok db ->
  create_account now role name password db = Ok (id, db') -> accounts_ok db'.
Proof.
  intros Hok H.
  destruct (create_account_shape _ _ _ _ _ _ _ H) as (r & _ & Hlen & Hr).
  destruct Hok as [Hnb Hns Hb Hs Hbs Hss Hbi Hsi Hbn Hsn Hp].
  destruct r; destruct Hr as [-> ->]; split; simpl; try assumption; try lia.
  - intros i. rewrite lookup_insert_is_Some, Hb. split.
    + intros [<-|[_ ?]]; lia.
    + intros Hi. destruct (decide (_next_buyer_id db = i)); [now left|].
      right. split; [assumption|lia].
  - intros i b. rewrite lookup_insert_Some.
    intros [ [<- <-] | [_ Hi] ]; [simpl; auto | now apply Hbs].
  - intros name' i. rewrite index_insert. destruct (decide (name' = name)) as [->|Hne].
    + rewrite elem_of_app, list_elem_of_singleton, Hbi. split.
      * intros [(b & Hb' & Hn) | ->].
        -- exists b. split; [|exact Hn]. rewrite lookup_insert_ne; [exact Hb'|].
           intros <-. assert (is_Some (buyers db !! _next_buyer_id db)) by eauto.
           apply Hb in H0. lia.
        -- eexists. split; [apply lookup_insert_eq | reflexivity].
      * intros (b & Hb' & Hn). apply lookup_insert_Some in Hb' as [ [<- <-] | [_ Hb'] ];
          [now right | left; eauto].
    + rewrite Hbi. split.
      * intros (b & Hb' & Hn). exists b. split; [|exact Hn].
        rewrite lookup_insert_ne; [exact Hb'|].
        intros <-. assert (is_Some (buyers db !! _next_buyer_id db)) by eauto.
        apply Hb in H0. lia.
      * intros (b & Hb' & Hn). apply lookup_insert_Some in Hb' as [ [<- <-] | [_ Hb'] ];
          [simpl in Hn; congruence | eauto].
  - intros name'. rewrite index_insert. destruct (decide (name' = name)); [|apply Hbn].
    apply NoDup_app. split; [apply Hbn|]. split; [|apply NoDup_singleton].
    intros x Hx Hx'. apply list_elem_of_singleton in Hx'. subst x.
    apply Hbi in Hx as (b & Hb' & _).
    assert (is_Some (buyers db !! _next_buyer_id db)) by eauto.
    apply Hb in H0. lia.
  - intros i l. rewrite lookup_insert_Some. intros [ [<- <-] | [_ Hi] ]; [|eauto].
    destruct (buyer_purchases db !! _next_buyer_id db) as [l|] eqn:E; simpl;
      [eauto | reflexivity].
  - intros i. rewrite lookup_insert_is_Some, Hs. split.
    + intros [<-|[_ ?]]; lia.
    + intros Hi. destruct (decide (_next_seller_id db = i)); [now left|].
      right. split; [assumption|lia].
  - intros i s. rewrite lookup_insert_Some.
    intros [ [<- <-] | [_ Hi] ]; [simpl; auto | now apply Hss].
  - intros name' i. rewrite index_insert. destruct (decide (name' = name)) as [->|Hne].
    + rewrite elem_of_app, list_elem_of_singleton, Hsi. split.
      * intros [(b & Hb' & Hn) | ->].
        -- exists b. split; [|exact Hn]. rewrite lookup_insert_ne; [exact Hb'|].
           intros <-. assert (is_Some (sellers db !! _next_seller_id db)) by eauto.
           apply Hs in H0. lia.
        -- eexists. split; [apply lookup_insert_eq | reflexivity].
      * intros (b & Hb' & Hn). apply lookup_insert_Some in Hb' as [ [<- <-] | [_ Hb'] ];
          [now right | left; eauto].
    + rewrite Hsi. split.
      * intros (b & Hb' & Hn). exists b. split; [|exact Hn].
        rewrite lookup_insert_ne; [exact Hb'|].
        intros <-. assert (is_Some (sellers db !! _next_seller_id db)) by eauto.
        apply Hs in H0. lia.
      * intros (b & Hb' & Hn). apply lookup_insert_Some in Hb' as [ [<- <-] | [_ Hb'] ];
          [simpl in Hn; congruence | eauto].
  - intros name'. rewrite index_insert. destruct (decide (name' = name)); [|apply Hsn].
    apply NoDup_app. split; [apply Hsn|]. split; [|apply NoDup_singleton].
    intros x Hx Hx'. apply list_elem_of_singleton in Hx'. subst x.
    apply Hsi in Hx as (b & Hb' & _).
    assert (is_Some (sellers db !! _next_seller_id db)) by eauto.
    apply Hs in H0. lia.
Qed.

Lemma step_accounts_ok db r : accounts_ok db -> accounts_ok (step db r).
Proof.
  intros Hok. destruct (creates r) eqn:Hc.
  - destruct r as [now rl name password| | | | | | | |]; try discriminate. simpl.
    destruct (create_account now rl name password db) as [[id db']|] eqn:E;
      [|exact Hok].
    exact (create_account_ok _ _ _ _ _ _ _ Hok E).
  - apply (accounts_ok_same db); [now apply step_accounts | exact Hok].
Qed.

Lemma run_accounts_ok rs db : accounts_ok db -> accounts_ok (run rs db).
Proof.
  revert db. induction rs as [|r rs IH]; intros db H; simpl; [exact H|].
  apply IH. now apply step_accounts_ok.
Qed.

(** The name an account of the given role is stored with. *)
Definition name_of (r : Role) (uid : Z) (db : t) : option string :=
  match r with
  | seller => Seller.name <$> sellers db !! uid
  | buyer => Buyer.name <$> buyers db !! uid
  end.

Lemma index_iff r name i db :
  accounts_ok db ->
  i ∈ default [] (name_index r db !! name) <-> name_of r i db = Some name.
Proof.
  intros Hok. destruct r; simpl;
    [rewrite (buyer_index db Hok) | rewrite (seller_index db Hok)];
    rewrite fmap_Some; split; intros (x & ? & ?); exists x; split; congruence.
Qed.

Lemma index_nodup r name db :
  accounts_ok db -> NoDup (default [] (name_index r db !! name)).
Proof.
  intros Hok. destruct r; [apply (buyer_index_nodup db Hok)
                          | apply (seller_index_nodup db Hok)].
Qed.

End CustomerAccounts.

(** ** The customer store: sessions *)

Module CustomerSessions.
Import CustomerDB CustomerAccounts.

Lemma password_of_same r uid db db' :
  accounts db' = accounts db -> password_of r uid db' = password_of r uid db.
Proof.
  unfold accounts, password_of. intros [= E1 E2 _ _ _ _ _ _]. now rewrite E1, E2.
Qed.

Lemma password_of_range r uid db :
  accounts_ok db -> is_Some (password_of r uid db) ->
  1 <= uid < match r with buyer => _next_buyer_id db | seller => _next_seller_id db end.
Proof.
  intros Hok [p Hp]. unfold password_of in Hp.
  destruct r; apply fmap_Some in Hp as (x & Hx & _);
    [apply (buyers_range db Hok) | apply (sellers_range db Hok)]; eauto.
Qed.

(** An account, once created, keeps its credential. *)
Lemma step_password_of r uid db rq :
  accounts_ok db -> is_Some (password_of r uid db) ->
  password_of r uid (step db rq) = password_of r uid db.
Proof.
  intros Hok Hsome. destruct (creates rq) eqn:Hc;
    [|now apply password_of_same, step_accounts].
  destruct rq as [now rl name password| | | | | | | |]; try discriminate. simpl.
  destruct (create_account now rl name password db) as [[id db']|] eqn:E;
    [|reflexivity].
  destruct (create_account_shape _ _ _ _ _ _ _ E) as (r' & _ & _ & Hr).
  pose proof (password_of_range _ _ _ Hok Hsome) as Hrange.
  destruct r'; destruct Hr as [-> ->]; destruct r; simpl; try reflexivity;
    rewrite lookup_insert_ne by lia; reflexivity.
Qed.

Lemma run_password_of r uid rs db :
  accounts_ok db -> is_Some (password_of r uid db) ->
  password_of r uid (run rs db) = password_of r uid db.
Proof.
  revert db. induction rs as [|rq rs IH]; intros db Hok Hsome; [reflexivity|].
  simpl. rewrite IH.
  - now apply step_password_of.
  - now apply step_accounts_ok.
  - now rewrite step_password_of.
Qed.

Lemma step_timeout db r : timeout_seconds (step db r) = timeout_seconds db.
Proof.
  destruct (creates r) eqn:Hc.
  - destruct r as [now rl name password| | | | | | | |]; try discriminate. simpl.
    destruct (create_account now rl name password db) as [[id db']|] eqn:E;
      [|reflexivity].
    destruct (create_account_shape _ _ _ _ _ _ _ E) as ([] & _ & _ & _ & ->);
      reflexivity.
  - pose proof (step_accounts db r Hc) as E. unfold accounts in E. congruence.
Qed.

Lemma run_timeout rs db : timeout_seconds (run rs db) = timeout_seconds db.
Proof.
  revert db. induction rs as [|r rs IH]; intros db; [reflexivity|].
  simpl. now rewrite IH, step_timeout.
Qed.

(** Where the sessions of a state come from: every one of them was a session
    of [db0] already, for the same account and created at the same time. *)
Section origin.
Variable db0 : t.

Definition from (db : t) : Prop :=
  forall tok s', sessions db !! tok = Some s' ->
    exists s, sessions db0 !! tok = Some s /\ role s = role s' /\
              user_id s = user_id s' /\ created_at s = created_at s'.

Lemma touch_m_from now tok : preserves from (touch_m now tok).
Proof.
  intros db H. unfold touch_m, _touch_or_expire.
  destruct (sessions db !! tok) as [s|] eqn:Hs; [|exact H].
  destruct (expired now s db); simpl; intros t0 s' E; simpl in E.
  - apply lookup_delete_Some in E as [_ E]. eauto.
  - apply lookup_insert_Some in E as [[<- <-]|[_ E]]; [|eauto].
    destruct (H _ _ Hs) as (s0 & ? & ? & ? & ?). now exists s0.
Qed.

Lemma require_buyer_from now tok : preserves from (require_buyer now tok).
Proof. unfold require_buyer. CustomerCarts.cpres. apply touch_m_from. Qed.

Lemma setdefault_from tok : preserves from (setdefault_cart tok).
Proof.
  intros db H. unfold setdefault_cart.
  destruct (session_carts db !! tok); exact H.
Qed.

Lemma validate_session_from now role tok :
  preserves from (validate_session now role tok).
Proof. unfold validate_session. CustomerCarts.cpres. apply touch_m_from. Qed.

Lemma cart_get_from now tok : preserves from (cart_get now tok).
Proof. unfold cart_get. CustomerCarts.cpres. apply require_buyer_from. Qed.

Lemma cart_add_from now tok k q : preserves from (cart_add now tok k q).
Proof.
  unfold cart_add. CustomerCarts.cpres;
    [apply require_buyer_from | apply setdefault_from | assumption].
Qed.

Lemma cart_remove_from now tok k q : preserves from (cart_remove now tok k q).
Proof.
  unfold cart_remove. CustomerCarts.cpres;
    [apply require_buyer_from | apply setdefault_from | assumption].
Qed.

Lemma cart_clear_from now tok : preserves from (cart_clear now tok).
Proof.
  unfold cart_clear. CustomerCarts.cpres; [apply require_buyer_from | assumption].
Qed.

Lemma cart_save_from now tok : preserves from (cart_save now tok).
Proof.
  unfold cart_save. CustomerCarts.cpres; [apply require_buyer_from | assumption].
Qed.

End origin.

Lemma from_refl db : from db db.
Proof. intros tok s H. now exists s. Qed.

(** The token a login request opens a session for. *)
Definition logs_in (tok : string) (r : request) : bool :=
  match r with
  | login_req _ token _ _ _ => bool_decide (token = tok)
  | _ => false
  end.

Lemma login_sessions now tok role username password db uid db' :
  login now tok role username password db = Ok (uid, db') ->
  exists r, parse_role role = Some r /\
            _resolve_user_id r username password db = Ok (Some uid) /\
            sessions db' = <[tok := mk_Session r uid now now]> (sessions db).
Proof.
  unfold login, _hash_pw. destruct (parse_role role) as [r|]; [|discriminate].
  destruct (_resolve_user_id _ _ _ _) as [[u|]|] eqn:E; simpl; try discriminate.
  intros [= <- <-]. exists r. split; [reflexivity|]. split; [exact E|reflexivity].
Qed.

Lemma step_origin tok db r s' :
  logs_in tok r = false -> sessions (step db r) !! tok = Some s' ->
  exists s, sessions db !! tok = Some s /\ role s = role s' /\
            user_id s = user_id s' /\ created_at s = created_at s'.
Proof.
  intros Hl.
  destruct r as [now rl name password | now token rl username password
                | token | now rl token | now token | now token item_key qty
                | now token item_key qty | now token | now token]; simpl.
  - destruct (create_account now rl name password db) as [[id db']|] eqn:E;
      [|apply (from_refl db)].
    destruct (create_account_shape _ _ _ _ _ _ _ E) as ([] & _ & _ & _ & ->);
      apply (from_refl db).
  - destruct (login now token rl username password db) as [[uid db']|] eqn:E;
      [|apply (from_refl db)].
    destruct (login_sessions _ _ _ _ _ _ _ _ E) as (r & _ & _ & ->).
    simpl in Hl. apply bool_decide_eq_false in Hl.
    rewrite lookup_insert_ne by exact Hl. apply (from_refl db).
  - unfold logout. simpl. intros H. apply lookup_delete_Some in H as [_ H].
    now apply (from_refl db).
  - now apply (validate_session_from db), from_refl.
  - now apply (cart_get_from db), from_refl.
  - now apply (cart_add_from db), from_refl.
  - now apply (cart_remove_from db), from_refl.
  - now apply (cart_clear_from db), from_refl.
  - now apply (cart_save_from db), from_refl.
Qed.

Lemma run_origin tok rs db s' :
  Forall (fun r => logs_in tok r = false) rs ->
  sessions (run rs db) !! tok = Some s' ->
  exists s, sessions db !! tok = Some s /\ role s = role s' /\
            user_id s = user_id s' /\ created_at s = created_at s'.
Proof.
  revert db. induction rs as [|r rs IH]; intros db Hall H; [now apply (from_refl db)|].
  apply Forall_cons in Hall as [Hr Hall]. simpl in H.
  destruct (IH _ Hall H) as (s1 & H1 & ? & ? & ?).
  destruct (step_origin _ _ _ _ Hr H1) as (s & ? & ? & ? & ?).
  exists s. repeat split; congruence.
Qed.

(** Every session stands for a stored account of its role. *)
Definition sessions_ok (db : t) : Prop :=
  forall tok s, sessions db !! tok = Some s ->
    is_Some (password_of (role s) (user_id s) db).

Lemma resolve_stored r username pw db uid :
  _resolve_user_id r username pw db = Ok (Some uid) ->
  password_of r uid db = Some pw.
Proof.
  assert (Hid : forall u, resolve_id r u pw db = Some uid ->
                          password_of r uid db = Some pw).
  { intros u. unfold resolve_id.
    destruct (credential_matches r pw db u) eqn:E; [|discriminate].
    intros [= ->]. now apply LoginResolution.credential_matches_iff. }
  destruct username as [n|s]; simpl.
  - intros [= H]. eauto.
  - destruct (PyStr.isdigit s).
    + destruct (PyStr.to_int s); [|discriminate]. intros [= H]. eauto.
    + unfold resolve_name.
      destruct (matches r s pw db) as [|u [|]] eqn:E; try discriminate.
      intros [= ->].
      assert (Hin : uid ∈ matches r s pw db) by (rewrite E; apply list_elem_of_here).
      now apply LoginResolution.matches_iff in Hin as [_ ?].
Qed.

Lemma step_sessions_ok db r :
  accounts_ok db -> sessions_ok db -> sessions_ok (step db r).
Proof.
  intros Hacc Hok tok s' H.
  destruct (logs_in tok r) eqn:Hl.
  - destruct r as [| now token rl username password | | | | | | |];
      try discriminate.
    apply bool_decide_eq_true in Hl. subst token. simpl in *.
    destruct (login now tok rl username password db) as [[uid db']|] eqn:E;
      [|now apply Hok in H].
    rewrite (password_of_same _ _ db) by exact (login_accounts _ _ _ _ _ _ _ _ E).
    destruct (login_sessions _ _ _ _ _ _ _ _ E) as (r & _ & Hres & Hs).
    rewrite Hs, lookup_insert_eq in H. injection H as <-. simpl.
    apply resolve_stored in Hres. rewrite Hres. eauto.
  - destruct (step_origin _ _ _ _ Hl H) as (s & Hs & Hr & Hu & _).
    rewrite <- Hr, <- Hu. rewrite step_password_of; eauto.
Qed.

Lemma run_sessions_ok rs db :
  accounts_ok db -> sessions_ok db ->
  accounts_ok (run rs db) /\ sessions_ok (run rs db).
Proof.
  revert db. induction rs as [|r rs IH]; intros db Ha Hs; [now split|].
  simpl. apply IH; [now apply step_accounts_ok | now apply step_sessions_ok].
Qed.

Lemma sessions_ok_init timeout : sessions_ok (init timeout).
Proof. intros tok s H. simpl in H. now rewrite lookup_empty in H. Qed.

End CustomerSessions.

(** X11. In every state the customer store reaches from its initial one, the
    buyer ids in use are exactly 1, ..., [_next_buyer_id - 1] and the seller
    ids exactly 1, ..., [_next_seller_id - 1]; every account is stored under
    its own id with a name of 1 to 32 characters. A [create_account] that
    succeeds returns the next id of its role, which was not in use, stores
    the account with the given name and password under it and leaves every
    other account, of both roles, as it was. *)
Theorem customer_ids_sequential :
  forall (timeout : Z) (rs : list CustomerDB.request),
    let db := CustomerDB.run rs (CustomerDB.init timeout) in
    (forall i, is_Some (CustomerDB.buyers db !! i) <->
               1 <= i < CustomerDB._next_buyer_id db) /\
    (forall i, is_Some (CustomerDB.sellers db !! i) <->
               1 <= i < CustomerDB._next_seller_id db) /\
    (forall i b, CustomerDB.buyers db !! i = Some b ->
       Buyer.buyer_id b = i /\ 1 <= PyStr.len (Buyer.name b) <= 32) /\
    (forall i s, CustomerDB.sellers db !! i = Some s ->
       Seller.seller_id s = i /\ 1 <= PyStr.len (Seller.name s) <= 32) /\
    (forall now role name password id db',
       CustomerDB.create_account now role name password db = Ok (id, db') ->
       (CustomerDB.parse_role role = Some buyer /\
        id = CustomerDB._next_buyer_id db /\
        CustomerDB._next_buyer_id db' = id + 1 /\
        CustomerDB.buyers db !! id = None /\
        CustomerDB.buyers db' =
          <[id := Buyer.mk id name 0 password now]> (CustomerDB.buyers db) /\
        CustomerDB.sellers db' = CustomerDB.sellers db /\
        CustomerDB._next_seller_id db' = CustomerDB._next_seller_id db)
       \/
       (CustomerDB.parse_role role = Some seller /\
        id = CustomerDB._next_seller_id db /\
        CustomerDB._next_seller_id db' = id + 1 /\
        CustomerDB.sellers db !! id = None /\
        CustomerDB.sellers db' =
          <[id := Seller.mk id name (Feedback.mk 0 0) 0 password now]>
            (CustomerDB.sellers db) /\
        CustomerDB.buyers db' = CustomerDB.buyers db /\
        CustomerDB._next_buyer_id db' = CustomerDB._next_buyer_id db)).
Proof.
  intros timeout rs db.
  assert (Hok : CustomerAccounts.accounts_ok db)
    by apply CustomerAccounts.run_accounts_ok, CustomerAccounts.accounts_ok_init.
  split; [apply (CustomerAccounts.buyers_range db Hok)|].
  split; [apply (CustomerAccounts.sellers_range db Hok)|].
  split; [intros i b H;
          destruct (CustomerAccounts.buyer_stored db Hok i b H) as (? & ? & _);
          now split|].
  split; [intros i s H;
          destruct (CustomerAccounts.seller_stored db Hok i s H) as (? & ? & _);
          now split|].
  intros now role name password id db' H.
  destruct (CustomerAccounts.create_account_shape _ _ _ _ _ _ _ H)
    as ([] & Hr & _ & -> & ->); [left|right]; simpl;
    (split; [exact Hr|]); repeat (split; [reflexivity|]);
    (split; [|repeat split]); apply eq_None_not_Some.
  - rewrite (CustomerAccounts.buyers_range db Hok). lia.
  - rewrite (CustomerAccounts.sellers_range db Hok). lia.
Qed.

(** X12. In every state the customer store reaches, the name index of a
    role lists under each name exactly the ids of the stored accounts of
    that name, each once, so the lookups [self.buyers[bid]] and
    [self.sellers[sid]] of [_resolve_user_id] never miss. A login by a
    non-numeric username succeeds with an id exactly when that account is
    the only one of the role with this name and this password, and fails
    with invalid-credentials exactly when no account of the role has both. *)
Theorem login_by_name_unique_account :
  forall (timeout : Z) (rs : list CustomerDB.request) (now : Q)
         (token role : string) (r : Role) (name password : string),
    CustomerDB.parse_role role = Some r ->
    PyStr.isdigit name = false ->
    let db := CustomerDB.run rs (CustomerDB.init timeout) in
    let holds uid :=
      CustomerAccounts.name_of r uid db = Some name /\
      CustomerDB.password_of r uid db = Some password in
    let index := default [] (CustomerDB.name_index r db !! name) in
    NoDup index /\
    (forall uid, uid ∈ index <-> CustomerAccounts.name_of r uid db = Some name) /\
    (forall uid,
       (exists db', CustomerDB.login now token role (U_str name) password db =
                      Ok (uid, db')) <->
       holds uid /\ forall j, holds j -> j = uid) /\
    (CustomerDB.login now token role (U_str name) password db =
       Err "invalid credentials" <-> forall j, ~ holds j).
Proof.
  intros timeout rs now token role r name password Hr Hd db holds index.
  assert (Hok : CustomerAccounts.accounts_ok db)
    by apply CustomerAccounts.run_accounts_ok, CustomerAccounts.accounts_ok_init.
  pose proof (CustomerAccounts.index_nodup r name db Hok) as Hnd.
  split; [exact Hnd|].
  split; [intros uid; apply (CustomerAccounts.index_iff r name uid db Hok)|].
  assert (Hm : forall j, j ∈ CustomerDB.matches r name password db <-> holds j).
  { intros j. rewrite LoginResolution.matches_iff.
    unfold holds. now rewrite (CustomerAccounts.index_iff r name j db Hok). }
  assert (Hmnd : NoDup (CustomerDB.matches r name password db))
    by (apply NoDup_filter; exact Hnd).
  pose proof (LoginResolution.login_outcome now token role r (U_str name)
                password db Hr) as Hout.
  simpl in Hout. rewrite Hd in Hout. unfold CustomerDB.resolve_name in Hout.
  destruct (CustomerDB.matches r name password db) as [|u [|v ms]] eqn:E.
  - split.
    + intros uid. split.
      * intros [db' H]. rewrite Hout in H. discriminate.
      * intros [H _]. apply Hm in H. now apply elem_of_nil in H.
    + split; [|intros _; exact Hout].
      intros _ j Hj. apply Hm in Hj. now apply elem_of_nil in Hj.
  - destruct Hout as (db' & Hlog & _). split.
    + intros uid. split.
      * intros [db'' H]. rewrite Hlog in H. injection H as <- _.
        split; [apply Hm, list_elem_of_here|].
        intros j Hj. apply Hm in Hj. now apply list_elem_of_singleton in Hj.
      * intros [H _]. apply Hm, list_elem_of_singleton in H. subst uid. eauto.
    + split; [rewrite Hlog; discriminate|].
      intros H. exfalso. apply (H u), Hm, list_elem_of_here.
  - split.
    + intros uid. split.
      * intros [db' H]. rewrite Hout in H. destruct r; discriminate.
      * intros [_ H]. exfalso.
        assert (u = uid) by (apply H, Hm, list_elem_of_here).
        assert (v = uid)
          by (apply H, Hm, list_elem_of_further, list_elem_of_here).
        subst u v. apply NoDup_cons in Hmnd as [Hnin _].
        apply Hnin, list_elem_of_here.
    + split; [rewrite Hout; destruct r; discriminate|].
      intros H. exfalso. apply (H u), Hm, list_elem_of_here.
Qed.

Lemma login_by_name_unique_account_witness :
  CustomerAccounts.name_of buyer 1 LoginScenario.customer_db = Some "ann" /\
  CustomerDB.password_of buyer 1 LoginScenario.customer_db = Some "p1".
Proof.
  refine (proj1 (proj1 (proj1 (proj2 (proj2
    (login_by_name_unique_account 300
       [ CustomerDB.create_account_req 1 "buyer" "ann" "p1";
         CustomerDB.create_account_req 2 "buyer" "ann" "p2" ]
       3%Q "t" "buyer" buyer "ann" "p1" _ _))) 1) _)).
  - vm_compute. reflexivity.
  - vm_compute. reflexivity.
  - exists (match CustomerDB.login 3 "t" "buyer" (U_str "ann") "p1"
                    LoginScenario.customer_db with
            | Ok (_, d) => d
            | Err _ => LoginScenario.customer_db
            end).
    vm_compute. reflexivity.
Defined.

(** X13. An account can log in by its id ever after: whatever requests
    follow a [create_account] that succeeded, a login with the returned id
    and the password of the creation succeeds, for that id, and opens a
    session of the account's role under the new token; a login with that id
    and any other password fails with invalid-credentials. *)
Theorem account_login_persists :
  forall (timeout : Z) (rs0 rs : list CustomerDB.request) (now now' : Q)
         (role name password token : string) (id : Z) (db1 : CustomerDB.t),
    CustomerDB.create_account now role name password
      (CustomerDB.run rs0 (CustomerDB.init timeout)) = Ok (id, db1) ->
    let db2 := CustomerDB.run rs db1 in
    (exists r db3,
       CustomerDB.parse_role role = Some r /\
       CustomerDB.login now' token role (U_int id) password db2 = Ok (id, db3) /\
       CustomerDB.sessions db3 !! token =
         Some (CustomerDB.mk_Session r id now' now')) /\
    (forall other, other <> password ->
       CustomerDB.login now' token role (U_int id) other db2 =
         Err "invalid credentials").
Proof.
  intros timeout rs0 rs now now' role name password token id db1 H db2.
  assert (Hok0 : CustomerAccounts.accounts_ok
                   (CustomerDB.run rs0 (CustomerDB.init timeout)))
    by apply CustomerAccounts.run_accounts_ok, CustomerAccounts.accounts_ok_init.
  pose proof (CustomerAccounts.create_account_ok _ _ _ _ _ _ _ Hok0 H) as Hok1.
  destruct (CustomerAccounts.create_account_shape _ _ _ _ _ _ _ H)
    as (r & Hr & _ & Hshape).
  assert (Hpw1 : CustomerDB.password_of r id db1 = Some password).
  { destruct r; destruct Hshape as [-> ->]; simpl;
      now rewrite lookup_insert_eq. }
  assert (Hpw : CustomerDB.password_of r id db2 = Some password).
  { unfold db2. rewrite CustomerSessions.run_password_of;
      [exact Hpw1 | exact Hok1 | rewrite Hpw1; eauto]. }
  split.
  - pose proof (LoginResolution.login_outcome now' token role r (U_int id)
                  password db2 Hr) as Hout.
    simpl in Hout. unfold CustomerDB.resolve_id in Hout.
    rewrite (proj2 (LoginResolution.credential_matches_iff r password db2 id) Hpw)
      in Hout.
    destruct Hout as (db3 & ? & ?). now exists r, db3.
  - intros other Hne.
    pose proof (LoginResolution.login_outcome now' token role r (U_int id)
                  other db2 Hr) as Hout.
    simpl in Hout. unfold CustomerDB.resolve_id in Hout.
    destruct (CustomerDB.credential_matches r other db2 id) eqn:E; [|exact Hout].
    apply LoginResolution.credential_matches_iff in E. congruence.
Qed.

Lemma account_login_persists_witness :
  CustomerDB.login 9 "t" "buyer" (U_int 1) "p2"
    (CustomerDB.run [ CustomerDB.create_account_req 2 "buyer" "ann" "p2" ]
       (CustomerDB.run [ CustomerDB.create_account_req 1 "buyer" "ann" "p1" ]
          (CustomerDB.init 300))) = Err "invalid credentials".
Proof.
  refine (proj2 (account_login_persists 300 []
                   [ CustomerDB.create_account_req 2 "buyer" "ann" "p2" ]
                   1%Q 9%Q "buyer" "ann" "p1" "t" 1
                   (CustomerDB.run
                      [ CustomerDB.create_account_req 1 "buyer" "ann" "p1" ]
                      (CustomerDB.init 300)) _) "p2" _).
  - vm_compute. reflexivity.
  - discriminate.
Defined.

(** X14. [logout] ends the session of its token and nothing else: the token
    has no session and no active cart afterwards, so [validate_session] and
    the cart operations refuse it, while the sessions and carts of all other
    tokens and every saved cart are as before. It never fails, and a second
    logout of the same token changes nothing. *)
Theorem logout_ends_session :
  forall (db : CustomerDB.t) (token : string),
    let db' := CustomerDB.logout token db in
    CustomerDB.logout token db' = db' /\
    CustomerDB.sessions db' !! token = None /\
    CustomerDB.session_cart token db' = [] /\
    (forall t2, t2 <> token ->
       CustomerDB.sessions db' !! t2 = CustomerDB.sessions db !! t2 /\
       CustomerDB.session_cart t2 db' = CustomerDB.session_cart t2 db) /\
    (forall b, CartSharing.saved_cart b db' = CartSharing.saved_cart b db) /\
    (forall now role,
       CustomerDB.validate_session now role token db' =
         (Err "invalid or expired session", db')) /\
    (forall now,
       CustomerDB.cart_get now token db' = (Err "invalid buyer session", db') /\
       CustomerDB.cart_clear now token db' = (Err "invalid buyer session", db') /\
       CustomerDB.cart_save now token db' = (Err "invalid buyer session", db')) /\
    (forall now k q, 0 < q ->
       CustomerDB.cart_add now token k q db' =
         (Err "invalid buyer session", db') /\
       CustomerDB.cart_remove now token k q db' =
         (Err "invalid buyer session", db')).
Proof.
  intros db token db'.
  assert (Hs : CustomerDB.sessions db' !! token = None) by apply lookup_delete_eq.
  split.
  { unfold db', CustomerDB.logout, CustomerDB.with_session_carts,
      CustomerDB.with_sessions. simpl. now rewrite !delete_delete_eq. }
  split; [exact Hs|].
  split.
  { unfold CustomerDB.session_cart. simpl. now rewrite lookup_delete_eq. }
  split.
  { intros t2 Hne. unfold CustomerDB.session_cart. simpl.
    rewrite !lookup_delete_ne by congruence. now split. }
  split; [reflexivity|].
  split.
  { intros now role. unfold CustomerDB.validate_session, CustomerDB.touch_m.
    msimpl. now rewrite (SessionExpiry.touch_absent now token db' Hs). }
  split.
  { intros now.
    unfold CustomerDB.cart_get, CustomerDB.cart_clear, CustomerDB.cart_save,
      CustomerDB.require_buyer, CustomerDB.touch_m.
    msimpl. now rewrite (SessionExpiry.touch_absent now token db' Hs). }
  intros now k q Hq.
  unfold CustomerDB.cart_add, CustomerDB.cart_remove, CustomerDB.require_buyer,
    CustomerDB.touch_m.
  destruct (Z.leb_spec q 0); [lia|].
  msimpl. now rewrite (SessionExpiry.touch_absent now token db' Hs).
Qed.

(** X15. Only [login] opens a session: after any requests among which no
    login carries the token, a token that has a session had one before, for
    the same role and user and created at the same time. So a token that was
    never issued, was logged out or has expired is not revived by any other
    request. *)
Theorem sessions_opened_by_login_only :
  forall (db : CustomerDB.t) (rs : list CustomerDB.request) (token : string)
         (s' : CustomerDB._Session),
    Forall (fun r => CustomerSessions.logs_in token r = false) rs ->
    CustomerDB.sessions (CustomerDB.run rs db) !! token = Some s' ->
    exists s,
      CustomerDB.sessions db !! token = Some s /\
      CustomerDB.role s = CustomerDB.role s' /\
      CustomerDB.user_id s = CustomerDB.user_id s' /\
      CustomerDB.created_at s = CustomerDB.created_at s'.
Proof.
  intros db rs token s' Hall H.
  exact (CustomerSessions.run_origin token rs db s' Hall H).
Qed.

Lemma sessions_opened_by_login_only_witness :
  exists s,
    CustomerDB.sessions CartScenario.customer_db !! "t1" = Some s /\
    CustomerDB.role s = buyer /\
    CustomerDB.user_id s = 1 /\
    CustomerDB.created_at s = 2%Q.
Proof.
  refine (sessions_opened_by_login_only CartScenario.customer_db
            [ CustomerDB.cart_add_req 5 "t1" "1:1" 2;
              CustomerDB.create_account_req 6 "seller" "sam" "pw" ]
            "t1" (CustomerDB.mk_Session buyer 1 2 5) _ _).
  - repeat constructor.
  - vm_compute. reflexivity.
Defined.

(** ** The customer store: how long a session lives *)

Module SessionLife.
Import CustomerDB.

(** The time at which a request refreshes the session of [tok], if it does:
    the requests that reach [_touch_or_expire] with this token. [cart_add]
    and [cart_remove] check their quantity first. *)
Definition refreshes (tok : string) (r : request) : option Q :=
  match r with
  | validate_session_req now _ t
  | cart_get_req now t
  | cart_clear_req now t
  | cart_save_req now t => if bool_decide (t = tok) then Some now else None
  | cart_add_req now t _ q
  | cart_remove_req now t _ q =>
      if bool_decide (t = tok) && (0 <? q) then Some now else None
  | _ => None
  end.

(** The requests that replace or remove the session of [tok]. *)
Definition closes (tok : string) (r : request) : bool :=
  match r with
  | logout_req t => bool_decide (t = tok)
  | login_req _ t _ _ _ => bool_decide (t = tok)
  | _ => false
  end.

(** No request closes the session, and each one that refreshes it comes
    less than [timeout] after the previous activity. *)
Fixpoint kept_alive (tok : string) (timeout : Z) (last : Q) (rs : list request)
  : Prop :=
  match rs with
  | [] => True
  | r :: rs' =>
      closes tok r = false /\
      match refreshes tok r with
      | Some now =>
          (now - last < inject_Z timeout)%Q /\ kept_alive tok timeout now rs'
      | None => kept_alive tok timeout last rs'
      end
  end.

Fixpoint last_refresh (tok : string) (last : Q) (rs : list request) : Q :=
  match rs with
  | [] => last
  | r :: rs' =>
      last_refresh tok (match refreshes tok r with Some now => now | None => last end)
        rs'
  end.

Section other.
Variables (tok : string) (s : _Session).

Definition holds (db : t) : Prop := sessions db !! tok = Some s.

Lemma touch_m_other now t : t <> tok -> preserves holds (touch_m now t).
Proof.
  intros Hne db H. unfold touch_m, _touch_or_expire, holds in *.
  destruct (sessions db !! t) as [s0|]; [|exact H].
  destruct (expired now s0 db); simpl.
  - now rewrite lookup_delete_ne.
  - now rewrite lookup_insert_ne.
Qed.

Lemma setdefault_holds t : preserves holds (setdefault_cart t).
Proof.
  intros db H. unfold setdefault_cart.
  destruct (session_carts db !! t); exact H.
Qed.

Lemma require_buyer_other now t : t <> tok -> preserves holds (require_buyer now t).
Proof.
  intros Hne. unfold require_buyer. CustomerCarts.cpres. now apply touch_m_other.
Qed.

End other.

(** An operation that takes the states of [P] to states of [Q]. *)
Definition moves {A} (P Q : t -> Prop) (m : M t A) : Prop :=
  forall db, P db -> Q (snd (m db)).

Lemma moves_bind {A B} (P Q : t -> Prop) (m : M t A) (k : A -> M t B) :
  moves P Q m -> (forall a, preserves Q (k a)) -> moves P Q (m ≫= k).
Proof.
  intros Hm Hk db H. unfold mbind, M_bind.
  specialize (Hm db H). destruct (m db) as [[a|e] db']; simpl in *.
  - now apply Hk.
  - exact Hm.
Qed.

Definition live (now : Q) (tok : string) (s : _Session) (db : t) : Prop :=
  sessions db !! tok = Some s /\
  (now - last_activity s < inject_Z (timeout_seconds db))%Q.

Lemma touch_m_moves now tok s :
  moves (live now tok s) (holds tok (touch now s)) (touch_m now tok).
Proof.
  intros db [Hs Hlt]. unfold touch_m.
  rewrite (SessionExpiry.touch_live _ _ _ _ Hs Hlt). apply lookup_insert_eq.
Qed.

Lemma require_buyer_moves now tok s :
  moves (live now tok s) (holds tok (touch now s)) (require_buyer now tok).
Proof.
  unfold require_buyer. apply moves_bind; [apply touch_m_moves|].
  intros a. CustomerCarts.cpres.
Qed.

Ltac as_moves now tok s db Hs Hlt :=
  match goal with
  | |- sessions (snd (?m db)) !! _ = _ =>
      let Hm := fresh "Hm" in
      enough (Hm : moves (live now tok s) (holds tok (touch now s)) m)
        by exact (Hm db (conj Hs Hlt))
  end.

Ltac as_preserves tok s db Hs :=
  match goal with
  | |- sessions (snd (?m db)) !! _ = _ =>
      let Hm := fresh "Hm" in
      enough (Hm : preserves (holds tok s) m) by exact (Hm db Hs)
  end.

Lemma step_alive tok db r s :
  sessions db !! tok = Some s -> closes tok r = false ->
  match refreshes tok r with
  | Some now =>
      (now - last_activity s < inject_Z (timeout_seconds db))%Q ->
      sessions (step db r) !! tok = Some (touch now s)
  | None => sessions (step db r) !! tok = Some s
  end.
Proof.
  intros Hs Hc.
  destruct r as [now rl name password | now token rl username password
                | token | now rl token | now token | now token item_key qty
                | now token item_key qty | now token | now token]; simpl in *.
  - destruct (create_account now rl name password db) as [[id db']|] eqn:E;
      [|exact Hs].
    destruct (CustomerAccounts.create_account_shape _ _ _ _ _ _ _ E)
      as ([] & _ & _ & _ & ->); exact Hs.
  - apply bool_decide_eq_false in Hc.
    destruct (login now token rl username password db) as [[uid db']|] eqn:E;
      [|exact Hs].
    destruct (CustomerSessions.login_sessions _ _ _ _ _ _ _ _ E)
      as (r & _ & _ & ->).
    now rewrite lookup_insert_ne.
  - apply bool_decide_eq_false in Hc. unfold logout. simpl.
    now rewrite lookup_delete_ne.
  - destruct (bool_decide_reflect (token = tok)) as [->|Hne].
    + intros Hlt. as_moves now tok s db Hs Hlt.
      unfold validate_session. apply moves_bind; [apply touch_m_moves|].
      intros a. CustomerCarts.cpres.
    + as_preserves tok s db Hs.
      unfold validate_session. CustomerCarts.cpres. now apply touch_m_other.
  - destruct (bool_decide_reflect (token = tok)) as [->|Hne].
    + intros Hlt. as_moves now tok s db Hs Hlt.
      unfold cart_get. apply moves_bind; [apply require_buyer_moves|].
      intros a. CustomerCarts.cpres.
    + as_preserves tok s db Hs.
      unfold cart_get. CustomerCarts.cpres. now apply require_buyer_other.
  - unfold cart_add. destruct (Z.leb_spec qty 0) as [Hq|Hq].
    + replace (0 <? qty) with false by (symmetry; apply Z.ltb_ge; lia).
      rewrite andb_false_r. exact Hs.
    + replace (0 <? qty) with true by (symmetry; apply Z.ltb_lt; lia).
      rewrite andb_true_r.
      destruct (bool_decide_reflect (token = tok)) as [->|Hne].
      * intros Hlt. as_moves now tok s db Hs Hlt.
        apply moves_bind; [apply require_buyer_moves|].
        intros a. CustomerCarts.cpres; [apply setdefault_holds | assumption].
      * as_preserves tok s db Hs.
        CustomerCarts.cpres;
          [now apply require_buyer_other | apply setdefault_holds | assumption].
  - unfold cart_remove. destruct (Z.leb_spec qty 0) as [Hq|Hq].
    + replace (0 <? qty) with false by (symmetry; apply Z.ltb_ge; lia).
      rewrite andb_false_r. exact Hs.
    + replace (0 <? qty) with true by (symmetry; apply Z.ltb_lt; lia).
      rewrite andb_true_r.
      destruct (bool_decide_reflect (token = tok)) as [->|Hne].
      * intros Hlt. as_moves now tok s db Hs Hlt.
        apply moves_bind; [apply require_buyer_moves|].
        intros a. CustomerCarts.cpres; [apply setdefault_holds | assumption].
      * as_preserves tok s db Hs.
        CustomerCarts.cpres;
          [now apply require_buyer_other | apply setdefault_holds | assumption].
  - destruct (bool_decide_reflect (token = tok)) as [->|Hne].
    + intros Hlt. as_moves now tok s db Hs Hlt.
      unfold cart_clear. apply moves_bind; [apply require_buyer_moves|].
      intros a. CustomerCarts.cpres. assumption.
    + as_preserves tok s db Hs.
      unfold cart_clear. CustomerCarts.cpres;
        [now apply require_buyer_other | assumption].
  - destruct (bool_decide_reflect (token = tok)) as [->|Hne].
    + intros Hlt. as_moves now tok s db Hs Hlt.
      unfold cart_save. apply moves_bind; [apply require_buyer_moves|].
      intros a. CustomerCarts.cpres. assumption.
    + as_preserves tok s db Hs.
      unfold cart_save. CustomerCarts.cpres;
        [now apply require_buyer_other | assumption].
Qed.

Lemma run_alive tok rs db s :
  sessions db !! tok = Some s ->
  kept_alive tok (timeout_seconds db) (last_activity s) rs ->
  sessions (run rs db) !! tok =
    Some (mk_Session (role s) (user_id s) (created_at s)
            (last_refresh tok (last_activity s) rs)).
Proof.
  revert db s. induction rs as [|r rs IH]; intros db s Hs Hk; simpl.
  - now destruct s.
  - destruct Hk as [Hc Hk]. pose proof (step_alive tok db r s Hs Hc) as Hstep.
    destruct (refreshes tok r) as [now|].
    + destruct Hk as [Hlt Hk]. specialize (Hstep Hlt).
      rewrite (IH _ _ Hstep); [reflexivity|].
      now rewrite CustomerSessions.step_timeout.
    + rewrite (IH _ _ Hstep); [reflexivity|].
      now rewrite CustomerSessions.step_timeout.
Qed.

End SessionLife.

(** X16. A session lives as long as it is used: if no request of a
    sequence logs the token out or in again, and each request that reaches
    [_touch_or_expire] with the token comes less than [timeout_seconds]
    after the previous activity of the session, then the session is still
    stored after the whole sequence, for the same role and user, with the
    time of the last such request as its [last_activity]. Requests of other
    tokens, and [cart_add] or [cart_remove] with a quantity that is not
    positive, do not count as activity. *)
Theorem session_kept_alive :
  forall (db : CustomerDB.t) (token : string) (s : CustomerDB._Session)
         (rs : list CustomerDB.request),
    CustomerDB.sessions db !! token = Some s ->
    SessionLife.kept_alive token (CustomerDB.timeout_seconds db)
      (CustomerDB.last_activity s) rs ->
    CustomerDB.sessions (CustomerDB.run rs db) !! token =
      Some (CustomerDB.mk_Session (CustomerDB.role s) (CustomerDB.user_id s)
              (CustomerDB.created_at s)
              (SessionLife.last_refresh token (CustomerDB.last_activity s) rs)).
Proof.
  intros db token s rs Hs Hk. exact (SessionLife.run_alive token rs db s Hs Hk).
Qed.

Lemma session_kept_alive_witness :
  CustomerDB.sessions
    (CustomerDB.run
       [ CustomerDB.cart_get_req 100 "t1";
         CustomerDB.login_req 200 "t2" "buyer" (U_int 1) "pw";
         CustomerDB.cart_add_req 390 "t1" "1:1" 0;
         CustomerDB.validate_session_req 399 "buyer" "t1" ]
       CartScenario.customer_db) !! "t1" =
  Some (CustomerDB.mk_Session buyer 1 2 399).
Proof.
  refine (session_kept_alive CartScenario.customer_db "t1"
            (CustomerDB.mk_Session buyer 1 2 3)
            [ CustomerDB.cart_get_req 100 "t1";
              CustomerDB.login_req 200 "t2" "buyer" (U_int 1) "pw";
              CustomerDB.cart_add_req 390 "t1" "1:1" 0;
              CustomerDB.validate_session_req 399 "buyer" "t1" ] _ _).
  - vm_compute. reflexivity.
  - vm_compute. repeat split.
Defined.

(** ** The customer store: arithmetic of a cart *)

Module CartArithmetic.
Import CustomerDB.

Lemma add_remove k q c :
  CustomerCarts.cart_ok c -> 0 < q ->
  let cur := PyDict.get_default k 0 c in
  let c1 := PyDict.set k (cur + q) c in
  PyDict.get_default k 0 c1 = cur + q /\
  (if cur =? 0 then PyDict.pop k c1 else PyDict.set k cur c1) = c.
Proof.
  intros [Hnd Hpos] Hq cur c1. unfold c1, cur, PyDict.get_default.
  rewrite PyDict.get_set_eq. split; [reflexivity|].
  destruct (PyDict.get k c) as [v|] eqn:E.
  - pose proof (Hpos _ _ (PyDict.get_Some_elem _ _ _ E)) as Hv. simpl.
    destruct (Z.eqb_spec v 0); [lia|].
    rewrite PyDictFacts.set_set. now apply PyDictFacts.set_same.
  - simpl. apply PyDictFacts.pop_set_fresh. now apply PyDict.get_None_keys.
Qed.

(** What [session_carts.setdefault(token, {})] gives. *)
Lemma setdefault_spec tok db :
  exists l db0,
    setdefault_cart tok db = (Ok l, db0) /\
    session_carts db0 !! tok = Some l /\
    deref l db0 = session_cart tok db /\
    sessions db0 = sessions db /\
    timeout_seconds db0 = timeout_seconds db.
Proof.
  unfold setdefault_cart, session_cart.
  destruct (session_carts db !! tok) as [l|] eqn:E.
  - exists l, db. now repeat split.
  - eexists _, _. split; [reflexivity|]. simpl.
    split; [apply lookup_insert_eq|]. split; [|now split].
    unfold deref. simpl. now rewrite lookup_insert_eq.
Qed.

Lemma setdefault_present tok l db :
  session_carts db !! tok = Some l -> setdefault_cart tok db = (Ok l, db).
Proof. intros H. unfold setdefault_cart. now rewrite H. Qed.

Lemma require_buyer_live now tok s db :
  sessions db !! tok = Some s -> role s = buyer ->
  (now - last_activity s < inject_Z (timeout_seconds db))%Q ->
  require_buyer now tok db =
    (Ok (touch now s), with_sessions (<[tok := touch now s]> (sessions db)) db).
Proof.
  intros Hs Hr Hlt. unfold require_buyer, touch_m. msimpl.
  rewrite (SessionExpiry.touch_live _ _ _ _ Hs Hlt). simpl.
  destruct (decide (role s = buyer)); [reflexivity|contradiction].
Qed.

End CartArithmetic.

(** X17. Removing what was just added restores the cart: in every state the
    customer store reaches, for a live buyer session, [cart_add] of a
    positive quantity of any item followed (before the session times out) by
    [cart_remove] of the same quantity of the same item succeeds, and the
    cart it returns and leaves stored is the cart from before the addition,
    entry for entry and in the same order. *)
Theorem cart_add_then_remove :
  forall (timeout : Z) (rs : list CustomerDB.request) (now now' : Q)
         (token item_key : string) (qty : Z) (s : CustomerDB._Session),
    let db := CustomerDB.run rs (CustomerDB.init timeout) in
    CustomerDB.sessions db !! token = Some s ->
    CustomerDB.role s = buyer ->
    (now - CustomerDB.last_activity s <
       inject_Z (CustomerDB.timeout_seconds db))%Q ->
    (now' - now < inject_Z (CustomerDB.timeout_seconds db))%Q ->
    0 < qty ->
    let cart := CustomerDB.session_cart token db in
    let added := CustomerDB.cart_add now token item_key qty db in
    let removed := CustomerDB.cart_remove now' token item_key qty (snd added) in
    fst added =
      Ok (PyDict.set item_key (PyDict.get_default item_key 0 cart + qty) cart) /\
    fst removed = Ok cart /\
    CustomerDB.session_cart token (snd removed) = cart.
Proof.
  intros timeout rs now now' token item_key qty s db Hs Hr Hlt Hlt' Hq cart
    added removed.
  assert (Hheap : CustomerCarts.heap_ok db)
    by apply CustomerCarts.run_heap_ok, CustomerCarts.init_heap_ok.
  pose proof (CustomerCarts.session_cart_ok token db Hheap) as Hcart.
  fold cart in Hcart.
  destruct (CartArithmetic.add_remove item_key qty cart Hcart Hq) as [Hcur Hback].
  pose proof (CustomerCarts.get_default_nonneg item_key cart Hcart) as Hnn.
  set (db' := CustomerDB.with_sessions
                (<[token := CustomerDB.touch now s]> (CustomerDB.sessions db)) db).
  destruct (CartArithmetic.setdefault_spec token db')
    as (l & db0 & Hset & Hl & Hderef & Hsess & Htime).
  change (CustomerDB.session_cart token db') with cart in Hderef.
  assert (Hadd : added =
            (Ok (PyDict.set item_key (PyDict.get_default item_key 0 cart + qty) cart),
             CustomerDB.store l
               (PyDict.set item_key (PyDict.get_default item_key 0 cart + qty) cart)
               db0)).
  { unfold added, CustomerDB.cart_add.
    destruct (Z.leb_spec qty 0); [lia|].
    unfold mbind, M_bind.
    rewrite (CartArithmetic.require_buyer_live _ _ _ _ Hs Hr Hlt).
    fold db'. rewrite Hset. unfold get_state, modify, mret, M_ret. simpl.
    now rewrite Hderef. }
  split; [now rewrite Hadd|].
  set (c1 := PyDict.set item_key (PyDict.get_default item_key 0 cart + qty) cart)
    in *.
  set (db1 := CustomerDB.store l c1 db0) in *.
  assert (Hs1 : CustomerDB.sessions db1 !! token = Some (CustomerDB.touch now s)).
  { unfold db1. simpl. rewrite Hsess. unfold db'. simpl. apply lookup_insert_eq. }
  assert (Hrem : removed =
            (Ok cart,
             CustomerDB.store l cart
               (CustomerDB.with_sessions
                  (<[token := CustomerDB.touch now' (CustomerDB.touch now s)]>
                     (CustomerDB.sessions db1)) db1))).
  { unfold removed, CustomerDB.cart_remove. rewrite Hadd. simpl snd.
    destruct (Z.leb_spec qty 0); [lia|].
    unfold mbind, M_bind.
    rewrite (CartArithmetic.require_buyer_live now' token
               (CustomerDB.touch now s) db1 Hs1 Hr);
      [|simpl; rewrite Htime; exact Hlt'].
    rewrite (CartArithmetic.setdefault_present token l) by exact Hl.
    unfold get_state, modify, mret, M_ret. simpl.
    unfold CustomerDB.deref. simpl. rewrite lookup_insert_eq. simpl.
    fold c1. rewrite Hcur.
    destruct (Z.leb_spec (PyDict.get_default item_key 0 cart + qty) 0); [lia|].
    destruct (Z.gtb_spec qty (PyDict.get_default item_key 0 cart + qty)); [lia|].
    replace (PyDict.get_default item_key 0 cart + qty - qty)
      with (PyDict.get_default item_key 0 cart) by lia.
    now rewrite Hback. }
  rewrite Hrem. split; [reflexivity|].
  unfold CustomerDB.session_cart. simpl. rewrite Hl.
  unfold CustomerDB.deref. simpl. now rewrite lookup_insert_eq.
Qed.

Lemma cart_add_then_remove_witness :
  fst (CustomerDB.cart_remove 20 "t1" "1:1" 4
         (snd (CustomerDB.cart_add 10 "t1" "1:1" 4 CartScenario.customer_db))) =
  Ok [("1:1", 2)].
Proof.
  refine (proj1 (proj2
    (cart_add_then_remove 300
       [ CustomerDB.create_account_req 1 "buyer" "ann" "pw";
         CustomerDB.login_req 2 "t1" "buyer" (U_str "ann") "pw";
         CustomerDB.cart_add_req 3 "t1" "1:1" 2 ]
       10%Q 20%Q "t1" "1:1" 4 (CustomerDB.mk_Session buyer 1 2 3) _ _ _ _ _))).
  - vm_compute. reflexivity.
  - reflexivity.
  - vm_compute. reflexivity.
  - vm_compute. reflexivity.
  - lia.
Defined.

(** ** The customer store: saved carts *)

Module SavedCartFrame.
Import CustomerDB CartSharing.

Definition saves (r : request) : bool :=
  match r with cart_save_req _ _ => true | _ => false end.

Lemma touch_saved b now tok db :
  saved_cart b (snd (_touch_or_expire now tok db)) = saved_cart b db.
Proof.
  unfold _touch_or_expire. destruct (sessions db !! tok) as [s|]; [|reflexivity].
  now destruct (expired now s db).
Qed.

Lemma step_saved b db r :
  no_sharing db -> saves r = false -> saved_cart b (step db r) = saved_cart b db.
Proof.
  intros Hns Hs.
  destruct r as [now rl name password | now token rl username password
                | token | now rl token | now token | now token item_key qty
                | now token item_key qty | now token | now token]; simpl;
    try discriminate.
  - destruct (create_account now rl name password db) as [[id db']|] eqn:E;
      [|reflexivity].
    destruct (CustomerAccounts.create_account_shape _ _ _ _ _ _ _ E)
      as ([] & _ & _ & _ & ->); reflexivity.
  - destruct (login now token rl username password db) as [[uid db']|] eqn:E;
      [|reflexivity].
    apply (CartFrame.login_copies_saved _ _ _ _ _ _ _ _ Hns E).
  - reflexivity.
  - pose proof (touch_saved b now token db) as H.
    unfold validate_session, touch_m. msimpl.
    destruct (_touch_or_expire now token db) as [[s|] db']; simpl in *;
      [|exact H].
    now destruct (bool_decide _).
  - pose proof (touch_saved b now token db) as H.
    unfold cart_get, require_buyer, touch_m. msimpl.
    destruct (_touch_or_expire now token db) as [[s|] db']; simpl in *;
      [|exact H].
    now destruct (decide _).
  - apply (CartFrame.cart_add_frame now token item_key qty db Hns).
  - apply (CartFrame.cart_remove_frame now token item_key qty db Hns).
  - apply (CartFrame.cart_clear_frame now token db Hns).
Qed.

Lemma run_saved b rs db :
  no_sharing db -> Forall (fun r => saves r = false) rs ->
  saved_cart b (run rs db) = saved_cart b db.
Proof.
  revert db. induction rs as [|r rs IH]; intros db Hns Hall; [reflexivity|].
  apply Forall_cons in Hall as [Hr Hall]. simpl.
  rewrite IH; [now apply step_saved | now apply step_no_sharing | exact Hall].
Qed.

End SavedCartFrame.

(** X18. A saved cart changes by [cart_save] only: in every state the
    customer store reaches, whatever requests other than [cart_save] follow
    (additions, removals, clearing, logouts, logins, new accounts, by any
    client), the saved cart of every buyer is what it was, and a buyer login
    that succeeds afterwards starts its session with exactly that cart. *)
Theorem saved_cart_changed_by_save_only :
  forall (timeout : Z) (rs0 rs : list CustomerDB.request),
    Forall (fun r => SavedCartFrame.saves r = false) rs ->
    let db := CustomerDB.run rs0 (CustomerDB.init timeout) in
    (forall b,
       CartSharing.saved_cart b (CustomerDB.run rs db) =
       CartSharing.saved_cart b db) /\
    (forall now token role username password uid db',
       CustomerDB.parse_role role = Some buyer ->
       CustomerDB.login now token role username password (CustomerDB.run rs db) =
         Ok (uid, db') ->
       CustomerDB.session_cart token db' = CartSharing.saved_cart uid db).
Proof.
  intros timeout rs0 rs Hall db.
  assert (Hns : CartSharing.no_sharing db)
    by apply CartSharing.run_no_sharing, CartSharing.no_sharing_init.
  split; [intros b; now apply SavedCartFrame.run_saved|].
  intros now token role username password uid db' Hr Hlog.
  pose proof (CartSharing.run_no_sharing rs db Hns) as Hns'.
  destruct (CartFrame.login_copies_saved _ _ _ _ _ _ _ _ Hns' Hlog)
    as (_ & _ & _ & Hb & _).
  rewrite (Hb Hr). now apply SavedCartFrame.run_saved.
Qed.

Lemma saved_cart_changed_by_save_only_witness :
  CartSharing.saved_cart 1
    (CustomerDB.run
       [ CustomerDB.cart_add_req 5 "t1" "2:7" 1;
         CustomerDB.cart_clear_req 6 "t1";
         CustomerDB.logout_req "t1" ]
       (CustomerDB.run
          [ CustomerDB.create_account_req 1 "buyer" "ann" "pw";
            CustomerDB.login_req 2 "t1" "buyer" (U_str "ann") "pw";
            CustomerDB.cart_add_req 3 "t1" "1:1" 2;
            CustomerDB.cart_save_req 4 "t1" ]
          (CustomerDB.init 300))) =
  CartSharing.saved_cart 1
    (CustomerDB.run
       [ CustomerDB.create_account_req 1 "buyer" "ann" "pw";
         CustomerDB.login_req 2 "t1" "buyer" (U_str "ann") "pw";
         CustomerDB.cart_add_req 3 "t1" "1:1" 2;
         CustomerDB.cart_save_req 4 "t1" ]
       (CustomerDB.init 300)).
Proof.
  refine (proj1
    (saved_cart_changed_by_save_only 300
       [ CustomerDB.create_account_req 1 "buyer" "ann" "pw";
         CustomerDB.login_req 2 "t1" "buyer" (U_str "ann") "pw";
         CustomerDB.cart_add_req 3 "t1" "1:1" 2;
         CustomerDB.cart_save_req 4 "t1" ]
       [ CustomerDB.cart_add_req 5 "t1" "2:7" 1;
         CustomerDB.cart_clear_req 6 "t1";
         CustomerDB.logout_req "t1" ] _) 1).
  repeat constructor.
Defined.

(** X19. A seller's token is refused by everything that is a buyer's: for a
    live session of role seller, the five cart operations raise
    invalid-buyer-session (positive quantities given), [get_buyer_purchases]
    raises not-a-buyer-session and [validate_session] for the buyer role
    raises session-role-mismatch. Each refusal still counts as activity: the
    store it leaves differs from the one before only in the session's
    [last_activity], now the time of the request. *)
Theorem seller_token_refused_as_buyer :
  forall (db : CustomerDB.t) (token : string) (s : CustomerDB._Session) (now : Q),
    CustomerDB.sessions db !! token = Some s ->
    CustomerDB.role s = seller ->
    (now - CustomerDB.last_activity s <
       inject_Z (CustomerDB.timeout_seconds db))%Q ->
    let db' :=
      CustomerDB.with_sessions
        (<[token := CustomerDB.mk_Session seller (CustomerDB.user_id s)
                      (CustomerDB.created_at s) now]> (CustomerDB.sessions db))
        db in
    CustomerDB.cart_get now token db = (Err "invalid buyer session", db') /\
    CustomerDB.cart_clear now token db = (Err "invalid buyer session", db') /\
    CustomerDB.cart_save now token db = (Err "invalid buyer session", db') /\
    (forall k q, 0 < q ->
       CustomerDB.cart_add now token k q db =
         (Err "invalid buyer session", db') /\
       CustomerDB.cart_remove now token k q db =
         (Err "invalid buyer session", db')) /\
    CustomerDB.get_buyer_purchases now token db =
      (Err "not a buyer session", db') /\
    (forall role, CustomerDB.parse_role role = Some buyer ->
       CustomerDB.validate_session now role token db =
         (Err "session role mismatch", db')).
Proof.
  intros db token s now Hs Hr Hlt db'.
  assert (Ht : CustomerDB._touch_or_expire now token db =
               (Some (CustomerDB.touch now s), db')).
  { rewrite (SessionExpiry.touch_live _ _ _ _ Hs Hlt).
    unfold db', CustomerDB.touch. now rewrite Hr. }
  assert (Hnb : CustomerDB.role (CustomerDB.touch now s) <> buyer)
    by (simpl; rewrite Hr; discriminate).
  assert (Hrb : CustomerDB.require_buyer now token db =
               (Err "invalid buyer session", db')).
  { unfold CustomerDB.require_buyer, CustomerDB.touch_m. msimpl. rewrite Ht.
    simpl. destruct (decide _) as [e|]; [|reflexivity]. simpl in e. congruence. }
  repeat split.
  - unfold CustomerDB.cart_get, mbind, M_bind. now rewrite Hrb.
  - unfold CustomerDB.cart_clear, mbind, M_bind. now rewrite Hrb.
  - unfold CustomerDB.cart_save, mbind, M_bind. now rewrite Hrb.
  - unfold CustomerDB.cart_add. destruct (Z.leb_spec q 0); [lia|].
    unfold mbind, M_bind. now rewrite Hrb.
  - unfold CustomerDB.cart_remove. destruct (Z.leb_spec q 0); [lia|].
    unfold mbind, M_bind. now rewrite Hrb.
  - unfold CustomerDB.get_buyer_purchases, CustomerDB.touch_m. msimpl.
    rewrite Ht. simpl. destruct (decide _) as [e|]; [|reflexivity].
    simpl in e. congruence.
  - intros role Hrole. unfold CustomerDB.validate_session, CustomerDB.touch_m.
    msimpl. rewrite Ht. simpl. rewrite Hrole, Hr.
    now rewrite bool_decide_eq_false_2 by discriminate.
Qed.

Lemma seller_token_refused_as_buyer_witness :
  fst (CustomerDB.cart_get 5 "s1"
         (CustomerDB.run
            [ CustomerDB.create_account_req 1 "seller" "sam" "pw";
              CustomerDB.login_req 2 "s1" "seller" (U_int 1) "pw" ]
            (CustomerDB.init 300))) = Err "invalid buyer session".
Proof.
  refine (f_equal fst (proj1
    (seller_token_refused_as_buyer
       (CustomerDB.run
          [ CustomerDB.create_account_req 1 "seller" "sam" "pw";
            CustomerDB.login_req 2 "s1" "seller" (U_int 1) "pw" ]
          (CustomerDB.init 300))
       "s1" (CustomerDB.mk_Session seller 1 2 2) 5%Q _ _ _))).
  - vm_compute. reflexivity.
  - reflexivity.
  - vm_compute. reflexivity.
Defined.

(** X20. The customer store keeps no history: in every state it reaches,
    [get_seller_rating_by_id] answers feedback (0, 0) and 0 items sold for
    every seller id in use and raises unknown-seller-id for every other; for
    a live session, [get_seller_rating_by_session] answers the same zeros for
    a seller (never unknown-seller) and [get_buyer_purchases] the empty list
    for a buyer, each raising for the other role, and both raise
    invalid-or-expired-session for a token without a session. *)
Theorem customer_store_keeps_no_history :
  forall (timeout : Z) (rs : list CustomerDB.request),
    let db := CustomerDB.run rs (CustomerDB.init timeout) in
    (forall i,
       CustomerDB.get_seller_rating_by_id i db =
         if bool_decide (1 <= i < CustomerDB._next_seller_id db)
         then Ok (i, Feedback.mk 0 0, 0) else Err "unknown seller_id") /\
    (forall now token s,
       CustomerDB.sessions db !! token = Some s ->
       (now - CustomerDB.last_activity s <
          inject_Z (CustomerDB.timeout_seconds db))%Q ->
       fst (CustomerDB.get_seller_rating_by_session now token db) =
         (if decide (CustomerDB.role s = seller)
          then Ok (CustomerDB.user_id s, Feedback.mk 0 0, 0)
          else Err "not a seller session") /\
       fst (CustomerDB.get_buyer_purchases now token db) =
         (if decide (CustomerDB.role s = buyer)
          then Ok (CustomerDB.user_id s, [])
          else Err "not a buyer session")) /\
    (forall now token,
       CustomerDB.sessions db !! token = None ->
       fst (CustomerDB.get_seller_rating_by_session now token db) =
         Err "invalid or expired session" /\
       fst (CustomerDB.get_buyer_purchases now token db) =
         Err "invalid or expired session").
Proof.
  intros timeout rs db.
  destruct (CustomerSessions.run_sessions_ok rs (CustomerDB.init timeout)
              (CustomerAccounts.accounts_ok_init timeout)
              (CustomerSessions.sessions_ok_init timeout)) as [Hacc Hsess].
  fold db in Hacc, Hsess.
  split; [|split].
  - intros i. unfold CustomerDB.get_seller_rating_by_id.
    pose proof (CustomerAccounts.sellers_range db Hacc i) as Hrange.
    destruct (CustomerDB.sellers db !! i) as [sl|] eqn:E.
    + rewrite bool_decide_eq_true_2 by (apply Hrange; eauto).
      destruct (CustomerAccounts.seller_stored db Hacc i sl E)
        as (_ & _ & -> & ->). reflexivity.
    + rewrite bool_decide_eq_false_2; [reflexivity|].
      intros H. apply Hrange in H as [? ?]. discriminate.
  - intros now token s Hs Hlt.
    unfold CustomerDB.get_seller_rating_by_session,
      CustomerDB.get_buyer_purchases, CustomerDB.touch_m.
    msimpl. rewrite (SessionExpiry.touch_live _ _ _ _ Hs Hlt). simpl.
    pose proof (Hsess token s Hs) as [p Hp]. split.
    + destruct (decide (CustomerDB.role s = seller)) as [e|]; [|reflexivity].
      simpl. rewrite e in Hp. simpl in Hp.
      destruct (CustomerDB.sellers db !! CustomerDB.user_id s) as [sl|] eqn:E;
        [|discriminate].
      destruct (CustomerAccounts.seller_stored db Hacc _ sl E)
        as (_ & _ & -> & ->). reflexivity.
    + destruct (decide (CustomerDB.role s = buyer)) as [e|]; [|reflexivity].
      simpl.
      destruct (CustomerDB.buyer_purchases db !! CustomerDB.user_id s)
        as [l|] eqn:E; [|reflexivity].
      now rewrite (CustomerAccounts.no_purchases db Hacc _ l E).
  - intros now token Hs.
    unfold CustomerDB.get_seller_rating_by_session,
      CustomerDB.get_buyer_purchases, CustomerDB.touch_m.
    msimpl. now rewrite (SessionExpiry.touch_absent now token db Hs).
Qed.

(** ** The consolidated store: items, accounts and sessions *)

Module MarketStore.
Import Market.

(** The next number of a category. *)
Definition counter (c : Z) (d : InMemoryDB.t) : Z :=
  default 1 (InMemoryDB.next_item_number_by_category d !! c).

(** The keys of the items of a seller, in the order of the store. *)
Definition seller_keys (s : Z) (items : list (string * Item.t)) : list string :=
  map fst (filter (fun p => Item.seller_id (snd p) = s) items).

Record store_ok (d : InMemoryDB.t) : Prop := {
  i_nodup : NoDup (PyDict.keys (InMemoryDB.items_by_key d));
  i_key : forall k it,
    (k, it) ∈ InMemoryDB.items_by_key d ->
    k = ItemId.key (Item.item_id it) /\
    Item.category it = ItemId.category (Item.item_id it);
  i_counter : forall c, 1 <= counter c d;
  i_range : forall k it,
    (k, it) ∈ InMemoryDB.items_by_key d ->
    1 <= ItemId.number (Item.item_id it)
      < counter (ItemId.category (Item.item_id it)) d;
  i_full : forall c n,
    1 <= n < counter c d ->
    is_Some (PyDict.get (ItemId.key (ItemId.mk c n)) (InMemoryDB.items_by_key d));
  i_index : forall s,
    default [] (InMemoryDB.items_by_seller d !! s) =
    seller_keys s (InMemoryDB.items_by_key d);
  a_next_seller : 1 <= InMemoryDB.next_seller_id d;
  a_next_buyer : 1 <= InMemoryDB.next_buyer_id d;
  a_sellers : forall i,
    is_Some (InMemoryDB.sellers_by_id d !! i) <-> 1 <= i < InMemoryDB.next_seller_id d;
  a_buyers : forall i,
    is_Some (InMemoryDB.buyers_by_id d !! i) <-> 1 <= i < InMemoryDB.next_buyer_id d;
  a_seller_id : forall i s,
    InMemoryDB.sellers_by_id d !! i = Some s -> Seller.seller_id s = i;
  a_buyer_id : forall i b,
    InMemoryDB.buyers_by_id d !! i = Some b -> Buyer.buyer_id b = i
}.

(** What the store never takes back: the id counters do not decrease, and
    an account stays stored under its id with its name and credential. *)
Record grows (d d' : InMemoryDB.t) : Prop := {
  g_next_seller : InMemoryDB.next_seller_id d <= InMemoryDB.next_seller_id d';
  g_next_buyer : InMemoryDB.next_buyer_id d <= InMemoryDB.next_buyer_id d';
  g_sellers : forall i s,
    InMemoryDB.sellers_by_id d !! i = Some s ->
    exists s', InMemoryDB.sellers_by_id d' !! i = Some s' /\
               Seller.name s' = Seller.name s /\
               Seller.password_hash s' = Seller.password_hash s;
  g_buyers : forall i b,
    InMemoryDB.buyers_by_id d !! i = Some b ->
    exists b', InMemoryDB.buyers_by_id d' !! i = Some b' /\
               Buyer.name b' = Buyer.name b /\
               Buyer.password_hash b' = Buyer.password_hash b
}.

Lemma grows_same d d' :
  InMemoryDB.sellers_by_id d' = InMemoryDB.sellers_by_id d ->
  InMemoryDB.buyers_by_id d' = InMemoryDB.buyers_by_id d ->
  InMemoryDB.next_seller_id d' = InMemoryDB.next_seller_id d ->
  InMemoryDB.next_buyer_id d' = InMemoryDB.next_buyer_id d ->
  grows d d'.
Proof.
  intros E1 E2 E3 E4. split; rewrite ?E1, ?E2, ?E3, ?E4; try lia; eauto.
Qed.

Lemma grows_refl d : grows d d.
Proof. now apply grows_same. Qed.

Lemma grows_trans d1 d2 d3 : grows d1 d2 -> grows d2 d3 -> grows d1 d3.
Proof.
  intros [A1 B1 C1 D1] [A2 B2 C2 D2]. split; try lia.
  - intros i s H. destruct (C1 _ _ H) as (s' & H' & ? & ?).
    destruct (C2 _ _ H') as (s'' & ? & ? & ?). exists s''.
    repeat split; congruence.
  - intros i b H. destruct (D1 _ _ H) as (b' & H' & ? & ?).
    destruct (D2 _ _ H') as (b'' & ? & ? & ?). exists b''.
    repeat split; congruence.
Qed.

Lemma market_store_ok_init : store_ok InMemoryDB.init.
Proof.
  split; simpl; try lia.
  - constructor.
  - intros k it H. now apply elem_of_nil in H.
  - intros c. unfold counter. simpl. rewrite lookup_empty. simpl. lia.
  - intros k it H. now apply elem_of_nil in H.
  - intros c n. unfold counter. simpl. rewrite lookup_empty. simpl. lia.
  - intros s. now rewrite lookup_empty.
  - intros i. rewrite lookup_empty. split; [intros [? ?]; discriminate | lia].
  - intros i. rewrite lookup_empty. split; [intros [? ?]; discriminate | lia].
  - intros i s. now rewrite lookup_empty.
  - intros i b. now rewrite lookup_empty.
Qed.

Lemma store_ok_same d d' :
  InMemoryDB.items_by_key d' = InMemoryDB.items_by_key d ->
  InMemoryDB.items_by_seller d' = InMemoryDB.items_by_seller d ->
  InMemoryDB.next_item_number_by_category d' =
    InMemoryDB.next_item_number_by_category d ->
  InMemoryDB.sellers_by_id d' = InMemoryDB.sellers_by_id d ->
  InMemoryDB.buyers_by_id d' = InMemoryDB.buyers_by_id d ->
  InMemoryDB.next_seller_id d' = InMemoryDB.next_seller_id d ->
  InMemoryDB.next_buyer_id d' = InMemoryDB.next_buyer_id d ->
  store_ok d -> store_ok d'.
Proof.
  intros E1 E2 E3 E4 E5 E6 E7 [].
  split; unfold counter in *; rewrite ?E1, ?E2, ?E3, ?E4, ?E5, ?E6, ?E7;
    assumption.
Qed.

Lemma seller_keys_set_same s k it it' items :
  PyDict.get k items = Some it -> Item.seller_id it' = Item.seller_id it ->
  seller_keys s (PyDict.set k it' items) = seller_keys s items.
Proof.
  unfold seller_keys. intros Hget Hs.
  induction items as [|[k0 v0] items IH]; simpl in *; [discriminate|].
  destruct (decide (k = k0)) as [->|Hne].
  - injection Hget as ->. rewrite !filter_cons. simpl. rewrite Hs.
    now destruct (decide (Item.seller_id it = s)).
  - rewrite !filter_cons. simpl.
    destruct (decide (Item.seller_id v0 = s)); simpl; now rewrite IH.
Qed.

Lemma seller_keys_app s items k it :
  seller_keys s (items ++ [(k, it)]) =
  seller_keys s items ++ (if decide (Item.seller_id it = s) then [k] else []).
Proof.
  unfold seller_keys. rewrite filter_app, map_app. f_equal.
  rewrite filter_cons. simpl. now destruct (decide (Item.seller_id it = s)).
Qed.

(** Replacing a stored item by one of the same identity. *)
Lemma store_ok_replace d k it it' :
  store_ok d ->
  PyDict.get k (InMemoryDB.items_by_key d) = Some it ->
  Item.item_id it' = Item.item_id it ->
  Item.seller_id it' = Item.seller_id it ->
  Item.category it' = Item.category it ->
  store_ok (InMemoryDB.with_items (PyDict.set k it' (InMemoryDB.items_by_key d)) d).
Proof.
  intros [] Hget Hid Hsel Hcat.
  pose proof (PyDict.get_Some_elem _ _ _ Hget) as Hin.
  assert (Hk : k ∈ PyDict.keys (InMemoryDB.items_by_key d))
    by (eapply PyDictFacts.elem_keys; eauto).
  split; simpl; try assumption.
  - now apply PyDict.NoDup_keys_set.
  - intros k' x H. apply PyDict.elem_set in H as [[= -> ->]|H]; [|eauto].
    rewrite Hid, Hcat. eauto.
  - intros k' x H. apply PyDict.elem_set in H as [[= -> ->]|H]; [|eauto].
    rewrite Hid. eauto.
  - intros c n H. destruct (decide (k = ItemId.key (ItemId.mk c n))) as [->|Hne].
    + rewrite PyDict.get_set_eq. eauto.
    + rewrite PyDict.get_set_ne by exact Hne. eauto.
  - intros s. rewrite (seller_keys_set_same s k it it'); auto.
Qed.

Lemma store_ok_sellers d m :
  store_ok d ->
  (forall i, is_Some (m !! i) <-> is_Some (InMemoryDB.sellers_by_id d !! i)) ->
  (forall i s, m !! i = Some s -> Seller.seller_id s = i) ->
  store_ok (InMemoryDB.with_sellers m d).
Proof.
  intros [] Hm Hid. split; simpl; try assumption.
  intros i. rewrite Hm. auto.
Qed.

Lemma store_ok_buyers d m :
  store_ok d ->
  (forall i, is_Some (m !! i) <-> is_Some (InMemoryDB.buyers_by_id d !! i)) ->
  (forall i b, m !! i = Some b -> Buyer.buyer_id b = i) ->
  store_ok (InMemoryDB.with_buyers m d).
Proof.
  intros [] Hm Hid. split; simpl; try assumption.
  intros i. rewrite Hm. auto.
Qed.

(** Store operations that keep the store in order. *)
Definition keeps {A} (f : InMemoryDB.t -> Result (A * InMemoryDB.t)) : Prop :=
  forall d a d', store_ok d -> f d = Ok (a, d') -> store_ok d' /\ grows d d'.

Definition keeps_upd (f : InMemoryDB.t -> Result InMemoryDB.t) : Prop :=
  forall d d', store_ok d -> f d = Ok d' -> store_ok d' /\ grows d d'.

Lemma add_seller_in_order now name pw : keeps (InMemoryDB.add_seller now name pw).
Proof.
  intros d a d' Hd. unfold InMemoryDB.add_seller.
  destruct (_ >? _); [discriminate|]. intros [= _ <-].
  split.
  2:{ split; simpl; try lia; [|eauto]. intros i s H. exists s.
      split; [|now split]. rewrite lookup_insert_ne; [exact H|].
      intros <-. assert (Hs : is_Some (InMemoryDB.sellers_by_id d
                                         !! InMemoryDB.next_seller_id d))
        by eauto.
      apply (a_sellers d Hd) in Hs. lia. }
  destruct Hd. split; simpl; try assumption; try lia.
  - intros i. rewrite lookup_insert_is_Some, a_sellers0.
    destruct (decide (InMemoryDB.next_seller_id d = i)); [|intuition lia].
    subst i. intuition lia.
  - intros i s. rewrite lookup_insert_Some.
    intros [ [<- <-] | [_ H] ]; [reflexivity | eauto].
Qed.

Lemma add_buyer_in_order now name pw : keeps (InMemoryDB.add_buyer now name pw).
Proof.
  intros d a d' Hd. unfold InMemoryDB.add_buyer.
  destruct (_ >? _); [discriminate|]. intros [= _ <-].
  split.
  2:{ split; simpl; try lia; [eauto|]. intros i b H. exists b.
      split; [|now split]. rewrite lookup_insert_ne; [exact H|].
      intros <-. assert (Hs : is_Some (InMemoryDB.buyers_by_id d
                                         !! InMemoryDB.next_buyer_id d))
        by eauto.
      apply (a_buyers d Hd) in Hs. lia. }
  destruct Hd. split; simpl; try assumption; try lia.
  - intros i. rewrite lookup_insert_is_Some, a_buyers0.
    destruct (decide (InMemoryDB.next_buyer_id d = i)); [|intuition lia].
    subst i. intuition lia.
  - intros i b. rewrite lookup_insert_Some.
    intros [ [<- <-] | [_ H] ]; [reflexivity | eauto].
Qed.

Lemma update_item_price_in_order item_id price :
  keeps_upd (InMemoryDB.update_item_price item_id price).
Proof.
  intros d d' Hd. unfold InMemoryDB.update_item_price.
  destruct (PyDict.get _ _) as [it|] eqn:E; [|discriminate]. intros [= <-].
  split; [|now apply grows_same]. now apply (store_ok_replace d _ it).
Qed.

Lemma add_item_feedback_in_order item_id up down :
  keeps_upd (InMemoryDB.add_item_feedback item_id up down).
Proof.
  intros d d' Hd. unfold InMemoryDB.add_item_feedback.
  destruct (_ || _); [discriminate|].
  destruct (PyDict.get _ _) as [it|] eqn:E; [|discriminate]. intros [= <-].
  split; [|now apply grows_same]. now apply (store_ok_replace d _ it).
Qed.

Lemma update_item_quantity_in_order item_id q :
  keeps_upd (InMemoryDB.update_item_quantity item_id q).
Proof.
  intros d d' Hd. unfold InMemoryDB.update_item_quantity.
  destruct (PyDict.get _ _) as [it|] eqn:E; [|discriminate]. intros [= <-].
  split; [|now apply grows_same]. now apply (store_ok_replace d _ it).
Qed.

Lemma remove_units_in_order item_id rq :
  keeps (InMemoryDB.remove_units_for_sale item_id rq).
Proof.
  intros d a d' Hd. unfold InMemoryDB.remove_units_for_sale.
  destruct (rq <? 0); [discriminate|].
  destruct (PyDict.get _ _) as [it|] eqn:E; [|discriminate].
  destruct (_ <? _); [discriminate|]. intros [= _ <-].
  split; [|now apply grows_same]. now apply (store_ok_replace d _ it).
Qed.

Lemma inc_seller_in_order seller_id delta :
  keeps_upd (InMemoryDB.inc_seller_items_sold seller_id delta).
Proof.
  intros d d' Hd. unfold InMemoryDB.inc_seller_items_sold.
  destruct (InMemoryDB.sellers_by_id d !! seller_id) as [s|] eqn:E; [|discriminate].
  intros [= <-]. split.
  2:{ split; simpl; try lia; [|eauto]. intros i s0 H.
      destruct (decide (seller_id = i)) as [<-|Hne].
      - rewrite lookup_insert_eq. eexists. split; [reflexivity|].
        rewrite E in H. injection H as <-. now split.
      - rewrite lookup_insert_ne by exact Hne. exists s0. now repeat split. }
  apply store_ok_sellers; [exact Hd| |].
  - intros i. rewrite lookup_insert_is_Some.
    destruct (decide (seller_id = i)) as [<-|]; [|tauto]. split; eauto.
  - intros i s'. rewrite lookup_insert_Some.
    intros [ [<- <-] | [_ H] ]; [|exact (a_seller_id d Hd _ _ H)].
    exact (a_seller_id d Hd _ _ E).
Qed.

Lemma inc_buyer_in_order buyer_id delta :
  keeps_upd (InMemoryDB.inc_buyer_items_purchased buyer_id delta).
Proof.
  intros d d' Hd. unfold InMemoryDB.inc_buyer_items_purchased.
  destruct (InMemoryDB.buyers_by_id d !! buyer_id) as [b|] eqn:E; [|discriminate].
  intros [= <-]. split.
  2:{ split; simpl; try lia; [eauto|]. intros i b0 H.
      destruct (decide (buyer_id = i)) as [<-|Hne].
      - rewrite lookup_insert_eq. eexists. split; [reflexivity|].
        rewrite E in H. injection H as <-. now split.
      - rewrite lookup_insert_ne by exact Hne. exists b0. now repeat split. }
  apply store_ok_buyers; [exact Hd| |].
  - intros i. rewrite lookup_insert_is_Some.
    destruct (decide (buyer_id = i)) as [<-|]; [|tauto]. split; eauto.
  - intros i b'. rewrite lookup_insert_Some.
    intros [ [<- <-] | [_ H] ]; [|exact (a_buyer_id d Hd _ _ H)].
    exact (a_buyer_id d Hd _ _ E).
Qed.

Lemma add_transaction_ok txn d :
  store_ok d -> store_ok (InMemoryDB.add_transaction txn d).
Proof. now apply store_ok_same. Qed.

Lemma save_cart_ok b c d : store_ok d -> store_ok (InMemoryDB.save_cart b c d).
Proof. now apply store_ok_same. Qed.

(** The id [allocate_item_id] hands out names no stored item. *)
Lemma allocated_key_fresh c d :
  store_ok d ->
  PyDict.get (ItemId.key (ItemId.mk c (counter c d))) (InMemoryDB.items_by_key d)
  = None.
Proof.
  intros Hd. destruct (PyDict.get _ _) as [it|] eqn:E; [|reflexivity].
  exfalso. apply PyDict.get_Some_elem in E.
  destruct (i_key d Hd _ _ E) as [Hk _]. apply ItemKey.key_inj in Hk.
  pose proof (i_range d Hd _ _ E) as Hr. rewrite <- Hk in Hr. simpl in Hr. lia.
Qed.

(** [allocate_item_id] followed by [add_item] of an item with that id. *)
Lemma register_ok c item d :
  store_ok d ->
  Item.item_id item = ItemId.mk c (counter c d) ->
  Item.category item = c ->
  exists d',
    InMemoryDB.add_item item (snd (InMemoryDB.allocate_item_id c d)) = Ok d' /\
    store_ok d' /\ grows d d' /\
    InMemoryDB.items_by_key d' =
      InMemoryDB.items_by_key d ++ [(ItemId.key (Item.item_id item), item)] /\
    InMemoryDB.sellers_by_id d' = InMemoryDB.sellers_by_id d /\
    InMemoryDB.buyers_by_id d' = InMemoryDB.buyers_by_id d /\
    counter c d' = counter c d + 1 /\
    (forall c', c' <> c -> counter c' d' = counter c' d).
Proof.
  intros Hd Hid Hcat.
  pose proof (allocated_key_fresh c d Hd) as Hfresh. rewrite <- Hid in Hfresh.
  assert (Hnin : ItemId.key (Item.item_id item)
                 ∉ PyDict.keys (InMemoryDB.items_by_key d))
    by now apply PyDict.get_None_keys.
  unfold InMemoryDB.add_item, InMemoryDB.allocate_item_id, PyDict.mem. simpl.
  rewrite Hfresh. eexists. split; [reflexivity|].
  rewrite (PyDictFacts.set_fresh _ _ _ Hnin).
  assert (Hc : forall c',
            counter c'
              (InMemoryDB.mk (InMemoryDB.sellers_by_id d)
                 (InMemoryDB.sellers_by_name d) (InMemoryDB.buyers_by_id d)
                 (InMemoryDB.buyers_by_name d) (InMemoryDB.next_seller_id d)
                 (InMemoryDB.next_buyer_id d)
                 (InMemoryDB.items_by_key d ++
                    [(ItemId.key (Item.item_id item), item)])
                 (<[Item.seller_id item :=
                      default [] (InMemoryDB.items_by_seller d
                                    !! Item.seller_id item) ++
                      [ItemId.key (Item.item_id item)]]>
                    (InMemoryDB.items_by_seller d))
                 (<[c := default 1 (InMemoryDB.next_item_number_by_category d
                                      !! c) + 1]>
                    (InMemoryDB.next_item_number_by_category d))
                 (InMemoryDB.transactions_by_id d)
                 (InMemoryDB.transactions_by_buyer d)
                 (InMemoryDB.saved_carts_by_buyer d)) =
            if decide (c' = c) then counter c d + 1 else counter c' d).
  { intros c'. unfold counter. simpl.
    destruct (decide (c' = c)) as [->|Hne].
    - now rewrite lookup_insert_eq.
    - now rewrite lookup_insert_ne by congruence. }
  split; [|split; [now apply grows_same|]].
  - destruct Hd. split; simpl; try assumption.
    + unfold PyDict.keys. rewrite map_app. simpl.
      apply NoDup_app. split; [assumption|]. split; [|apply NoDup_singleton].
      intros x Hx Hx'. apply list_elem_of_singleton in Hx'. now subst x.
    + intros k it H. apply elem_of_app in H as [H|H]; [eauto|].
      apply list_elem_of_singleton in H. injection H as -> ->.
      split; [reflexivity|]. now rewrite Hid, Hcat.
    + intros c'. rewrite Hc. pose proof (i_counter0 c').
      pose proof (i_counter0 c). destruct (decide (c' = c)); lia.
    + intros k it H. rewrite Hc. apply elem_of_app in H as [H|H].
      * pose proof (i_range0 _ _ H) as Hr.
        destruct (decide (ItemId.category (Item.item_id it) = c)) as [e|];
          [rewrite e in Hr|]; lia.
      * apply list_elem_of_singleton in H. injection H as -> ->.
        rewrite Hid. simpl. destruct (decide (c = c)); [|congruence].
        pose proof (i_counter0 c). lia.
    + intros c' n. rewrite Hc. intros Hn.
      destruct (decide (ItemId.mk c' n = Item.item_id item)) as [e|Hne].
      * rewrite e. rewrite <- (PyDictFacts.set_fresh _ _ _ Hnin).
        rewrite PyDict.get_set_eq. eauto.
      * rewrite <- (PyDictFacts.set_fresh _ _ _ Hnin).
        rewrite PyDict.get_set_ne
          by (intros Hk; apply ItemKey.key_inj in Hk; congruence).
        apply i_full0. destruct (decide (c' = c)) as [->|]; [|lia].
        rewrite Hid in Hne. assert (n <> counter c d) by congruence. lia.
    + intros s. rewrite seller_keys_app, <- i_index0.
      destruct (decide (Item.seller_id item = s)) as [<-|Hne].
      * now rewrite lookup_insert_eq.
      * rewrite lookup_insert_ne by exact Hne. now rewrite app_nil_r.
  - split; [reflexivity|]. split; [reflexivity|]. split; [reflexivity|].
    split.
    + rewrite Hc. destruct (decide (c = c)); congruence.
    + intros c' Hne. rewrite Hc. destruct (decide (c' = c)); congruence.
Qed.

(** A session of the state names an account of its role. *)
Definition principal_ok (d : InMemoryDB.t) (sess : Session.t) : Prop :=
  match Session.role sess with
  | buyer => 1 <= Session.principal_id sess < InMemoryDB.next_buyer_id d
  | seller => 1 <= Session.principal_id sess < InMemoryDB.next_seller_id d
  end.

(** The states reached from a store [d0]. *)
Record inv (d0 : InMemoryDB.t) (st : MarketState) : Prop := {
  inv_store : store_ok (db st);
  inv_sessions : forall tok sess,
    sessions st !! tok = Some sess -> principal_ok (db st) sess;
  inv_grows : grows d0 (db st)
}.

Lemma inv_init : inv InMemoryDB.init init.
Proof.
  split; [apply market_store_ok_init| |apply grows_refl]. intros tok sess H.
  simpl in H. now rewrite lookup_empty in H.
Qed.

Lemma inv_start st :
  store_ok (db st) ->
  (forall tok sess, sessions st !! tok = Some sess -> principal_ok (db st) sess) ->
  inv (db st) st.
Proof. intros H1 H2. split; [exact H1 | exact H2 | apply grows_refl]. Qed.

Lemma principal_ok_grows d d' sess :
  grows d d' -> principal_ok d sess -> principal_ok d' sess.
Proof.
  intros [? ? _ _]. unfold principal_ok. destruct (Session.role sess); lia.
Qed.

Lemma inv_with_db d0 d st :
  inv d0 st -> store_ok d -> grows (db st) d -> inv d0 (with_db d st).
Proof.
  intros [_ Hs Hg0] Hd Hg. split; [exact Hd| |].
  - intros tok sess H. eapply principal_ok_grows; eauto.
  - eapply grows_trans; eauto.
Qed.

Lemma inv_set_cart d0 b c st : inv d0 st -> inv d0 (set_cart b c st).
Proof. intros [? ? ?]. now split. Qed.

Lemma inv_delete_session d0 tok st : inv d0 st -> inv d0 (delete_session tok st).
Proof.
  intros [Hd Hs Hg]. split; [exact Hd| |exact Hg]. intros t0 sess H. simpl in H.
  apply lookup_delete_Some in H as [_ H]. eauto.
Qed.

Lemma inv_create_session d0 now tok r id st :
  inv d0 st -> principal_ok (db st) (Session.mk id r now) ->
  inv d0 (create_session now tok r id st).
Proof.
  intros [Hd Hs Hg] Hp. split; [exact Hd| |exact Hg]. intros t0 sess H.
  simpl in H. apply lookup_insert_Some in H as [ [_ <-] | [_ H] ]; eauto.
Qed.

Lemma db_op_inv {A} d0 (f : InMemoryDB.t -> Result (A * InMemoryDB.t)) :
  keeps f -> preserves (inv d0) (db_op f).
Proof.
  intros Hf st H. unfold db_op.
  destruct (f (db st)) as [[a d]|e] eqn:E; simpl; [|exact H].
  destruct (Hf _ _ _ (inv_store d0 st H) E). now apply inv_with_db.
Qed.

Lemma db_upd_inv d0 (f : InMemoryDB.t -> Result InMemoryDB.t) :
  keeps_upd f -> preserves (inv d0) (db_upd f).
Proof.
  intros Hf. apply db_op_inv. intros d [] d' Hd.
  destruct (f d) as [d1|] eqn:E; [|discriminate]. intros [= <-]. eauto.
Qed.

End MarketStore.

(** ** Every request keeps the consolidated store in order *)

Module MarketStoreSteps.
Import Market MarketStore.

(** Computations on the store alone. *)
Definition dkeeps {A} (m : M InMemoryDB.t A) : Prop :=
  forall d, store_ok d -> store_ok (snd (m d)) /\ grows d (snd (m d)).

Lemma dkeeps_ret {A} (a : A) : dkeeps (mret a).
Proof. intros d H. split; [exact H | apply grows_refl]. Qed.

Lemma dkeeps_raise {A} msg : dkeeps (@raise InMemoryDB.t A msg).
Proof. intros d H. split; [exact H | apply grows_refl]. Qed.

Lemma dkeeps_bind {A B} (m : M InMemoryDB.t A) (k : A -> M InMemoryDB.t B) :
  dkeeps m -> (forall a, dkeeps (k a)) -> dkeeps (m ≫= k).
Proof.
  intros Hm Hk d H. unfold mbind, M_bind.
  destruct (Hm d H) as [H1 G1]. destruct (m d) as [[a|e] d1]; simpl in *.
  - destruct (Hk a d1 H1) as [H2 G2]. split; [exact H2|].
    eapply grows_trans; eauto.
  - now split.
Qed.

Lemma dkeeps_read {B} (k : InMemoryDB.t -> M InMemoryDB.t B) :
  (forall d, store_ok d -> dkeeps (k d)) -> dkeeps (get_state ≫= k).
Proof. intros Hk d H. unfold mbind, M_bind, get_state. now apply Hk. Qed.

Lemma dkeeps_lift {A} (f : InMemoryDB.t -> Result (A * InMemoryDB.t)) :
  keeps f -> dkeeps (lift_result f).
Proof.
  intros Hf d H. unfold lift_result.
  destruct (f d) as [[a d']|e] eqn:E; simpl; [eauto|].
  split; [exact H | apply grows_refl].
Qed.

Lemma keeps_of_upd {A} (f : InMemoryDB.t -> Result InMemoryDB.t) (a : A) :
  keeps_upd f -> keeps (fun d => d' ← f d; Ok (a, d')).
Proof.
  intros Hf d a' d' Hd. destruct (f d) as [d1|] eqn:E; simpl; [|discriminate].
  intros [= _ <-]. eauto.
Qed.

Lemma keeps_pure {A} (r : Result A) : keeps (fun d => a ← r; Ok (a, d)).
Proof.
  intros d a d' Hd. destruct r; simpl; [|discriminate].
  intros [= _ <-]. split; [exact Hd | apply grows_refl].
Qed.

Lemma apply_lines_keeps cart : forall a, dkeeps (apply_lines cart a).
Proof.
  induction cart as [|[k qty] cart IH]; intros [[total lines] units]; simpl.
  - apply dkeeps_ret.
  - apply dkeeps_bind; [apply dkeeps_lift, keeps_pure|]. intros item_id.
    apply dkeeps_read. intros d Hd.
    destruct (InMemoryDB.get_item item_id d) as [it|]; [|apply dkeeps_raise].
    apply dkeeps_bind; [apply dkeeps_lift, keeps_pure|]. intros total'.
    apply dkeeps_bind;
      [apply dkeeps_lift, keeps_of_upd, update_item_quantity_in_order|].
    intros _.
    apply dkeeps_bind; [apply dkeeps_lift, keeps_of_upd, inc_seller_in_order|].
    intros _. apply IH.
Qed.

Lemma on_db_inv {A} d0 (m : M InMemoryDB.t A) : dkeeps m -> preserves (inv d0) (on_db m).
Proof.
  intros Hm st H. unfold on_db.
  destruct (Hm (db st) (inv_store d0 st H)) as [H1 G1].
  destruct (m (db st)) as [r d]. simpl in *. now apply inv_with_db.
Qed.

Lemma dkeeps_modify (f : InMemoryDB.t -> InMemoryDB.t) :
  (forall d, store_ok d -> store_ok (f d) /\ grows d (f d)) -> dkeeps (modify f).
Proof. intros Hf d H. now apply Hf. Qed.

Lemma do_purchase_inv d0 now txn_id b : preserves (inv d0) (_do_purchase now txn_id b).
Proof.
  unfold _do_purchase.
  apply preserves_bind_read. intros st Hst.
  destruct (InMemoryDB.get_buyer b (db st)); [|apply preserves_raise].
  apply preserves_bind; [apply preserves_modify; intros; now apply inv_set_cart|].
  intros _. destruct (cart_of b st) as [|line cart]; [apply preserves_raise|].
  apply preserves_bind.
  { apply on_db_inv, dkeeps_lift.
    intros d a d' Hd. destruct (validate_lines _ d); simpl; [|discriminate].
    intros [= _ <-]. split; [exact Hd | apply grows_refl]. }
  intros _. apply preserves_bind; [apply on_db_inv, apply_lines_keeps|].
  intros [[total lines] units].
  apply preserves_bind;
    [apply on_db_inv, dkeeps_lift, keeps_of_upd, inc_buyer_in_order|].
  intros _. apply preserves_bind; [|intros _; apply preserves_ret].
  apply on_db_inv, dkeeps_modify. intros d Hd.
  split; [now apply add_transaction_ok | now apply grows_same].
Qed.

Lemma buyer_principal d i b now :
  store_ok d -> InMemoryDB.buyers_by_id d !! i = Some b ->
  principal_ok d (Session.mk i buyer now).
Proof. intros Hd H. apply (a_buyers d Hd). eauto. Qed.

Lemma seller_principal d i s now :
  store_ok d -> InMemoryDB.sellers_by_id d !! i = Some s ->
  principal_ok d (Session.mk i seller now).
Proof. intros Hd H. apply (a_sellers d Hd). eauto. Qed.

Lemma found_buyer d name b l :
  store_ok d -> InMemoryDB.find_buyers_by_name name d = b :: l ->
  InMemoryDB.buyers_by_id d !! Buyer.buyer_id b = Some b.
Proof.
  intros Hd H.
  assert (Hin : b ∈ InMemoryDB.find_buyers_by_name name d)
    by (rewrite H; apply list_elem_of_here).
  unfold InMemoryDB.find_buyers_by_name in Hin.
  apply list_elem_of_omap in Hin as (i & _ & Hi).
  now rewrite (a_buyer_id d Hd _ _ Hi).
Qed.

Lemma found_seller d name s l :
  store_ok d -> InMemoryDB.find_sellers_by_name name d = s :: l ->
  InMemoryDB.sellers_by_id d !! Seller.seller_id s = Some s.
Proof.
  intros Hd H.
  assert (Hin : s ∈ InMemoryDB.find_sellers_by_name name d)
    by (rewrite H; apply list_elem_of_here).
  unfold InMemoryDB.find_sellers_by_name in Hin.
  apply list_elem_of_omap in Hin as (i & _ & Hi).
  now rewrite (a_seller_id d Hd _ _ Hi).
Qed.

Ltac ipres_case x :=
  first [ is_var x; destruct x
        | let v := fresh "v" in remember x as v eqn:?; destruct v ];
  cbv beta iota.

Ltac ipres :=
  repeat match goal with
    | |- preserves _ (mret _) => apply preserves_ret
    | |- preserves _ (raise _) => apply preserves_raise
    | |- preserves _ (of_result _) => apply preserves_of_result
    | |- preserves _ (modify _) => apply preserves_modify; intros ? ?
    | |- preserves _ (db_op _) => apply db_op_inv
    | |- preserves _ (db_upd _) => apply db_upd_inv
    | |- preserves _ (_do_purchase _ _ _) => apply do_purchase_inv
    | |- preserves _ (get_state ≫= _) => apply preserves_bind_read; intros ? ?
    | |- preserves _ (_ ≫= _) => apply preserves_bind; [|intros ?]
    | |- preserves _ (match ?x with _ => _ end) => ipres_case x
    | |- preserves _ (if ?c then _ else _) => ipres_case c
    end.

Ltac inv_auto :=
  eauto using inv_set_cart, inv_delete_session, add_buyer_in_order,
    add_seller_in_order, add_item_feedback_in_order, update_item_price_in_order,
    remove_units_in_order.

Lemma login_by_id_inv d0 hash now uuid buyer_id name password :
  preserves (inv d0) (handle_buyer hash now uuid (Login (Some buyer_id) name password)).
Proof.
  intros st H. unfold handle_buyer. msimpl.
  destruct (InMemoryDB.get_buyer buyer_id (db st)) as [b|] eqn:Hb; [|exact H].
  destruct (negb _); [exact H|]. simpl.
  apply inv_set_cart, inv_create_session; [exact H|].
  exact (buyer_principal _ _ _ _ (inv_store d0 st H) Hb).
Qed.

Lemma login_by_name_inv d0 hash now uuid name password :
  preserves (inv d0) (handle_buyer hash now uuid (Login None name password)).
Proof.
  intros st H. unfold handle_buyer, buyer_login_session. msimpl.
  destruct (PyStr.is_empty name); [exact H|]. simpl.
  destruct (InMemoryDB.find_buyers_by_name name (db st)) as [|b [|b' l]] eqn:E;
    try exact H.
  destruct (negb _); [exact H|]. simpl.
  apply inv_set_cart, inv_create_session; [exact H|].
  exact (buyer_principal _ _ _ _ (inv_store d0 st H)
           (found_buyer _ _ _ _ (inv_store d0 st H) E)).
Qed.

Lemma handle_buyer_inv d0 hash now uuid a :
  preserves (inv d0) (handle_buyer hash now uuid a).
Proof.
  destruct a as [name password | [buyer_id|] name password | | | | | | | | | ];
    try apply login_by_id_inv; try apply login_by_name_inv;
    unfold handle_buyer; ipres; try solve [inv_auto].
  apply inv_with_db; [assumption | | now apply grows_same].
  apply save_cart_ok. now apply (inv_store d0).
Qed.

Lemma slogin_by_id_inv d0 hash now uuid seller_id name password :
  preserves (inv d0) (handle_seller hash now uuid (SLogin (Some seller_id) name password)).
Proof.
  intros st H. unfold handle_seller. msimpl.
  destruct (InMemoryDB.get_seller seller_id (db st)) as [s|] eqn:Hs; [|exact H].
  destruct (negb _); [exact H|]. simpl.
  apply inv_create_session; [exact H|].
  exact (seller_principal _ _ _ _ (inv_store d0 st H) Hs).
Qed.

Lemma slogin_by_name_inv d0 hash now uuid name password :
  preserves (inv d0) (handle_seller hash now uuid (SLogin None name password)).
Proof.
  intros st H. unfold handle_seller. msimpl.
  destruct (PyStr.is_empty name); [exact H|]. simpl.
  destruct (InMemoryDB.find_sellers_by_name name (db st)) as [|s [|s' l]] eqn:E;
    try exact H.
  destruct (negb _); [exact H|]. simpl.
  apply inv_create_session; [exact H|].
  exact (seller_principal _ _ _ _ (inv_store d0 st H)
           (found_seller _ _ _ _ (inv_store d0 st H) E)).
Qed.

(** What [RegisterItemForSale] does once its checks have passed. *)
Lemma register_item_inv d0 hash now uuid token item_name item_category keywords
    condition sale_price quantity :
  preserves (inv d0)
    (handle_seller hash now uuid
       (RegisterItemForSale token item_name item_category keywords condition
          sale_price quantity)).
Proof.
  intros st H. unfold handle_seller. msimpl.
  destruct (_require_session seller token st) as [[tok z]|]; [|exact H].
  destruct (InMemoryDB.get_seller z (db st)) as [s|]; [|exact H].
  destruct (PyStr.is_empty item_name); [exact H|].
  destruct (_ >? 32); [exact H|].
  destruct (parse_condition condition) as [cond|]; [|exact H].
  destruct (_ >? 5); [exact H|].
  destruct (existsb _ _); [exact H|].
  destruct (quantity <? 0); [exact H|].
  destruct (PyFloat.ltb sale_price PyFloat.zero); [exact H|]. simpl.
  match goal with
  | |- context [InMemoryDB.add_item ?it _] =>
      destruct (register_ok item_category it (db st) (inv_store d0 st H)
                  eq_refl eq_refl) as (d' & E & Hd' & Hg & _)
  end.
  simpl in E. rewrite E. simpl. change (inv d0 (with_db d' st)).
  now apply inv_with_db.
Qed.

Lemma handle_seller_inv d0 hash now uuid a :
  preserves (inv d0) (handle_seller hash now uuid a).
Proof.
  destruct a as [name password | [seller_id|] name password | | | | ];
    try apply slogin_by_id_inv; try apply slogin_by_name_inv;
    try apply register_item_inv;
    unfold handle_seller; ipres; solve [inv_auto].
Qed.

Lemma step_inv d0 hash st r : inv d0 st -> inv d0 (step hash st r).
Proof.
  intros H. unfold step, handle. destruct r.
  - now apply handle_buyer_inv.
  - now apply handle_seller_inv.
Qed.

Lemma run_inv d0 hash rs st : inv d0 st -> inv d0 (run hash rs st).
Proof.
  revert st. induction rs as [|r rs IH]; intros st H; simpl; [exact H|].
  apply IH. now apply step_inv.
Qed.

End MarketStoreSteps.

Module MarketListing.
Import Market MarketStore.

Lemma require_session_principal d0 r token st tok z :
  inv d0 st -> _require_session r token st = Some (tok, z) ->
  tok = token /\
  match r with
  | buyer => is_Some (InMemoryDB.buyers_by_id (db st) !! z)
  | seller => is_Some (InMemoryDB.sellers_by_id (db st) !! z)
  end.
Proof.
  intros H. unfold _require_session, get_session.
  destruct (PyStr.is_empty token); [discriminate|].
  destruct (sessions st !! token) as [sess|] eqn:E; [|discriminate].
  destruct (decide (Session.role sess = r)) as [<-|]; [|discriminate].
  intros [= <- <-]. split; [reflexivity|].
  pose proof (inv_sessions d0 st H _ _ E) as Hp. unfold principal_ok in Hp.
  destruct (Session.role sess);
    [apply (a_buyers _ (inv_store d0 st H)) | apply (a_sellers _ (inv_store d0 st H))];
    exact Hp.
Qed.

Lemma omap_get_keys (items l : list (string * Item.t)) :
  NoDup (PyDict.keys items) -> l ⊆ items ->
  omap (fun k => PyDict.get k items) (map fst l) = map snd l.
Proof.
  intros Hnd. induction l as [|[k v] l IH]; intros Hl; [reflexivity|].
  simpl. rewrite (PyDict.elem_get k v items Hnd) by (apply Hl; left).
  f_equal. apply IH. intros x Hx. apply Hl. now right.
Qed.

Lemma filter_map_snd (s : Z) (l : list (string * Item.t)) :
  map snd (filter (fun p => Item.seller_id (snd p) = s) l) =
  filter (fun it => Item.seller_id it = s) (map snd l).
Proof.
  induction l as [|[k v] l IH]; [reflexivity|].
  simpl. rewrite !filter_cons. simpl.
  destruct (decide (Item.seller_id v = s)); simpl; now rewrite IH.
Qed.

Lemma list_items_for_seller_filter s d :
  store_ok d ->
  InMemoryDB.list_items_for_seller s d =
  filter (fun it => Item.seller_id it = s) (InMemoryDB.list_items d).
Proof.
  intros Hd. unfold InMemoryDB.list_items_for_seller, InMemoryDB.list_items.
  rewrite (i_index d Hd). unfold seller_keys, PyDict.values.
  rewrite omap_get_keys.
  - apply filter_map_snd.
  - apply (i_nodup d Hd).
  - intros x Hx. now apply list_elem_of_filter in Hx as [_ ?].
Qed.

End MarketListing.

(** X21. In every state the consolidated server reaches,
    [RegisterItemForSale] either fails on one of its own checks (no seller
    session, name, condition, keywords, quantity, price) and then changes
    nothing, not even the category's counter, or stores the item as the last
    entry of the store under the id (category, next number of the category),
    which named no item before, and advances that counter by one. It never
    fails with seller-not-found or item-id-already-exists. *)
Theorem register_item_for_sale_outcome :
  forall (hash : string -> string) (rs : list Market.request) (now : Q)
         (uuid token item_name : string) (item_category : Z)
         (keywords : list string) (condition : string) (sale_price : PyFloat.t)
         (quantity : Z),
    let st := Market.run hash rs Market.init in
    let d := Market.db st in
    match Market.handle_seller hash now uuid
            (Market.RegisterItemForSale token item_name item_category keywords
               condition sale_price quantity) st with
    | (Ok r, st') =>
        exists seller_id cond,
          Market._require_session seller token st = Some (token, seller_id) /\
          parse_condition condition = Some cond /\
          let id := ItemId.mk item_category
                      (MarketStore.counter item_category d) in
          r = Market.R_item_id id /\
          InMemoryDB.get_item id d = None /\
          InMemoryDB.items_by_key (Market.db st') =
            InMemoryDB.items_by_key d ++
            [(ItemId.key id,
              Item.mk id seller_id item_name item_category keywords cond
                sale_price quantity (Feedback.mk 0 0) now)] /\
          MarketStore.counter item_category (Market.db st') =
            MarketStore.counter item_category d + 1 /\
          (forall c, c <> item_category ->
             MarketStore.counter c (Market.db st') = MarketStore.counter c d) /\
          Market.sessions st' = Market.sessions st /\
          Market.carts st' = Market.carts st
    | (Err m, st') =>
        st' = st /\
        m ∈ [ "not logged in (seller)"; "item_name is required";
              "item_name must be <= 32 characters";
              "condition must be 'New' or 'Used'";
              "keywords must have at most 5 entries";
              "each keyword must be <= 8 characters";
              "quantity must be >= 0"; "sale_price must be >= 0" ]
    end.
Proof.
  intros hash rs now uuid token item_name item_category keywords condition
    sale_price quantity st d.
  assert (Hinv : MarketStore.inv InMemoryDB.init st)
    by apply MarketStoreSteps.run_inv, MarketStore.inv_init.
  unfold Market.handle_seller. msimpl.
  destruct (Market._require_session seller token st) as [[tok z]|] eqn:Hsess;
    [|split; [reflexivity|set_solver]].
  destruct (MarketListing.require_session_principal _ _ _ _ _ _ Hinv Hsess)
    as [-> [s Hs]].
  unfold InMemoryDB.get_seller. rewrite Hs.
  destruct (PyStr.is_empty item_name); [split; [reflexivity|set_solver]|].
  destruct (_ >? 32); [split; [reflexivity|set_solver]|].
  destruct (parse_condition condition) as [cond|];
    [|split; [reflexivity|set_solver]].
  destruct (_ >? 5); [split; [reflexivity|set_solver]|].
  destruct (existsb _ _); [split; [reflexivity|set_solver]|].
  destruct (quantity <? 0); [split; [reflexivity|set_solver]|].
  destruct (PyFloat.ltb sale_price PyFloat.zero); [split; [reflexivity|set_solver]|]. simpl.
  match goal with
  | |- context [InMemoryDB.add_item ?it _] =>
      destruct (MarketStore.register_ok item_category it (Market.db st)
                  (MarketStore.inv_store _ st Hinv) eq_refl eq_refl)
        as (d' & E & _ & _ & Hitems & _ & _ & Hc & Hc')
  end.
  simpl in E. rewrite E. simpl.
  exists z, cond. split; [reflexivity|]. split; [reflexivity|].
  split; [reflexivity|].
  split; [apply MarketStore.allocated_key_fresh, (MarketStore.inv_store _ st Hinv)|].
  split; [exact Hitems|]. split; [exact Hc|]. split; [exact Hc'|]. now split.
Qed.

(** X22. In every state the consolidated server reaches, the index
    [items_by_seller] agrees with the store: [list_items_for_seller] of any
    seller id is the list of all stored items, sold out or not, whose
    [seller_id] is that id, in the order of the store, and
    [DisplayItemsForSale] answers with this list for the seller of the
    session. *)
Theorem display_items_for_sale_lists_own :
  forall (hash : string -> string) (rs : list Market.request),
    let st := Market.run hash rs Market.init in
    (forall seller_id,
       InMemoryDB.list_items_for_seller seller_id (Market.db st) =
       filter (fun it => Item.seller_id it = seller_id)
         (InMemoryDB.list_items (Market.db st))) /\
    (forall token,
       MarketQueries.display_items_for_sale token st =
       match Market._require_session seller token st with
       | None => Err "not logged in (seller)"
       | Some (_, seller_id) =>
           Ok (filter (fun it => Item.seller_id it = seller_id)
                 (InMemoryDB.list_items (Market.db st)))
       end).
Proof.
  intros hash rs st.
  assert (Hinv : MarketStore.inv InMemoryDB.init st)
    by apply MarketStoreSteps.run_inv, MarketStore.inv_init.
  pose proof (MarketStore.inv_store _ st Hinv) as Hd.
  split; [intros s; now apply MarketListing.list_items_for_seller_filter|].
  intros token. unfold MarketQueries.display_items_for_sale.
  destruct (Market._require_session seller token st) as [[tok z]|];
    [|reflexivity].
  now rewrite MarketListing.list_items_for_seller_filter.
Qed.

(** ** What a purchase records *)

Module PurchaseAccounting.
Import Market MarketInvariant Checkout.

(** The transaction line of a cart entry, read in the store [d]. *)
Definition line_of (d : InMemoryDB.t) (p : string * Z)
  : option TransactionLine.t :=
  match ItemId.from_any (fst p) with
  | Ok id =>
      match InMemoryDB.get_item id d with
      | Some it =>
          Some (TransactionLine.mk id (Item.seller_id it) (snd p)
                  (Item.sale_price it))
      | None => None
      end
  | Err _ => None
  end.

(** [total += float(price) * int(qty)], the quantity converted. *)
Definition add_line (total : PyFloat.t) (l : TransactionLine.t) : PyFloat.t :=
  PyFloat.add total
    (PyFloat.mul (TransactionLine.price_each l)
       (PyFloat.nearest (TransactionLine.qty l))).

(** The lines the second loop applies: those before the first quantity that
    does not convert to a float. *)
Fixpoint applied (cart : list (string * Z)) : list (string * Z) :=
  match cart with
  | [] => []
  | line :: rest => if decide (converts line) then line :: applied rest else []
  end.

Lemma applied_all cart : Forall converts cart -> applied cart = cart.
Proof.
  induction 1 as [|l cart Hl _ IH]; simpl; [reflexivity|].
  destruct (decide (converts l)); [now rewrite IH | contradiction].
Qed.

(** The units of all lines, and those sold by one seller. *)
Definition units_of (lines : list TransactionLine.t) : Z :=
  foldr (fun l acc => TransactionLine.qty l + acc) 0 lines.

Definition sold_by (s : Z) (lines : list TransactionLine.t) : Z :=
  foldr (fun l acc =>
           if decide (TransactionLine.seller_id l = s)
           then TransactionLine.qty l + acc else acc) 0 lines.

Definition less (n : Z) (it : Item.t) : Item.t :=
  Item.with_quantity (Item.quantity it - n) it.

Definition more_sold (n : Z) (s : Seller.t) : Seller.t :=
  Seller.with_items_sold (Seller.items_sold s + n) s.

Lemma less_0 it : less 0 it = it.
Proof. unfold less, Item.with_quantity. rewrite Z.sub_0_r. now destruct it. Qed.

Lemma more_sold_0 s : more_sold 0 s = s.
Proof.
  unfold more_sold, Seller.with_items_sold. rewrite Z.add_0_r. now destruct s.
Qed.

Lemma line_of_other d d' k p :
  (forall k', k' <> k ->
     PyDict.get k' (InMemoryDB.items_by_key d') =
     PyDict.get k' (InMemoryDB.items_by_key d)) ->
  (exists i, fst p = ItemId.key i) -> fst p <> k ->
  line_of d' p = line_of d p.
Proof.
  intros Hget [i Hi] Hne. unfold line_of, InMemoryDB.get_item.
  rewrite Hi, ItemKey.from_any_key. rewrite Hget; [reflexivity | congruence].
Qed.

Lemma apply_lines_result cart :
  forall total ls units d,
    db_ok d -> cart_ok cart -> Forall (line_valid d) cart ->
    exists lines d',
      map (line_of d) (applied cart) = map Some lines /\
      apply_lines cart (total, ls, units) d =
        (if decide (Forall converts cart)
         then Ok (fold_left add_line lines total, ls ++ lines,
                  units + units_of lines)
         else Err overflow, d') /\
      db_ok d' /\
      same_but_items_and_sold d d' /\
      (forall k,
         PyDict.get k (InMemoryDB.items_by_key d') =
         less (PyDict.get_default k 0 (applied cart))
           <$> PyDict.get k (InMemoryDB.items_by_key d)) /\
      (forall s,
         InMemoryDB.sellers_by_id d' !! s =
         more_sold (sold_by s lines) <$> InMemoryDB.sellers_by_id d !! s).
Proof.
  assert (Hnone : forall d,
            (forall k, PyDict.get k (InMemoryDB.items_by_key d) =
                       less (PyDict.get_default k 0 [])
                         <$> PyDict.get k (InMemoryDB.items_by_key d)) /\
            (forall s, InMemoryDB.sellers_by_id d !! s =
                       more_sold (sold_by s []) <$> InMemoryDB.sellers_by_id d !! s)).
  { intros d. split.
    - intros k. unfold PyDict.get_default. simpl.
      destruct (PyDict.get k _) as [it|]; simpl; [|reflexivity].
      now rewrite less_0.
    - intros s. destruct (InMemoryDB.sellers_by_id d !! s) as [x|]; simpl;
        [|reflexivity].
      now rewrite more_sold_0. }
  induction cart as [|[k qty] cart IH]; intros total ls units d Hd Hc Hv.
  - exists [], d. simpl. split; [reflexivity|].
    rewrite app_nil_r, Z.add_0_r.
    destruct (decide (Forall converts [])) as [_|Hn];
      [|exfalso; apply Hn; constructor].
    split; [reflexivity|].
    split; [exact Hd|]. split; [repeat split|]. apply Hnone.
  - destruct Hc as [Hnd Hall]. simpl in Hnd. apply NoDup_cons in Hnd as [Hk Hnd].
    apply Forall_cons in Hv as [Hline Hv].
    destruct (Hall k qty) as [Hq [i ->]]; [left|].
    destruct Hline as (id & it & Hid & Hit & Hpos & Hle). simpl in *.
    rewrite ItemKey.from_any_key in Hid. injection Hid as <-.
    unfold InMemoryDB.get_item in Hit.
    destruct (decide (converts (ItemId.key i, qty))) as [Hconv|Hconv].
    2:{ exists [], d. split; [reflexivity|]. split.
        { msimpl. rewrite ItemKey.from_any_key. simpl.
          unfold InMemoryDB.get_item. rewrite Hit.
          unfold add_to_total. msimpl.
          destruct (PyFloat.of_int qty) as [q|e] eqn:E.
          - exfalso. apply Hconv. unfold converts. simpl. now rewrite E.
          - simpl. rewrite (of_int_Err _ _ E).
            destruct (decide (Forall converts ((ItemId.key i, qty) :: cart)))
              as [Hf|_]; [|reflexivity].
            apply Forall_cons in Hf as [Hf _]. contradiction. }
        split; [exact Hd|]. split; [repeat split|]. apply Hnone. }
    pose proof (of_int_converts qty Hconv) as Hnear.
    set (d1 := InMemoryDB.with_items
                 (PyDict.set (ItemId.key i)
                    (Item.with_quantity (Item.quantity it - qty) it)
                    (InMemoryDB.items_by_key d)) d).
    assert (Hd1 : db_ok d1).
    { eapply db_ok_set_item; eauto. simpl. lia. }
    destruct (items_sellers d Hd (ItemId.key i) it
                (PyDict.get_Some_elem _ _ _ Hit)) as [sl Hsl].
    set (d2 := InMemoryDB.with_sellers
                 (<[Item.seller_id it :=
                      Seller.with_items_sold (Seller.items_sold sl + qty) sl]>
                    (InMemoryDB.sellers_by_id d1)) d1).
    assert (Hd2 : db_ok d2).
    { apply (db_ok_same d1); simpl; try reflexivity; [|exact Hd1].
      intros x Hx. rewrite lookup_insert_is_Some.
      destruct (decide (Item.seller_id it = x)); auto. }
    assert (Hother : forall k', k' <> ItemId.key i ->
              PyDict.get k' (InMemoryDB.items_by_key d2) =
              PyDict.get k' (InMemoryDB.items_by_key d)).
    { intros k' Hk'. simpl. now apply PyDict.get_set_ne. }
    assert (Hc' : cart_ok cart).
    { split; [exact Hnd|]. intros k' v' H. apply Hall. now right. }
    assert (Hrest : forall p, p ∈ cart ->
              (exists j, fst p = ItemId.key j) /\ fst p <> ItemId.key i).
    { intros [k' q'] Hin. split.
      - destruct (Hall k' q') as [_ He]; [now right | exact He].
      - simpl. intros ->. apply Hk. eapply PyDictFacts.elem_keys; eauto. }
    assert (Hv' : Forall (line_valid d2) cart).
    { apply Forall_forall. intros p Hin.
      rewrite Forall_forall in Hv. specialize (Hv _ Hin).
      destruct (Hrest p Hin) as [He Hne].
      now apply (line_valid_other d d2 (ItemId.key i)). }
    assert (Hsub : forall p, p ∈ applied cart -> p ∈ cart).
    { clear. induction cart as [|l cart IH]; simpl; intros p Hp;
        [now apply elem_of_nil in Hp|].
      destruct (decide (converts l)); [|now apply elem_of_nil in Hp].
      apply elem_of_cons in Hp as [->|Hp]; [left | right; auto]. }
    destruct (IH (PyFloat.add total
                    (PyFloat.mul (Item.sale_price it) (PyFloat.nearest qty)))
                (ls ++ [TransactionLine.mk i (Item.seller_id it) qty
                          (Item.sale_price it)])
                (units + qty) d2 Hd2 Hc' Hv')
      as (lines & d' & Hlines & Heq & Hd' & Hsame & Hitems & Hsold).
    exists (TransactionLine.mk i (Item.seller_id it) qty (Item.sale_price it)
              :: lines), d'.
    split.
    { unfold line_of at 1. simpl. rewrite ItemKey.from_any_key.
      unfold InMemoryDB.get_item. rewrite Hit. f_equal.
      rewrite <- Hlines. apply map_ext_in. intros p Hin.
      apply list_elem_of_In, Hsub in Hin. destruct (Hrest p Hin) as [He Hne].
      symmetry. now apply (line_of_other d d2 (ItemId.key i)). }
    split.
    { msimpl. rewrite ItemKey.from_any_key. simpl.
      unfold InMemoryDB.get_item. rewrite Hit.
      unfold add_to_total. rewrite Hnear. msimpl.
      unfold InMemoryDB.update_item_quantity. rewrite Hit. simpl.
      unfold InMemoryDB.inc_seller_items_sold. fold d1.
      change (InMemoryDB.sellers_by_id d1) with (InMemoryDB.sellers_by_id d).
      rewrite Hsl. simpl. fold d2. rewrite Heq.
      destruct (decide (Forall converts cart)) as [Hf|Hf];
        destruct (decide (Forall converts ((ItemId.key i, qty) :: cart)))
          as [Hf'|Hf'].
      - rewrite <- app_assoc. simpl.
        replace (units + qty + units_of lines)
          with (units + (qty + units_of lines)) by lia.
        reflexivity.
      - exfalso. apply Hf'. now constructor.
      - exfalso. apply Forall_cons in Hf' as [_ Hf']. contradiction.
      - reflexivity. }
    split; [exact Hd'|].
    split.
    { destruct Hsame as (Hs1 & Hs2 & Hs3 & Hs4 & Hs5).
      unfold same_but_items_and_sold. rewrite Hs1, Hs2, Hs3, Hs4, Hs5. simpl.
      repeat split. apply PyDict.keys_set_present.
      eapply PyDictFacts.elem_keys, PyDict.get_Some_elem; eauto. }
    split.
    + intros k'. rewrite Hitems. unfold PyDict.get_default. simpl.
      destruct (decide (k' = ItemId.key i)) as [->|Hne].
      * rewrite PyDict.get_set_eq, Hit. simpl.
        assert (Hnone' : PyDict.get (ItemId.key i) (applied cart) = None).
        { destruct (PyDict.get (ItemId.key i) (applied cart)) as [v|] eqn:E;
            [|reflexivity].
          exfalso. apply PyDict.get_Some_elem, Hsub in E.
          apply Hk. eapply PyDictFacts.elem_keys; eauto. }
        rewrite Hnone'. now rewrite less_0.
      * rewrite PyDict.get_set_ne by congruence. reflexivity.
    + intros s. rewrite Hsold. simpl.
      destruct (decide (Item.seller_id it = s)) as [<-|Hne].
      * rewrite lookup_insert_eq, Hsl. simpl. f_equal.
        unfold more_sold, Seller.with_items_sold. simpl. f_equal. lia.
      * now rewrite lookup_insert_ne.
Qed.

End PurchaseAccounting.

(** The total is a sum of floats: three units at 0.1 make
    0.30000000000000004, which is not the double nearest to 0.3. *)
Lemma total_is_rounded :
  let tenth := SpecFloat.S754_finite false 7205759403792794 (-56) in
  let line := TransactionLine.mk (ItemId.mk 1 1) 1 3 tenth in
  PurchaseAccounting.add_line PyFloat.zero line =
    SpecFloat.S754_finite false 5404319552844596 (-54) /\
  PyFloat.ltb (SpecFloat.S754_finite false 5404319552844595 (-54))
    (PurchaseAccounting.add_line PyFloat.zero line) = true.
Proof. split; reflexivity. Qed.

(** X23. What a purchase records. In every state the consolidated server
    reaches, a [MakePurchase] that succeeds was asked by a buyer session
    with a cart that is not empty and whose quantities all convert to a
    float; its transaction has one line per cart entry, in the cart's order,
    with the item's id and seller, the quantity of the entry and the item's
    price at that moment; its total is the sum the code computes, from 0.0
    and in the cart's order, of price times quantity in floats, each product
    and each sum rounded to the nearest double. Afterwards the buyer's cart
    is empty, every item bought has exactly that many units less and no
    other item changed, every seller's [items_sold] has grown by the units
    of the lines sold by that seller, the buyer's [items_purchased] by all
    units, and the transaction is stored and appended to the buyer's list.
    A [MakePurchase] that fails changes nothing in the store, unless it
    fails with the OverflowError of a quantity too large for a float: then
    the cart is emptied, the entries before that quantity are taken off the
    inventory and counted as sold, and nothing else changes (no transaction,
    no buyer's counter). *)
Theorem make_purchase_accounting :
  forall (hash : string -> string) (rs : list Market.request) (now : Q)
         (uuid token : string),
    let st := Market.run hash rs Market.init in
    let d := Market.db st in
    match Market.handle_buyer hash now uuid (Market.MakePurchase token) st with
    | (Ok r, st') =>
        exists b bu lines,
          Market._require_session buyer token st = Some (token, b) /\
          InMemoryDB.buyers_by_id d !! b = Some bu /\
          Market.cart_of b st <> [] /\
          Forall Checkout.converts (Market.cart_of b st) /\
          map (PurchaseAccounting.line_of d) (Market.cart_of b st) =
            map Some lines /\
          let txn :=
            Transaction.mk ("txn_" +:+ uuid) b lines
              (fold_left PurchaseAccounting.add_line lines PyFloat.zero) now in
          r = Market.R_transaction txn /\
          Market.carts st' = <[b := []]> (Market.carts st) /\
          Market.sessions st' = Market.sessions st /\
          PyDict.keys (InMemoryDB.items_by_key (Market.db st')) =
            PyDict.keys (InMemoryDB.items_by_key d) /\
          (forall k,
             PyDict.get k (InMemoryDB.items_by_key (Market.db st')) =
             PurchaseAccounting.less
               (PyDict.get_default k 0 (Market.cart_of b st))
               <$> PyDict.get k (InMemoryDB.items_by_key d)) /\
          (forall s,
             InMemoryDB.sellers_by_id (Market.db st') !! s =
             PurchaseAccounting.more_sold (PurchaseAccounting.sold_by s lines)
               <$> InMemoryDB.sellers_by_id d !! s) /\
          InMemoryDB.buyers_by_id (Market.db st') =
            <[b := Buyer.with_items_purchased
                     (Buyer.items_purchased bu + PurchaseAccounting.units_of lines)
                     bu]> (InMemoryDB.buyers_by_id d) /\
          InMemoryDB.transactions_by_id (Market.db st') =
            <["txn_" +:+ uuid := txn]> (InMemoryDB.transactions_by_id d) /\
          InMemoryDB.transactions_by_buyer (Market.db st') =
            <[b := default [] (InMemoryDB.transactions_by_buyer d !! b) ++
                   ["txn_" +:+ uuid]]> (InMemoryDB.transactions_by_buyer d) /\
          InMemoryDB.saved_carts_by_buyer (Market.db st') =
            InMemoryDB.saved_carts_by_buyer d
    | (Err m, st') =>
        Market.sessions st' = Market.sessions st /\
        (m <> Checkout.overflow -> Market.db st' = d) /\
        (m = Checkout.overflow ->
         exists b lines,
           Market._require_session buyer token st = Some (token, b) /\
           ~ Forall Checkout.converts (Market.cart_of b st) /\
           map (PurchaseAccounting.line_of d)
             (PurchaseAccounting.applied (Market.cart_of b st)) =
             map Some lines /\
           Market.carts st' = <[b := []]> (Market.carts st) /\
           PyDict.keys (InMemoryDB.items_by_key (Market.db st')) =
             PyDict.keys (InMemoryDB.items_by_key d) /\
           (forall k,
              PyDict.get k (InMemoryDB.items_by_key (Market.db st')) =
              PurchaseAccounting.less
                (PyDict.get_default k 0
                   (PurchaseAccounting.applied (Market.cart_of b st)))
                <$> PyDict.get k (InMemoryDB.items_by_key d)) /\
           (forall s,
              InMemoryDB.sellers_by_id (Market.db st') !! s =
              PurchaseAccounting.more_sold (PurchaseAccounting.sold_by s lines)
                <$> InMemoryDB.sellers_by_id d !! s) /\
           InMemoryDB.buyers_by_id (Market.db st') = InMemoryDB.buyers_by_id d /\
           InMemoryDB.transactions_by_id (Market.db st') =
             InMemoryDB.transactions_by_id d /\
           InMemoryDB.transactions_by_buyer (Market.db st') =
             InMemoryDB.transactions_by_buyer d /\
           InMemoryDB.saved_carts_by_buyer (Market.db st') =
             InMemoryDB.saved_carts_by_buyer d)
    end.
Proof.
  intros hash rs now uuid token st d.
  assert (Hwf : MarketInvariant.wf st)
    by apply MarketSteps.run_wf, MarketInvariant.wf_init.
  assert (Hunfold :
    Market.handle_buyer hash now uuid (Market.MakePurchase token) st =
    match Market._require_session buyer token st with
    | None => (Err "not logged in (buyer)", st)
    | Some (_, b) =>
        match Market._do_purchase now ("txn_" +:+ uuid) b st with
        | (Ok txn, st') => (Ok (Market.R_transaction txn), st')
        | (Err e, st') => (Err e, st')
        end
    end).
  { unfold Market.handle_buyer, mbind, M_bind, get_state. simpl.
    destruct (Market._require_session buyer token st) as [[tok b]|];
      reflexivity. }
  rewrite Hunfold. clear Hunfold.
  assert (Hplain : forall m : string,
            m <> Checkout.overflow ->
            Market.sessions st = Market.sessions st /\
            (m <> Checkout.overflow -> Market.db st = d) /\
            (m = Checkout.overflow -> False)).
  { intros m Hm. split; [reflexivity|]. split; [reflexivity | exact Hm]. }
  destruct (Market._require_session buyer token st) as [[tok b]|] eqn:Hsess.
  2:{ destruct (Hplain "not logged in (buyer)") as (H1 & H2 & H3);
        [discriminate|].
      split; [exact H1|]. split; [exact H2|]. intros H. destruct (H3 H). }
  assert (tok = token) as ->.
  { unfold Market._require_session in Hsess.
    destruct (Market.get_session token st) as [sess|]; [|discriminate].
    destruct (decide _); [|discriminate]. now injection Hsess as <- _. }
  rewrite Checkout.do_purchase_steps. unfold Checkout.purchase_steps.
  unfold InMemoryDB.get_buyer.
  destruct (InMemoryDB.buyers_by_id (Market.db st) !! b) as [bu|] eqn:Hb.
  2:{ split; [reflexivity|]. split; [reflexivity|]. discriminate. }
  pose proof (MarketInvariant.cart_of_ok b st Hwf) as Hc.
  destruct (bool_decide_reflect (Market.cart_of b st = [])) as [Hnil|Hne].
  { split; [reflexivity|]. split; [reflexivity|]. discriminate. }
  destruct (Market.validate_lines (Market.cart_of b st) (Market.db st))
    as [[]|e] eqn:Hval.
  2:{ split; [reflexivity|]. split; [reflexivity|]. intros ->.
      now apply Checkout.validate_lines_message in Hval. }
  apply Checkout.validate_lines_iff in Hval.
  destruct (PurchaseAccounting.apply_lines_result (Market.cart_of b st)
              PyFloat.zero [] 0 (Market.db st) (MarketInvariant.wf_db st Hwf)
              Hc Hval)
    as (lines & d' & Hlines & Heq & _ & (Hs1 & Hs2 & Hs3 & Hs4 & Hs5)
        & Hitems & Hsold).
  rewrite Heq.
  destruct (decide (Forall Checkout.converts (Market.cart_of b st)))
    as [Hconv|Hconv].
  - unfold InMemoryDB.inc_buyer_items_purchased.
    rewrite Hs2. fold d. unfold d at 1. rewrite Hb. simpl.
    rewrite (PurchaseAccounting.applied_all _ Hconv) in Hlines, Hitems.
    exists b, bu, lines.
    split; [reflexivity|]. split; [exact Hb|]. split; [exact Hne|].
    split; [exact Hconv|]. split; [exact Hlines|]. simpl.
    split; [reflexivity|]. split; [reflexivity|]. split; [reflexivity|].
    split; [exact Hs5|]. split; [exact Hitems|]. split; [exact Hsold|].
    split; [reflexivity|]. split; [now rewrite Hs3|]. split; [now rewrite Hs4|].
    exact Hs1.
  - simpl. split; [reflexivity|]. split; [intros H; now destruct H|].
    intros _. exists b, lines.
    split; [reflexivity|]. split; [exact Hconv|]. split; [exact Hlines|].
    split; [reflexivity|]. split; [exact Hs5|]. split; [exact Hitems|].
    split; [exact Hsold|]. repeat split; assumption.
Qed.

(** ** Who may ask what of the consolidated server *)

Module MarketAuth.
Import Market.

(** The session token an action is checked with, if it is. *)
Definition buyer_token (a : buyer_action) : option string :=
  match a with
  | CreateAccount _ _ | Login _ _ _ | Logout _ => None
  | SearchItemsForSale t _ _ | AddItemToCart t _ _ | RemoveItemFromCart t _ _
  | SaveCart t | ClearCart t | DisplayCart t | MakePurchase t
  | ProvideFeedback t _ _ _ => Some t
  end.

Definition seller_token (a : seller_action) : option string :=
  match a with
  | SCreateAccount _ _ | SLogin _ _ _ | SLogout _ => None
  | RegisterItemForSale t _ _ _ _ _ _ | ChangeItemPrice t _ _
  | UpdateUnitsForSale t _ _ => Some t
  end.

Lemma require_session_None r token st :
  _require_session r token st = None <->
  token = "" \/ sessions st !! token = None \/
  exists sess, sessions st !! token = Some sess /\ Session.role sess <> r.
Proof.
  unfold _require_session, get_session. destruct token as [|c token]; simpl.
  - split; [now left | reflexivity].
  - destruct (sessions st !! String c token) as [sess|] eqn:E.
    + destruct (decide (Session.role sess = r)) as [Hr|Hr].
      * split; [discriminate|].
        intros [?|[?|(s' & [= <-] & ?)]]; [discriminate..|contradiction].
      * split; [|reflexivity]. intros _. right. right. eauto.
    + split; [|reflexivity]. intros _. right. now left.
Qed.

End MarketAuth.

(** X24. The consolidated server does nothing for a request without a
    session of the right role. [_require_session] finds none exactly when the
    token is empty, names no session, or names a session of the other role;
    then every buyer action other than account creation, login and logout
    answers not-logged-in-(buyer), every seller action other than those
    answers not-logged-in-(seller), and the state is left exactly as it
    was. *)
Theorem requests_without_session_refused :
  forall (hash : string -> string) (now : Q) (uuid token : string)
         (st : Market.MarketState),
    (forall r,
       Market._require_session r token st = None <->
       token = "" \/ Market.sessions st !! token = None \/
       exists sess, Market.sessions st !! token = Some sess /\
                    Market.Session.role sess <> r) /\
    (Market._require_session buyer token st = None ->
     (forall a, MarketAuth.buyer_token a = Some token ->
        Market.handle_buyer hash now uuid a st =
          (Err "not logged in (buyer)", st)) /\
     (forall i, MarketQueries.get_item token i st = Err "not logged in (buyer)") /\
     (forall s, MarketQueries.get_seller_rating token s st =
                  Err "not logged in (buyer)") /\
     MarketQueries.get_buyer_purchases token st = Err "not logged in (buyer)") /\
    (Market._require_session seller token st = None ->
     (forall a, MarketAuth.seller_token a = Some token ->
        Market.handle_seller hash now uuid a st =
          (Err "not logged in (seller)", st)) /\
     MarketQueries.seller_rating token st = Err "not logged in (seller)" /\
     MarketQueries.display_items_for_sale token st =
       Err "not logged in (seller)").
Proof.
  intros hash now uuid token st.
  split; [intros r; apply MarketAuth.require_session_None|].
  split.
  - intros Hnone. split.
    + intros a Ha. destruct a; simpl in Ha; try discriminate;
        injection Ha as ->; unfold Market.handle_buyer; msimpl;
        now rewrite Hnone.
    + unfold MarketQueries.get_item, MarketQueries.get_seller_rating,
        MarketQueries.get_buyer_purchases. rewrite Hnone. now repeat split.
  - intros Hnone. split.
    + intros a Ha. destruct a; simpl in Ha; try discriminate;
        injection Ha as ->; unfold Market.handle_seller; msimpl;
        now rewrite Hnone.
    + unfold MarketQueries.seller_rating, MarketQueries.display_items_for_sale.
      rewrite Hnone. now split.
Qed.

(** X25. Only the seller who registered an item can change it through the
    consolidated server. For a seller session and a stored item:
    [ChangeItemPrice] and [UpdateUnitsForSale] asked by another seller answer
    cannot-modify-item and change nothing; asked by the owner they fail on a
    negative price, a negative quantity or more units than are on sale,
    again changing nothing, and otherwise replace the price, respectively
    subtract the units, of that item only: every other item, the order of
    the store, the sessions and the carts are as before. *)
Theorem item_changes_need_owner :
  forall (hash : string -> string) (now : Q) (uuid token : string)
         (st : Market.MarketState) (seller_id : Z) (item_id : ItemId.t)
         (it : Item.t),
    Market._require_session seller token st = Some (token, seller_id) ->
    InMemoryDB.get_item item_id (Market.db st) = Some it ->
    let items := InMemoryDB.items_by_key (Market.db st) in
    let put it' :=
      Market.with_db
        (InMemoryDB.with_items (PyDict.set (ItemId.key item_id) it' items)
           (Market.db st)) st in
    (forall it',
       PyDict.keys (PyDict.set (ItemId.key item_id) it' items) = PyDict.keys items /\
       PyDict.get (ItemId.key item_id) (PyDict.set (ItemId.key item_id) it' items)
         = Some it' /\
       forall k, k <> ItemId.key item_id ->
         PyDict.get k (PyDict.set (ItemId.key item_id) it' items) =
         PyDict.get k items) /\
    (forall new_price,
       Market.handle_seller hash now uuid
         (Market.ChangeItemPrice token item_id new_price) st =
       if negb (Item.seller_id it =? seller_id)
       then (Err "cannot modify item: not owned by seller", st)
       else if PyFloat.ltb new_price PyFloat.zero
       then (Err "sale_price must be >= 0", st)
       else (Ok (Market.R_price item_id new_price),
             put (Item.with_sale_price new_price it))) /\
    (forall remove_qty,
       Market.handle_seller hash now uuid
         (Market.UpdateUnitsForSale token item_id remove_qty) st =
       if negb (Item.seller_id it =? seller_id)
       then (Err "cannot modify item: not owned by seller", st)
       else if remove_qty <? 0 then (Err "remove_qty must be >= 0", st)
       else if Item.quantity it <? remove_qty
       then (Err "insufficient units to remove", st)
       else (Ok (Market.R_quantity item_id (Item.quantity it - remove_qty)),
             put (Item.with_quantity (Item.quantity it - remove_qty) it))).
Proof.
  intros hash now uuid token st seller_id item_id it Hsess Hit items put.
  unfold InMemoryDB.get_item in Hit. fold items in Hit.
  split; [|split].
  - intros it'. split; [|split].
    + apply PyDict.keys_set_present.
      eapply PyDictFacts.elem_keys, PyDict.get_Some_elem; eauto.
    + apply PyDict.get_set_eq.
    + intros k Hk. apply PyDict.get_set_ne. congruence.
  - intros new_price. unfold Market.handle_seller. msimpl. rewrite Hsess.
    unfold InMemoryDB.get_item. fold items. rewrite Hit.
    destruct (negb _); [reflexivity|].
    destruct (PyFloat.ltb new_price PyFloat.zero); [reflexivity|]. simpl.
    unfold InMemoryDB.update_item_price. fold items. now rewrite Hit.
  - intros remove_qty. unfold Market.handle_seller. msimpl. rewrite Hsess.
    unfold InMemoryDB.get_item. fold items. rewrite Hit.
    destruct (negb _); [reflexivity|]. simpl.
    unfold InMemoryDB.remove_units_for_sale. fold items.
    destruct (remove_qty <? 0); [reflexivity|]. rewrite Hit.
    now destruct (Item.quantity it <? remove_qty).
Qed.

Lemma item_changes_need_owner_witness :
  Market.handle_seller (fun pw => pw) 9 "u"
    (Market.ChangeItemPrice "s1" (ItemId.mk 1 1) (PyFloat.nearest (-1)))
    CartScenario.market_state =
  if negb (1 =? 1)
  then (Err "cannot modify item: not owned by seller", CartScenario.market_state)
  else if PyFloat.ltb (PyFloat.nearest (-1)) PyFloat.zero
       then (Err "sale_price must be >= 0", CartScenario.market_state)
       else (Ok (Market.R_price (ItemId.mk 1 1) (PyFloat.nearest (-1))),
             Market.with_db
               (InMemoryDB.with_items
                  (PyDict.set (ItemId.key (ItemId.mk 1 1))
                     (Item.with_sale_price (PyFloat.nearest (-1))
                        (Item.mk (ItemId.mk 1 1) 1 "Lamp" 1 [] cond_new
                           (PyFloat.nearest 20) 5 (Feedback.mk 0 0) 3))
                     (InMemoryDB.items_by_key
                        (Market.db CartScenario.market_state)))
                  (Market.db CartScenario.market_state))
               CartScenario.market_state).
Proof.
  refine (proj1 (proj2
    (item_changes_need_owner (fun pw => pw) 9%Q "u" "s1"
       CartScenario.market_state 1 (ItemId.mk 1 1)
       (Item.mk (ItemId.mk 1 1) 1 "Lamp" 1 [] cond_new
          (PyFloat.nearest 20) 5 (Feedback.mk 0 0) 3)
       _ _)) (PyFloat.nearest (-1))).
  - vm_compute. reflexivity.
  - vm_compute. reflexivity.
Defined.

(** X26. A cart of the consolidated server never takes more than is on
    sale, and removing undoes adding. In every state the server reaches, for
    a buyer session, a stored item and a positive quantity, [AddItemToCart]
    succeeds exactly when the units already in the buyer's cart plus the
    quantity do not exceed the units on sale; it then stores the cart with
    that sum under the item's key, and a [RemoveItemFromCart] of the same
    item and quantity that follows gives back the cart from before the
    addition, entry for entry, the store being untouched throughout. *)
Theorem market_cart_add_then_remove :
  forall (hash : string -> string) (rs : list Market.request)
         (now now' : Q) (uuid uuid' token : string) (b : Z)
         (item_id : ItemId.t) (qty : Z) (it : Item.t),
    let st := Market.run hash rs Market.init in
    Market._require_session buyer token st = Some (token, b) ->
    InMemoryDB.get_item item_id (Market.db st) = Some it ->
    0 < qty ->
    let cart := Market.cart_of b st in
    let k := ItemId.key item_id in
    let added :=
      Market.handle_buyer hash now uuid
        (Market.AddItemToCart token item_id qty) st in
    let removed :=
      Market.handle_buyer hash now' uuid'
        (Market.RemoveItemFromCart token item_id qty) (snd added) in
    (is_ok (fst added) = true <->
     PyDict.get_default k 0 cart + qty <= Item.quantity it) /\
    (PyDict.get_default k 0 cart + qty <= Item.quantity it ->
     fst added =
       Ok (Market.R_cart (PyDict.set k (PyDict.get_default k 0 cart + qty) cart)) /\
     Market.cart_of b (snd added) =
       PyDict.set k (PyDict.get_default k 0 cart + qty) cart /\
     fst removed = Ok (Market.R_cart cart) /\
     Market.cart_of b (snd removed) = cart /\
     Market.db (snd removed) = Market.db st /\
     Market.sessions (snd removed) = Market.sessions st).
Proof.
  intros hash rs now now' uuid uuid' token b item_id qty it st Hsess Hit Hq
    cart k added removed.
  assert (Hwf : MarketInvariant.wf st)
    by apply MarketSteps.run_wf, MarketInvariant.wf_init.
  destruct (MarketInvariant.cart_of_ok b st Hwf) as [Hnd Hpos].
  fold cart in Hnd, Hpos.
  assert (Hcart : CustomerCarts.cart_ok cart).
  { split; [exact Hnd|]. intros k' v Hkv. now apply Hpos in Hkv. }
  pose proof (CustomerCarts.get_default_nonneg k cart Hcart) as Hnn.
  destruct (CartArithmetic.add_remove k qty cart Hcart Hq) as [Hcur Hback].
  simpl in Hcur, Hback.
  assert (Hadd : added =
    if Item.quantity it <=? 0 then (Err "item is not available", st)
    else if PyDict.get_default k 0 cart + qty >? Item.quantity it
    then (Err "insufficient inventory", Market.set_cart b cart st)
    else (Ok (Market.R_cart
                (PyDict.set k (PyDict.get_default k 0 cart + qty) cart)),
          Market.set_cart b
            (PyDict.set k (PyDict.get_default k 0 cart + qty) cart)
            (Market.set_cart b cart st))).
  { unfold added, Market.handle_buyer. msimpl. rewrite Hsess.
    destruct (Z.leb_spec qty 0); [lia|]. rewrite Hit.
    destruct (Item.quantity it <=? 0); [reflexivity|].
    fold cart k.
    now destruct (PyDict.get_default k 0 cart + qty >? Item.quantity it). }
  split.
  - rewrite Hadd. destruct (Z.leb_spec (Item.quantity it) 0);
      [simpl; split; [discriminate | lia]|].
    destruct (Z.gtb_spec (PyDict.get_default k 0 cart + qty) (Item.quantity it));
      simpl; split; (lia || discriminate || reflexivity).
  - intros Hle.
    assert (Hadd' : added =
      (Ok (Market.R_cart
             (PyDict.set k (PyDict.get_default k 0 cart + qty) cart)),
       Market.set_cart b
         (PyDict.set k (PyDict.get_default k 0 cart + qty) cart)
         (Market.set_cart b cart st))).
    { rewrite Hadd. destruct (Z.leb_spec (Item.quantity it) 0); [lia|].
      destruct (Z.gtb_spec (PyDict.get_default k 0 cart + qty)
                  (Item.quantity it)); [lia | reflexivity]. }
    rewrite Hadd'. simpl fst. simpl snd.
    split; [reflexivity|].
    assert (Hcart1 : Market.cart_of b (snd added) =
                     PyDict.set k (PyDict.get_default k 0 cart + qty) cart).
    { rewrite Hadd'. unfold Market.cart_of. simpl. now rewrite lookup_insert_eq. }
    split; [now rewrite Hadd' in Hcart1|].
    assert (Hsess1 : Market._require_session buyer token (snd added) =
                     Some (token, b)) by (rewrite Hadd'; exact Hsess).
    assert (Hrem : removed =
      (Ok (Market.R_cart cart),
       Market.set_cart b cart
         (Market.set_cart b
            (PyDict.set k (PyDict.get_default k 0 cart + qty) cart)
            (snd added)))).
    { unfold removed, Market.handle_buyer. msimpl. rewrite Hsess1.
      destruct (Z.leb_spec qty 0); [lia|]. rewrite Hcart1. fold k.
      rewrite PyDict.get_set_eq.
      destruct (Z.gtb_spec qty (PyDict.get_default k 0 cart + qty)); [lia|].
      replace (PyDict.get_default k 0 cart + qty - qty)
        with (PyDict.get_default k 0 cart) by lia.
      simpl. now rewrite Hback. }
    rewrite Hrem. split; [reflexivity|]. simpl.
    split; [unfold Market.cart_of; simpl; now rewrite lookup_insert_eq|].
    rewrite Hadd'. now split.
Qed.

Lemma market_cart_add_then_remove_witness :
  is_ok (fst (Market.handle_buyer (fun pw => pw) 8 "u"
                (Market.AddItemToCart "t1" (ItemId.mk 1 1) 3)
                (Market.run (fun pw => pw)
                   [ Market.SellerReq 1 "s1" (Market.SCreateAccount "sam" "pw");
                     Market.SellerReq 2 "s1" (Market.SLogin (Some 1) "" "pw");
                     Market.SellerReq 3 ""
                       (Market.RegisterItemForSale "s1" "Lamp" 1 [] "new"
                          (PyFloat.nearest 20) 5);
                     Market.BuyerReq 4 "" (Market.CreateAccount "ann" "pw");
                     Market.BuyerReq 5 "t1" (Market.Login (Some 1) "" "pw");
                     Market.BuyerReq 6 ""
                       (Market.AddItemToCart "t1" (ItemId.mk 1 1) 2) ]
                   Market.init))) = true.
Proof.
  refine (proj2 (proj1
    (market_cart_add_then_remove (fun pw => pw)
       [ Market.SellerReq 1 "s1" (Market.SCreateAccount "sam" "pw");
         Market.SellerReq 2 "s1" (Market.SLogin (Some 1) "" "pw");
         Market.SellerReq 3 ""
           (Market.RegisterItemForSale "s1" "Lamp" 1 [] "new"
              (PyFloat.nearest 20) 5);
         Market.BuyerReq 4 "" (Market.CreateAccount "ann" "pw");
         Market.BuyerReq 5 "t1" (Market.Login (Some 1) "" "pw");
         Market.BuyerReq 6 "" (Market.AddItemToCart "t1" (ItemId.mk 1 1) 2) ]
       8%Q 9%Q "u" "v" "t1" 1 (ItemId.mk 1 1) 3
       (Item.mk (ItemId.mk 1 1) 1 "Lamp" 1 [] cond_new
          (PyFloat.nearest 20) 5 (Feedback.mk 0 0) 3)
       _ _ _)) _).
  - vm_compute. reflexivity.
  - vm_compute. reflexivity.
  - lia.
  - vm_compute. discriminate.
Defined.

(** ** Sessions of the consolidated server *)

(** X27. Sessions of the consolidated server never expire: through any
    requests among which no login draws the token and no logout (of either
    role) names it, the session table holds under the token exactly what it
    held before, so a session stays valid however much time passes and
    whatever other clients do, and a token without a session gets none. *)
Theorem market_sessions_never_expire :
  forall (hash : string -> string) (rs : list Market.request)
         (st : Market.MarketState) (token : string),
    Forall (fun r => MarketSessions.writes_session token r = false) rs ->
    Market.sessions (Market.run hash rs st) !! token =
    Market.sessions st !! token.
Proof.
  intros hash rs st token Hall. now apply MarketSessions.run_kept.
Qed.

Lemma market_sessions_never_expire_witness :
  Market.sessions
    (Market.run (fun pw => pw)
       [ Market.BuyerReq 1000000 "" (Market.ClearCart "t1");
         Market.SellerReq 2000000 "" (Market.SLogout "s1");
         Market.BuyerReq 3000000 "t2" (Market.Login (Some 1) "" "pw");
         Market.BuyerReq 4000000 "x" (Market.MakePurchase "t2") ]
       CartScenario.market_state) !! "t1" =
  Market.sessions CartScenario.market_state !! "t1".
Proof.
  refine (market_sessions_never_expire (fun pw => pw)
            [ Market.BuyerReq 1000000 "" (Market.ClearCart "t1");
              Market.SellerReq 2000000 "" (Market.SLogout "s1");
              Market.BuyerReq 3000000 "t2" (Market.Login (Some 1) "" "pw");
              Market.BuyerReq 4000000 "x" (Market.MakePurchase "t2") ]
            CartScenario.market_state "t1" _).
  repeat constructor.
Defined.

(** X28. Accounts of the consolidated server last. In every state the
    server reaches, [CreateAccount] of a buyer, when it succeeds, returns the
    next buyer id, and after any further requests (purchases included, which
    rewrite the account record) a login with that id and the same password
    succeeds, answers the id and the name given at creation and stores a
    buyer session for the id under the new token, while a login with a
    password of another hash is refused with invalid-credentials. The same
    holds for sellers. *)
Theorem market_account_login_persists :
  forall (hash : string -> string) (rs0 rs : list Market.request)
         (now now' : Q) (uuid uuid' name password ignored : string),
    let st0 := Market.run hash rs0 Market.init in
    (forall id nm st1,
       Market.handle_buyer hash now uuid (Market.CreateAccount name password) st0
         = (Ok (Market.R_account id nm), st1) ->
       let st2 := Market.run hash rs st1 in
       id = InMemoryDB.next_buyer_id (Market.db st0) /\ nm = name /\
       (let out := Market.handle_buyer hash now' uuid'
                     (Market.Login (Some id) ignored password) st2 in
        fst out = Ok (Market.R_login id name uuid') /\
        Market.sessions (snd out) !! uuid' =
          Some (Market.Session.mk id buyer now')) /\
       (forall other, hash other <> hash password ->
          fst (Market.handle_buyer hash now' uuid'
                 (Market.Login (Some id) ignored other) st2) =
            Err "invalid credentials")) /\
    (forall id nm st1,
       Market.handle_seller hash now uuid (Market.SCreateAccount name password) st0
         = (Ok (Market.R_account id nm), st1) ->
       let st2 := Market.run hash rs st1 in
       id = InMemoryDB.next_seller_id (Market.db st0) /\ nm = name /\
       (let out := Market.handle_seller hash now' uuid'
                     (Market.SLogin (Some id) ignored password) st2 in
        fst out = Ok (Market.R_login id name uuid') /\
        Market.sessions (snd out) !! uuid' =
          Some (Market.Session.mk id seller now')) /\
       (forall other, hash other <> hash password ->
          fst (Market.handle_seller hash now' uuid'
                 (Market.SLogin (Some id) ignored other) st2) =
            Err "invalid credentials")).
Proof.
  intros hash rs0 rs now now' uuid uuid' name password ignored st0.
  assert (Hinv0 : MarketStore.inv InMemoryDB.init st0)
    by apply MarketStoreSteps.run_inv, MarketStore.inv_init.
  split.
  - intros id nm st1 Hcreate st2.
    pose proof (MarketStoreSteps.handle_buyer_inv InMemoryDB.init hash now uuid
                  (Market.CreateAccount name password) st0 Hinv0) as Hinv1.
    rewrite Hcreate in Hinv1. simpl in Hinv1.
    unfold Market.handle_buyer in Hcreate. msimpl.
    destruct (PyStr.is_empty name); [discriminate|].
    unfold InMemoryDB.add_buyer in Hcreate.
    destruct (_ >? 32); [discriminate|]. simpl in Hcreate.
    injection Hcreate as <- <- <-.
    split; [reflexivity|]. split; [reflexivity|].
    set (st1 := Market.with_db _ st0) in *.
    assert (Hb1 : InMemoryDB.buyers_by_id (Market.db st1)
                    !! InMemoryDB.next_buyer_id (Market.db st0) =
                  Some (Buyer.mk (InMemoryDB.next_buyer_id (Market.db st0))
                          name 0 (hash password) now))
      by apply lookup_insert_eq.
    assert (Hinv2 : MarketStore.inv (Market.db st1) st2).
    { apply MarketStoreSteps.run_inv, MarketStore.inv_start.
      - apply (MarketStore.inv_store _ _ Hinv1).
      - apply (MarketStore.inv_sessions _ _ Hinv1). }
    destruct (MarketStore.g_buyers _ _ (MarketStore.inv_grows _ _ Hinv2) _ _ Hb1)
      as (b' & Hb2 & Hname & Hpw).
    pose proof (MarketStore.a_buyer_id _ (MarketStore.inv_store _ _ Hinv2)
                  _ _ Hb2) as Hid.
    simpl in Hname, Hpw.
    split.
    + unfold Market.handle_buyer. msimpl. unfold InMemoryDB.get_buyer.
      rewrite Hb2, Hpw. unfold PyStr.eqb.
      rewrite bool_decide_eq_true_2 by reflexivity. simpl.
      rewrite Hid, Hname. split; [reflexivity|]. apply lookup_insert_eq.
    + intros other Hne. unfold Market.handle_buyer. msimpl.
      unfold InMemoryDB.get_buyer. rewrite Hb2, Hpw. unfold PyStr.eqb.
      now rewrite bool_decide_eq_false_2 by congruence.
  - intros id nm st1 Hcreate st2.
    pose proof (MarketStoreSteps.handle_seller_inv InMemoryDB.init hash now uuid
                  (Market.SCreateAccount name password) st0 Hinv0) as Hinv1.
    rewrite Hcreate in Hinv1. simpl in Hinv1.
    unfold Market.handle_seller in Hcreate. msimpl.
    destruct (PyStr.is_empty name); [discriminate|].
    unfold InMemoryDB.add_seller in Hcreate.
    destruct (_ >? 32); [discriminate|]. simpl in Hcreate.
    injection Hcreate as <- <- <-.
    split; [reflexivity|]. split; [reflexivity|].
    set (st1 := Market.with_db _ st0) in *.
    assert (Hs1 : InMemoryDB.sellers_by_id (Market.db st1)
                    !! InMemoryDB.next_seller_id (Market.db st0) =
                  Some (Seller.mk (InMemoryDB.next_seller_id (Market.db st0))
                          name (Feedback.mk 0 0) 0 (hash password) now))
      by apply lookup_insert_eq.
    assert (Hinv2 : MarketStore.inv (Market.db st1) st2).
    { apply MarketStoreSteps.run_inv, MarketStore.inv_start.
      - apply (MarketStore.inv_store _ _ Hinv1).
      - apply (MarketStore.inv_sessions _ _ Hinv1). }
    destruct (MarketStore.g_sellers _ _ (MarketStore.inv_grows _ _ Hinv2) _ _ Hs1)
      as (s' & Hs2 & Hname & Hpw).
    pose proof (MarketStore.a_seller_id _ (MarketStore.inv_store _ _ Hinv2)
                  _ _ Hs2) as Hid.
    simpl in Hname, Hpw.
    split.
    + unfold Market.handle_seller. msimpl. unfold InMemoryDB.get_seller.
      rewrite Hs2, Hpw. unfold PyStr.eqb.
      rewrite bool_decide_eq_true_2 by reflexivity. simpl.
      rewrite Hid, Hname. split; [reflexivity|]. apply lookup_insert_eq.
    + intros other Hne. unfold Market.handle_seller. msimpl.
      unfold InMemoryDB.get_seller. rewrite Hs2, Hpw. unfold PyStr.eqb.
      now rewrite bool_decide_eq_false_2 by congruence.
Qed.

Lemma market_account_login_persists_witness :
  fst (Market.handle_buyer (fun pw => pw) 9 "t9"
         (Market.Login (Some 1) "" "pw")
         (Market.run (fun pw => pw)
            [ Market.BuyerReq 2 "" (Market.CreateAccount "bob" "pw") ]
            (Market.step (fun pw => pw)
               (Market.run (fun pw => pw) [] Market.init)
               (Market.BuyerReq 1 "" (Market.CreateAccount "ann" "pw"))))) =
  Ok (Market.R_login 1 "ann" "t9").
Proof.
  refine (proj1 (proj1 (proj2 (proj2
    (proj1 (market_account_login_persists (fun pw => pw) []
              [ Market.BuyerReq 2 "" (Market.CreateAccount "bob" "pw") ]
              1%Q 9%Q "" "t9" "ann" "pw" "")
       1 "ann"
       (Market.step (fun pw => pw)
          (Market.run (fun pw => pw) [] Market.init)
          (Market.BuyerReq 1 "" (Market.CreateAccount "ann" "pw"))) _))))).
  vm_compute. reflexivity.
Defined.

(** ** The gateways *)

Module GatewayCalls.
Import CustomerDB Backends.

Lemma touch_some now tok c s' c' :
  _touch_or_expire now tok c = (Some s', c') ->
  exists s,
    sessions c !! tok = Some s /\ expired now s c = false /\
    s' = touch now s /\
    c' = with_sessions (<[tok := touch now s]> (sessions c)) c.
Proof.
  unfold _touch_or_expire. destruct (sessions c !! tok) as [s|]; [|discriminate].
  destruct (expired now s c) eqn:E; [discriminate|].
  intros [= <- <-]. now exists s.
Qed.

Lemma validate_session_ok now role tok c u c' :
  validate_session now role tok c = (Ok u, c') ->
  exists s,
    sessions c !! tok = Some s /\ expired now s c = false /\
    parse_role role = Some (CustomerDB.role s) /\ u = user_id s /\
    c' = with_sessions (<[tok := touch now s]> (sessions c)) c.
Proof.
  unfold validate_session, touch_m. msimpl.
  destruct (_touch_or_expire now tok c) as [[s'|] c1] eqn:E; simpl;
    [|discriminate].
  destruct (touch_some _ _ _ _ _ E) as (s & Hs & Hlive & -> & ->).
  destruct (bool_decide_reflect
              (parse_role role = Some (CustomerDB.role (touch now s))))
    as [Hr|]; simpl; [|discriminate].
  intros [= <- <-]. exists s. split; [exact Hs|]. now repeat (split; [assumption || reflexivity|]).
Qed.

Lemma require_buyer_ok now tok c s' c' :
  require_buyer now tok c = (Ok s', c') ->
  exists s,
    sessions c !! tok = Some s /\ expired now s c = false /\
    CustomerDB.role s = buyer /\ s' = touch now s /\
    c' = with_sessions (<[tok := touch now s]> (sessions c)) c.
Proof.
  unfold require_buyer, touch_m. msimpl.
  destruct (_touch_or_expire now tok c) as [[s1|] c1] eqn:E; simpl;
    [|discriminate].
  destruct (touch_some _ _ _ _ _ E) as (s & Hs & Hlive & -> & ->).
  destruct (decide (CustomerDB.role (touch now s) = buyer)) as [Hr|]; simpl;
    [|discriminate].
  intros [= <- <-]. exists s. split; [exact Hs|]. now repeat (split; [assumption || reflexivity|]).
Qed.

Lemma cart_get_ok now tok c cart c' :
  cart_get now tok c = (Ok cart, c') ->
  cart = session_cart tok c /\ session_cart tok c' = session_cart tok c /\
  exists s, sessions c !! tok = Some s /\ CustomerDB.role s = buyer.
Proof.
  unfold cart_get. unfold mbind at 1, M_bind at 1.
  destruct (require_buyer now tok c) as [[s'|] c1] eqn:E; [|discriminate].
  destruct (require_buyer_ok _ _ _ _ _ E) as (s & Hs & _ & Hr & _ & ->).
  msimpl. intros [= <- <-]. split; [reflexivity|]. split; [reflexivity|]. eauto.
Qed.

Lemma cart_add_ok now tok k q c cart' c' :
  cart_add now tok k q c = (Ok cart', c') ->
  0 < q /\
  cart' = PyDict.set k (PyDict.get_default k 0 (session_cart tok c) + q)
            (session_cart tok c) /\
  session_cart tok c' = cart'.
Proof.
  unfold cart_add. destruct (Z.leb_spec q 0) as [|Hq]; [discriminate|].
  unfold mbind at 1, M_bind at 1.
  destruct (require_buyer now tok c) as [[s'|] c1] eqn:E; [|discriminate].
  destruct (require_buyer_ok _ _ _ _ _ E) as (s & Hs & _ & Hr & _ & ->).
  unfold mbind at 1, M_bind at 1.
  destruct (CartArithmetic.setdefault_spec tok
              (with_sessions (<[tok := touch now s]> (sessions c)) c))
    as (l & db0 & Hset & Hl & Hderef & _ & _).
  rewrite Hset. msimpl. rewrite Hderef.
  change (session_cart tok (with_sessions _ c)) with (session_cart tok c).
  intros [= <- <-]. split; [exact Hq|]. split; [reflexivity|].
  unfold session_cart. simpl. rewrite Hl. unfold deref. simpl.
  now rewrite lookup_insert_eq.
Qed.

Lemma add_item_to_cart_steps t1 t2 t3 token item_id qty c p :
  BuyerFrontend.add_item_to_cart t1 t2 t3 token item_id qty (mk c p) =
  match validate_session t1 "buyer" token c with
  | (Err e, c1) => (Err e, mk c1 p)
  | (Ok _, c1) =>
      if qty <=? 0 then (Err "quantity must be positive", mk c1 p) else
      match ProductDB.get_item item_id p with
      | Err e => (Err e, mk c1 p)
      | Ok item =>
          match cart_get t2 token c1 with
          | (Err e, c2) => (Err e, mk c2 p)
          | (Ok cart, c2) =>
              if PyDict.get_default (ItemId.key item_id) 0 cart + qty
                 >? Item.quantity item
              then (Err "insufficient inventory", mk c2 p)
              else
                let '(r, c3) :=
                  cart_add t3 token (ItemId.key item_id) qty c2 in
                (r, mk c3 p)
          end
      end
  end.
Proof.
  unfold BuyerFrontend.add_item_to_cart, BuyerFrontend._validate, mbind, M_bind,
    call_customer, read_product, raise. simpl.
  destruct (validate_session t1 "buyer" token c) as [[u|e] c1]; [|reflexivity].
  destruct (qty <=? 0); [reflexivity|]. simpl.
  destruct (ProductDB.get_item item_id p) as [item|e]; [|reflexivity].
  destruct (cart_get t2 token c1) as [[cart|e] c2]; [|reflexivity]. simpl.
  now destruct (_ >? _).
Qed.

End GatewayCalls.

(** X29. Through the buyer gateway a cart takes no more than is on sale.
    [add_item_to_cart] never writes to the product store; when it succeeds,
    the token named a buyer session, the quantity was positive, the item is
    in the product store, and the cart it returns and leaves stored is the
    session's cart with the quantity added under the item's key, a sum that
    does not exceed the units the product store holds of the item. *)
Theorem gateway_cart_within_stock :
  forall (c : CustomerDB.t) (p : ProductDB.t) (t1 t2 t3 : Q) (token : string)
         (item_id : ItemId.t) (qty : Z),
    let out :=
      BuyerFrontend.add_item_to_cart t1 t2 t3 token item_id qty
        (Backends.mk c p) in
    let cart := CustomerDB.session_cart token c in
    let key := ItemId.key item_id in
    Backends.product_db (snd out) = p /\
    forall cart',
      fst out = Ok cart' ->
      exists item s,
        ProductDB.get_item item_id p = Ok item /\
        CustomerDB.sessions c !! token = Some s /\
        CustomerDB.role s = buyer /\
        0 < qty /\
        cart' = PyDict.set key (PyDict.get_default key 0 cart + qty) cart /\
        PyDict.get_default key 0 cart' = PyDict.get_default key 0 cart + qty /\
        PyDict.get_default key 0 cart' <= Item.quantity item /\
        CustomerDB.session_cart token (Backends.customer_db (snd out)) = cart'.
Proof.
  intros c p t1 t2 t3 token item_id qty out cart key.
  unfold out. rewrite GatewayCalls.add_item_to_cart_steps.
  destruct (CustomerDB.validate_session t1 "buyer" token c) as [[u|e] c1] eqn:E1;
    [|split; [reflexivity | intros ? Hno; discriminate Hno]].
  destruct (GatewayCalls.validate_session_ok _ _ _ _ _ _ E1)
    as (s & Hs & _ & Hrole & _ & Hc1).
  destruct (Z.leb_spec qty 0) as [|Hq];
    [split; [reflexivity | intros ? Hno; discriminate Hno]|].
  destruct (ProductDB.get_item item_id p) as [item|e] eqn:Hitem;
    [|split; [reflexivity | intros ? Hno; discriminate Hno]].
  destruct (CustomerDB.cart_get t2 token c1) as [[cart1|e] c2] eqn:E2;
    [|split; [reflexivity | intros ? Hno; discriminate Hno]].
  destruct (GatewayCalls.cart_get_ok _ _ _ _ _ E2) as (-> & Hc2 & s1 & _ & _).
  assert (Hcart1 : CustomerDB.session_cart token c1 = cart) by now subst c1.
  rewrite Hcart1 in *. fold key.
  destruct (Z.gtb_spec (PyDict.get_default key 0 cart + qty) (Item.quantity item))
    as [|Hle]; [split; [reflexivity | intros ? Hno; discriminate Hno]|].
  destruct (CustomerDB.cart_add t3 token key qty c2) as [[cart2|e] c3] eqn:E3;
    simpl; [|split; [reflexivity | intros ? Hno; discriminate Hno]].
  split; [reflexivity|]. intros cart' [= <-].
  destruct (GatewayCalls.cart_add_ok _ _ _ _ _ _ _ E3) as (_ & Hcart2 & Hc3).
  rewrite Hc2 in Hcart2.
  assert (Hbuyer : CustomerDB.role s = buyer).
  { destruct (CustomerDB.role s); [reflexivity|].
    vm_compute in Hrole. discriminate. }
  exists item, s. split; [reflexivity|]. split; [exact Hs|].
  split; [exact Hbuyer|]. split; [exact Hq|]. split; [exact Hcart2|].
  assert (Hget : PyDict.get_default key 0 cart2 =
                 PyDict.get_default key 0 cart + qty).
  { rewrite Hcart2. unfold PyDict.get_default at 1.
    now rewrite PyDict.get_set_eq. }
  split; [exact Hget|]. split; [lia | exact Hc3].
Qed.

Lemma gateway_cart_within_stock_witness :
  exists item s,
    ProductDB.get_item (ItemId.mk 1 2) RankingScenario.product_db = Ok item /\
    CustomerDB.sessions CartScenario.customer_db !! "t1" = Some s /\
    CustomerDB.role s = buyer /\
    0 < 1 /\
    [("1:1", 2); ("1:2", 1)] =
      PyDict.set (ItemId.key (ItemId.mk 1 2))
        (PyDict.get_default (ItemId.key (ItemId.mk 1 2)) 0
           (CustomerDB.session_cart "t1" CartScenario.customer_db) + 1)
        (CustomerDB.session_cart "t1" CartScenario.customer_db) /\
    PyDict.get_default (ItemId.key (ItemId.mk 1 2)) 0 [("1:1", 2); ("1:2", 1)] =
      PyDict.get_default (ItemId.key (ItemId.mk 1 2)) 0
        (CustomerDB.session_cart "t1" CartScenario.customer_db) + 1 /\
    PyDict.get_default (ItemId.key (ItemId.mk 1 2)) 0 [("1:1", 2); ("1:2", 1)]
      <= Item.quantity item /\
    CustomerDB.session_cart "t1"
      (Backends.customer_db
         (snd (BuyerFrontend.add_item_to_cart 4 5 6 "t1" (ItemId.mk 1 2) 1
                 (Backends.mk CartScenario.customer_db
                    RankingScenario.product_db)))) =
      [("1:1", 2); ("1:2", 1)].
Proof.
  refine (proj2
    (gateway_cart_within_stock CartScenario.customer_db
       RankingScenario.product_db 4%Q 5%Q 6%Q "t1" (ItemId.mk 1 2) 1)
    [("1:1", 2); ("1:2", 1)] _).
  vm_compute. reflexivity.
Defined.

(** X30. The seller gateway acts for the seller of the session and for no
    one else. An action that fails never writes to the product store. A
    [register_item_for_sale] that succeeds stores an item whose [seller_id]
    is the user of the token's seller session; [change_item_price] and
    [update_units_for_sale] succeed only on an item whose [seller_id] is
    that user; [display_items_for_sale] lists exactly the stored items of
    that user. *)
Theorem seller_gateway_acts_for_session :
  forall (c : CustomerDB.t) (p : ProductDB.t) (now : Q) (token : string),
    let st := Backends.mk c p in
    let owner u :=
      exists s,
        CustomerDB.sessions c !! token = Some s /\
        CustomerDB.role s = seller /\ CustomerDB.user_id s = u in
    (forall now_p a,
       let out := SellerFrontend.register_item_for_sale now now_p token a st in
       match fst out with
       | Ok iid =>
           exists item,
             ProductDB.get_item iid (Backends.product_db (snd out)) = Ok item /\
             owner (Item.seller_id item)
       | Err _ => Backends.product_db (snd out) = p
       end) /\
    (forall item_id new_price,
       let out := SellerFrontend.change_item_price now token item_id new_price st in
       match fst out with
       | Ok _ =>
           exists item,
             ProductDB.get_item item_id p = Ok item /\
             owner (Item.seller_id item) /\
             ProductDB.get_item item_id (Backends.product_db (snd out)) =
               Ok (Item.with_sale_price new_price item)
       | Err _ => Backends.product_db (snd out) = p
       end) /\
    (forall item_id quantity,
       let out := SellerFrontend.update_units_for_sale now token item_id quantity st in
       match fst out with
       | Ok remaining =>
           exists item,
             ProductDB.get_item item_id p = Ok item /\
             owner (Item.seller_id item) /\
             remaining = Item.quantity item - quantity /\ 0 <= remaining /\
             ProductDB.get_item item_id (Backends.product_db (snd out)) =
               Ok (Item.with_quantity remaining item)
       | Err _ => Backends.product_db (snd out) = p
       end) /\
    (let out := SellerFrontend.display_items_for_sale now token st in
     Backends.product_db (snd out) = p /\
     forall items,
       fst out = Ok items ->
       exists u, owner u /\ items = ProductDB.list_items_for_seller u p).
Proof.
  intros c p now token st owner.
  assert (Hval : forall u c1,
            CustomerDB.validate_session now "seller" token c = (Ok u, c1) ->
            owner u).
  { intros u c1 E. destruct (GatewayCalls.validate_session_ok _ _ _ _ _ _ E)
      as (s & Hs & _ & Hrole & -> & _).
    exists s. split; [exact Hs|]. split; [|reflexivity].
    destruct (CustomerDB.role s); [|reflexivity].
    vm_compute in Hrole. discriminate. }
  split; [|split; [|split]].
  - intros now_p a.
    unfold st, SellerFrontend.register_item_for_sale, SellerFrontend._validate,
      mbind, M_bind, Backends.call_customer, Backends.call_product. simpl.
    destruct (CustomerDB.validate_session now "seller" token c)
      as [[u|e] c1] eqn:E; [|reflexivity]. simpl.
    destruct (ProductDB.register_item now_p u a p) as [[iid p']|e] eqn:Hreg;
      [|reflexivity]. simpl.
    unfold ProductDB.register_item in Hreg.
    destruct (ProductDB._validate_item_fields a)
      as [[[[[[name category] cond] price] qty] kws]|]; [|discriminate].
    simpl in Hreg. injection Hreg as <- <-.
    unfold ProductDB.get_item. simpl. rewrite PyDict.get_set_eq.
    eexists. split; [reflexivity|]. simpl. eauto.
  - intros item_id new_price.
    unfold st, SellerFrontend.change_item_price, SellerFrontend._validate,
      mbind, M_bind, Backends.call_customer, Backends.call_product. simpl.
    destruct (CustomerDB.validate_session now "seller" token c)
      as [[u|e] c1] eqn:E; [|reflexivity]. simpl.
    unfold ProductDB.change_item_price, ProductDB.get_item.
    destruct (PyFloat.ltb new_price PyFloat.zero); [reflexivity|].
    destruct (PyDict.get (ItemId.key item_id) (ProductDB.items p))
      as [item|]; [|reflexivity].
    destruct (Z.eqb_spec (Item.seller_id item) u) as [Hown|]; [|reflexivity].
    simpl. exists item. split; [reflexivity|].
    split; [rewrite Hown; eauto|]. now rewrite PyDict.get_set_eq.
  - intros item_id quantity.
    unfold st, SellerFrontend.update_units_for_sale, SellerFrontend._validate,
      mbind, M_bind, Backends.call_customer, Backends.call_product. simpl.
    destruct (CustomerDB.validate_session now "seller" token c)
      as [[u|e] c1] eqn:E; [|reflexivity]. simpl.
    unfold ProductDB.update_units_remove, ProductDB.get_item.
    destruct (quantity <=? 0); [reflexivity|].
    destruct (PyDict.get (ItemId.key item_id) (ProductDB.items p))
      as [item|]; [|reflexivity].
    destruct (Z.eqb_spec (Item.seller_id item) u) as [Hown|]; [|reflexivity].
    simpl. destruct (Z.gtb_spec quantity (Item.quantity item)); [reflexivity|].
    simpl. exists item. split; [reflexivity|]. split; [rewrite Hown; eauto|].
    split; [reflexivity|]. split; [lia|]. now rewrite PyDict.get_set_eq.
  - unfold st, SellerFrontend.display_items_for_sale, SellerFrontend._validate,
      mbind, M_bind, Backends.call_customer, Backends.read_product. simpl.
    destruct (CustomerDB.validate_session now "seller" token c)
      as [[u|e] c1] eqn:E; simpl; (split; [reflexivity|]); [|discriminate].
    intros items [= <-]. eauto.
Qed.
